(** * UTS handbook chatbot: chunking, indexing and retrieval pipeline

    A shallow embedding of the ingestion and query code of the repository
    ([src/rag/ingest_courses.py], [src/rag/save_kb_files.py],
    [src/rag/upsert_to_qdrant_from_files.py], [src/rag/query_hybrid_rag.py],
    [src/rag/filtered_retrieval.py], [src/rag/query_with_preprocessing.py],
    [src/api_server.py]) together with the properties of the specification
    that were checked against it.

    Modelling conventions.
    - A Python [str] is a Rocq [string].  The model is exact on ASCII text;
      the Unicode-aware behaviour of [len], [strip], [upper], [isdigit] and of
      the regular-expression classes on characters above 127 is outside it.
    - A Python exception is a value of [exn]; code that can raise returns a
      [result].
    - JSON data is a [value]; dictionaries are association lists in insertion
      order.  JSON floats do not occur in the course records and are left out.
    - External services (the clock, the embedding model, Qdrant, Ollama) are
      parameters of the functions that call them.
    - Where the code reads JSON that it did not write itself (the reply of
      the generation service, the history of a chat request, the lines of a
      payload file), the values it finds there are arbitrary: [NonString],
      [ChatEndpoint] and [PayloadLines]. *)

From Stdlib Require Import String Ascii List Bool Arith PeanoNat ZArith QArith Lia.
From Stdlib Require Import DecimalString DecimalNat DecimalZ.
From Stdlib Require Import Permutation Sorted.
Import ListNotations.

Close Scope Q_scope.
Local Open Scope list_scope.
Local Open Scope string_scope.

(* ====================================================================== *)
(** * Python exceptions and the error monad *)
(* ====================================================================== *)

Inductive exn : Type :=
| AttributeError (msg : string)
| TypeError (msg : string)
| KeyError (msg : string)
| ValueError (msg : string)
| RequestError (msg : string)   (* requests.exceptions.*: connection, timeout, HTTP status *)
| ServiceError (msg : string).  (* failures of the embedding model and of the Qdrant client *)

(** [str(e)] *)
Definition exn_str (e : exn) : string :=
  match e with
  | AttributeError m | TypeError m | KeyError m | ValueError m
  | RequestError m | ServiceError m => m
  end.

Inductive result (A : Type) : Type :=
| Ok (a : A)
| Raise (e : exn).

Arguments Ok {A} a.
Arguments Raise {A} e.

Definition bind {A B : Type} (m : result A) (k : A -> result B) : result B :=
  match m with
  | Ok a => k a
  | Raise e => Raise e
  end.

Declare Scope result_scope.
Delimit Scope result_scope with result.
Notation "x <- m ;; k" := (bind m (fun x => k))
  (at level 61, m at next level, right associativity) : result_scope.
Local Open Scope result_scope.

Definition result_map {A B : Type} (f : A -> B) (m : result A) : result B :=
  match m with
  | Ok a => Ok (f a)
  | Raise e => Raise e
  end.

(** [[f(x) for x in l]] where [f] may raise: the first exception wins. *)
Fixpoint mapM {A B : Type} (f : A -> result B) (l : list A) : result (list B) :=
  match l with
  | [] => Ok []
  | x :: l' => y <- f x ;; ys <- mapM f l' ;; Ok (y :: ys)
  end.

(* ====================================================================== *)
(** * Python strings *)
(* ====================================================================== *)

Module PyStr.

(** [c.isspace()]: also what [\s] matches.  On ASCII these are tab, line
    feed, vertical tab, form feed, carriage return, the four separators
    0x1c to 0x1f, and the space. *)
Definition is_space (c : ascii) : bool :=
  let n := nat_of_ascii c in
  (((9 <=? n) && (n <=? 13)) || ((28 <=? n) && (n <=? 32)))%nat.

(** [c.isdigit()], and [\d]. *)
Definition is_digit (c : ascii) : bool :=
  let n := nat_of_ascii c in ((48 <=? n) && (n <=? 57))%nat.

Definition is_upper (c : ascii) : bool :=
  let n := nat_of_ascii c in ((65 <=? n) && (n <=? 90))%nat.

Definition is_lower (c : ascii) : bool :=
  let n := nat_of_ascii c in ((97 <=? n) && (n <=? 122))%nat.

(** [\w]: letters, digits and the underscore. *)
Definition is_word (c : ascii) : bool :=
  is_upper c || is_lower c || is_digit c || (c =? "_")%char.

Definition upper_char (c : ascii) : ascii :=
  if is_lower c then ascii_of_nat (nat_of_ascii c - 32) else c.

Definition lower_char (c : ascii) : ascii :=
  if is_upper c then ascii_of_nat (nat_of_ascii c + 32) else c.

Fixpoint smap (f : ascii -> ascii) (s : string) : string :=
  match s with
  | EmptyString => EmptyString
  | String c s' => String (f c) (smap f s')
  end.

(** [s.upper()], [s.lower()] *)
Definition upper : string -> string := smap upper_char.
Definition lower : string -> string := smap lower_char.

Definition is_empty (s : string) : bool :=
  match s with EmptyString => true | _ => false end.

(** [s.lstrip()] *)
Fixpoint lstrip (s : string) : string :=
  match s with
  | EmptyString => EmptyString
  | String c s' => if is_space c then lstrip s' else s
  end.

(** [s.rstrip()] *)
Fixpoint rstrip (s : string) : string :=
  match s with
  | EmptyString => EmptyString
  | String c s' =>
      let r := rstrip s' in
      if is_space c && is_empty r then EmptyString else String c r
  end.

(** [s.strip()] *)
Definition strip (s : string) : string := rstrip (lstrip s).

(** [sep.join(l)] *)
Fixpoint join (sep : string) (l : list string) : string :=
  match l with
  | [] => ""
  | [x] => x
  | x :: l' => x ++ sep ++ join sep l'
  end.

(** [sum(p(ch) for ch in s)] *)
Fixpoint count (p : ascii -> bool) (s : string) : nat :=
  match s with
  | EmptyString => 0
  | String c s' => (if p c then 1 else 0) + count p s'
  end.

Fixpoint forallb (p : ascii -> bool) (s : string) : bool :=
  match s with
  | EmptyString => true
  | String c s' => p c && forallb p s'
  end.

(** [s.split(sep)] for a one-character separator: never returns the empty
    list, and keeps empty pieces. *)
Fixpoint split_on (sep : ascii) (s : string) : list string :=
  match s with
  | EmptyString => [EmptyString]
  | String c s' =>
      if (c =? sep)%char then EmptyString :: split_on sep s'
      else match split_on sep s' with
           | [] => [String c EmptyString]
           | p :: ps => String c p :: ps
           end
  end.

(** [s.replace(a, b)] for one-character [a] and [b]. *)
Definition replace_char (a b : ascii) : string -> string :=
  smap (fun c => if (c =? a)%char then b else c).

(** [str(n)] for a non-negative [int] *)
Definition str_nat (n : nat) : string := NilEmpty.string_of_uint (Nat.to_uint n).

(** [str(z)] for an [int] *)
Definition str_Z (z : Z) : string := NilEmpty.string_of_int (Z.to_int z).

(** [s.rfind(c)]: the index of the last occurrence, if any. *)
Fixpoint rfind (c : ascii) (s : string) : option nat :=
  match s with
  | EmptyString => None
  | String a s' =>
      match rfind c s' with
      | Some i => Some (S i)
      | None => if (a =? c)%char then Some 0 else None
      end
  end.

(** [PurePosixPath(p).name]: the last component that is neither empty nor
    a single dot. *)
Definition path_name (p : string) : string :=
  last (filter (fun x => negb (is_empty x) && negb (x =? ".")) (split_on "/" p)) "".

(** [PurePath.stem] of CPython 3.8 to 3.13:
    [i = name.rfind('.'); name[:i] if 0 < i < len(name) - 1 else name]. *)
Definition stem_of_name (name : string) : string :=
  match rfind "." name with
  | Some i => if ((0 <? i) && (S i <? String.length name))%nat then substring 0 i name else name
  | None => name
  end.

(** [Path(p).stem] *)
Definition path_stem (p : string) : string := stem_of_name (path_name p).

End PyStr.

(* ====================================================================== *)
(** * Regular expressions ([re]) *)
(* ====================================================================== *)

(** The patterns of the repository use literals, character classes,
    alternation and repetition only.  They are embedded as regular
    expressions over character predicates and matched by derivatives;
    [Lang] is the language they denote.  A search that Python anchors with
    [^] and [$] succeeds exactly when the whole text belongs to the language
    of the pattern followed by an optional final line feed. *)
Module Re.
Import PyStr.

Inductive re : Type :=
| Nul
| Eps
| Chr (p : ascii -> bool)
| Cat (r1 r2 : re)
| Alt (r1 r2 : re)
| Star (r : re).

Inductive Lang : re -> string -> Prop :=
| LEps : Lang Eps ""
| LChr p a : p a = true -> Lang (Chr p) (String a "")
| LCat r1 r2 s1 s2 : Lang r1 s1 -> Lang r2 s2 -> Lang (Cat r1 r2) (s1 ++ s2)
| LAltL r1 r2 s : Lang r1 s -> Lang (Alt r1 r2) s
| LAltR r1 r2 s : Lang r2 s -> Lang (Alt r1 r2) s
| LStar0 r : Lang (Star r) ""
| LStarS r s1 s2 : Lang r s1 -> Lang (Star r) s2 -> Lang (Star r) (s1 ++ s2).

Fixpoint nullable (r : re) : bool :=
  match r with
  | Nul => false
  | Eps => true
  | Chr _ => false
  | Cat r1 r2 => nullable r1 && nullable r2
  | Alt r1 r2 => nullable r1 || nullable r2
  | Star _ => true
  end.

Definition mkCat (r1 r2 : re) : re :=
  match r1 with
  | Nul => Nul
  | _ => Cat r1 r2
  end.

Definition mkAlt (r1 r2 : re) : re :=
  match r1, r2 with
  | Nul, _ => r2
  | _, Nul => r1
  | _, _ => Alt r1 r2
  end.

Fixpoint deriv (a : ascii) (r : re) : re :=
  match r with
  | Nul => Nul
  | Eps => Nul
  | Chr p => if p a then Eps else Nul
  | Cat r1 r2 =>
      if nullable r1 then mkAlt (mkCat (deriv a r1) r2) (deriv a r2)
      else mkCat (deriv a r1) r2
  | Alt r1 r2 => mkAlt (deriv a r1) (deriv a r2)
  | Star r1 => mkCat (deriv a r1) (Star r1)
  end.

Fixpoint matches (r : re) (s : string) : bool :=
  match s with
  | EmptyString => nullable r
  | String a s' => matches (deriv a r) s'
  end.

(** Pattern syntax. *)
Definition Plus (r : re) : re := Cat r (Star r).
Definition Opt (r : re) : re := Alt Eps r.

Fixpoint seq (rs : list re) : re :=
  match rs with
  | [] => Eps
  | r :: rs' => Cat r (seq rs')
  end.

(** A literal under [re.IGNORECASE]. *)
Fixpoint lit_ci (s : string) : re :=
  match s with
  | EmptyString => Eps
  | String c s' => Cat (Chr (fun a => (lower_char a =? lower_char c)%char)) (lit_ci s')
  end.

Definition line_feed : ascii := "010"%char.

(** [re.compile('^' + r + '$').search(t) is not None]: [$] matches at the
    end of the text and before a line feed that ends it. *)
Definition search_anchored (r : re) (t : string) : bool :=
  matches (Cat r (Opt (Chr (fun a => (a =? line_feed)%char)))) t.

End Re.

(* ====================================================================== *)
(** * JSON values as Python sees them *)
(* ====================================================================== *)

Module Json.
Import PyStr.

#[warnings="-register-all"]
Inductive value : Type :=
| VNone
| VBool (b : bool)
| VInt (z : Z)
| VStr (s : string)
| VList (l : list value)
| VDict (d : list (string * value)).

Definition dict : Type := list (string * value).

(** [bool(v)] *)
Definition truthy (v : value) : bool :=
  match v with
  | VNone => false
  | VBool b => b
  | VInt z => negb (z =? 0)%Z
  | VStr s => negb (is_empty s)
  | VList l => match l with [] => false | _ => true end
  | VDict d => match d with [] => false | _ => true end
  end.

(** [d.get(k)], [None] of Rocq standing for an absent key. *)
Fixpoint lookup (d : dict) (k : string) : option value :=
  match d with
  | [] => None
  | (k', v) :: d' => if (k' =? k)%string then Some v else lookup d' k
  end.

(** [d.get(k, default)] *)
Definition get (d : dict) (k : string) (default : value) : value :=
  match lookup d k with
  | Some v => v
  | None => default
  end.

(** [d[k] = v]: an existing key keeps its place. *)
Fixpoint set (d : dict) (k : string) (v : value) : dict :=
  match d with
  | [] => [(k, v)]
  | (k', v') :: d' => if (k' =? k)%string then (k, v) :: d' else (k', v') :: set d' k v
  end.

(** [v.get(k, default)] on an arbitrary value: only a dict has [get]. *)
Definition attr_get (v : value) (k : string) (default : value) : result value :=
  match v with
  | VDict d => Ok (get d k default)
  | _ => Raise (AttributeError "object has no attribute 'get'")
  end.

(** [v.strip()] on an arbitrary value: only a str has [strip]. *)
Definition attr_strip (v : value) : result string :=
  match v with
  | VStr s => Ok (strip s)
  | _ => Raise (AttributeError "object has no attribute 'strip'")
  end.

(** [v == s] for a string literal [s] *)
Definition eq_str (v : value) (s : string) : bool :=
  match v with
  | VStr s' => (s' =? s)%string
  | _ => false
  end.

(** [type(v).__name__] *)
Definition type_name (v : value) : string :=
  match v with
  | VNone => "NoneType"
  | VBool _ => "bool"
  | VInt _ => "int"
  | VStr _ => "str"
  | VList _ => "list"
  | VDict _ => "dict"
  end.

Definition hex_digit (n : nat) : ascii :=
  if (n <? 10)%nat then ascii_of_nat (48 + n) else ascii_of_nat (87 + n).

Definition hex2 (n : nat) : string :=
  String (hex_digit (n / 16)) (String (hex_digit (n mod 16)) "").

Fixpoint sconcat (f : ascii -> string) (s : string) : string :=
  match s with
  | EmptyString => ""
  | String c s' => f c ++ sconcat f s'
  end.

Definition contains (c : ascii) (s : string) : bool :=
  negb (forallb (fun a => negb (a =? c)%char) s).

Definition backslash : ascii := "\"%char.
Definition squote : ascii := "'"%char.
Definition dquote : ascii := "034"%char.

(** [repr(s)] of an ASCII string. *)
Definition repr_str (s : string) : string :=
  let q := if contains squote s && negb (contains dquote s) then dquote else squote in
  let esc (c : ascii) : string :=
    let n := nat_of_ascii c in
    if (c =? backslash)%char then String backslash (String backslash "")
    else if (c =? q)%char then String backslash (String q "")
    else if (n =? 10)%nat then String backslash "n"
    else if (n =? 13)%nat then String backslash "r"
    else if (n =? 9)%nat then String backslash "t"
    else if (n <? 32)%nat || (n =? 127)%nat then String backslash ("x" ++ hex2 n)
    else String c "" in
  String q (sconcat esc s) ++ String q "".

(** [repr(v)] *)
Fixpoint py_repr (v : value) : string :=
  match v with
  | VNone => "None"
  | VBool true => "True"
  | VBool false => "False"
  | VInt z => str_Z z
  | VStr s => repr_str s
  | VList l => "[" ++ join ", " (map py_repr l) ++ "]"
  | VDict d =>
      "{" ++ join ", " (map (fun kv => match kv with
                                       | (k, v') => repr_str k ++ ": " ++ py_repr v'
                                       end) d) ++ "}"
  end.

(** [str(v)], which is also what an f-string field [{v}] produces. *)
Definition py_str (v : value) : string :=
  match v with
  | VStr s => s
  | _ => py_repr v
  end.

(** The string escaping of [json.dumps(..., ensure_ascii=False)]. *)
Definition json_str (s : string) : string :=
  let esc (c : ascii) : string :=
    let n := nat_of_ascii c in
    if (c =? dquote)%char then String backslash (String dquote "")
    else if (c =? backslash)%char then String backslash (String backslash "")
    else if (n =? 10)%nat then String backslash "n"
    else if (n =? 13)%nat then String backslash "r"
    else if (n =? 9)%nat then String backslash "t"
    else if (n =? 8)%nat then String backslash "b"
    else if (n =? 12)%nat then String backslash "f"
    else if (n <? 32)%nat then String backslash ("u00" ++ hex2 n)
    else String c "" in
  String dquote (sconcat esc s) ++ String dquote "".

(** [json.dumps(v, ensure_ascii=False)] *)
Fixpoint json_dumps (v : value) : string :=
  match v with
  | VNone => "null"
  | VBool true => "true"
  | VBool false => "false"
  | VInt z => str_Z z
  | VStr s => json_str s
  | VList l => "[" ++ join ", " (map json_dumps l) ++ "]"
  | VDict d =>
      "{" ++ join ", " (map (fun kv => match kv with
                                       | (k, v') => json_str k ++ ": " ++ json_dumps v'
                                       end) d) ++ "}"
  end.

End Json.

(* ====================================================================== *)
(** * [uuid.uuid5]: SHA-1 over the namespace and the name *)
(* ====================================================================== *)

Module Uuid.
Import PyStr.

Local Open Scope Z_scope.

Definition w32 (x : Z) : Z := x mod 2 ^ 32.

Definition rotl (n x : Z) : Z :=
  w32 (Z.lor (Z.shiftl x n) (Z.shiftr x (32 - n))).

Definition not32 (x : Z) : Z := Z.lxor x 4294967295.

(** The message followed by the bit 1, zeros up to 56 modulo 64 bytes, and
    the bit length of the message on 8 bytes, most significant first. *)
Definition be_bytes (n : nat) (x : Z) : list Z :=
  map (fun i => Z.shiftr x (8 * Z.of_nat i) mod 256) (rev (List.seq 0 n)).

Definition pad (msg : list Z) : list Z :=
  let len := Z.of_nat (List.length msg) in
  let zeros := Z.to_nat ((55 - len) mod 64) in
  msg ++ [128] ++ repeat 0 zeros ++ be_bytes 8 (8 * len).

Fixpoint be_words (bs : list Z) : list Z :=
  match bs with
  | b0 :: b1 :: b2 :: b3 :: bs' =>
      (Z.shiftl b0 24 + Z.shiftl b1 16 + Z.shiftl b2 8 + b3) :: be_words bs'
  | _ => []
  end.

(** The message schedule, most recent word first. *)
Fixpoint schedule (n : nat) (rev_w : list Z) : list Z :=
  match n with
  | O => rev_w
  | S n' =>
      let w := rotl 1 (Z.lxor (Z.lxor (nth 2 rev_w 0) (nth 7 rev_w 0))
                              (Z.lxor (nth 13 rev_w 0) (nth 15 rev_w 0))) in
      schedule n' (w :: rev_w)
  end.

Definition state : Type := (Z * Z * Z * Z * Z)%type.

Definition round (t : nat) (st : state) (w : Z) : state :=
  let '(a, b, c, d, e) := st in
  let '(f, k) :=
    if (t <? 20)%nat then (Z.lor (Z.land b c) (Z.land (not32 b) d), 1518500249)
    else if (t <? 40)%nat then (Z.lxor (Z.lxor b c) d, 1859775393)
    else if (t <? 60)%nat then
      (Z.lor (Z.lor (Z.land b c) (Z.land b d)) (Z.land c d), 2400959708)
    else (Z.lxor (Z.lxor b c) d, 3395469782) in
  (w32 (rotl 5 a + f + e + k + w), a, rotl 30 b, c, d).

Fixpoint rounds (t : nat) (ws : list Z) (st : state) : state :=
  match ws with
  | [] => st
  | w :: ws' => rounds (S t) ws' (round t st w)
  end.

Definition compress (h : state) (block : list Z) : state :=
  let ws := rev (schedule 64 (rev (be_words block))) in
  let '(a, b, c, d, e) := rounds 0 ws h in
  let '(h0, h1, h2, h3, h4) := h in
  (w32 (h0 + a), w32 (h1 + b), w32 (h2 + c), w32 (h3 + d), w32 (h4 + e)).

Fixpoint blocks (fuel : nat) (bs : list Z) (h : state) : state :=
  match fuel, bs with
  | S fuel', _ :: _ => blocks fuel' (skipn 64 bs) (compress h (firstn 64 bs))
  | _, _ => h
  end.

(** [hashlib.sha1(msg).digest()] *)
Definition sha1 (msg : list Z) : list Z :=
  let p := pad msg in
  let '(h0, h1, h2, h3, h4) :=
    blocks (List.length p) p (1732584193, 4023233417, 2562383102, 271733878, 3285377520) in
  be_bytes 4 h0 ++ be_bytes 4 h1 ++ be_bytes 4 h2 ++ be_bytes 4 h3 ++ be_bytes 4 h4.

Fixpoint bytes_of_string (s : string) : list Z :=
  match s with
  | EmptyString => []
  | String c s' => Z.of_nat (nat_of_ascii c) :: bytes_of_string s'
  end.

(** [uuid.NAMESPACE_URL.bytes]: 6ba7b811-9dad-11d1-80b4-00c04fd430c8 *)
Definition NAMESPACE_URL : list Z :=
  [107; 167; 184; 17; 157; 173; 17; 209; 128; 180; 0; 192; 79; 212; 48; 200].

(** The first 16 bytes of the digest with the version and variant bits set. *)
Definition uuid5_bytes (namespace : list Z) (name : string) : list Z :=
  let h := firstn 16 (sha1 (namespace ++ bytes_of_string name)) in
  let fix stamp (i : nat) (bs : list Z) : list Z :=
    match bs with
    | [] => []
    | b :: bs' =>
        (if (i =? 6)%nat then Z.lor (Z.land b 15) 80
         else if (i =? 8)%nat then Z.lor (Z.land b 63) 128
         else b) :: stamp (S i) bs'
    end in
  stamp 0%nat h.

Definition hex_of_bytes (bs : list Z) : string :=
  fold_right (fun b acc => (Json.hex2 (Z.to_nat b) ++ acc)%string) ""%string bs.

(** [str(uuid.UUID(bytes=...))]: groups of 4, 2, 2, 2 and 6 bytes. *)
Definition uuid_str (bs : list Z) : string :=
  (hex_of_bytes (firstn 4 bs) ++ "-" ++
   hex_of_bytes (firstn 2 (skipn 4 bs)) ++ "-" ++
   hex_of_bytes (firstn 2 (skipn 6 bs)) ++ "-" ++
   hex_of_bytes (firstn 2 (skipn 8 bs)) ++ "-" ++
   hex_of_bytes (skipn 10 bs))%string.

(** [str(uuid.uuid5(uuid.NAMESPACE_URL, name))] *)
Definition uuid5_url (name : string) : string :=
  uuid_str (uuid5_bytes NAMESPACE_URL name).

End Uuid.

(* ====================================================================== *)
(** * [src/rag/ingest_courses.py]: course records into chunks *)
(* ====================================================================== *)

Module Ingest.
Import PyStr Json.

Definition nl : string := String Re.line_feed "".

(** ** Course-code patterns *)

(** [[C]] under [re.IGNORECASE], and [[cC]] *)
Definition is_cC (a : ascii) : bool := (a =? "c")%char || (a =? "C")%char.

Definition is_C (a : ascii) : bool := (a =? "C")%char.

(** [re.match(r'^[C]\d{5}$', s, re.IGNORECASE)] *)
Definition COURSE_CODE : Re.re :=
  Re.seq [Re.Chr is_cC; Re.Chr is_digit; Re.Chr is_digit; Re.Chr is_digit;
          Re.Chr is_digit; Re.Chr is_digit].

Definition is_course_code (s : string) : bool := Re.search_anchored COURSE_CODE s.

(** Patterns of fixed length: one character class per position. *)
Fixpoint match_classes (cs : list (ascii -> bool)) (s : string) : option string :=
  match cs with
  | [] => Some ""
  | p :: cs' =>
      match s with
      | EmptyString => None
      | String a s' =>
          if p a then option_map (String a) (match_classes cs' s') else None
      end
  end.

(** [re.search(pattern, s).group(0)]: the leftmost match. *)
Fixpoint search_classes (cs : list (ascii -> bool)) (s : string) : option string :=
  match match_classes cs s with
  | Some m => Some m
  | None =>
      match s with
      | EmptyString => None
      | String _ s' => search_classes cs s'
      end
  end.

Definition lit (s : string) : list (ascii -> bool) :=
  map (fun c a => (a =? c)%char) (list_ascii_of_string s).

Definition code_tail : list (ascii -> bool) :=
  [is_digit; is_digit; is_digit; is_digit; is_digit].

(** [r'([C]\d{5})'] *)
Definition FILENAME_PATTERN : list (ascii -> bool) := is_C :: code_tail.

(** [r'/courses/([cC]\d{5})'] *)
Definition URL_PATTERN : list (ascii -> bool) := lit "/courses/" ++ is_cC :: code_tail.

Definition extract_course_code_from_filename (filename : string) : option string :=
  search_classes FILENAME_PATTERN filename.

(** The argument is whatever the record holds under [source_url]: a falsy
    value gives [None]; [re.search] refuses a truthy value that is no str. *)
Definition extract_course_code_from_url (url : value) : result (option string) :=
  if negb (truthy url) then Ok None
  else match url with
       | VStr u =>
           Ok (match search_classes URL_PATTERN u with
               | Some m => Some (upper (substring 9 6 m))
               | None => None
               end)
       | _ => Raise (TypeError "expected string or bytes-like object")
       end.

Definition get_course_code (course_data : dict) (filename : string) : result string :=
  (* Try JSON first *)
  code <- attr_strip (get course_data "course_code" (VStr "")) ;;
  if negb (is_empty code) && is_course_code code then Ok (upper code)
  else
    (* Try source URL *)
    let metadata := get course_data "metadata" (VDict []) in
    source_url <- attr_get metadata "source_url" (VStr "") ;;
    code <- extract_course_code_from_url source_url ;;
    match code with
    | Some c => Ok c
    | None =>
        (* Try filename *)
        code <- extract_course_code_from_url (VStr filename) ;;
        match code with
        | Some c => Ok c
        | None =>
            (* Fallback: use what's in JSON (even if wrong format) *)
            raw <- attr_strip (get course_data "course_code" (VStr "UNKNOWN")) ;;
            Ok (upper raw)
        end
    end.

(** ** Chunk identity *)

Definition make_chunk_key (course_code chunk_type : string) (chunk_index : nat)
    (unique_id : string) : string :=
  "course|" ++ course_code ++ "|type:" ++ chunk_type ++ "|chunk:" ++ str_nat chunk_index
  ++ "|unique:" ++ unique_id.

Definition make_chunk_uuid (course_code chunk_type : string) (chunk_index : nat)
    (unique_id : string) : string :=
  Uuid.uuid5_url (make_chunk_key course_code chunk_type chunk_index unique_id).

(** ** Field formatting *)

(** A comprehension with a filter, whose body may raise. *)
Fixpoint filter_mapM {A B : Type} (f : A -> result (option B)) (l : list A)
    : result (list B) :=
  match l with
  | [] => Ok []
  | x :: l' =>
      y <- f x ;;
      ys <- filter_mapM f l' ;;
      Ok (match y with Some b => b :: ys | None => ys end)
  end.

(** [f"{item.get('number', '')}. {item.get('text', '')}"] for the items with
    a truthy [item.get('text')]. *)
Definition numbered_line (item : value) : result (option string) :=
  t <- attr_get item "text" VNone ;;
  if truthy t then
    number <- attr_get item "number" (VStr "") ;;
    Ok (Some (py_str number ++ ". " ++ py_str t))
  else Ok None.

Definition format_field_value (v : value) : result string :=
  match v with
  | VNone => Ok ""
  | VList [] => Ok ""
  | VList ((VDict _ :: _) as items) =>
      (* Handle learning outcomes *)
      lines <- filter_mapM numbered_line items ;;
      Ok (join nl lines)
  | VList items => Ok (join ", " (map py_str (filter truthy items)))
  | VDict _ => Ok (json_dumps v)
  | _ => Ok (py_str v)
  end.

(** ** Chunks *)

Record chunk : Type := mkChunk {
  chunk_id : string;
  chunk_text : string;
  meta_course_code : string;
  meta_course_name : string;
  meta_chunk_type : string;
  meta_chunk_label : string;
  meta_source_url : value;
  meta_ingested_at : string
}.

Definition chunkable_fields : list (string * string) :=
  [ ("overview", "Overview");
    ("admission_requirements", "Admission Requirements");
    ("career_options", "Career Options");
    ("course_structure", "Course Structure");
    ("professional_recognition", "Professional Recognition");
    ("inherent_requirements", "Inherent Requirements");
    ("structure_notes", "Structure Notes");
    ("notes", "Notes") ].

(** The first guard of the loop: [not value or value == "None" or
    (isinstance(value, str) and value.strip() == "")]. *)
Definition skipped_value (v : value) : bool :=
  negb (truthy v) || eq_str v "None"
  || match v with VStr s => is_empty (strip s) | _ => false end.

(** The text of the chunk a field gives, [None] when the field is skipped. *)
Definition field_text (v : value) : result (option string) :=
  if skipped_value v then Ok None
  else
    text <- format_field_value v ;;
    if is_empty text || (String.length (strip text) <? 50)%nat then Ok None
    else Ok (Some text).

(** The course name taken from the file name when the record has none. *)
Definition fix_course_name (course_name filename : string) : string :=
  if is_empty course_name || (course_name =? "TEQSA Category: Australian University")
  then
    let filename_parts := split_on "_" (path_stem filename) in
    let name_parts :=
      filter (fun p => negb ((p =? "None") || (p =? "")) && negb (is_course_code p))
             filename_parts in
    match name_parts with
    | [] => course_name
    | _ => replace_char "_" " " (join " " name_parts)
    end
  else course_name.

(** [", ".join(v)]: the items of a list must be str; a str is joined
    character by character and a dict by its keys. *)
Definition join_iterable (sep : string) (v : value) : result string :=
  match v with
  | VList l =>
      strs <- mapM (fun x => match x with
                             | VStr s => Ok s
                             | _ => Raise (TypeError "sequence item: expected str instance")
                             end) l ;;
      Ok (join sep strs)
  | VStr s => Ok (join sep (map (fun c => String c "") (list_ascii_of_string s)))
  | VDict d => Ok (join sep (map fst d))
  | _ => Raise (TypeError "can only join an iterable")
  end.

Section Chunker.

Variable course_data : dict.
Variables course_code course_name : string.
Variable source_url : value.
Variables ingested_at unique_id : string.

(** The loop state: [chunks] and [chunk_index]. *)
Definition loop_state : Type := (list chunk * nat)%type.

Definition emit (st : loop_state) (chunk_type label text : string) : loop_state :=
  let (chunks, chunk_index) := st in
  ((chunks ++ [ {| chunk_id := make_chunk_uuid course_code chunk_type chunk_index unique_id;
                  chunk_text := text;
                  meta_course_code := course_code;
                  meta_course_name := course_name;
                  meta_chunk_type := chunk_type;
                  meta_chunk_label := label;
                  meta_source_url := source_url;
                  meta_ingested_at := ingested_at |} ])%list,
   S chunk_index).

(** Create chunks for each field *)
Fixpoint chunk_fields (fields : list (string * string)) (st : loop_state)
    : result loop_state :=
  match fields with
  | [] => Ok st
  | (field, label) :: rest =>
      t <- field_text (get course_data field VNone) ;;
      match t with
      | None => chunk_fields rest st
      | Some text => chunk_fields rest (emit st field label (label ++ ":" ++ nl ++ text))
      end
  end.

(** Handle learning outcomes separately *)
Definition chunk_learning_outcomes (st : loop_state) : result loop_state :=
  match get course_data "learning_outcomes" (VList []) with
  | VList ((_ :: _) as items) =>
      lines <- filter_mapM numbered_line items ;;
      let outcomes_text := join nl lines in
      if is_empty outcomes_text then Ok st
      else Ok (emit st "learning_outcomes" "Learning Outcomes"
                    ("Learning Outcomes:" ++ nl ++ outcomes_text))
  | _ => Ok st
  end.

Definition part_if (cond : bool) (s : string) : list string :=
  if cond then [s] else [].

(** A part built from a joined list, present when the value is truthy and
    the joined text is not empty. *)
Definition joined_part (label : string) (v : value) : result (list string) :=
  if truthy v then
    s <- join_iterable ", " v ;;
    Ok (part_if (negb (is_empty s)) (label ++ s))
  else Ok [].

Definition scalar_part (label : string) (v : value) : list string :=
  part_if (truthy v) (label ++ py_str v).

Definition course_info_parts : result (list string) :=
  let field k := get course_data k VNone in
  faculty <- joined_part "Faculty: " (field "faculty") ;;
  location <- joined_part "Location: " (field "location") ;;
  awards <- joined_part "Awards: " (field "awards") ;;
  Ok (List.concat
        [ part_if (negb (is_empty course_name)) ("Course Name: " ++ course_name);
          part_if (negb (is_empty course_code)) ("Course Code: " ++ course_code);
          scalar_part "Credit Points: " (field "credit_points");
          part_if (truthy (field "cricos_code") && negb (eq_str (field "cricos_code") "None"))
                  ("CRICOS Code: " ++ py_str (field "cricos_code"));
          faculty;
          scalar_part "Study Level: " (field "study_level");
          scalar_part "Duration (Full-time): " (field "duration_fulltime");
          scalar_part "Duration (Part-time): " (field "duration_parttime");
          location;
          awards;
          (* Add overview to course info if it exists *)
          scalar_part (nl ++ "Overview:" ++ nl) (field "overview") ]).

(** Create a comprehensive course info chunk *)
Definition chunk_course_info (st : loop_state) : result loop_state :=
  parts <- course_info_parts ;;
  match parts with
  | [] => Ok st
  | _ => Ok (emit st "course_info" "Course Information" (join nl parts))
  end.

End Chunker.

(** [now] is [datetime.utcnow().isoformat(timespec="seconds")]. *)
Definition create_chunks_from_course (course_data : dict) (filename : string)
    (now : string) : result (list chunk) :=
  course_code <- get_course_code course_data filename ;;
  course_name <- attr_strip (get course_data "course_name" (VStr "")) ;;
  let course_name := fix_course_name course_name filename in
  let metadata := get course_data "metadata" (VDict []) in
  source_url <- attr_get metadata "source_url" (VStr "") ;;
  let ingested_at := now ++ "Z" in
  let unique_id := path_stem filename in
  st <- chunk_fields course_data course_code course_name source_url ingested_at unique_id
          chunkable_fields ([], 0) ;;
  st <- chunk_learning_outcomes course_data course_code course_name source_url
          ingested_at unique_id st ;;
  st <- chunk_course_info course_data course_code course_name source_url
          ingested_at unique_id st ;;
  Ok (fst st).

End Ingest.

(* ====================================================================== *)
(** * How a command-line script ends, and the rows of a JSONL file *)
(* ====================================================================== *)

Inductive termination : Type :=
| Returned
| SystemExit (msg : string)   (* [raise SystemExit(msg)] *)
| Uncaught (e : exn).         (* an exception nobody catches *)

(** The exit status of the interpreter. *)
Definition exit_status (t : termination) : Z :=
  match t with
  | Returned => 0
  | SystemExit _ => 1
  | Uncaught _ => 1
  end.

Module Jsonl.
Import Json.

(** A chunk id as it is read back from a file: the ingestion writes UUID
    strings, the upsert also accepts integers. *)
Inductive ident : Type :=
| IdStr (s : string)
| IdInt (z : Z).

Definition ident_eq_dec (a b : ident) : {a = b} + {a <> b}.
Proof.
  decide equality; [apply string_dec | apply Z.eq_dec].
Defined.

Definition option_ident_eq_dec (a b : option ident) : {a = b} + {a <> b}.
Proof.
  decide equality; apply ident_eq_dec.
Defined.

Definition value_of_ident (i : ident) : value :=
  match i with
  | IdStr s => VStr s
  | IdInt z => VInt z
  end.

(** One parsed line, [{"id": ..., "text": ..., "meta": {...}}], whose text
    is a string and whose meta is an object when they are given: the rows
    that the ingestion and the index writer write.  A field is [None] when
    the key is absent.  A null id is read like an absent one by both
    scripts ([r.get("id")]), and [save_kb_files.py] reads a null text or
    meta like an absent one as well ([text or ""], [... or {}]), so that
    there [None] stands for null too.  The upsert script does not: its
    reader on lines with a null, or any other JSON value, for text and meta
    is [PayloadLines.load_payloads]. *)
Record record : Type := mkRecord {
  rec_id : option ident;
  rec_text : option string;
  rec_meta : option dict
}.

(** The lines of a file: [None] is a blank line, which the readers skip. *)
Definition file : Type := list (option record).

(** [len(set(l)) != len(l)] *)
Definition has_duplicates {A : Type} (eq_dec : forall a b : A, {a = b} + {a <> b})
    (l : list A) : bool :=
  negb (List.length (nodup eq_dec l) =? List.length l)%nat.

(** [os.path.join(a, b)] *)
Definition path_join (a b : string) : string :=
  match b with
  | String "/" _ => b
  | _ =>
      match a with
      | EmptyString => b
      | _ => if (substring (String.length a - 1) 1 a =? "/")%string then a ++ b
             else a ++ "/" ++ b
      end
  end.

End Jsonl.

(* ====================================================================== *)
(** * [src/rag/save_kb_files.py]: junk filter and embedding index writer *)
(* ====================================================================== *)

Module SaveKb.
Import PyStr Json Jsonl.

Definition ws : Re.re := Re.Star (Re.Chr is_space).

(** [r'^\s*this page has been left intentionally blank\.?\s*$'], [re.I] *)
Definition JUNK_INTENT_BLANK : Re.re :=
  Re.seq [ws; Re.lit_ci "this page has been left intentionally blank";
          Re.Opt (Re.Chr (fun a => (a =? ".")%char)); ws].

(** [r'^\s*page\s*\w*\s*\d+\s*(of|/)\s*\w*\s*\d+\s*$'], [re.I] *)
Definition JUNK_PAGE_FOOTER : Re.re :=
  Re.seq [ws; Re.lit_ci "page"; ws; Re.Star (Re.Chr is_word); ws;
          Re.Plus (Re.Chr is_digit); ws;
          Re.Alt (Re.lit_ci "of") (Re.Chr (fun a => (a =? "/")%char)); ws;
          Re.Star (Re.Chr is_word); ws; Re.Plus (Re.Chr is_digit); ws].

(** [digits / max(1, len(t)) > 0.5] is decided on the integers: the quotient
    of the two lengths exceeds one half exactly when twice the digits exceed
    the length. *)
Definition looks_junky (text : string) : bool :=
  let t := strip text in
  if is_empty t then true
  else if (String.length t <? 40)%nat then true
  else if Re.search_anchored JUNK_INTENT_BLANK t then true
  else if Re.search_anchored JUNK_PAGE_FOOTER t then true
  else
    (* mostly digits (tables of numbers) *)
    let digits := count is_digit t in
    if (Nat.max 1 (String.length t) <? 2 * digits)%nat then true else false.

(** [rec.get("text", "")], and [text or ""] inside [looks_junky]. *)
Definition text_of (r : record) : string :=
  match rec_text r with
  | Some s => s
  | None => ""
  end.

(** [meta = rec.get("meta", {}) or {}], then [page_end] is filled in. *)
Definition with_page_end (r : record) : record :=
  let meta := match rec_meta r with Some m => m | None => [] end in
  let meta := match lookup meta "page_end" with
              | Some _ => meta
              | None => set meta "page_end" (get meta "page_start" VNone)
              end in
  {| rec_id := rec_id r; rec_text := rec_text r; rec_meta := Some meta |}.

Fixpoint load_jsonl (f : file) : list record :=
  match f with
  | [] => []
  | None :: f' => load_jsonl f'
  | Some r :: f' =>
      if looks_junky (text_of r) then load_jsonl f'
      else with_page_end r :: load_jsonl f'
  end.

Record args : Type := mkArgs {
  jsonl : string;
  embed_model_dir : string;
  out_dir : string;
  batch : nat;
  device : option string
}.

Section Writer.

(** A row of the embedding matrix; its entries are floats, which the model
    does not look into. *)
Variable vec : Type.

(** A two-dimensional array: [shape[0]] is the number of rows. *)
Record ndarray : Type := mkArray {
  array_rows : list vec;
  shape1 : nat
}.

Definition shape0 (a : ndarray) : nat := List.length (array_rows a).

(** [SentenceTransformer(dir, device).encode(texts, batch_size, ...)]: loading
    the model or encoding may fail. *)
Variable encode : string -> list string -> nat -> result ndarray.

(** The conversion of one row by [astype("float32")]. *)
Variable to_float32 : vec -> vec.

(** [datetime.utcnow().isoformat(timespec="seconds")] and [os.path.abspath] *)
Variable now : string.
Variable abspath : string -> string.

Definition astype_float32 (a : ndarray) : ndarray :=
  {| array_rows := map to_float32 (array_rows a); shape1 := shape1 a |}.

Record manifest : Type := mkManifest {
  created_at : string;
  n_points : nat;
  dim : nat;
  embed_model : string;
  source_jsonl : string
}.

(** What the script does to the file system, in order. *)
Inductive fs_event : Type :=
| Makedirs (path : string)
| NpSave (path : string) (a : ndarray)
| WriteJsonl (path : string) (rows : list record)
| WriteJson (path : string) (m : manifest).

Definition is_artifact (e : fs_event) : bool :=
  match e with
  | Makedirs _ => false
  | _ => true
  end.

Definition main (a : args) (input : file) : termination * list fs_event :=
  let fs := [Makedirs (out_dir a)] in
  (* 1) load & filter *)
  let rows := load_jsonl input in
  match rows with
  | [] => (SystemExit "No rows after filtering; check your chunks.jsonl or filters.", fs)
  | _ =>
      (* integrity checks on IDs *)
      let ids := map rec_id rows in
      if existsb (fun i => match i with None => true | Some _ => false end) ids
      then (SystemExit "Some rows are missing 'id'. Did ingest write UUIDs?", fs)
      else if has_duplicates option_ident_eq_dec ids
      then (SystemExit "Duplicate ids detected in JSONL. UUIDv5 should be unique per chunk.", fs)
      else
        let texts := map text_of rows in
        (* 2) device + model, 3) embed *)
        match encode (embed_model_dir a) texts (batch a) with
        | Raise e => (Uncaught e, fs)
        | Ok vecs =>
            (* sanity: rows match *)
            if negb (shape0 vecs =? List.length rows)%nat
            then (SystemExit ("Embeddings rows " ++ str_nat (shape0 vecs)
                              ++ " != payload rows " ++ str_nat (List.length rows)), fs)
            else
              (* enforce float32 *)
              let vecs := astype_float32 vecs in
              (* 4) write outputs (row-aligned), 5) manifest *)
              let emb_path := path_join (out_dir a) "embeddings.npy" in
              let pay_path := path_join (out_dir a) "payloads.jsonl" in
              let man_path := path_join (out_dir a) "manifest.json" in
              (Returned,
               fs ++ [ NpSave emb_path vecs;
                       WriteJsonl pay_path rows;
                       WriteJson man_path
                         {| created_at := now ++ "Z";
                            n_points := shape0 vecs;
                            dim := shape1 vecs;
                            embed_model := embed_model_dir a;
                            source_jsonl := abspath (jsonl a) |} ])%list
        end
  end.

End Writer.

End SaveKb.

(* ====================================================================== *)
(** * [src/rag/upsert_to_qdrant_from_files.py]: index upsert *)
(* ====================================================================== *)

Module Upsert.
Import PyStr Json Jsonl.

(** [not rid] *)
Definition falsy_id (rid : option ident) : bool :=
  match rid with
  | None => true
  | Some (IdStr s) => is_empty s
  | Some (IdInt z) => (z =? 0)%Z
  end.

(** [r.get("meta", {}) | {"text": r.get("text", ""), "row_id": rid}], on a
    row whose text is a string and whose meta is an object when they are
    given; [PayloadLines.payload_of] is the same on an arbitrary line. *)
Definition payload_of (r : record) (rid : ident) : dict :=
  let meta := match rec_meta r with Some m => m | None => [] end in
  set (set meta "text" (VStr (SaveKb.text_of r))) "row_id" (value_of_ident rid).

(** The loop of [load_payloads] from line [i] on: the ids given to Qdrant and
    the payloads, or the message of the [SystemExit]. *)
Fixpoint load_rows (i : nat) (f : file) : string + (list Z * list dict) :=
  match f with
  | [] => inr ([], [])
  | None :: f' => load_rows (S i) f'
  | Some r :: f' =>
      match rec_id r with
      | Some rid =>
          if falsy_id (Some rid) then inl "Row missing 'id' in payloads.jsonl"
          else
            (* Convert string IDs to integers for Qdrant compatibility:
               use row index as ID for string IDs *)
            let qdrant_id := match rid with
                             | IdStr _ => Z.of_nat i
                             | IdInt z => z
                             end in
            match load_rows (S i) f' with
            | inl msg => inl msg
            | inr (ids, payloads) => inr (qdrant_id :: ids, payload_of r rid :: payloads)
            end
      | None => inl "Row missing 'id' in payloads.jsonl"
      end
  end.

Definition load_payloads (f : file) : string + (list Z * list dict) :=
  match load_rows 0 f with
  | inl msg => inl msg
  | inr (ids, payloads) =>
      (* basic checks *)
      if has_duplicates Z.eq_dec ids then inl "Duplicate ids found in payloads.jsonl"
      else inr (ids, payloads)
  end.

Record args : Type := mkArgs {
  payloads_path : string;
  emb : string;
  collection : string;
  batch : nat;
  no_recreate : bool
}.

Section Client.

Variable vec : Type.
Variable to_float32 : vec -> vec.

(** A point of the collection. *)
Record point : Type := mkPoint {
  point_id : Z;
  point_vector : vec;
  point_payload : dict
}.

(** The points of the target collection. *)
Definition points : Type := list point.

(** [cli.upsert]: a point with a known id is overwritten in place. *)
Fixpoint upsert_point (c : points) (p : point) : points :=
  match c with
  | [] => [p]
  | q :: c' => if (point_id q =? point_id p)%Z then p :: c' else q :: upsert_point c' p
  end.

Definition upsert (c : points) (ps : list point) : points :=
  fold_left upsert_point ps c.

Fixpoint zip3 (ids : list Z) (vs : list vec) (ps : list dict) : list point :=
  match ids, vs, ps with
  | i :: ids', v :: vs', p :: ps' => mkPoint i v p :: zip3 ids' vs' ps'
  | _, _, _ => []
  end.

(** [[l[i:i+B] for i in range(0, len(l), B)]] for a positive [B] *)
Fixpoint batches {A : Type} (fuel B : nat) (l : list A) : list (list A) :=
  match fuel, l with
  | S fuel', _ :: _ => firstn B l :: batches fuel' B (skipn B l)
  | _, _ => []
  end.

(** The script: [vecs] is the array read from [args.emb], [f] the payload
    file, [before] the target collection if it exists.  It returns how the
    script ends, the collection afterwards, and the number of [upsert]
    calls made. *)
Definition main (a : args) (vecs : list vec) (f : file) (before : option points)
    : termination * option points * nat :=
  (* --- load files --- *)
  match load_payloads f with
  | inl msg => (SystemExit msg, before, 0)
  | inr (ids, payloads) =>
      if negb (List.length vecs =? List.length ids)%nat
      then (SystemExit ("Emb rows " ++ str_nat (List.length vecs) ++ " != payload rows "
                        ++ str_nat (List.length ids)), before, 0)
      else
        let vecs := map to_float32 vecs in
        (* --- create / recreate collection --- *)
        let c := if no_recreate a
                 then match before with Some c => c | None => [] end
                 else [] in
        (* --- upsert in batches --- *)
        match batch a with
        | O => (Uncaught (ValueError "range() arg 3 must not be zero"), Some c, 0)
        | S _ =>
            let bs := batches (List.length ids) (batch a) (zip3 ids vecs payloads) in
            (Returned, Some (fold_left upsert bs c), List.length bs)
        end
  end.

End Client.

End Upsert.

(* ====================================================================== *)
(** * Query time: context assembly, generation and orchestration *)
(* ====================================================================== *)

Module Rag.
Import PyStr.

Definition nl : string := Ingest.nl.

(** The payload of a point as the query code reads it: chunk meta and text,
    all strings; a field is [None] when the key is absent. *)
Record payload : Type := mkPayload {
  p_text : option string;
  p_course_code : option string;
  p_course_name : option string;
  p_chunk_label : option string;
  p_source_url : option string
}.

(** A scored point returned by [cli.search]. *)
Record hit : Type := mkHit {
  hit_score : Q;
  hit_payload : option payload
}.

(** [(hit.payload or {}).get(key, default)] *)
Definition pget (h : hit) (key : payload -> option string) (default : string) : string :=
  match hit_payload h with
  | Some p => match key p with Some s => s | None => default end
  | None => default
  end.

Definition part_if (cond : bool) (s : string) : list string :=
  if cond then [s] else [].

(** ** [query_hybrid_rag.build_course_context] *)

(** The citation header and the text of one hit. *)
Definition context_part (h : hit) : string :=
  let text := pget h p_text "" in
  let course_code := pget h p_course_code "" in
  let course_name := pget h p_course_name "" in
  let chunk_label := pget h p_chunk_label "" in
  let source_url := pget h p_source_url "" in
  let cite_parts :=
    (part_if (negb (is_empty course_code)) ("Course Code: " ++ course_code)
     ++ part_if (negb (is_empty course_name)) ("(" ++ course_name ++ ")")
     ++ part_if (negb (is_empty chunk_label)) ("- " ++ chunk_label))%list in
  let cite := join " | " cite_parts in
  let cite := if negb (is_empty source_url) then cite ++ nl ++ "Source: " ++ source_url
              else cite in
  "[" ++ cite ++ "]" ++ nl ++ text.

(** The loop, with its two variables [context_parts] and [current_length]. *)
Fixpoint context_loop (max_context_length : nat) (hits : list hit)
    (context_parts : list string) (current_length : nat) : list string :=
  match hits with
  | [] => context_parts
  | h :: rest =>
      let text := pget h p_text "" in
      if (current_length + String.length text <? max_context_length)%nat
      then context_loop max_context_length rest
             (context_parts ++ [context_part h])%list
             (current_length + String.length text)
      else context_loop max_context_length rest context_parts current_length
  end.

Definition build_course_context (hits : list hit) (max_context_length : nat) : string :=
  join (nl ++ nl) (context_loop max_context_length hits [] 0).

(** ** [query_hybrid_rag.answer_with_ollama] *)

(** What happens to the request sent to the generation service, statement
    by statement of the [try] block.  The content of a reply that has one is
    a string when the service keeps to the chat API of Ollama; the code does
    not check it, and a reply may carry any JSON value there.  A number with
    a fraction, which [Json.value] leaves out, behaves like an integer in
    all that follows: it is true unless it is zero, and it has no [strip]. *)
Inductive generation : Type :=
| PostRaises (e : exn)      (* [requests.post]: connection error, timeout after 180 s *)
| StatusRaises (e : exn)    (* [r.raise_for_status()]: a status outside 2xx *)
| JsonRaises (e : exn)      (* [r.json()]: the body is not JSON *)
| IndexRaises (e : exn)     (* [data["message"]["content"]]: a key is missing *)
| Content (s : string)      (* the content is a string *)
| NonString (v : Json.value).
                            (* the content is null, a boolean, a number, a list or an object *)

(** The body of the [try] block: [data["message"]["content"]] is returned
    as it is. *)
Definition request_content (g : generation) : result Json.value :=
  match g with
  | PostRaises e | StatusRaises e | JsonRaises e | IndexRaises e => Raise e
  | Content s => Ok (Json.VStr s)
  | NonString v => Ok v
  end.

Definition system_msg (concise : bool) : string :=
  if concise then
    "You are a helpful assistant for UTS course information. Answer questions about courses using only the provided context. Be brief and direct. Cite sources as [Course Code: XXX]. If the information is not in the context, say you don't know."
  else
    "You are a helpful assistant for UTS course information. Answer questions about courses using only the provided context. Provide comprehensive answers. Cite sources as [Course Code: XXX]. If the information is not in the context, say you don't know.".

Definition prompt (query context : string) (concise : bool) : string :=
  "Question: " ++ query ++ nl ++ nl ++ "Context:" ++ nl ++ context ++ nl ++ nl
  ++ (if concise then "Answer directly and briefly:" else "Answer:").

(** The generation service: the outcome of a chat request with the given
    system and user messages. *)
Definition ollama : Type := string -> string -> generation.

(** What the function returns is a Python value: the content of the reply,
    whatever it is, or the error text. *)
Definition answer_with_ollama (service : ollama) (query context : string)
    (concise : bool) : Json.value :=
  match request_content (service (system_msg concise) (prompt query context concise)) with
  | Ok content => content
  | Raise e => Json.VStr ("Error generating response: " ++ exn_str e)
  end.

(** ** [filtered_retrieval.check_result_quality] *)

Record quality : Type := mkQuality {
  has_results : bool;
  min_results : bool;
  has_high_quality : bool;
  diverse_sources : bool
}.

(** [hit.payload.get('course_code', 'unknown')]: no [or {}] here, so a hit
    without payload raises. *)
Definition source_of (h : hit) : result string :=
  match hit_payload h with
  | Some p => Ok (match p_course_code p with Some c => c | None => "unknown" end)
  | None => Raise (AttributeError "'NoneType' object has no attribute 'get'")
  end.

Definition check_result_quality (hits : list hit) : result quality :=
  let n := List.length hits in
  match hits with
  | [] => Ok (mkQuality false false false false)
  | top :: _ =>
      (* Check if top result has reasonable score (> 0.3) *)
      let high := match Qcompare (hit_score top) (3 # 10) with Gt => true | _ => false end in
      (* Check if results are diverse (not all from same course) *)
      if (2 <=? n)%nat then
        sources <- mapM source_of (firstn 3 hits) ;;
        Ok (mkQuality true (3 <=? n)%nat high
                      (1 <? List.length (nodup string_dec sources))%nat)
      else Ok (mkQuality true (3 <=? n)%nat high false)
  end.

(** ** The two pipelines *)

(** The vector search behind [retrieve_courses]: the query, the course-code
    and course-name filters and the limit give hits, or the embedding model
    or the Qdrant client raises. *)
Definition search : Type := string -> option string -> option string -> nat -> result (list hit).

Record services : Type := mkServices {
  filtered_search : search;   (* [filtered_retrieval.retrieve_courses] *)
  hybrid_search : search;     (* [query_hybrid_rag.retrieve_courses] *)
  primary_llm : ollama;       (* Ollama as the primary pipeline reaches it *)
  fallback_llm : ollama       (* Ollama as [query_courses] reaches it *)
}.

Definition NO_INFO : string := "No relevant course information found.".

(** [filtered_retrieval.query_with_filtering] with [show_details=False] *)
Definition query_with_filtering (w : services) (query : string)
    (course_code course_name : option string) : result (list hit) :=
  hits <- filtered_search w query course_code course_name 30 ;;
  quality <- check_result_quality hits ;;
  if negb (has_results quality) then Ok [] else Ok hits.

(** [query_with_preprocessing.query_with_full_pipeline] with [generate=True] *)
Definition query_with_full_pipeline (w : services) (query : string)
    (course_code course_name : option string) (concise : bool) : result Json.value :=
  (* Step 1: Retrieve with filtering *)
  hits <- query_with_filtering w query course_code course_name ;;
  (* Step 2: Quality checks *)
  quality <- check_result_quality hits ;;
  if negb (has_results quality) then Ok (Json.VStr NO_INFO)
  else
    (* Step 3: Generate response *)
    let context := build_course_context hits 4000 in
    Ok (answer_with_ollama (primary_llm w) query context concise).

(** [query_hybrid_rag.query_courses] with [generate=True] *)
Definition query_courses (w : services) (query : string)
    (course_code course_name : option string) (k : nat) (concise : bool)
    : result Json.value :=
  hits <- hybrid_search w query course_code course_name k ;;
  match hits with
  | [] => Ok (Json.VStr NO_INFO)
  | _ =>
      let context := build_course_context hits 4000 in
      Ok (answer_with_ollama (fallback_llm w) query context concise)
  end.

(** ** [api_server.chat] *)

(** A message of the history as the front end sends it,
    [{type: "user" | "bot", text: "..."}]: the type and the text are strings
    when they are given, and [None] stands for an absent key.  The endpoint
    on a history of arbitrary JSON objects, which is all the request model
    asks for, is [ChatEndpoint.chat]. *)
Record history_message : Type := mkMessage {
  msg_type : option string;
  msg_text : option string
}.

Record ChatRequest : Type := mkRequest {
  message : string;
  course_code : option string;
  course_name : option string;
  history : option (list history_message);
  concise : option bool;
  use_preprocessing : option bool
}.

Record ChatResponse : Type := mkResponse {
  response : string;
  success : bool;
  error : option string
}.

(** What the endpoint gives the web framework. *)
Inductive reply : Type :=
| HTTPException (status_code : nat) (detail : string)
| Responded (r : ChatResponse).

(** The calls the endpoint makes to the two pipelines, in order. *)
Inductive call : Type :=
| CallFullPipeline
| CallQueryCourses.

Definition is_fallback (c : call) : bool :=
  match c with
  | CallQueryCourses => true
  | CallFullPipeline => false
  end.

(** [re.findall(r'\b[Cc]\d{5}\b', text)[0].upper()], if there is a match.
    [prev_word] tells whether the character before [text] is a word
    character. *)
Fixpoint find_code (prev_word : bool) (text : string) : option string :=
  match text with
  | EmptyString => None
  | String a rest =>
      let here :=
        if prev_word then None
        else match Ingest.match_classes (Ingest.is_cC :: Ingest.code_tail) text with
             | Some m =>
                 match substring 6 1 text with
                 | String b _ => if is_word b then None else Some m
                 | EmptyString => Some m
                 end
             | None => None
             end in
      match here with
      | Some m => Some (upper m)
      | None => find_code (is_word a) rest
      end
  end.

Definition extract_course_code_from_text (text : string) : option string :=
  find_code false text.

Definition truthy_str (s : option string) : bool :=
  match s with
  | Some s => negb (is_empty s)
  | None => false
  end.

(** The first course code found in the user messages of the history, on a
    history whose texts are strings; [ChatEndpoint.code_from_history] is the
    same loop on arbitrary messages. *)
Fixpoint code_from_history (h : list history_message) : option string :=
  match h with
  | [] => None
  | m :: h' =>
      let found :=
        match msg_type m with
        | Some "user" =>
            extract_course_code_from_text
              (match msg_text m with Some t => t | None => "" end)
        | _ => None
        end in
      match found with
      | Some c => Some c
      | None => code_from_history h'
      end
  end.

Definition DEFAULT_K : nat := 30.

Definition REPHRASE : string :=
  "I couldn't generate a response. Please try rephrasing your question.".

Definition APOLOGY : string :=
  "Sorry, there was an error processing your request. Please try again.".

(** The course code the pipelines are called with: the one of the request,
    or else the first one found in the message, or else in the history. *)
Definition final_course_code (request : ChatRequest) (query : string) : option string :=
  if truthy_str (course_code request) then course_code request
  else
    (* Extract course code from message if not provided explicitly *)
    match extract_course_code_from_text query with
    | Some c => Some c
    | None =>
        (* Also check conversation history for course codes *)
        match history request with
        | Some h => code_from_history h
        | None => None
        end
    end.

(** [request.concise if request.concise is not None else True] *)
Definition concise_flag (request : ChatRequest) : bool :=
  match concise request with
  | Some b => b
  | None => true
  end.

(** [if not response_text or response_text.strip() == "": ...], on a
    string *)
Definition or_rephrase (response_text : string) : string :=
  if is_empty response_text || is_empty (strip response_text) then REPHRASE
  else response_text.

(** The same test on what a pipeline returned, which need not be a string:
    a false value is replaced like the empty string, and a true value that
    is not a string has no [strip]. *)
Definition checked_response (response_text : Json.value) : result string :=
  match response_text with
  | Json.VStr s => Ok (or_rephrase s)
  | v =>
      if Json.truthy v
      then Raise (AttributeError
                    ("'" ++ Json.type_name v ++ "' object has no attribute 'strip'"))
      else Ok REPHRASE
  end.

(** The endpoint from the call of the pipelines on: the course code is
    known by then. *)
Definition answer_query (w : services) (query : string)
    (code name : option string) (concise : bool)
    (use_preprocessing : option bool) : reply * list call :=
  let direct := query_courses w query code name DEFAULT_K concise in
  let '(outcome, calls) :=
    match use_preprocessing with
    | Some true =>
        (* Use preprocessing pipeline if requested (default) *)
        match query_with_full_pipeline w query code name concise with
        | Ok response_text => (Ok response_text, [CallFullPipeline])
        | Raise _ =>
            (* Fallback to hybrid RAG *)
            (direct, [CallFullPipeline; CallQueryCourses])
        end
    | _ =>
        (* Use hybrid RAG directly *)
        (direct, [CallQueryCourses])
    end in
  match (response_text <- outcome ;; checked_response response_text) with
  | Ok response_text => (Responded (mkResponse response_text true None), calls)
  | Raise e => (Responded (mkResponse APOLOGY false (Some (exn_str e))), calls)
  end.

Definition chat (w : services) (request : ChatRequest) : reply * list call :=
  (* Extract query *)
  let query := strip (message request) in
  if is_empty query then (HTTPException 400 "Message cannot be empty", [])
  else
    answer_query w query (final_course_code request query) (course_name request)
      (concise_flag request) (use_preprocessing request).

End Rag.

(* ====================================================================== *)
(** * [src/api_server.py]: the chat endpoint on an arbitrary history *)
(* ====================================================================== *)

Module ChatEndpoint.
Import PyStr Json Rag.

(** The request body as the request model admits it.  [history] is declared
    [Optional[List[Dict]]]: every message is a JSON object, and nothing is
    asked of its keys and values. *)
Record ChatRequest : Type := mkRequest {
  message : string;
  course_code : option string;
  course_name : option string;
  history : option (list dict);
  concise : option bool;
  use_preprocessing : option bool
}.

(** The loop over the history, which stops at the first user message with a
    course code.  [re.findall] raises a [TypeError] on a text that is no
    string. *)
Fixpoint code_from_history (h : list dict) : result (option string) :=
  match h with
  | [] => Ok None
  | msg :: h' =>
      (* if msg.get("type") == "user": *)
      if eq_str (get msg "type" VNone) "user" then
        match get msg "text" (VStr "") with
        | VStr text =>
            match extract_course_code_from_text text with
            | Some c => Ok (Some c)
            | None => code_from_history h'
            end
        | v => Raise (TypeError ("expected string or bytes-like object, got '"
                                 ++ type_name v ++ "'"))
        end
      else code_from_history h'
  end.

(** [request.course_code or extracted_course_code] *)
Definition final_course_code (request : ChatRequest) (query : string)
    : result (option string) :=
  if truthy_str (course_code request) then Ok (course_code request)
  else
    (* Extract course code from message if not provided explicitly *)
    match extract_course_code_from_text query with
    | Some c => Ok (Some c)
    | None =>
        (* Also check conversation history for course codes *)
        match history request with
        | Some h => code_from_history h
        | None => Ok None
        end
    end.

(** [request.concise if request.concise is not None else True] *)
Definition concise_flag (request : ChatRequest) : bool :=
  match concise request with
  | Some b => b
  | None => true
  end.

(** An exception raised while the history is read is caught by the outer
    [except Exception], before any pipeline is called. *)
Definition chat (w : services) (request : ChatRequest) : reply * list call :=
  (* Extract query *)
  let query := strip (message request) in
  if is_empty query then (HTTPException 400 "Message cannot be empty", [])
  else
    match final_course_code request query with
    | Raise e => (Responded (mkResponse APOLOGY false (Some (exn_str e))), [])
    | Ok code =>
        answer_query w query code (course_name request) (concise_flag request)
          (use_preprocessing request)
    end.

End ChatEndpoint.

(* ====================================================================== *)
(** * [src/rag/upsert_to_qdrant_from_files.py]: the reader on arbitrary lines *)
(* ====================================================================== *)

Module PayloadLines.
Import PyStr Json.

(** The lines of a payload file as [json.loads] decodes them: JSON objects
    with any keys and values.  [None] is a blank line. *)
Definition file : Type := list (option dict).

(** [r.get("meta", {}) | {"text": r.get("text", ""), "row_id": rid}]: only
    a dict can be merged with a dict, and the text is stored as it is. *)
Definition payload_of (r : dict) (rid : value) : result dict :=
  match get r "meta" (VDict []) with
  | VDict meta => Ok (set (set meta "text" (get r "text" (VStr ""))) "row_id" rid)
  | v => Raise (TypeError ("unsupported operand type(s) for |: '"
                           ++ type_name v ++ "' and 'dict'"))
  end.

(** The loop of [load_payloads] from line [i] on: the ids given to Qdrant
    and the payloads, or how the script ends. *)
Fixpoint load_rows (i : nat) (f : file) : termination + (list value * list dict) :=
  match f with
  | [] => inr ([], [])
  | None :: f' => load_rows (S i) f'
  | Some r :: f' =>
      let rid := get r "id" VNone in
      if negb (truthy rid) then inl (SystemExit "Row missing 'id' in payloads.jsonl")
      else
        (* Convert string IDs to integers for Qdrant compatibility:
           use row index as ID for string IDs *)
        let qdrant_id := match rid with
                         | VStr _ => VInt (Z.of_nat i)
                         | _ => rid
                         end in
        match payload_of r rid with
        | Raise e => inl (Uncaught e)
        | Ok payload =>
            match load_rows (S i) f' with
            | inl t => inl t
            | inr (ids, payloads) => inr (qdrant_id :: ids, payload :: payloads)
            end
        end
  end.

(** What [set(ids)] tells apart: [True] is the integer 1 there. *)
Inductive hashed : Type :=
| HNone
| HInt (z : Z)
| HStr (s : string).

Definition hashed_eq_dec (a b : hashed) : {a = b} + {a <> b}.
Proof.
  decide equality; [apply Z.eq_dec | apply string_dec].
Defined.

(** [hash(v)]: a list or a dict cannot be put in a set. *)
Definition hash_of (v : value) : result hashed :=
  match v with
  | VNone => Ok HNone
  | VBool b => Ok (HInt (if b then 1 else 0))
  | VInt z => Ok (HInt z)
  | VStr s => Ok (HStr s)
  | VList _ | VDict _ => Raise (TypeError ("unhashable type: '" ++ type_name v ++ "'"))
  end.

Definition load_payloads (f : file) : termination + (list value * list dict) :=
  match load_rows 0 f with
  | inl t => inl t
  | inr (ids, payloads) =>
      (* basic checks *)
      match mapM hash_of ids with
      | Raise e => inl (Uncaught e)
      | Ok keys =>
          if Jsonl.has_duplicates hashed_eq_dec keys
          then inl (SystemExit "Duplicate ids found in payloads.jsonl")
          else inr (ids, payloads)
      end
  end.

End PayloadLines.

(* ====================================================================== *)
(** * [src/rag/ingest_courses.py]: the command-line script *)
(* ====================================================================== *)

Module IngestCli.
Import PyStr Json Ingest.

Record args : Type := mkArgs {
  courses_dir : string;
  out : string;
  dry_run : bool
}.

(** A file of the listing [sorted(courses_dir.glob("*.json"))]: its name,
    and what [json.load] gives for it, a value or the exception raised by
    [open] or by the decoder. *)
Record course_file : Type := mkFile {
  file_name : string;
  file_json : result value
}.

(** The body of the [try] block up to the chunks: the chunker is called
    with whatever the file holds, and a value that is no dict has no
    [get]. *)
Definition chunks_of_file (now : string) (f : course_file) : result (list chunk) :=
  course_data <- file_json f ;;
  match course_data with
  | VDict d => create_chunks_from_course d (file_name f) now
  | _ => Raise (AttributeError "object has no attribute 'get'")
  end.

(** The three variables of the loop. *)
Record tally : Type := mkTally {
  all_chunks : list chunk;
  courses_processed : nat;
  courses_skipped : nat
}.

(** What the script does to the file system, in order. *)
Inductive fs_event : Type :=
| Mkdir (path : string)
| WriteChunks (path : string) (chunks : list chunk).

(** The row that [json.loads] reads back from the line written for a
    chunk. *)
Definition row_of_chunk (c : chunk) : Jsonl.record :=
  {| Jsonl.rec_id := Some (Jsonl.IdStr (chunk_id c));
     Jsonl.rec_text := Some (chunk_text c);
     Jsonl.rec_meta :=
       Some [ ("course_code", VStr (meta_course_code c));
              ("course_name", VStr (meta_course_name c));
              ("chunk_type", VStr (meta_chunk_type c));
              ("chunk_label", VStr (meta_chunk_label c));
              ("source_url", meta_source_url c);
              ("ingested_at", VStr (meta_ingested_at c)) ] |}.

Section Script.

(** [datetime.utcnow().isoformat(timespec="seconds")] at the time the file
    of a given name is chunked; [str(Path(p))] and [str(Path(p).parent)]. *)
Variable clock : string -> string.
Variable path_str : string -> string.
Variable parent : string -> string.

(** The loop over the files: an exception raised for a file is caught, the
    file is counted as skipped and the loop goes on. *)
Fixpoint process (json_files : list course_file) (t : tally) : tally :=
  match json_files with
  | [] => t
  | json_file :: rest =>
      match chunks_of_file (clock (file_name json_file)) json_file with
      | Ok ((_ :: _) as chunks) =>
          process rest {| all_chunks := all_chunks t ++ chunks;
                          courses_processed := S (courses_processed t);
                          courses_skipped := courses_skipped t |}
      | Ok [] | Raise _ =>
          process rest {| all_chunks := all_chunks t;
                          courses_processed := courses_processed t;
                          courses_skipped := S (courses_skipped t) |}
      end
  end.

(** [is_dir] is [courses_dir.is_dir()] and [json_files] the sorted listing.
    The script gives how it ends, what it writes and the final tally. *)
Definition main (a : args) (is_dir : bool) (json_files : list course_file)
    : termination * list fs_event * option tally :=
  if negb is_dir
  then (SystemExit ("Not a directory: " ++ path_str (courses_dir a)), [], None)
  else
    match json_files with
    | [] => (SystemExit ("No JSON files found in " ++ path_str (courses_dir a)), [], None)
    | _ =>
        let t := process json_files (mkTally [] 0 0) in
        if dry_run a then (Returned, [], Some t)
        else
          (* Write output *)
          (Returned, [Mkdir (parent (out a)); WriteChunks (path_str (out a)) (all_chunks t)],
           Some t)
    end.

End Script.

End IngestCli.

(* ====================================================================== *)
(** * [retrieve_courses]: the vector search of the two query scripts *)
(* ====================================================================== *)

Module Retrieval.
Import PyStr Rag.

(** A [FieldCondition] of a Qdrant filter. *)
Inductive condition : Type :=
| MatchValue (key value : string)
| MatchText (key text : string).

(** Build filter if course_code or course_name is specified. *)
Definition conditions (course_code course_name : option string) : list condition :=
  ((match course_code with
    | Some c => if is_empty c then [] else [MatchValue "course_code" (upper c)]
    | None => []
    end)
   ++
   (match course_name with
    | Some n => if is_empty n then [] else [MatchText "course_name" n]
    | None => []
    end))%list.

(** [flt]: [None], or [Filter(must=conditions)] *)
Definition query_filter (course_code course_name : option string)
    : option (list condition) :=
  match conditions course_code course_name with
  | [] => None
  | cs => Some cs
  end.

(** [hits.sort(key=lambda x: x.score, reverse=True)]: by decreasing score,
    hits of equal score staying in the order they had.  A hit is put in
    front of the first hit whose score is not greater than its own. *)
Fixpoint insert_by_score (h : hit) (sorted : list hit) : list hit :=
  match sorted with
  | [] => [h]
  | x :: rest =>
      match Qcompare (hit_score x) (hit_score h) with
      | Gt => x :: insert_by_score h rest
      | _ => h :: sorted
      end
  end.

Definition sort_by_score (hits : list hit) : list hit :=
  fold_right insert_by_score [] hits.

Section Services.

(** A query vector; the embedding model, given its directory and the
    query; the search of the Qdrant client, given the collection, the
    vector, the filter and the limit.  Each may raise. *)
Variable vector : Type.
Variable encode : string -> string -> result vector.
Variable qdrant_search : string -> vector -> option (list condition) -> nat -> result (list hit).

(** [query_hybrid_rag.retrieve_courses] *)
Definition retrieve_courses (q embed_dir collection : string)
    (course_code course_name : option string) (limit : nat) : result (list hit) :=
  qv <- encode embed_dir q ;;
  qdrant_search collection qv (query_filter course_code course_name) limit.

(** [filtered_retrieval.retrieve_courses]: the same, then sorted by score. *)
Definition retrieve_courses_sorted (query embed_dir collection : string)
    (course_code course_name : option string) (limit : nat) : result (list hit) :=
  qv <- encode embed_dir query ;;
  hits <- qdrant_search collection qv (query_filter course_code course_name) limit ;;
  Ok (sort_by_score hits).

(** The two searches as the pipelines of the endpoint reach them. *)
Definition services_of (embed_dir collection : string) (primary fallback : ollama) : services :=
  {| filtered_search := fun query code name limit =>
       retrieve_courses_sorted query embed_dir collection code name limit;
     hybrid_search := fun q code name limit =>
       retrieve_courses q embed_dir collection code name limit;
     primary_llm := primary;
     fallback_llm := fallback |}.

End Services.

End Retrieval.

(* ====================================================================== *)
(** * [src/api_server.py]: the list of courses *)
(* ====================================================================== *)

Module Courses.
Import PyStr Rag.

(** One entry [{"code": ..., "name": ...}] of the list. *)
Definition course : Type := (string * string)%type.

Record courses_reply : Type := mkReply {
  courses : list course;
  success : bool;
  error : option string
}.

Definition has_code (code : string) (courses_dict : list course) : bool :=
  existsb (fun kv => (fst kv =? code)%string) courses_dict.

(** Extract unique course codes and names: the first point that carries a
    code gives the name, [course_name or ""]. *)
Fixpoint collect (points : list (option payload)) (courses_dict : list course)
    : list course :=
  match points with
  | [] => courses_dict
  | point :: rest =>
      let field (key : payload -> option string) :=
        match point with Some p => key p | None => None end in
      match field p_course_code with
      | Some course_code =>
          if negb (is_empty course_code) && negb (has_code course_code courses_dict)
          then collect rest
                 (courses_dict
                  ++ [(course_code,
                       match field p_course_name with Some n => n | None => "" end)])%list
          else collect rest courses_dict
      | None => collect rest courses_dict
      end
  end.

(** The order of [(code, name)] tuples: by code, then by name. *)
Definition course_leb (a b : course) : bool :=
  match String.compare (fst a) (fst b) with
  | Lt => true
  | Eq => String.leb (snd a) (snd b)
  | Gt => false
  end.

(** [sorted(courses_dict.items())] *)
Fixpoint insert_course (c : course) (sorted : list course) : list course :=
  match sorted with
  | [] => [c]
  | x :: rest => if course_leb c x then c :: sorted else x :: insert_course c rest
  end.

Definition sorted_items (courses_dict : list course) : list course :=
  fold_right insert_course [] courses_dict.

Definition failure (msg : string) : courses_reply :=
  {| courses := []; success := false; error := Some msg |}.

(** [collection_exists] and [scroll] are the two calls to the Qdrant client;
    [scroll limit] gives the payloads of the points [cli.scroll] returns. *)
Definition get_courses (collection : string) (collection_exists : result bool)
    (scroll : nat -> result (list (option payload))) : courses_reply :=
  match collection_exists with
  | Raise e => failure (exn_str e)
  | Ok false => failure ("Collection '" ++ collection ++ "' not found")
  | Ok true =>
      (* Get sample points to extract unique course codes *)
      match scroll 1000 with
      | Raise e => failure (exn_str e)
      | Ok points =>
          {| courses := sorted_items (collect points []); success := true; error := None |}
      end
  end.

End Courses.

(* ====================================================================== *)
(** * The embedding on sample inputs *)
(* ====================================================================== *)

(** The values below are those CPython gives for the same inputs. *)
Module Checks.
Import PyStr Json Uuid.

Example strip_ex : strip "  ab c
 " = "ab c".
Proof. reflexivity. Qed.

Example split_ex : split_on "_" "a__b_" = ["a"; ""; "b"; ""].
Proof. reflexivity. Qed.

Example stem_ex1 : path_stem "Bachelor_of_Science_C10242.json" = "Bachelor_of_Science_C10242".
Proof. reflexivity. Qed.

Example stem_ex2 : path_stem "dir/a.b.json" = "a.b" /\ path_stem ".json" = ".json"
                   /\ path_stem "name." = "name.".
Proof. repeat split; reflexivity. Qed.

Example str_ex : str_nat 0 = "0" /\ str_nat 12 = "12" /\ str_Z (-7) = "-7".
Proof. repeat split; reflexivity. Qed.

Example upper_ex : upper "c10302_x" = "C10302_X".
Proof. reflexivity. Qed.

Example py_str_ex :
  py_str (VList [VStr "ab"; VInt 3; VNone; VDict [("k", VBool true)]])
  = "['ab', 3, None, {'k': True}]".
Proof. reflexivity. Qed.

Example repr_str_ex : repr_str "a'b" = String dquote ("a'b" ++ String dquote "").
Proof. reflexivity. Qed.

(** The expected text is written with single quotes in place of the
    double quotes of JSON. *)
Example json_dumps_ex :
  replace_char dquote squote
    (json_dumps (VDict [("core", VList [VStr "a b"; VInt (-2)]); ("n", VNone)]))
  = "{'core': ['a b', -2], 'n': null}".
Proof. reflexivity. Qed.

Example sha1_abc :
  hex_of_bytes (sha1 (bytes_of_string "abc")) = "a9993e364706816aba3e25717850c26c9cd0d89d".
Proof. vm_compute. reflexivity. Qed.

Example uuid5_ex :
  uuid5_url "course|C10302|type:overview|chunk:0|unique:Bachelor_of_Sport_C10302"
  = "b34e5575-6fbe-573e-9b4f-d316ef8e2526".
Proof. vm_compute. reflexivity. Qed.

End Checks.

(* ====================================================================== *)
(** * The matcher decides the language of a pattern *)
(* ====================================================================== *)

Lemma bind_Ok_inv {A B : Type} (m : result A) (k : A -> result B) (b : B) :
  bind m k = Ok b -> exists a, m = Ok a /\ k a = Ok b.
Proof.
  destruct m as [a|e]; simpl; intros H; [exists a; auto | discriminate].
Qed.

Module ReFacts.
Import PyStr Re.

Lemma append_nil_r (s : string) : s ++ "" = s.
Proof. induction s; simpl; congruence. Qed.

Lemma append_assoc (s1 s2 s3 : string) : (s1 ++ s2) ++ s3 = s1 ++ (s2 ++ s3).
Proof. induction s1; simpl; congruence. Qed.

Lemma append_eq_nil (s1 s2 : string) : s1 ++ s2 = "" -> s1 = "" /\ s2 = "".
Proof. destruct s1; simpl; [auto | discriminate]. Qed.

Lemma nullable_iff (r : re) : nullable r = true <-> Lang r "".
Proof.
  induction r; simpl.
  - split; [discriminate | inversion 1].
  - split; [constructor | reflexivity].
  - split; [discriminate | inversion 1].
  - rewrite andb_true_iff, IHr1, IHr2. split.
    + intros [H1 H2]. change "" with ("" ++ ""). now constructor.
    + intros H. inversion H; subst.
      match goal with E : _ ++ _ = "" |- _ => apply append_eq_nil in E as [-> ->] end.
      auto.
  - rewrite orb_true_iff, IHr1, IHr2. split.
    + intros [H|H]; [now apply LAltL | now apply LAltR].
    + inversion 1; subst; auto.
  - split; [constructor | reflexivity].
Qed.

Lemma mkCat_iff (r1 r2 : re) (s : string) : Lang (mkCat r1 r2) s <-> Lang (Cat r1 r2) s.
Proof.
  destruct r1; simpl; try tauto.
  split; inversion 1; subst. match goal with H : Lang Nul _ |- _ => inversion H end.
Qed.

Lemma alt_iff (r1 r2 : re) (s : string) : Lang (Alt r1 r2) s <-> Lang r1 s \/ Lang r2 s.
Proof.
  split.
  - inversion 1; subst; auto.
  - intros [H|H]; [now apply LAltL | now apply LAltR].
Qed.

Lemma nul_empty (s : string) : ~ Lang Nul s.
Proof. inversion 1. Qed.

Lemma mkAlt_iff (r1 r2 : re) (s : string) : Lang (mkAlt r1 r2) s <-> Lang (Alt r1 r2) s.
Proof.
  rewrite alt_iff.
  destruct r1; simpl; try (destruct r2; simpl); rewrite ?alt_iff; try tauto;
    split; auto; intros [H|H]; auto; exfalso; exact (nul_empty _ H).
Qed.

(** A non-empty word of a starred language starts with a non-empty word of
    the language itself. *)
Lemma star_cons_inv (r : re) (w : string) :
  Lang (Star r) w -> forall a s, w = String a s ->
  exists s1 s2, s = s1 ++ s2 /\ Lang r (String a s1) /\ Lang (Star r) s2.
Proof.
  intros H. remember (Star r) as q eqn:Eq. revert r Eq.
  induction H as [| | | | | r0 | r0 s1 s2 H1 _ H2 IH2]; intros r Eq; try discriminate.
  injection Eq as ->. intros a s E.
  destruct s1 as [|b s1'].
  - simpl in E. apply (IH2 r eq_refl a s E).
  - simpl in E. injection E as -> <-.
    exists s1', s2. auto.
Qed.

Lemma deriv_iff (a : ascii) (r : re) : forall s, Lang (deriv a r) s <-> Lang r (String a s).
Proof.
  induction r as [| | p | r1 IH1 r2 IH2 | r1 IH1 r2 IH2 | r1 IH1]; intros s; simpl.
  - split; inversion 1.
  - split; inversion 1.
  - destruct (p a) eqn:Hp.
    + split.
      * inversion 1; subst. now constructor.
      * inversion 1; subst. constructor.
    + split; [inversion 1 | inversion 1; subst; congruence].
  - assert (Hcat : Lang (Cat (deriv a r1) r2) s <->
                   exists s1 s2, s = s1 ++ s2 /\ Lang r1 (String a s1) /\ Lang r2 s2).
    { split.
      - inversion 1 as [| |? ? s1 s2 H1 H2| | | |]; subst.
        exists s1, s2. rewrite <- IH1. auto.
      - intros (s1 & s2 & -> & H1 & H2). constructor; [now apply IH1 | assumption]. }
    assert (Hsplit : Lang (Cat r1 r2) (String a s) <->
                     (exists s1 s2, s = s1 ++ s2 /\ Lang r1 (String a s1) /\ Lang r2 s2)
                     \/ (Lang r1 "" /\ Lang r2 (String a s))).
    { split.
      - intros H. inversion H as [| |? ? s1 s2 H1 H2 [E1 E2] E| | | |]; subst.
        destruct s1 as [|b s1']; simpl in E.
        + right. subst. auto.
        + injection E as -> <-. left. exists s1', s2. auto.
      - intros [(s1 & s2 & -> & H1 & H2) | [H1 H2]].
        + change (String a (s1 ++ s2)) with (String a s1 ++ s2). now constructor.
        + change (String a s) with ("" ++ String a s). now constructor. }
    rewrite Hsplit. destruct (nullable r1) eqn:Hn.
    + rewrite mkAlt_iff. split.
      * inversion 1; subst.
        -- left. apply Hcat. now apply mkCat_iff.
        -- right. split; [now apply nullable_iff | now apply IH2].
      * intros [H | [_ H]].
        -- apply LAltL, mkCat_iff, Hcat, H.
        -- apply LAltR, IH2, H.
    + rewrite mkCat_iff, Hcat. split; [auto |].
      intros [H | [H _]]; [assumption |].
      apply nullable_iff in H. congruence.
  - rewrite mkAlt_iff. split.
    + inversion 1; subst; [apply LAltL, IH1 | apply LAltR, IH2]; assumption.
    + inversion 1; subst; [apply LAltL, IH1 | apply LAltR, IH2]; assumption.
  - rewrite mkCat_iff. split.
    + inversion 1 as [| |? ? s1 s2 H1 H2| | | |]; subst.
      change (String a (s1 ++ s2)) with (String a s1 ++ s2).
      apply LStarS; [now apply IH1 | assumption].
    + intros H. destruct (star_cons_inv _ _ H a s eq_refl) as (s1 & s2 & -> & H1 & H2).
      constructor; [now apply IH1 | assumption].
Qed.

Theorem matches_iff (r : re) (s : string) : matches r s = true <-> Lang r s.
Proof.
  revert r. induction s as [|a s IH]; intros r; simpl.
  - apply nullable_iff.
  - rewrite IH. apply deriv_iff.
Qed.

End ReFacts.

(* ====================================================================== *)
(** * Facts about the chunker *)
(* ====================================================================== *)

Module IngestFacts.
Import PyStr Json Ingest.

(** A chunk with its timestamp erased: what two runs are compared on. *)
Definition forget_time (c : chunk) : chunk :=
  {| chunk_id := chunk_id c;
     chunk_text := chunk_text c;
     meta_course_code := meta_course_code c;
     meta_course_name := meta_course_name c;
     meta_chunk_type := meta_chunk_type c;
     meta_chunk_label := meta_chunk_label c;
     meta_source_url := meta_source_url c;
     meta_ingested_at := "" |}.

Definition id_and_text (c : chunk) : string * string := (chunk_id c, chunk_text c).

(** The chunk types the chunker can give. *)
Definition chunk_types : list string :=
  (map fst chunkable_fields ++ ["learning_outcomes"; "course_info"])%list.

Section Loop.

Variable course_data : dict.
Variables course_code course_name : string.
Variable source_url : value.
Variable unique_id : string.

(** ** Two runs that differ in the clock only *)

Definition same_but_time (st st' : loop_state) : Prop :=
  map forget_time (fst st) = map forget_time (fst st') /\ snd st = snd st'.

Definition same_outcome (r r' : result loop_state) : Prop :=
  match r, r' with
  | Ok st, Ok st' => same_but_time st st'
  | Raise e, Raise e' => e = e'
  | _, _ => False
  end.

Variables t1 t2 : string.

Let emit1 := emit course_code course_name source_url t1 unique_id.
Let emit2 := emit course_code course_name source_url t2 unique_id.

Lemma emit_same (st st' : loop_state) (ty label text : string) :
  same_but_time st st' -> same_but_time (emit1 st ty label text) (emit2 st' ty label text).
Proof.
  destruct st as [cs n], st' as [cs' n']. unfold same_but_time; simpl.
  intros [Hcs Hn]. subst n'. split; [| reflexivity].
  rewrite !map_app, Hcs. reflexivity.
Qed.

Lemma chunk_fields_same (fields : list (string * string)) :
  forall st st', same_but_time st st' ->
  same_outcome
    (chunk_fields course_data course_code course_name source_url t1 unique_id fields st)
    (chunk_fields course_data course_code course_name source_url t2 unique_id fields st').
Proof.
  induction fields as [|[field label] rest IH]; intros st st' Hst; simpl.
  - exact Hst.
  - destruct (field_text (get course_data field VNone)) as [[text|]|e]; simpl.
    + apply IH, emit_same, Hst.
    + apply IH, Hst.
    + reflexivity.
Qed.

Lemma chunk_learning_outcomes_same (st st' : loop_state) :
  same_but_time st st' ->
  same_outcome
    (chunk_learning_outcomes course_data course_code course_name source_url t1 unique_id st)
    (chunk_learning_outcomes course_data course_code course_name source_url t2 unique_id st').
Proof.
  intros Hst. unfold chunk_learning_outcomes.
  destruct (get course_data "learning_outcomes" (VList [])) as [| | | |[|item items]|];
    try exact Hst.
  destruct (filter_mapM numbered_line (item :: items)) as [lines|e]; simpl; [| reflexivity].
  destruct (is_empty (join nl lines)); [exact Hst | apply emit_same, Hst].
Qed.

Lemma chunk_course_info_same (st st' : loop_state) :
  same_but_time st st' ->
  same_outcome
    (chunk_course_info course_data course_code course_name source_url t1 unique_id st)
    (chunk_course_info course_data course_code course_name source_url t2 unique_id st').
Proof.
  intros Hst. unfold chunk_course_info.
  destruct (course_info_parts course_data course_code course_name) as [[|p ps]|e]; simpl.
  - exact Hst.
  - apply emit_same, Hst.
  - reflexivity.
Qed.

(** ** What every emitted chunk carries *)

(** The running index is the number of chunks so far, and the chunk at
    position [i] has the id made from the course code, its own type, [i]
    and the uniqueness token. *)
Definition indexed (st : loop_state) : Prop :=
  snd st = List.length (fst st) /\
  forall i c, nth_error (fst st) i = Some c ->
    chunk_id c = make_chunk_uuid course_code (meta_chunk_type c) i unique_id
    /\ meta_course_code c = course_code
    /\ In (meta_chunk_type c) chunk_types.

Lemma emit_indexed (st : loop_state) (ty label text : string) :
  In ty chunk_types -> indexed st -> indexed (emit1 st ty label text).
Proof.
  destruct st as [cs n]. unfold indexed; simpl. intros Hty [Hn Hcs]. subst n. split.
  - rewrite length_app. simpl. lia.
  - intros i c Hi.
    destruct (Nat.lt_ge_cases i (List.length cs)) as [Hlt|Hge].
    + rewrite nth_error_app1 in Hi by assumption. apply Hcs, Hi.
    + rewrite nth_error_app2 in Hi by assumption.
      destruct (i - List.length cs) as [|k] eqn:Hk; simpl in Hi.
      * injection Hi as <-. simpl.
        replace i with (List.length cs) by lia. auto.
      * destruct k; discriminate.
Qed.

Lemma chunk_fields_indexed (fields : list (string * string)) :
  incl (map fst fields) (map fst chunkable_fields) ->
  forall st st', indexed st ->
  chunk_fields course_data course_code course_name source_url t1 unique_id fields st = Ok st' ->
  indexed st'.
Proof.
  induction fields as [|[field label] rest IH]; intros Hincl st st' Hst; simpl.
  - now intros [= <-].
  - assert (Hrest : incl (map fst rest) (map fst chunkable_fields)).
    { intros x Hx. apply Hincl. now right. }
    assert (Hty : In field chunk_types).
    { apply in_or_app. left. apply Hincl. now left. }
    destruct (field_text (get course_data field VNone)) as [[text|]|e]; simpl.
    + apply (IH Hrest). now apply emit_indexed.
    + now apply (IH Hrest).
    + discriminate.
Qed.

Lemma chunk_learning_outcomes_indexed (st st' : loop_state) :
  indexed st ->
  chunk_learning_outcomes course_data course_code course_name source_url t1 unique_id st
  = Ok st' ->
  indexed st'.
Proof.
  intros Hst. unfold chunk_learning_outcomes.
  destruct (get course_data "learning_outcomes" (VList [])) as [| | | |[|item items]|];
    try (now intros [= <-]).
  destruct (filter_mapM numbered_line (item :: items)) as [lines|e]; simpl; [| discriminate].
  destruct (is_empty (join nl lines)); intros [= <-]; [assumption |].
  apply emit_indexed; [| assumption].
  apply in_or_app. right. now left.
Qed.

Lemma chunk_course_info_indexed (st st' : loop_state) :
  indexed st ->
  chunk_course_info course_data course_code course_name source_url t1 unique_id st = Ok st' ->
  indexed st'.
Proof.
  intros Hst. unfold chunk_course_info.
  destruct (course_info_parts course_data course_code course_name) as [[|p ps]|e]; simpl;
    try discriminate; intros [= <-]; [assumption |].
  apply emit_indexed; [| assumption].
  apply in_or_app. right. right. now left.
Qed.

End Loop.

Lemma same_outcome_bind (r r' : result loop_state) (k k' : loop_state -> result loop_state) :
  same_outcome r r' ->
  (forall st st', same_but_time st st' -> same_outcome (k st) (k' st')) ->
  same_outcome (st <- r ;; k st) (st <- r' ;; k' st).
Proof.
  destruct r as [st|e], r' as [st'|e']; simpl; try tauto.
  intros H Hk. now apply Hk.
Qed.

(** The three passes of [create_chunks_from_course], from the empty list. *)
Definition passes (course_data : dict) (course_code course_name : string)
    (source_url : value) (ingested_at unique_id : string) : result loop_state :=
  st <- chunk_fields course_data course_code course_name source_url ingested_at unique_id
          chunkable_fields ([], 0) ;;
  st <- chunk_learning_outcomes course_data course_code course_name source_url
          ingested_at unique_id st ;;
  chunk_course_info course_data course_code course_name source_url ingested_at unique_id st.

Lemma create_chunks_unfold (course_data : dict) (filename now : string) :
  create_chunks_from_course course_data filename now =
  (course_code <- get_course_code course_data filename ;;
   course_name <- attr_strip (get course_data "course_name" (VStr "")) ;;
   source_url <- attr_get (get course_data "metadata" (VDict [])) "source_url" (VStr "") ;;
   st <- passes course_data course_code (fix_course_name course_name filename) source_url
           (now ++ "Z") (path_stem filename) ;;
   Ok (fst st)).
Proof.
  unfold create_chunks_from_course, passes.
  destruct (get_course_code course_data filename) as [code|e]; cbn [bind]; [| reflexivity].
  destruct (attr_strip (get course_data "course_name" (VStr ""))) as [name|e]; cbn [bind];
    [| reflexivity].
  destruct (attr_get (get course_data "metadata" (VDict [])) "source_url" (VStr ""))
    as [url|e]; cbn [bind]; [| reflexivity].
  destruct (chunk_fields course_data code (fix_course_name name filename) url (now ++ "Z")
              (path_stem filename) chunkable_fields ([], 0)) as [st|e]; cbn [bind];
    [| reflexivity].
  destruct (chunk_learning_outcomes course_data code (fix_course_name name filename) url
              (now ++ "Z") (path_stem filename) st) as [st'|e]; cbn [bind]; reflexivity.
Qed.

Lemma passes_same (course_data : dict) (code name : string) (url : value)
    (uid t1 t2 : string) :
  same_outcome (passes course_data code name url t1 uid) (passes course_data code name url t2 uid).
Proof.
  unfold passes.
  apply same_outcome_bind.
  { apply chunk_fields_same. split; reflexivity. }
  intros st st' Hst. apply same_outcome_bind.
  { now apply chunk_learning_outcomes_same. }
  intros st0 st0' Hst0. now apply chunk_course_info_same.
Qed.

Lemma passes_indexed (course_data : dict) (code name : string) (url : value)
    (uid t : string) (st : loop_state) :
  passes course_data code name url t uid = Ok st -> indexed code uid st.
Proof.
  unfold passes. intros H.
  apply bind_Ok_inv in H as (st1 & H1 & H).
  apply bind_Ok_inv in H as (st2 & H2 & H3).
  apply chunk_fields_indexed in H1.
  - apply chunk_learning_outcomes_indexed in H2; [| assumption].
    now apply chunk_course_info_indexed in H3.
  - apply incl_refl.
  - split; [reflexivity |]. intros [|i] c; discriminate.
Qed.

(** What [create_chunks_from_course] returns, spelled out. *)
Lemma create_chunks_Ok_inv (course_data : dict) (filename now : string) (chunks : list chunk) :
  create_chunks_from_course course_data filename now = Ok chunks ->
  exists code name url n,
    get_course_code course_data filename = Ok code
    /\ attr_strip (get course_data "course_name" (VStr "")) = Ok name
    /\ attr_get (get course_data "metadata" (VDict [])) "source_url" (VStr "") = Ok url
    /\ passes course_data code (fix_course_name name filename) url (now ++ "Z")
         (path_stem filename) = Ok (chunks, n).
Proof.
  rewrite create_chunks_unfold. intros H.
  apply bind_Ok_inv in H as (code & Hcode & H).
  apply bind_Ok_inv in H as (name & Hname & H).
  apply bind_Ok_inv in H as (url & Hurl & H).
  apply bind_Ok_inv in H as ([cs n] & Hp & H).
  injection H as <-. exists code, name, url, n. auto.
Qed.

(** A record as the crawler writes them, and the chunks it gives. *)
Definition sample_record : dict :=
  [ ("course_code", VStr "C10302");
    ("course_name", VStr "Bachelor of Sport and Exercise Science");
    ("credit_points", VStr "144");
    ("overview", VStr "This course gives students a broad grounding in sport science.");
    ("notes", VStr "See the faculty page.");
    ("learning_outcomes",
      VList [VDict [("number", VStr "1"); ("text", VStr "Apply exercise science.")]]);
    ("metadata",
      VDict [("source_url", VStr "https://handbook.uts.edu.au/courses/c10302.html")]) ].

Definition sample_filename : string := "Bachelor_of_Sport_and_Exercise_Science_C10302.json".

Example sample_chunks :
  result_map (map (fun c => (meta_chunk_type c, chunk_id c)))
    (create_chunks_from_course sample_record sample_filename "2025-11-10T00:00:00")
  = Ok [ ("overview", "b34807cf-4d27-51f9-a5ee-3c36deec35f7");
         ("learning_outcomes", "5870a98f-2844-5402-ab74-e80c3f3195eb");
         ("course_info", "302d62c3-a4b8-57f1-84a8-6034829f57e9") ].
Proof. vm_compute. reflexivity. Qed.

(** C1. Chunking a record twice, at two different times, raises the same
    exception or gives the same chunks in the same order up to the
    [ingested_at] field, in particular the same ids and the same texts; and
    the id of the chunk at position [i] is made from the resolved course
    code, the type of the chunk, [i] and the stem of the file name. *)
Theorem chunking_is_deterministic (course_data : dict) (filename now1 now2 : string) :
  result_map (map forget_time) (create_chunks_from_course course_data filename now1)
  = result_map (map forget_time) (create_chunks_from_course course_data filename now2)
  /\ result_map (map id_and_text) (create_chunks_from_course course_data filename now1)
     = result_map (map id_and_text) (create_chunks_from_course course_data filename now2)
  /\ (forall chunks,
        create_chunks_from_course course_data filename now1 = Ok chunks ->
        exists code,
          get_course_code course_data filename = Ok code
          /\ forall i c, nth_error chunks i = Some c ->
               chunk_id c
               = make_chunk_uuid code (meta_chunk_type c) i (path_stem filename)).
Proof.
  assert (Hsame : result_map (map forget_time)
                    (create_chunks_from_course course_data filename now1)
                  = result_map (map forget_time)
                      (create_chunks_from_course course_data filename now2)).
  { rewrite !create_chunks_unfold.
    destruct (get_course_code course_data filename) as [code|e]; cbn [bind]; [| reflexivity].
    destruct (attr_strip (get course_data "course_name" (VStr ""))) as [name|e];
      cbn [bind]; [| reflexivity].
    destruct (attr_get (get course_data "metadata" (VDict [])) "source_url" (VStr ""))
      as [url|e]; cbn [bind]; [| reflexivity].
    pose proof (passes_same course_data code (fix_course_name name filename) url
                  (path_stem filename) (now1 ++ "Z") (now2 ++ "Z")) as H.
    destruct (passes course_data code (fix_course_name name filename) url (now1 ++ "Z")
                (path_stem filename)) as [st|e];
      destruct (passes course_data code (fix_course_name name filename) url (now2 ++ "Z")
                  (path_stem filename)) as [st'|e']; simpl in H; try contradiction; simpl.
    - destruct H as [H _]. now rewrite H.
    - now subst. }
  split; [exact Hsame |]. split.
  - destruct (create_chunks_from_course course_data filename now1) as [cs|e],
             (create_chunks_from_course course_data filename now2) as [cs'|e'];
      simpl in *; try discriminate.
    + injection Hsame as Hsame. f_equal.
      assert (E : forall l, map id_and_text l = map id_and_text (map forget_time l)).
      { intros l. rewrite map_map. apply map_ext. intros c. reflexivity. }
      rewrite (E cs), (E cs'), Hsame. reflexivity.
    + injection Hsame as ->. reflexivity.
  - intros chunks H.
    apply create_chunks_Ok_inv in H as (code & name & url & n & Hcode & _ & _ & Hp).
    exists code. split; [assumption |].
    intros i c Hi. apply passes_indexed in Hp. destruct Hp as [_ Hp].
    apply (Hp i c Hi).
Qed.

Lemma chunking_is_deterministic_witness :
  exists chunks c,
    create_chunks_from_course sample_record sample_filename "2025-11-10T00:00:00" = Ok chunks
    /\ nth_error chunks 1 = Some c
    /\ chunk_id c
       = make_chunk_uuid "C10302" "learning_outcomes" 1
           "Bachelor_of_Sport_and_Exercise_Science_C10302".
Proof.
  destruct (create_chunks_from_course sample_record sample_filename "2025-11-10T00:00:00")
    as [chunks|e] eqn:Hrun; [| vm_compute in Hrun; discriminate].
  destruct (chunking_is_deterministic sample_record sample_filename
              "2025-11-10T00:00:00" "2026-01-01T12:30:00") as (_ & _ & Hid).
  destruct (Hid chunks Hrun) as (code & Hcode & Hc).
  assert (code = "C10302") by (vm_compute in Hcode; congruence). subst code.
  destruct (nth_error chunks 1) as [c|] eqn:Hnth;
    [| vm_compute in Hrun; injection Hrun as <-; discriminate].
  exists chunks, c. split; [reflexivity |]. split; [assumption |].
  rewrite (Hc 1 c Hnth).
  assert (Hty : meta_chunk_type c = "learning_outcomes").
  { vm_compute in Hrun. injection Hrun as <-. injection Hnth as <-. reflexivity. }
  rewrite Hty. reflexivity.
Defined.

End IngestFacts.

(* ====================================================================== *)
(** * The composite key of a chunk id *)
(* ====================================================================== *)

Module KeyFacts.
Import PyStr Json Ingest IngestFacts.

Definition bar : ascii := "|"%char.

Definition no_bar (s : string) : bool := PyStr.forallb (fun a => negb (a =? bar)%char) s.

Lemma append_inv_head (s a b : string) : s ++ a = s ++ b -> a = b.
Proof.
  induction s as [|c s IH]; simpl; [auto |]. intros [= H]. auto.
Qed.

(** Two texts cut at their first bar agree piece by piece. *)
Lemma split_at_bar (a b x y : string) :
  no_bar a = true -> no_bar b = true ->
  a ++ String bar x = b ++ String bar y -> a = b /\ x = y.
Proof.
  revert b. induction a as [|c a IH]; intros [|d b]; simpl.
  - intros _ _ [= ->]. auto.
  - intros _ Hb [= <- _]. discriminate.
  - intros Ha _ [= -> _]. discriminate.
  - intros Ha Hb [= -> E].
    apply andb_true_iff in Ha as [_ Ha]. apply andb_true_iff in Hb as [_ Hb].
    destruct (IH b Ha Hb E) as [-> ->]. auto.
Qed.

Lemma string_of_uint_no_bar (d : Decimal.uint) : no_bar (NilEmpty.string_of_uint d) = true.
Proof. induction d; simpl; auto. Qed.

Lemma str_nat_no_bar (n : nat) : no_bar (str_nat n) = true.
Proof. apply string_of_uint_no_bar. Qed.

Lemma str_nat_inj (n m : nat) : str_nat n = str_nat m -> n = m.
Proof.
  unfold str_nat. intros H.
  apply (f_equal NilEmpty.uint_of_string) in H.
  rewrite !NilEmpty.usu in H. injection H as H.
  apply (f_equal Nat.of_uint) in H.
  now rewrite !DecimalNat.Unsigned.of_to in H.
Qed.

Lemma chunk_types_no_bar (ty : string) : In ty chunk_types -> no_bar ty = true.
Proof.
  unfold chunk_types. simpl.
  intros H. repeat (destruct H as [<- | H]; [reflexivity |]). contradiction.
Qed.

(** For one course code, the key determines the chunk type, the index and
    the uniqueness token. *)
Lemma make_chunk_key_inj (code ty ty' : string) (i i' : nat) (u u' : string) :
  no_bar ty = true -> no_bar ty' = true ->
  make_chunk_key code ty i u = make_chunk_key code ty' i' u' ->
  ty = ty' /\ i = i' /\ u = u'.
Proof.
  intros Hty Hty'. unfold make_chunk_key. intros H.
  apply (append_inv_head "course|") in H.
  apply (append_inv_head code) in H.
  apply (append_inv_head "|type:") in H.
  apply (split_at_bar ty ty' ("chunk:" ++ str_nat i ++ "|unique:" ++ u)
           ("chunk:" ++ str_nat i' ++ "|unique:" ++ u') Hty Hty') in H as [-> H].
  apply (append_inv_head "chunk:") in H.
  apply (split_at_bar (str_nat i) (str_nat i') ("unique:" ++ u) ("unique:" ++ u')
           (str_nat_no_bar i) (str_nat_no_bar i')) in H as [Hi H].
  apply (append_inv_head "unique:") in H.
  apply str_nat_inj in Hi. auto.
Qed.

(** The keys of the chunks of one record, from index [i] on. *)
Fixpoint keys_from (code uid : string) (i : nat) (chunks : list chunk) : list string :=
  match chunks with
  | [] => []
  | c :: cs => make_chunk_key code (meta_chunk_type c) i uid :: keys_from code uid (S i) cs
  end.

Definition chunk_keys (code uid : string) (chunks : list chunk) : list string :=
  keys_from code uid 0 chunks.

Definition typed (c : chunk) : Prop := In (meta_chunk_type c) chunk_types.

Lemma keys_from_In (code uid : string) (chunks : list chunk) :
  Forall typed chunks ->
  forall i k, In k (keys_from code uid i chunks) ->
  exists j ty, i <= j /\ no_bar ty = true /\ k = make_chunk_key code ty j uid.
Proof.
  induction 1 as [|c cs Hc _ IH]; intros i k; simpl; [contradiction |].
  intros [<- | Hk].
  - exists i, (meta_chunk_type c). split; [lia |]. split; [| reflexivity].
    now apply chunk_types_no_bar.
  - destruct (IH (S i) k Hk) as (j & ty & Hj & Hty & ->).
    exists j, ty. split; [lia | auto].
Qed.

Lemma keys_from_NoDup (code uid : string) (chunks : list chunk) :
  Forall typed chunks -> forall i, NoDup (keys_from code uid i chunks).
Proof.
  induction 1 as [|c cs Hc Hcs IH]; intros i; simpl; constructor.
  - intros Hin. destruct (keys_from_In code uid cs Hcs (S i) _ Hin) as (j & ty & Hj & Hty & E).
    apply make_chunk_key_inj in E as (_ & E & _); [lia | | assumption].
    now apply chunk_types_no_bar.
  - apply IH.
Qed.

Lemma keys_from_ids (code uid : string) (chunks : list chunk) :
  forall i,
  (forall j c, nth_error chunks j = Some c ->
     chunk_id c = make_chunk_uuid code (meta_chunk_type c) (i + j) uid) ->
  map chunk_id chunks = map Uuid.uuid5_url (keys_from code uid i chunks).
Proof.
  induction chunks as [|c cs IH]; intros i H; simpl; [reflexivity |].
  f_equal.
  - rewrite (H 0 c eq_refl). rewrite Nat.add_0_r. reflexivity.
  - apply IH. intros j c' Hj. rewrite (H (S j) c' Hj). f_equal. lia.
Qed.

(** The chunks a run returns are typed and carry the ids of their keys. *)
Lemma run_keys (course_data : dict) (filename now code : string) (chunks : list chunk) :
  create_chunks_from_course course_data filename now = Ok chunks ->
  get_course_code course_data filename = Ok code ->
  Forall typed chunks
  /\ map chunk_id chunks = map Uuid.uuid5_url (chunk_keys code (path_stem filename) chunks).
Proof.
  intros Hrun Hcode.
  apply create_chunks_Ok_inv in Hrun as (code' & name & url & n & Hcode' & _ & _ & Hp).
  assert (code' = code) by congruence. subst code'.
  apply passes_indexed in Hp. destruct Hp as [_ Hp]. simpl in Hp. split.
  - apply Forall_forall. intros c Hc.
    apply In_nth_error in Hc as [i Hi]. now apply (Hp i c Hi).
  - apply keys_from_ids. intros j c Hj. simpl. now apply (Hp j c Hj).
Qed.

(** UUIDv5 truncates a SHA-1 digest and is therefore not injective; ids are
    told apart as long as it does not collide on the keys at hand. *)
Definition collision_free (keys : list string) : Prop :=
  ForallPairs (fun k k' => Uuid.uuid5_url k = Uuid.uuid5_url k' -> k = k') keys.

(** C2, as the code has it. Two records resolved to the same course code
    and chunked under file names with different stems (the uniqueness token
    of the code is [Path(filename).stem]) have pairwise different composite
    keys, across the two records and within each of them; the chunk ids are
    the UUIDv5 of these keys, and so are pairwise different whenever UUIDv5
    does not collide on these keys. *)
Theorem chunk_ids_distinct (cd1 cd2 : dict) (f1 f2 now1 now2 code : string)
    (chunks1 chunks2 : list chunk) :
  create_chunks_from_course cd1 f1 now1 = Ok chunks1 ->
  create_chunks_from_course cd2 f2 now2 = Ok chunks2 ->
  get_course_code cd1 f1 = Ok code ->
  get_course_code cd2 f2 = Ok code ->
  path_stem f1 <> path_stem f2 ->
  let keys := (chunk_keys code (path_stem f1) chunks1
               ++ chunk_keys code (path_stem f2) chunks2)%list in
  NoDup keys
  /\ (map chunk_id chunks1 ++ map chunk_id chunks2)%list = map Uuid.uuid5_url keys
  /\ (collision_free keys -> NoDup (map chunk_id chunks1 ++ map chunk_id chunks2)).
Proof.
  intros Hrun1 Hrun2 Hcode1 Hcode2 Hstem keys.
  destruct (run_keys _ _ _ _ _ Hrun1 Hcode1) as [Hty1 Hids1].
  destruct (run_keys _ _ _ _ _ Hrun2 Hcode2) as [Hty2 Hids2].
  assert (Hnodup : NoDup keys).
  { apply NoDup_app.
    - now apply keys_from_NoDup.
    - now apply keys_from_NoDup.
    - intros k Hk1 Hk2.
      destruct (keys_from_In _ _ _ Hty1 _ _ Hk1) as (j1 & ty1 & _ & Hb1 & ->).
      destruct (keys_from_In _ _ _ Hty2 _ _ Hk2) as (j2 & ty2 & _ & Hb2 & E).
      apply make_chunk_key_inj in E as (_ & _ & E); auto. }
  assert (Hids : (map chunk_id chunks1 ++ map chunk_id chunks2)%list
                 = map Uuid.uuid5_url keys).
  { unfold keys. rewrite map_app, Hids1, Hids2. reflexivity. }
  split; [exact Hnodup |]. split; [exact Hids |].
  intros Hfree. rewrite Hids. now apply NoDup_map_NoDup_ForallPairs.
Qed.

Definition ids_of (run : result (list chunk)) : list string :=
  match run with
  | Ok chunks => map chunk_id chunks
  | Raise _ => []
  end.

(** A second record of the same course, kept in a file of its own. *)
Definition honours_record : dict :=
  [ ("course_code", VStr "c10302");
    ("course_name", VStr "Bachelor of Sport and Exercise Science (Honours)") ].

Definition honours_filename : string := "Bachelor_of_Sport_Honours_C10302.json".

Lemma chunk_ids_distinct_witness :
  NoDup (ids_of (create_chunks_from_course sample_record sample_filename "2025-11-10T00:00:00")
         ++ ids_of (create_chunks_from_course honours_record honours_filename
                      "2025-11-10T00:00:05"))%list.
Proof.
  destruct (create_chunks_from_course sample_record sample_filename "2025-11-10T00:00:00")
    as [chunks1|e] eqn:H1; [| vm_compute in H1; discriminate].
  destruct (create_chunks_from_course honours_record honours_filename "2025-11-10T00:00:05")
    as [chunks2|e] eqn:H2; [| vm_compute in H2; discriminate].
  assert (Hcode1 : get_course_code sample_record sample_filename = Ok "C10302")
    by (vm_compute; reflexivity).
  assert (Hcode2 : get_course_code honours_record honours_filename = Ok "C10302")
    by (vm_compute; reflexivity).
  assert (Hstem : path_stem sample_filename <> path_stem honours_filename)
    by (vm_compute; discriminate).
  destruct (chunk_ids_distinct _ _ _ _ _ _ _ _ _ H1 H2 Hcode1 Hcode2 Hstem) as (_ & _ & Hids).
  apply Hids.
  vm_compute in H1. injection H1 as <-. vm_compute in H2. injection H2 as <-.
  intros k k' Hk Hk' E. simpl in Hk, Hk'.
  repeat (destruct Hk as [<- | Hk]; [| try contradiction]);
    repeat (destruct Hk' as [<- | Hk']; [| try contradiction]);
    first [reflexivity | vm_compute in E; discriminate].
Defined.

(** C2 as stated fails: two different records of course C10302, read from
    two different file names, get the same chunk id, because both names have
    the same stem.  The first pair of names differs in the directory, the
    second pair is what [glob("*.json")] can give in one directory. *)
Lemma same_stem_same_id :
  let r1 := [("course_code", VStr "C10302"); ("course_name", VStr "Bachelor of Sport")] in
  let r2 := [("course_code", VStr "C10302"); ("course_name", VStr "Bachelor of Science")] in
  r1 <> r2
  /\ (forall f, In f ["2024/C10302.json"; "2025/C10302.json"; ".json"; ".json.json"] ->
        get_course_code r1 f = Ok "C10302" /\ get_course_code r2 f = Ok "C10302")
  /\ "2024/C10302.json" <> "2025/C10302.json"
  /\ ids_of (create_chunks_from_course r1 "2024/C10302.json" "2025-11-10T00:00:00")
     = ["571440a6-1ca7-5e0e-8add-79ea75933ade"]
  /\ ids_of (create_chunks_from_course r2 "2025/C10302.json" "2025-11-10T00:00:00")
     = ["571440a6-1ca7-5e0e-8add-79ea75933ade"]
  /\ ".json" <> ".json.json"
  /\ ids_of (create_chunks_from_course r1 ".json" "2025-11-10T00:00:00")
     = ["93323a72-b7c1-53d7-b4ef-4c028a8e182f"]
  /\ ids_of (create_chunks_from_course r2 ".json.json" "2025-11-10T00:00:00")
     = ["93323a72-b7c1-53d7-b4ef-4c028a8e182f"].
Proof.
  cbv zeta. split; [discriminate |]. split.
  - intros f Hf. simpl in Hf.
    repeat (destruct Hf as [<- | Hf]; [split; vm_compute; reflexivity |]). contradiction.
  - repeat split; try discriminate; vm_compute; reflexivity.
Qed.

End KeyFacts.

(* ====================================================================== *)
(** * Records on which the chunker returns *)
(* ====================================================================== *)

Module TypedRecords.
Import PyStr Json Ingest IngestFacts.

Definition is_str (v : value) : bool :=
  match v with VStr _ => true | _ => false end.

Definition is_dict (v : value) : bool :=
  match v with VDict _ => true | _ => false end.

Definition str_or_absent (v : option value) : bool :=
  match v with
  | None => true
  | Some v => is_str v
  end.

(** The metadata is absent or a dict whose source URL is absent, falsy or a
    string. *)
Definition metadata_ok (course_data : dict) : bool :=
  match lookup course_data "metadata" with
  | None => true
  | Some (VDict metadata) =>
      match lookup metadata "source_url" with
      | None => true
      | Some u => is_str u || negb (truthy u)
      end
  | Some _ => false
  end.

(** A list that starts with a dict holds dicts only. *)
Definition formattable (v : value) : bool :=
  match v with
  | VList ((VDict _ :: _) as items) => List.forallb is_dict items
  | _ => true
  end.

(** A value that [", ".join] accepts, when it is truthy. *)
Definition joinable (v : value) : bool :=
  negb (truthy v)
  || match v with
     | VList l => List.forallb is_str l
     | VStr _ | VDict _ => true
     | _ => false
     end.

(** The fields the chunker reads have the types it relies on. *)
Definition well_typed (course_data : dict) : bool :=
  str_or_absent (lookup course_data "course_code")
  && str_or_absent (lookup course_data "course_name")
  && metadata_ok course_data
  && List.forallb (fun fl => formattable (get course_data (fst fl) VNone)) chunkable_fields
  && match get course_data "learning_outcomes" (VList []) with
     | VList items => List.forallb is_dict items
     | _ => true
     end
  && joinable (get course_data "faculty" VNone)
  && joinable (get course_data "location" VNone)
  && joinable (get course_data "awards" VNone).

Lemma str_or_absent_strip (course_data : dict) (key default : string) :
  str_or_absent (lookup course_data key) = true ->
  exists s, attr_strip (get course_data key (VStr default)) = Ok s.
Proof.
  unfold get. destruct (lookup course_data key) as [[| | |s| |]|]; simpl;
    try discriminate; eauto.
Qed.

Lemma metadata_ok_url (course_data : dict) :
  metadata_ok course_data = true ->
  exists u, attr_get (get course_data "metadata" (VDict [])) "source_url" (VStr "") = Ok u
            /\ exists code, extract_course_code_from_url u = Ok code.
Proof.
  unfold metadata_ok, get.
  destruct (lookup course_data "metadata") as [[| | | | |md]|]; simpl; try discriminate.
  - unfold get. destruct (lookup md "source_url") as [u|]; intros H.
    + exists u. split; [reflexivity |]. unfold extract_course_code_from_url.
      destruct (truthy u); simpl; [| eauto].
      cbn [negb] in H. rewrite orb_false_r in H. destruct u; try discriminate. eauto.
    + exists (VStr ""). split; [reflexivity |]. exists None. reflexivity.
  - intros _. exists (VStr ""). split; [reflexivity |]. exists None. reflexivity.
Qed.

Lemma get_course_code_returns (course_data : dict) (filename : string) :
  str_or_absent (lookup course_data "course_code") = true ->
  metadata_ok course_data = true ->
  exists code, get_course_code course_data filename = Ok code.
Proof.
  intros Hc Hm. unfold get_course_code.
  destruct (str_or_absent_strip course_data "course_code" "" Hc) as [c ->]. cbn [bind].
  destruct (negb (is_empty c) && is_course_code c); [eauto |].
  destruct (metadata_ok_url course_data Hm) as (u & Hu & code & Hcode).
  rewrite Hu. cbn [bind]. rewrite Hcode. cbn [bind].
  destruct code as [code|]; [eauto |].
  assert (Hf : exists o, extract_course_code_from_url (VStr filename) = Ok o).
  { unfold extract_course_code_from_url. destruct (negb (truthy (VStr filename))); eauto. }
  destruct Hf as [[code|] ->]; cbn [bind]; [eauto |].
  destruct (str_or_absent_strip course_data "course_code" "UNKNOWN" Hc) as [raw ->].
  cbn [bind]. eauto.
Qed.

Lemma numbered_lines_return (items : list value) :
  List.forallb is_dict items = true ->
  exists lines, filter_mapM numbered_line items = Ok lines.
Proof.
  induction items as [|item items IH]; simpl; [eauto |].
  rewrite andb_true_iff. intros [Hd Hrest].
  destruct item; try discriminate. unfold numbered_line at 1. simpl.
  destruct (IH Hrest) as [lines ->].
  destruct (truthy _); simpl; eauto.
Qed.

Lemma format_field_value_returns (v : value) :
  formattable v = true -> exists text, format_field_value v = Ok text.
Proof.
  destruct v as [| | | |[|x l]|]; try (intros _; simpl; eauto; fail).
  destruct x; try (intros _; simpl; eauto; fail).
  intros H. cbn [formattable] in H.
  destruct (numbered_lines_return _ H) as [lines Hl].
  cbn [format_field_value]. rewrite Hl. cbn [bind]. eauto.
Qed.

Lemma field_text_returns (v : value) :
  formattable v = true -> exists t, field_text v = Ok t.
Proof.
  intros H. unfold field_text. destruct (skipped_value v); [eauto |].
  destruct (format_field_value_returns v H) as [text ->]. cbn [bind].
  destruct (is_empty text || _); eauto.
Qed.

Lemma join_iterable_returns (sep : string) (v : value) :
  joinable v = true -> truthy v = true -> exists s, join_iterable sep v = Ok s.
Proof.
  unfold joinable. intros H Ht. rewrite Ht in H. simpl in H.
  destruct v as [| | | |l|]; simpl; try discriminate; eauto.
  clear Ht.
  assert (Hm : exists strs,
            mapM (fun x => match x with
                           | VStr s => Ok s
                           | _ => Raise (TypeError "sequence item: expected str instance")
                           end) l = Ok strs).
  { induction l as [|x l IH]; simpl; [eauto |].
    simpl in H. apply andb_true_iff in H as [Hx Hl].
    destruct x; try discriminate. destruct (IH Hl) as [strs ->]. simpl. eauto. }
  destruct Hm as [strs ->]. simpl. eauto.
Qed.

Lemma joined_part_returns (label : string) (v : value) :
  joinable v = true -> exists parts, joined_part label v = Ok parts.
Proof.
  intros H. unfold joined_part. destruct (truthy v) eqn:Ht; [| eauto].
  destruct (join_iterable_returns ", " v H Ht) as [s ->]. simpl. eauto.
Qed.

Section Run.

Variable course_data : dict.
Variables course_code course_name : string.
Variable source_url : value.
Variables ingested_at unique_id : string.

Lemma chunk_fields_returns (fields : list (string * string)) :
  List.forallb (fun fl => formattable (get course_data (fst fl) VNone)) fields = true ->
  forall st, exists st',
    chunk_fields course_data course_code course_name source_url ingested_at unique_id
      fields st = Ok st'.
Proof.
  induction fields as [|[field label] rest IH]; cbn [List.forallb chunk_fields fst];
    [eauto |].
  rewrite andb_true_iff. intros [Hf Hrest] st.
  destruct (field_text_returns _ Hf) as [[text|] ->]; cbn [bind]; apply (IH Hrest).
Qed.

Lemma chunk_learning_outcomes_returns (st : loop_state) :
  match get course_data "learning_outcomes" (VList []) with
  | VList items => List.forallb is_dict items
  | _ => true
  end = true ->
  exists st',
    chunk_learning_outcomes course_data course_code course_name source_url ingested_at
      unique_id st = Ok st'.
Proof.
  unfold chunk_learning_outcomes.
  destruct (get course_data "learning_outcomes" (VList [])) as [| | | |[|x l]|]; eauto.
  intros H. destruct (numbered_lines_return _ H) as [lines ->]. cbn [bind].
  destruct (is_empty _); eauto.
Qed.

Lemma chunk_course_info_returns (st : loop_state) :
  joinable (get course_data "faculty" VNone) = true ->
  joinable (get course_data "location" VNone) = true ->
  joinable (get course_data "awards" VNone) = true ->
  exists st',
    chunk_course_info course_data course_code course_name source_url ingested_at
      unique_id st = Ok st'.
Proof.
  intros Hf Hl Ha. unfold chunk_course_info, course_info_parts. cbv zeta.
  destruct (joined_part_returns "Faculty: " _ Hf) as [pf ->]. cbn [bind].
  destruct (joined_part_returns "Location: " _ Hl) as [pl ->]. cbn [bind].
  destruct (joined_part_returns "Awards: " _ Ha) as [pa ->]. cbn [bind].
  destruct (List.concat _); eauto.
Qed.

End Run.

(** On a record with well-typed fields the chunker raises nothing. *)
Lemma well_typed_returns (course_data : dict) (filename now : string) :
  well_typed course_data = true ->
  exists chunks, create_chunks_from_course course_data filename now = Ok chunks.
Proof.
  unfold well_typed. rewrite !andb_true_iff.
  intros [[[[[[[Hcode Hname] Hmeta] Hfields] Hlo] Hfac] Hloc] Haw].
  rewrite create_chunks_unfold.
  destruct (get_course_code_returns course_data filename Hcode Hmeta) as [code ->].
  cbn [bind].
  destruct (str_or_absent_strip course_data "course_name" "" Hname) as [name ->].
  cbn [bind].
  destruct (metadata_ok_url course_data Hmeta) as (u & -> & _). cbn [bind].
  unfold passes.
  destruct (chunk_fields_returns course_data code (fix_course_name name filename) u
              (now ++ "Z") (path_stem filename) chunkable_fields Hfields ([], 0))
    as [st1 ->]. cbn [bind].
  destruct (chunk_learning_outcomes_returns course_data code (fix_course_name name filename)
              u (now ++ "Z") (path_stem filename) st1 Hlo) as [st2 ->]. cbn [bind].
  destruct (chunk_course_info_returns course_data code (fix_course_name name filename) u
              (now ++ "Z") (path_stem filename) st2 Hfac Hloc Haw) as [st3 ->]. cbn [bind].
  eauto.
Qed.

End TypedRecords.

(* ====================================================================== *)
(** * The length threshold of the field chunker *)
(* ====================================================================== *)

Module ThresholdFacts.
Import PyStr Json Ingest IngestFacts.

(** The conditions under which a field value is kept: it is truthy, it is
    not the string "None", it is not a string of white space, and its
    formatted text, stripped, has at least 50 characters. *)
Definition retained (v : value) : Prop :=
  truthy v = true
  /\ v <> VStr "None"
  /\ (forall s, v = VStr s -> strip s <> "")
  /\ exists text, format_field_value v = Ok text /\ 50 <= String.length (strip text).

Lemma is_empty_true (s : string) : is_empty s = true <-> s = "".
Proof. destruct s; simpl; split; congruence. Qed.

Lemma eq_str_true (v : value) (s : string) : eq_str v s = true <-> v = VStr s.
Proof.
  destruct v; simpl; try (split; [discriminate | congruence]).
  rewrite String.eqb_eq. split; congruence.
Qed.

Lemma skipped_value_false (v : value) :
  skipped_value v = false <->
  truthy v = true /\ v <> VStr "None" /\ (forall s, v = VStr s -> strip s <> "").
Proof.
  unfold skipped_value. rewrite !orb_false_iff, negb_false_iff. split.
  - intros [[Ht Hn] Hs]. split; [assumption |]. split.
    + intros E. apply eq_str_true in E. congruence.
    + intros s -> E. apply is_empty_true in E. congruence.
  - intros (Ht & Hn & Hs). repeat split; [assumption | |].
    + destruct (eq_str v "None") eqn:E; [| reflexivity].
      apply eq_str_true in E. contradiction.
    + destruct v as [| | |s| |]; try reflexivity.
      destruct (is_empty (strip s)) eqn:E; [| reflexivity].
      apply is_empty_true in E. now elim (Hs s eq_refl).
Qed.

(** A value the first guard skips has a short formatted text anyway. *)
Lemma skipped_value_short (v : value) (text : string) :
  skipped_value v = true -> format_field_value v = Ok text ->
  String.length (strip text) < 50.
Proof.
  unfold skipped_value. rewrite !orb_true_iff, negb_true_iff.
  intros [[Ht | Hn] | Hs].
  - destruct v as [|[|]|z|s|[|x l]|[|kv d]]; simpl in Ht; try discriminate;
      try (intros [= <-]; simpl; lia).
    + apply negb_false_iff, Z.eqb_eq in Ht. subst z. intros [= <-]. simpl. lia.
    + apply negb_false_iff, is_empty_true in Ht. subst s. intros [= <-]. simpl. lia.
  - apply eq_str_true in Hn. subst v. intros [= <-]. simpl. lia.
  - destruct v as [| | |s| |]; try discriminate.
    apply is_empty_true in Hs. intros [= <-]. rewrite Hs. simpl. lia.
Qed.

Lemma field_text_Some (v : value) (text : string) :
  field_text v = Ok (Some text) <->
  skipped_value v = false /\ format_field_value v = Ok text
  /\ 50 <= String.length (strip text).
Proof.
  unfold field_text. destruct (skipped_value v).
  - split; [discriminate | intros [? _]; discriminate].
  - destruct (format_field_value v) as [t|e]; simpl.
    + destruct (is_empty t) eqn:Et; simpl.
      * apply is_empty_true in Et. subst t.
        split; [discriminate | intros (_ & [= <-] & H); simpl in H; lia].
      * destruct (Nat.ltb_spec (String.length (strip t)) 50).
        -- split; [discriminate | intros (_ & [= <-] & H'); lia].
        -- split; [intros [= <-]; auto | intros (_ & [= <-] & _); reflexivity].
    + split; [discriminate | intros (_ & ? & _); discriminate].
Qed.

(** The loop body keeps a field exactly when its formatted text reaches the
    threshold; the first guard never decides alone. *)
Lemma field_text_threshold (v : value) (text : string) :
  field_text v = Ok (Some text) <->
  format_field_value v = Ok text /\ 50 <= String.length (strip text).
Proof.
  rewrite field_text_Some. split; [tauto |].
  intros [Hf Hlen]. split; [| auto].
  destruct (skipped_value v) eqn:Hs; [| reflexivity].
  pose proof (skipped_value_short v text Hs Hf). lia.
Qed.

Lemma field_text_retained (v : value) :
  (exists text, field_text v = Ok (Some text)) <-> retained v.
Proof.
  unfold retained. split.
  - intros [text H]. apply field_text_Some in H as (Hs & Hf & Hlen).
    apply skipped_value_false in Hs as (Ht & Hn & Hw). eauto 6.
  - intros (Ht & Hn & Hw & text & Hf & Hlen). exists text.
    apply field_text_Some. split; [| auto]. apply skipped_value_false. auto.
Qed.

Section Run.

Variable course_data : dict.
Variables course_code course_name : string.
Variable source_url : value.
Variables ingested_at unique_id : string.

Lemma emit_app (st : loop_state) (ty label text : string) :
  exists c, fst (emit course_code course_name source_url ingested_at unique_id
                   st ty label text) = (fst st ++ [c])%list
            /\ meta_chunk_type c = ty /\ chunk_text c = text.
Proof.
  destruct st as [cs n]. simpl. eexists. split; [reflexivity |]. split; reflexivity.
Qed.

(** What the loop over the fields appends: one chunk for each field whose
    text is kept, labelled, and nothing else. *)
Lemma chunk_fields_appends (fields : list (string * string)) :
  forall st st',
  chunk_fields course_data course_code course_name source_url ingested_at unique_id
    fields st = Ok st' ->
  exists new,
    fst st' = (fst st ++ new)%list
    /\ (forall c, In c new ->
          exists label text,
            In (meta_chunk_type c, label) fields
            /\ field_text (get course_data (meta_chunk_type c) VNone) = Ok (Some text)
            /\ chunk_text c = label ++ ":" ++ nl ++ text)
    /\ (forall field label text,
          In (field, label) fields ->
          field_text (get course_data field VNone) = Ok (Some text) ->
          exists c, In c new /\ meta_chunk_type c = field).
Proof.
  induction fields as [|[field label] rest IH]; intros st st'; cbn [chunk_fields].
  - intros [= <-]. exists []. rewrite app_nil_r. split; [reflexivity |].
    split; [intros c [] | intros ? ? ? []].
  - destruct (field_text (get course_data field VNone)) as [[text|]|e] eqn:Hft; cbn [bind];
      [| | discriminate].
    + intros H. destruct (IH _ _ H) as (new & Hnew & Hall & Hex).
      destruct (emit_app st field label (label ++ ":" ++ nl ++ text)) as (c0 & Hc0 & Hty & Htx).
      rewrite Hc0, <- app_assoc in Hnew.
      exists ([c0] ++ new)%list. split; [exact Hnew |]. split.
      * intros c [<- | Hc].
        -- exists label, text. rewrite Hty. split; [now left |]. split; assumption.
        -- destruct (Hall c Hc) as (l & t & Hin & Hf & Ht).
           exists l, t. split; [now right | auto].
      * intros f l t [[= <- <-] | Hin] Hf.
        -- exists c0. split; [now left | assumption].
        -- destruct (Hex f l t Hin Hf) as (c & Hc & Hcty).
           exists c. split; [now right | assumption].
    + intros H. destruct (IH _ _ H) as (new & Hnew & Hall & Hex).
      exists new. split; [exact Hnew |]. split.
      * intros c Hc. destruct (Hall c Hc) as (l & t & Hin & Hf & Ht).
        exists l, t. split; [now right | auto].
      * intros f l t [[= <- <-] | Hin] Hf; [congruence |].
        apply (Hex f l t Hin Hf).
Qed.

Lemma chunk_learning_outcomes_appends (st st' : loop_state) :
  chunk_learning_outcomes course_data course_code course_name source_url ingested_at
    unique_id st = Ok st' ->
  exists new, fst st' = (fst st ++ new)%list
              /\ forall c, In c new -> meta_chunk_type c = "learning_outcomes".
Proof.
  assert (Hnone : exists new : list chunk,
            fst st = (fst st ++ new)%list
            /\ forall c, In c new -> meta_chunk_type c = "learning_outcomes").
  { exists []. rewrite app_nil_r. split; [reflexivity | intros c []]. }
  unfold chunk_learning_outcomes.
  destruct (get course_data "learning_outcomes" (VList [])) as [| | | |[|item items]|];
    try (intros [= <-]; exact Hnone).
  destruct (filter_mapM numbered_line (item :: items)) as [lines|e]; simpl; [| discriminate].
  destruct (is_empty (join nl lines)); intros [= <-]; [exact Hnone |].
  destruct (emit_app st "learning_outcomes" "Learning Outcomes"
              ("Learning Outcomes:" ++ nl ++ join nl lines)) as (c0 & Hc0 & Hty & _).
  exists [c0]. split; [exact Hc0 |]. intros c [<- | []]. exact Hty.
Qed.

Lemma chunk_course_info_appends (st st' : loop_state) :
  chunk_course_info course_data course_code course_name source_url ingested_at
    unique_id st = Ok st' ->
  exists new, fst st' = (fst st ++ new)%list
              /\ forall c, In c new -> meta_chunk_type c = "course_info".
Proof.
  unfold chunk_course_info.
  destruct (course_info_parts course_data course_code course_name) as [[|p ps]|e]; simpl;
    try discriminate; intros [= <-].
  - exists []. rewrite app_nil_r. split; [reflexivity | intros c []].
  - destruct (emit_app st "course_info" "Course Information" (join nl (p :: ps)))
      as (c0 & Hc0 & Hty & _).
    exists [c0]. split; [exact Hc0 |]. intros c [<- | []]. exact Hty.
Qed.

End Run.

Lemma field_name_not_aggregate (field label : string) :
  In (field, label) chunkable_fields ->
  field <> "learning_outcomes" /\ field <> "course_info".
Proof.
  simpl. intros H.
  repeat (destruct H as [[= <- <-] | H]; [split; discriminate |]). contradiction.
Qed.

(** [chunkable_fields[field]] *)
Fixpoint label_of (fields : list (string * string)) (field : string) : option string :=
  match fields with
  | [] => None
  | (f, l) :: rest => if (f =? field)%string then Some l else label_of rest field
  end.

Lemma chunkable_label (field label : string) :
  In (field, label) chunkable_fields -> label_of chunkable_fields field = Some label.
Proof.
  simpl. intros H.
  repeat (destruct H as [[= <- <-] | H]; [reflexivity |]). contradiction.
Qed.

Lemma chunkable_label_unique (field label label' : string) :
  In (field, label) chunkable_fields -> In (field, label') chunkable_fields -> label = label'.
Proof.
  intros H H'. apply chunkable_label in H, H'. congruence.
Qed.

(** The chunks of the fixed field list within a whole run. *)
Lemma run_field_chunks (course_data : dict) (filename now : string) (chunks : list chunk) :
  create_chunks_from_course course_data filename now = Ok chunks ->
  forall field label, In (field, label) chunkable_fields ->
  ((exists c, In c chunks /\ meta_chunk_type c = field)
   <-> exists text, field_text (get course_data field VNone) = Ok (Some text))
  /\ (forall c, In c chunks -> meta_chunk_type c = field ->
        exists text, field_text (get course_data field VNone) = Ok (Some text)
                     /\ chunk_text c = label ++ ":" ++ nl ++ text).
Proof.
  intros Hrun field label Hfield.
  apply create_chunks_Ok_inv in Hrun as (code & name & url & n & _ & _ & _ & Hp).
  unfold passes in Hp.
  apply bind_Ok_inv in Hp as (st1 & H1 & Hp).
  apply bind_Ok_inv in Hp as (st2 & H2 & H3).
  apply chunk_fields_appends in H1 as (new1 & E1 & Hall & Hex).
  apply chunk_learning_outcomes_appends in H2 as (new2 & E2 & Hlo).
  apply chunk_course_info_appends in H3 as (new3 & E3 & Hci).
  simpl in E1, E3. rewrite E2, E1 in E3. simpl in E3. subst chunks.
  destruct (field_name_not_aggregate field label Hfield) as [Hnlo Hnci].
  assert (Hin1 : forall c, In c ((new1 ++ new2) ++ new3)%list ->
                 meta_chunk_type c = field -> In c new1).
  { intros c Hc Hty. apply in_app_or in Hc as [Hc | Hc].
    - apply in_app_or in Hc as [Hc | Hc]; [assumption |].
      apply Hlo in Hc. congruence.
    - apply Hci in Hc. congruence. }
  assert (Htext : forall c, In c new1 -> meta_chunk_type c = field ->
                  exists text, field_text (get course_data field VNone) = Ok (Some text)
                               /\ chunk_text c = label ++ ":" ++ nl ++ text).
  { intros c Hc Hty. destruct (Hall c Hc) as (l & t & Hin & Hf & Ht).
    rewrite Hty in Hin, Hf. exists t. split; [assumption |].
    now rewrite (chunkable_label_unique field label l Hfield Hin). }
  split; [split |].
  - intros (c & Hc & Hty). destruct (Htext c (Hin1 c Hc Hty) Hty) as (t & Hf & _). eauto.
  - intros [text Hf]. destruct (Hex field label text Hfield Hf) as (c & Hc & Hty).
    exists c. split; [| assumption]. apply in_or_app. left. apply in_or_app. now left.
  - intros c Hc Hty. apply (Htext c (Hin1 c Hc Hty) Hty).
Qed.

Definition chunks_of (run : result (list chunk)) : list chunk :=
  match run with
  | Ok chunks => chunks
  | Raise _ => []
  end.

(** C3. A field whose formatted, stripped text has 49 characters gives no
    chunk and one with 50 characters gives a chunk.  The loop body turns a
    field value into a chunk text exactly when the value is truthy, is not
    the string "None", is not white space only, and its formatted text,
    stripped, has at least 50 characters.  Whenever the chunker returns,
    its result holds a chunk of a field of the fixed list exactly under
    these conditions, and the text of that chunk is the label, a colon, a
    line feed and the formatted value.  The chunker returns on every record
    whose fields have the types it relies on. *)
Theorem threshold_enforcement :
  (forall v, (exists text, field_text v = Ok (Some text)) <-> retained v)
  /\ (forall v text, format_field_value v = Ok text ->
        String.length (strip text) = 49 -> field_text v = Ok None)
  /\ (forall v text, format_field_value v = Ok text ->
        String.length (strip text) = 50 -> field_text v = Ok (Some text))
  /\ (forall course_data filename now chunks,
        create_chunks_from_course course_data filename now = Ok chunks ->
        forall field label, In (field, label) chunkable_fields ->
          ((exists c, In c chunks /\ meta_chunk_type c = field)
           <-> retained (get course_data field VNone))
          /\ (forall c, In c chunks -> meta_chunk_type c = field ->
                exists text,
                  format_field_value (get course_data field VNone) = Ok text
                  /\ chunk_text c = label ++ ":" ++ nl ++ text))
  /\ (forall course_data filename now,
        TypedRecords.well_typed course_data = true ->
        exists chunks, create_chunks_from_course course_data filename now = Ok chunks).
Proof.
  split; [exact field_text_retained |]. split; [| split; [| split]];
    [| | | exact TypedRecords.well_typed_returns].
  - intros v text Hf Hlen. unfold field_text.
    destruct (skipped_value v); [reflexivity |]. rewrite Hf. cbn [bind].
    rewrite Hlen. simpl. now rewrite orb_true_r.
  - intros v text Hf Hlen. apply field_text_threshold. split; [assumption | lia].
  - intros course_data filename now chunks Hrun field label Hfield.
    destruct (run_field_chunks course_data filename now chunks Hrun field label Hfield)
      as [Hiff Htext].
    split.
    + rewrite Hiff. apply field_text_retained.
    + intros c Hc Hty. destruct (Htext c Hc Hty) as (text & Hf & Ht).
      exists text. split; [| assumption]. now apply field_text_threshold in Hf.
Qed.

Definition text_of_49 : string := "This course has forty-nine characters of text ok.".
Definition text_of_50 : string := "This course has exactly fifty characters of text..".

Lemma threshold_enforcement_witness :
  field_text (VStr text_of_49) = Ok None
  /\ field_text (VStr text_of_50) = Ok (Some text_of_50)
  /\ (exists c,
        In c (chunks_of (create_chunks_from_course sample_record sample_filename
                           "2025-11-10T00:00:00"))
        /\ meta_chunk_type c = "overview")
  /\ ~ (exists c,
          In c (chunks_of (create_chunks_from_course sample_record sample_filename
                             "2025-11-10T00:00:00"))
          /\ meta_chunk_type c = "notes").
Proof.
  destruct threshold_enforcement as (_ & H49 & H50 & Hrun & Htyped).
  split; [apply (H49 (VStr text_of_49) text_of_49); reflexivity |].
  split; [apply (H50 (VStr text_of_50) text_of_50); reflexivity |].
  destruct (Htyped sample_record sample_filename "2025-11-10T00:00:00" eq_refl)
    as [chunks E].
  rewrite E. simpl. split.
  - apply (Hrun _ _ _ _ E "overview" "Overview"); [simpl; auto |].
    split; [reflexivity |]. split; [discriminate |].
    split; [intros s [= <-]; vm_compute; discriminate |].
    eexists. split; [reflexivity |]. vm_compute. repeat constructor.
  - intros Hex.
    apply (Hrun _ _ _ _ E "notes" "Notes") in Hex; [| simpl; auto 10].
    destruct Hex as (_ & _ & _ & text & Hf & Hlen).
    vm_compute in Hf. injection Hf as <-. vm_compute in Hlen. lia.
Defined.

End ThresholdFacts.

(* ====================================================================== *)
(** * Course-code resolution *)
(* ====================================================================== *)

Module CourseCodeFacts.
Import PyStr Json Ingest.

(** ** The patterns *)

Lemma search_classes_tail (cs : list (ascii -> bool)) (a : ascii) (s : string) :
  search_classes cs s <> None -> search_classes cs (String a s) <> None.
Proof.
  intros H. simpl. destruct (match_classes cs (String a s)); [discriminate | exact H].
Qed.

Lemma match_classes_search (cs : list (ascii -> bool)) (s : string) :
  match_classes cs s <> None -> search_classes cs s <> None.
Proof.
  intros H. destruct s; simpl in *; destruct (match_classes cs _); congruence.
Qed.

(** A match of a pattern that ends with [cs] holds a match of [cs]. *)
Lemma match_classes_app (pre cs : list (ascii -> bool)) :
  forall s, match_classes (pre ++ cs) s <> None -> search_classes cs s <> None.
Proof.
  induction pre as [|p pre IH]; intros s; simpl.
  - apply match_classes_search.
  - destruct s as [|a s]; [congruence |].
    destruct (p a); [| congruence].
    intros H. apply search_classes_tail, IH.
    destruct (match_classes (pre ++ cs) s); [discriminate | now elim H].
Qed.

Lemma search_classes_app (pre cs : list (ascii -> bool)) :
  forall s, search_classes cs s = None -> search_classes (pre ++ cs) s = None.
Proof.
  induction s as [|a s IH]; intros H.
  - destruct (search_classes (pre ++ cs) "") eqn:E; [| reflexivity].
    exfalso. apply (match_classes_app pre cs ""); [| exact H].
    simpl in E. destruct (match_classes (pre ++ cs) ""); congruence.
  - destruct (match_classes (pre ++ cs) (String a s)) eqn:E.
    + exfalso. apply (match_classes_app pre cs (String a s)); [congruence | exact H].
    + simpl search_classes. rewrite E. apply IH.
      destruct (search_classes cs s) eqn:E'; [| reflexivity].
      exfalso. apply (search_classes_tail cs a s); congruence.
Qed.

(** The pattern of a course code accepts the six characters [C] or [c] and
    five digits, possibly before a final line feed. *)
Lemma is_course_code_spec (s : string) :
  is_course_code s = true <->
  exists a d1 d2 d3 d4 d5 tail,
    s = String a (String d1 (String d2 (String d3 (String d4 (String d5 tail)))))
    /\ is_cC a = true
    /\ is_digit d1 = true /\ is_digit d2 = true /\ is_digit d3 = true
    /\ is_digit d4 = true /\ is_digit d5 = true
    /\ (tail = "" \/ tail = nl).
Proof.
  unfold is_course_code, Re.search_anchored, COURSE_CODE. split.
  - destruct s as [|a [|d1 [|d2 [|d3 [|d4 [|d5 tail]]]]]]; simpl;
      repeat match goal with
             | |- context [if ?b then _ else _] => destruct b eqn:?; simpl
             end; try discriminate;
      try (intros H; apply ReFacts.matches_iff in H; now inversion H).
    intros H. exists a, d1, d2, d3, d4, d5, tail. repeat (split; [assumption || reflexivity |]).
    destruct tail as [|x t]; simpl in H; [now left |]. right.
    destruct (Ascii.eqb_spec x Re.line_feed) as [-> | _];
      apply ReFacts.matches_iff in H; inversion H. reflexivity.
  - intros (a & d1 & d2 & d3 & d4 & d5 & tail & -> & Ha & H1 & H2 & H3 & H4 & H5 & Ht).
    unfold Re.Opt.
    repeat (cbn [Re.matches Re.deriv Re.nullable Re.mkCat Re.mkAlt Re.seq andb orb];
            rewrite ?Ha, ?H1, ?H2, ?H3, ?H4, ?H5).
    destruct Ht as [-> | ->]; reflexivity.
Qed.

(** ** Records with typed fields *)

(** The record holds the string [c] under [course_code], or lacks the key. *)
Definition code_field (course_data : dict) (raw : option string) : Prop :=
  lookup course_data "course_code" = option_map VStr raw.

(** The record holds the string [u] under [metadata.source_url], or has no
    metadata, or metadata without a source URL. *)
Inductive url_field (course_data : dict) : option string -> Prop :=
| no_metadata :
    lookup course_data "metadata" = None -> url_field course_data None
| no_source_url (metadata : dict) :
    lookup course_data "metadata" = Some (VDict metadata) ->
    lookup metadata "source_url" = None ->
    url_field course_data None
| with_source_url (metadata : dict) (u : string) :
    lookup course_data "metadata" = Some (VDict metadata) ->
    lookup metadata "source_url" = Some (VStr u) ->
    url_field course_data (Some u).

Lemma url_field_extract (course_data : dict) (url : option string) :
  url_field course_data url ->
  (source_url <- attr_get (get course_data "metadata" (VDict [])) "source_url" (VStr "") ;;
   extract_course_code_from_url source_url)
  = Ok (match url with
        | Some u => option_map (fun m => upper (substring 9 6 m)) (search_classes URL_PATTERN u)
        | None => None
        end).
Proof.
  unfold get. intros [H | md H Hu | md u H Hu]; rewrite H; simpl; unfold get.
  - reflexivity.
  - rewrite Hu. reflexivity.
  - rewrite Hu. unfold extract_course_code_from_url. simpl.
    destruct u as [|a u]; [reflexivity |]. cbn [is_empty negb].
    destruct (search_classes URL_PATTERN (String a u)); reflexivity.
Qed.

(** C4, as the code has it by design.  For a record whose course code and
    source URL are strings when present: (1) the stripped course code of the
    record when it is the letter C or c and five digits, in upper case;
    otherwise (2) the code of the first match of [/courses/] followed by C
    or c and five digits in the source URL, in upper case; otherwise, when
    the file name holds no C or c followed by five digits at all, (4) the
    stripped value of the record in upper case, whatever it is, or
    ["UNKNOWN"] when the record has no course code key.  What a course code
    inside the file name leads to is left open here. *)
Theorem course_code_resolution (course_data : dict) (filename : string)
    (raw url : option string) :
  code_field course_data raw ->
  url_field course_data url ->
  let code := strip (match raw with Some c => c | None => "" end) in
  let url_match := match url with
                   | Some u => search_classes URL_PATTERN u
                   | None => None
                   end in
  (is_course_code code = true ->
     get_course_code course_data filename = Ok (upper code))
  /\ (is_course_code code = false ->
      forall m, url_match = Some m ->
      get_course_code course_data filename = Ok (upper (substring 9 6 m)))
  /\ (is_course_code code = false ->
      url_match = None ->
      search_classes (is_cC :: code_tail) filename = None ->
      get_course_code course_data filename
      = Ok (match raw with
            | Some c => upper (strip c)
            | None => "UNKNOWN"
            end)).
Proof.
  intros Hcode Hurl code url_match.
  pose proof (url_field_extract course_data url Hurl) as Hextract.
  assert (Hfirst : attr_strip (get course_data "course_code" (VStr "")) = Ok code).
  { unfold get, code. rewrite Hcode. destruct raw; reflexivity. }
  assert (Hlast : attr_strip (get course_data "course_code" (VStr "UNKNOWN"))
                  = Ok (match raw with Some c => strip c | None => "UNKNOWN" end)).
  { unfold get. rewrite Hcode. destruct raw; reflexivity. }
  unfold get_course_code. rewrite Hfirst. cbn [bind].
  split; [| split].
  - intros H. rewrite H. destruct code; [discriminate | reflexivity].
  - intros H m Hm. rewrite H, andb_false_r.
    destruct (attr_get (get course_data "metadata" (VDict [])) "source_url" (VStr ""))
      as [source_url|e]; cbn [bind] in *; [| discriminate].
    rewrite Hextract. subst url_match. destruct url as [u|]; [| discriminate].
    rewrite Hm. reflexivity.
  - intros H Hm Hfile. rewrite H, andb_false_r.
    destruct (attr_get (get course_data "metadata" (VDict [])) "source_url" (VStr ""))
      as [source_url|e]; cbn [bind] in *; [| discriminate].
    rewrite Hextract.
    assert (Hnone : match url with
                    | Some u => option_map (fun m => upper (substring 9 6 m))
                                  (search_classes URL_PATTERN u)
                    | None => None
                    end = None).
    { subst url_match. destruct url as [u|]; [rewrite Hm |]; reflexivity. }
    rewrite Hnone.
    assert (Hf : extract_course_code_from_url (VStr filename) = Ok None).
    { unfold extract_course_code_from_url. simpl.
      destruct filename as [|a f]; [reflexivity |]. cbn [is_empty negb].
      change URL_PATTERN with (lit "/courses/" ++ is_cC :: code_tail)%list.
      now rewrite (search_classes_app _ _ _ Hfile). }
    rewrite Hf. cbn [bind]. rewrite Hlast. cbn [bind]. destruct raw; reflexivity.
Qed.

Definition handbook_url : string := "https://handbook.uts.edu.au/courses/c10302.html".

Definition record_1 : dict := [("course_code", VStr " c10302 ")].
Definition record_2 : dict :=
  [("course_code", VStr "10302"); ("metadata", VDict [("source_url", VStr handbook_url)])].
Definition record_3 : dict := [("course_code", VStr "10302"); ("metadata", VDict [])].
Definition record_4 : dict := [("course_name", VStr "Bachelor of Sport")].

Lemma course_code_resolution_witness :
  get_course_code record_1 "course_7.json" = Ok "C10302"
  /\ get_course_code record_2 "course_7.json" = Ok "C10302"
  /\ get_course_code record_3 "course_7.json" = Ok "10302"
  /\ get_course_code record_4 "course_7.json" = Ok "UNKNOWN".
Proof.
  split; [| split; [| split]].
  - refine (proj1 (course_code_resolution record_1 "course_7.json" (Some " c10302 ") None
                     eq_refl _) eq_refl).
    now apply no_metadata.
  - refine (proj1 (proj2 (course_code_resolution record_2 "course_7.json" (Some "10302")
                            (Some handbook_url) eq_refl _)) eq_refl
              "/courses/c10302" eq_refl).
    now apply (with_source_url _ [("source_url", VStr handbook_url)]).
  - refine (proj2 (proj2 (course_code_resolution record_3 "course_7.json" (Some "10302") None
                            eq_refl _)) eq_refl eq_refl eq_refl).
    now apply (no_source_url _ []).
  - refine (proj2 (proj2 (course_code_resolution record_4 "course_7.json" None None
                            eq_refl _)) eq_refl eq_refl eq_refl).
    now apply no_metadata.
Defined.

(** ** The resolution order in the words of the specification *)

Definition is_letter (a : ascii) : bool := is_upper a || is_lower a.

(** One letter and five digits. *)
Definition SPEC_PATTERN : list (ascii -> bool) := is_letter :: code_tail.

(** The order of the specification: the record value if it is a course
    code, else a course code found in the source URL, else one found in the
    file name, else the record value as it is, else ["UNKNOWN"]; always in
    upper case. *)
Definition spec_course_code (raw url : option string) (filename : string) : string :=
  let in_record :=
    match raw with
    | Some c => match match_classes SPEC_PATTERN c with
                | Some m => if (m =? c)%string then Some c else None
                | None => None
                end
    | None => None
    end in
  let in_url := match url with Some u => search_classes SPEC_PATTERN u | None => None end in
  match in_record, in_url, search_classes SPEC_PATTERN filename, raw with
  | Some c, _, _, _ => upper c
  | None, Some m, _, _ => upper m
  | None, None, Some m, _ => upper m
  | None, None, None, Some c => upper c
  | None, None, None, None => "UNKNOWN"
  end.

(** C4 as stated fails.  A record value made of another letter and five
    digits is not taken as a course code, so the source URL wins over it;
    and a course code in the file name is not found, because the file name
    is searched with the pattern of the URL, which asks for [/courses/]. *)
Lemma course_code_resolution_differs :
  let with_letter_a :=
    [("course_code", VStr "A12345");
     ("metadata", VDict [("source_url", VStr handbook_url)])] in
  get_course_code with_letter_a "course_7.json" = Ok "C10302"
  /\ spec_course_code (Some "A12345") (Some handbook_url) "course_7.json" = "A12345"
  /\ get_course_code [("course_name", VStr "Bachelor of Sport")]
       "Bachelor_of_Sport_C10302.json" = Ok "UNKNOWN"
  /\ spec_course_code None None "Bachelor_of_Sport_C10302.json" = "C10302"
  /\ extract_course_code_from_filename "Bachelor_of_Sport_C10302.json" = Some "C10302".
Proof.
  cbv zeta. repeat split; vm_compute; reflexivity.
Qed.

(** A record whose course code is null, as the crawler writes an empty
    one, is not resolved at all. *)
Example null_course_code_raises :
  get_course_code [("course_code", VNone)] "Bachelor_of_Sport_C10302.json"
  = Raise (AttributeError "object has no attribute 'strip'").
Proof. reflexivity. Qed.

End CourseCodeFacts.

(* ====================================================================== *)
(** * The junk filter *)
(* ====================================================================== *)

Module JunkFacts.
Import PyStr SaveKb.

Definition nl : string := Ingest.nl.

(** A text matches a pattern anchored at both ends when it belongs to the
    language of the pattern, with or without a final line feed. *)
Definition anchored_match (r : Re.re) (t : string) : Prop :=
  Re.Lang r t \/ exists t', t = t' ++ nl /\ Re.Lang r t'.

Lemma search_anchored_iff (r : Re.re) (t : string) :
  Re.search_anchored r t = true <-> anchored_match r t.
Proof.
  unfold Re.search_anchored, anchored_match. rewrite ReFacts.matches_iff. split.
  - intros H. inversion H as [| |r1 r2 s1 s2 H1 H2| | | |]; subst.
    inversion H2 as [| | |? ? ? H3|? ? ? H3| |]; subst.
    + inversion H3; subst. left. now rewrite ReFacts.append_nil_r.
    + inversion H3 as [|p a Ha| | | | |]; subst.
      apply Ascii.eqb_eq in Ha. subst a. right. now exists s1.
  - intros [H | (t' & -> & H)].
    + rewrite <- (ReFacts.append_nil_r t). constructor; [assumption |]. apply Re.LAltL. constructor.
    + constructor; [assumption |]. apply Re.LAltR. constructor. apply Ascii.eqb_refl.
Qed.

(** ** The blank-page pattern on a stripped text *)

Definition BLANK_PAGE : string := "this page has been left intentionally blank".

Lemma star_class (p : ascii -> bool) (w : string) :
  Re.Lang (Re.Star (Re.Chr p)) w -> PyStr.forallb p w = true.
Proof.
  intros H. remember (Re.Star (Re.Chr p)) as r eqn:Er.
  induction H as [| | | | | |r0 s1 s2 H1 _ _ IH]; try discriminate; [reflexivity |].
  injection Er as ->. inversion H1; subst. simpl.
  rewrite IH by reflexivity. now rewrite andb_true_r.
Qed.

Lemma cat_inv (r1 r2 : Re.re) (s : string) :
  Re.Lang (Re.Cat r1 r2) s -> exists s1 s2, s = s1 ++ s2 /\ Re.Lang r1 s1 /\ Re.Lang r2 s2.
Proof. inversion 1; subst; eauto. Qed.

Lemma alt_cases (r1 r2 : Re.re) (s : string) :
  Re.Lang (Re.Alt r1 r2) s -> Re.Lang r1 s \/ Re.Lang r2 s.
Proof. inversion 1; subst; auto. Qed.

Lemma lower_nil (l : string) : lower l = "" -> l = "".
Proof. destruct l; [reflexivity | discriminate]. Qed.

Lemma lower_app (a b : string) : lower (a ++ b) = lower a ++ lower b.
Proof. induction a as [|c a IH]; simpl; [reflexivity |]. unfold lower in *. simpl. now rewrite IH. Qed.

Lemma lit_ci_iff (s l : string) : Re.Lang (Re.lit_ci s) l <-> lower l = lower s.
Proof.
  revert l. induction s as [|c s IH]; intros l; simpl.
  - split.
    + inversion 1. reflexivity.
    + intros H. apply lower_nil in H. subst. constructor.
  - split.
    + intros H. inversion H as [| |r1 r2 s1 s2 H1 H2| | | |]; subst.
      inversion H1 as [|p a Ha| | | | |]; subst.
      apply Ascii.eqb_eq in Ha. apply IH in H2.
      unfold lower in *. simpl. now rewrite Ha, H2.
    + destruct l as [|a l]; [discriminate |].
      unfold lower. simpl. intros [= Ha Hl].
      change (String a l) with (String a "" ++ l). constructor.
      * constructor. now apply Ascii.eqb_eq.
      * now apply IH.
Qed.

Lemma lower_dot (c : ascii) : lower_char c = "."%char -> c = "."%char.
Proof.
  destruct c as [[] [] [] [] [] [] [] []]; vm_compute; intros H;
    first [reflexivity | discriminate].
Qed.

Lemma lstrip_head (x : string) (c : ascii) (r : string) :
  lstrip x = String c r -> is_space c = false.
Proof.
  induction x as [|a x IH]; simpl; [discriminate |].
  destruct (is_space a) eqn:Ha; [exact IH |]. now intros [= <- _].
Qed.

Lemma rstrip_head (y : string) (c : ascii) (r : string) :
  rstrip y = String c r -> exists y', y = String c y'.
Proof.
  destruct y as [|a y]; simpl; [discriminate |].
  destruct (is_space a && is_empty (rstrip y)); [discriminate |].
  intros [= <- _]. eauto.
Qed.

Lemma rstrip_last (y r : string) (c : ascii) :
  rstrip y = r ++ String c "" -> is_space c = false.
Proof.
  revert r. induction y as [|a y IH]; intros r; simpl.
  - destruct r; discriminate.
  - destruct (is_space a && is_empty (rstrip y)) eqn:E.
    + destruct r; discriminate.
    + destruct r as [|b r]; simpl.
      * intros [= <- Hy]. rewrite Hy in E. simpl in E. now rewrite andb_true_r in E.
      * intros [= _ Hy]. apply (IH r Hy).
Qed.

Lemma strip_head (x : string) (c : ascii) (r : string) :
  strip x = String c r -> is_space c = false.
Proof.
  unfold strip. intros H. destruct (rstrip_head _ _ _ H) as [y' Hy].
  apply (lstrip_head x c y' Hy).
Qed.

Lemma strip_last (x r : string) (c : ascii) :
  strip x = r ++ String c "" -> is_space c = false.
Proof. unfold strip. apply rstrip_last. Qed.

(** A non-empty text of one class ends with a character of that class. *)
Lemma class_last (p : ascii -> bool) (w : string) :
  PyStr.forallb p w = true -> w <> "" -> exists w' z, w = w' ++ String z "" /\ p z = true.
Proof.
  induction w as [|a w IH]; simpl; [congruence |].
  rewrite andb_true_iff. intros [Ha Hw] _.
  destruct w as [|b w].
  - exists "", a. auto.
  - destruct (IH Hw ltac:(discriminate)) as (w' & z & E & Hz).
    exists (String a w'), z. rewrite E. auto.
Qed.

(** On a stripped text the blank-page pattern accepts the sentence in any
    letter case, with or without its final dot, and nothing else. *)
Lemma blank_page_stripped (text : string) :
  let t := strip text in
  anchored_match JUNK_INTENT_BLANK t <->
  lower t = BLANK_PAGE \/ lower t = BLANK_PAGE ++ ".".
Proof.
  intros t. unfold anchored_match. split.
  - intros [H | (t' & Et & _)].
    + unfold JUNK_INTENT_BLANK in H. cbn [Re.seq] in H.
      apply cat_inv in H as (w1 & s1 & Et & Hw1 & H).
      apply cat_inv in H as (l & s2 & -> & Hl & H).
      apply cat_inv in H as (d & s3 & -> & Hd & H).
      apply cat_inv in H as (w2 & s4 & -> & Hw2 & H).
      inversion H; subst s4. rewrite ReFacts.append_nil_r in Et. symmetry in Et.
      apply star_class in Hw1, Hw2. apply lit_ci_iff in Hl.
      change (lower BLANK_PAGE) with BLANK_PAGE in Hl. unfold t in Et.
      assert (E1 : w1 = "").
      { destruct w1 as [|a w1']; [reflexivity |]. exfalso.
        simpl in Hw1. apply andb_true_iff in Hw1 as [Ha _].
        simpl in Et. symmetry in Et. apply strip_head in Et. congruence. }
      subst w1. simpl in Et.
      assert (E2 : w2 = "").
      { destruct (string_dec w2 "") as [E | E]; [exact E |]. exfalso.
        destruct (class_last is_space w2 Hw2 E) as (w' & z & Ez & Hz).
        rewrite Ez, <- !ReFacts.append_assoc in Et. symmetry in Et.
        apply strip_last in Et. congruence. }
      subst w2. rewrite ReFacts.append_nil_r in Et.
      fold t in Et. rewrite <- Et, lower_app, Hl.
      unfold Re.Opt in Hd. apply alt_cases in Hd as [Hd | Hd]; inversion Hd; subst.
      * left. now rewrite ReFacts.append_nil_r.
      * right. match goal with Hp : (_ =? _)%char = true |- _ =>
                 apply Ascii.eqb_eq in Hp; subst end. reflexivity.
    + exfalso. apply strip_last in Et. discriminate.
  - intros H. left. unfold JUNK_INTENT_BLANK. cbn [Re.seq].
    assert (Hws : Re.Lang ws "") by constructor.
    destruct H as [H | H].
    + replace t with ("" ++ t ++ "" ++ "" ++ "") by (simpl; now rewrite ReFacts.append_nil_r).
      apply Re.LCat; [exact Hws |]. apply Re.LCat; [now apply lit_ci_iff |].
      apply Re.LCat; [apply Re.LAltL; constructor |].
      apply Re.LCat; [exact Hws | constructor].
    + assert (Hsplit : exists l c, t = l ++ String c "" /\ lower l = BLANK_PAGE
                                   /\ lower_char c = "."%char).
      { clear Hws. revert H. generalize t. generalize BLANK_PAGE.
        induction s as [|b s IH]; intros u Hu.
        - destruct u as [|c [|c' u]]; try discriminate.
          exists "", c. unfold lower in Hu. simpl in Hu. injection Hu as Hc. auto.
        - destruct u as [|c u]; [discriminate |].
          unfold lower in Hu. simpl in Hu. injection Hu as Hc Hu.
          destruct (IH u Hu) as (l & z & -> & Hl & Hz).
          exists (String c l), z. unfold lower in *. simpl. rewrite Hc, Hl. auto. }
      destruct Hsplit as (l & c & Et & Hl & Hc). apply lower_dot in Hc. subst c.
      replace t with ("" ++ l ++ "." ++ "" ++ "") by (simpl; now rewrite Et).
      apply Re.LCat; [exact Hws |]. apply Re.LCat; [now apply lit_ci_iff |].
      apply Re.LCat; [apply Re.LAltR; now constructor |].
      apply Re.LCat; [exact Hws | constructor].
Qed.

(** ** The page-footer pattern on a stripped text *)

Definition all (p : ascii -> bool) (s : string) : Prop := PyStr.forallb p s = true.

(** [page], white space, word characters, white space, digits, white
    space, [of] or a slash, white space, word characters, white space,
    digits; letters in any case. *)
Definition page_footer_shape (t : string) : Prop :=
  exists p s1 w1 s2 d1 s3 sep s4 w2 s5 d2,
    t = p ++ s1 ++ w1 ++ s2 ++ d1 ++ s3 ++ sep ++ s4 ++ w2 ++ s5 ++ d2
    /\ lower p = "page"
    /\ all is_space s1 /\ all is_word w1 /\ all is_space s2
    /\ all is_digit d1 /\ d1 <> ""
    /\ all is_space s3 /\ (lower sep = "of" \/ sep = "/") /\ all is_space s4
    /\ all is_word w2 /\ all is_space s5
    /\ all is_digit d2 /\ d2 <> "".

Lemma class_star (p : ascii -> bool) (w : string) :
  PyStr.forallb p w = true -> Re.Lang (Re.Star (Re.Chr p)) w.
Proof.
  induction w as [|a w IH]; simpl; [constructor |].
  rewrite andb_true_iff. intros [Ha Hw].
  change (String a w) with (String a "" ++ w).
  apply Re.LStarS; [now constructor | auto].
Qed.

Lemma plus_class (p : ascii -> bool) (d : string) :
  Re.Lang (Re.Plus (Re.Chr p)) d <-> PyStr.forallb p d = true /\ d <> "".
Proof.
  unfold Re.Plus. split.
  - intros H. apply cat_inv in H as (a & r & -> & Ha & Hr).
    inversion Ha; subst. apply star_class in Hr. simpl. split; [| discriminate].
    now apply andb_true_iff.
  - intros [Hd Hne]. destruct d as [|a d]; [congruence |].
    simpl in Hd. apply andb_true_iff in Hd as [Ha Hd].
    change (String a d) with (String a "" ++ d).
    constructor; [now constructor | now apply class_star].
Qed.

Lemma separator_iff (sep : string) :
  Re.Lang (Re.Alt (Re.lit_ci "of") (Re.Chr (fun a => (a =? "/")%char))) sep
  <-> lower sep = "of" \/ sep = "/".
Proof.
  split.
  - intros H. apply alt_cases in H as [H | H].
    + left. now apply lit_ci_iff in H.
    + right. inversion H as [|p a Ha| | | | |]; subst. apply Ascii.eqb_eq in Ha. now subst.
  - intros [H | ->].
    + apply Re.LAltL. now apply lit_ci_iff.
    + apply Re.LAltR. now constructor.
Qed.

Lemma footer_stripped (text : string) :
  let t := strip text in
  anchored_match JUNK_PAGE_FOOTER t <-> page_footer_shape t.
Proof.
  intros t. unfold anchored_match, page_footer_shape, all. split.
  - intros [H | (t' & Et & _)]; [| exfalso; apply strip_last in Et; discriminate].
    unfold JUNK_PAGE_FOOTER in H. cbn [Re.seq] in H.
    apply cat_inv in H as (s0 & r & Et & Hs0 & H).
    apply cat_inv in H as (p & r1 & -> & Hp & H).
    apply cat_inv in H as (s1 & r2 & -> & Hs1 & H).
    apply cat_inv in H as (w1 & r3 & -> & Hw1 & H).
    apply cat_inv in H as (s2 & r4 & -> & Hs2 & H).
    apply cat_inv in H as (d1 & r5 & -> & Hd1 & H).
    apply cat_inv in H as (s3 & r6 & -> & Hs3 & H).
    apply cat_inv in H as (sep & r7 & -> & Hsep & H).
    apply cat_inv in H as (s4 & r8 & -> & Hs4 & H).
    apply cat_inv in H as (w2 & r9 & -> & Hw2 & H).
    apply cat_inv in H as (s5 & r10 & -> & Hs5 & H).
    apply cat_inv in H as (d2 & r11 & -> & Hd2 & H).
    apply cat_inv in H as (s6 & r12 & -> & Hs6 & H).
    inversion H; subst r12. rewrite ReFacts.append_nil_r in Et.
    apply star_class in Hs0, Hs1, Hw1, Hs2, Hs3, Hs4, Hw2, Hs5, Hs6.
    apply lit_ci_iff in Hp. change (lower "page") with "page" in Hp.
    apply plus_class in Hd1 as [Hd1 Hn1]. apply plus_class in Hd2 as [Hd2 Hn2].
    apply separator_iff in Hsep.
    unfold t in Et.
    assert (E0 : s0 = "").
    { destruct s0 as [|a s0']; [reflexivity |]. exfalso.
      simpl in Hs0. apply andb_true_iff in Hs0 as [Ha _].
      simpl in Et. apply strip_head in Et. congruence. }
    subst s0. simpl in Et.
    assert (E6 : s6 = "").
    { destruct (string_dec s6 "") as [E | E]; [exact E |]. exfalso.
      destruct (class_last is_space s6 Hs6 E) as (w' & z & Ez & Hz).
      rewrite Ez, <- !ReFacts.append_assoc in Et. apply strip_last in Et. congruence. }
    subst s6. rewrite ReFacts.append_nil_r in Et.
    exists p, s1, w1, s2, d1, s3, sep, s4, w2, s5, d2. fold t in Et. auto 20.
  - intros (p & s1 & w1 & s2 & d1 & s3 & sep & s4 & w2 & s5 & d2
            & Et & Hp & Hs1 & Hw1 & Hs2 & Hd1 & Hn1 & Hs3 & Hsep & Hs4 & Hw2 & Hs5 & Hd2 & Hn2).
    left. unfold JUNK_PAGE_FOOTER. cbn [Re.seq].
    replace t with ("" ++ p ++ s1 ++ w1 ++ s2 ++ d1 ++ s3 ++ sep ++ s4 ++ w2 ++ s5 ++ d2
                   ++ "" ++ "").
    2:{ rewrite Et. simpl. now rewrite ReFacts.append_nil_r. }
    apply Re.LCat; [constructor |].
    apply Re.LCat; [now apply lit_ci_iff |].
    apply Re.LCat; [now apply class_star |].
    apply Re.LCat; [now apply class_star |].
    apply Re.LCat; [now apply class_star |].
    apply Re.LCat; [now apply plus_class |].
    apply Re.LCat; [now apply class_star |].
    apply Re.LCat; [now apply separator_iff |].
    apply Re.LCat; [now apply class_star |].
    apply Re.LCat; [now apply class_star |].
    apply Re.LCat; [now apply class_star |].
    apply Re.LCat; [now apply plus_class |].
    apply Re.LCat; constructor.
Qed.

(** C5. The junk filter answers true exactly when the stripped text is
    empty, or has fewer than 40 characters, or matches the blank-page
    pattern, or matches the page-footer pattern, or has more digits than
    half its length; in every other case it answers false.  On the stripped
    text, matching the blank-page pattern is being that sentence, in any
    letter case, with or without a final dot; matching the page-footer
    pattern is having the shape of "page N of M". *)
Theorem looks_junky_spec (text : string) :
  let t := strip text in
  (looks_junky text = true <->
     t = ""
     \/ String.length t < 40
     \/ anchored_match JUNK_INTENT_BLANK t
     \/ anchored_match JUNK_PAGE_FOOTER t
     \/ String.length t < 2 * count is_digit t)
  /\ (looks_junky text = false <->
        t <> ""
        /\ 40 <= String.length t
        /\ ~ anchored_match JUNK_INTENT_BLANK t
        /\ ~ anchored_match JUNK_PAGE_FOOTER t
        /\ 2 * count is_digit t <= String.length t)
  /\ (anchored_match JUNK_INTENT_BLANK t <->
        lower t = BLANK_PAGE \/ lower t = BLANK_PAGE ++ ".")
  /\ (anchored_match JUNK_PAGE_FOOTER t <-> page_footer_shape t).
Proof.
  intros t.
  cut ((looks_junky text = true <->
          t = "" \/ String.length t < 40 \/ anchored_match JUNK_INTENT_BLANK t
          \/ anchored_match JUNK_PAGE_FOOTER t \/ String.length t < 2 * count is_digit t)
       /\ (looks_junky text = false <->
             t <> "" /\ 40 <= String.length t /\ ~ anchored_match JUNK_INTENT_BLANK t
             /\ ~ anchored_match JUNK_PAGE_FOOTER t
             /\ 2 * count is_digit t <= String.length t)).
  { intros [H1 H2]. split; [exact H1 |]. split; [exact H2 |].
    split; [apply blank_page_stripped | apply footer_stripped]. }
  assert (Hiff : looks_junky text = true <->
                 t = "" \/ String.length t < 40 \/ anchored_match JUNK_INTENT_BLANK t
                 \/ anchored_match JUNK_PAGE_FOOTER t
                 \/ String.length t < 2 * count is_digit t).
  { unfold looks_junky. fold t.
    rewrite <- !search_anchored_iff.
    destruct t as [|a t'] eqn:Et; [simpl; tauto |]. cbn [is_empty].
    destruct (Nat.ltb_spec (String.length (String a t')) 40) as [Hlt | Hge]; [tauto |].
    destruct (Re.search_anchored JUNK_INTENT_BLANK (String a t')); [tauto |].
    destruct (Re.search_anchored JUNK_PAGE_FOOTER (String a t')); [tauto |].
    assert (Hmax : Nat.max 1 (String.length (String a t')) = String.length (String a t'))
      by (simpl; lia).
    rewrite Hmax.
    destruct (Nat.ltb_spec (String.length (String a t')) (2 * count is_digit (String a t'))).
    - split; [intros _; auto 6 | reflexivity].
    - split; [discriminate |].
      intros [H' | [H' | [H' | [H' | H']]]]; try discriminate; lia. }
  split; [exact Hiff |].
  destruct (looks_junky text).
  - split; [discriminate |]. intros (H1 & H2 & H3 & H4 & H5).
    destruct Hiff as [Hiff _]. destruct (Hiff eq_refl) as [H | [H | [H | [H | H]]]];
      try contradiction; lia.
  - split; [| reflexivity]. intros _.
    assert (Hn : ~ (t = "" \/ String.length t < 40 \/ anchored_match JUNK_INTENT_BLANK t
                    \/ anchored_match JUNK_PAGE_FOOTER t
                    \/ String.length t < 2 * count is_digit t)).
    { intros H. apply Hiff in H. discriminate. }
    repeat split; try (intros H; apply Hn; tauto); lia.
Qed.

End JunkFacts.

(* ====================================================================== *)
(** * The embedding index writer *)
(* ====================================================================== *)

Module SaveKbFacts.
Import PyStr Json Jsonl SaveKb.

Section Duplicates.

Context {A : Type} (eq_dec : forall a b : A, {a = b} + {a <> b}).

Lemma nodup_length_le (l : list A) : List.length (nodup eq_dec l) <= List.length l.
Proof.
  induction l as [|x l IH]; simpl; [lia |].
  destruct (in_dec eq_dec x l); simpl; lia.
Qed.

Lemma nodup_length_eq (l : list A) :
  List.length (nodup eq_dec l) = List.length l <-> NoDup l.
Proof.
  split.
  - induction l as [|x l IH]; simpl; [constructor |].
    destruct (in_dec eq_dec x l) as [Hin | Hnin]; simpl.
    + pose proof (nodup_length_le l). lia.
    + intros [= H]. constructor; auto.
  - intros H. now rewrite nodup_fixed_point.
Qed.

(** [len(set(l)) != len(l)] holds exactly when some value occurs twice. *)
Lemma has_duplicates_iff (l : list A) : has_duplicates eq_dec l = true <-> ~ NoDup l.
Proof.
  unfold has_duplicates. rewrite negb_true_iff, Nat.eqb_neq, nodup_length_eq. tauto.
Qed.

Lemma has_duplicates_false (l : list A) : has_duplicates eq_dec l = false <-> NoDup l.
Proof.
  unfold has_duplicates. rewrite negb_false_iff, Nat.eqb_eq. apply nodup_length_eq.
Qed.

End Duplicates.

(** The non-blank lines of a file. *)
Fixpoint records (f : file) : list record :=
  match f with
  | [] => []
  | None :: f' => records f'
  | Some r :: f' => r :: records f'
  end.

(** The rows that survive are the records that are not junk, in the order
    of the file, each with [page_end] filled in. *)
Lemma load_jsonl_filter (f : file) :
  load_jsonl f
  = map with_page_end (filter (fun r => negb (looks_junky (text_of r))) (records f)).
Proof.
  induction f as [|[r|] f IH]; simpl; [reflexivity | | assumption].
  destruct (looks_junky (text_of r)); simpl; congruence.
Qed.

Lemma missing_id_iff (ids : list (option ident)) :
  existsb (fun i => match i with None => true | Some _ => false end) ids = true
  <-> In None ids.
Proof.
  rewrite existsb_exists. split.
  - intros ([i|] & Hin & H); [discriminate | assumption].
  - intros H. exists None. auto.
Qed.

Section Writer.

Variable vec : Type.
Variable encode : string -> list string -> nat -> result (ndarray vec).
Variable to_float32 : vec -> vec.
Variable now : string.
Variable abspath : string -> string.

Let run := main vec encode to_float32 now abspath.

(** C6. With the rows that survive the filter: when none survives, or one
    has no id, or two share an id, or the encoder returns an array whose
    number of rows is not the number of rows, the script ends by
    [SystemExit] with a message, hence with a non-zero status, having
    created the output directory and written no file.  When none of this
    holds and the encoder returns, it writes the vectors, the rows in the
    order of the input, and a manifest with the number of points, the
    dimension and the model directory, and returns. *)
Theorem index_writer_fails_fast (a : args) (input : file) :
  let rows := load_jsonl input in
  let ids := map rec_id rows in
  let embedded := encode (embed_model_dir a) (map text_of rows) (batch a) in
  ((rows = []
    \/ In None ids
    \/ ~ NoDup ids
    \/ (exists vecs, embedded = Ok vecs /\ shape0 vec vecs <> List.length rows)) ->
   (exists msg, fst (run a input) = SystemExit msg)
   /\ exit_status (fst (run a input)) <> 0%Z
   /\ snd (run a input) = [Makedirs vec (out_dir a)]
   /\ filter (is_artifact vec) (snd (run a input)) = [])
  /\ (rows <> [] -> ~ In None ids -> NoDup ids ->
      forall vecs, embedded = Ok vecs -> shape0 vec vecs = List.length rows ->
      run a input
      = (Returned,
         [ Makedirs vec (out_dir a);
           NpSave vec (path_join (out_dir a) "embeddings.npy") (astype_float32 vec to_float32 vecs);
           WriteJsonl vec (path_join (out_dir a) "payloads.jsonl") rows;
           WriteJson vec (path_join (out_dir a) "manifest.json")
             {| created_at := now ++ "Z";
                n_points := List.length rows;
                dim := shape1 vec vecs;
                embed_model := embed_model_dir a;
                source_jsonl := abspath (jsonl a) |} ])
      /\ rows = map with_page_end
                  (filter (fun r => negb (looks_junky (text_of r))) (records input))
      /\ List.length (array_rows vec (astype_float32 vec to_float32 vecs)) = List.length rows).
Proof.
  intros rows ids embedded.
  assert (Hfilter : rows = map with_page_end
                             (filter (fun r => negb (looks_junky (text_of r))) (records input)))
    by apply load_jsonl_filter.
  subst ids embedded. unfold run, main. cbv zeta.
  change (load_jsonl input) with rows. clearbody rows.
  destruct rows as [|r rows'].
  { split; [intros _; simpl; repeat split; eauto; discriminate | congruence]. }
  cbv iota.
  destruct (existsb (fun i => match i with None => true | Some _ => false end)
              (map rec_id (r :: rows'))) eqn:Emiss.
  { split; [intros _; simpl; repeat split; eauto; discriminate |].
    intros _ Hm. apply missing_id_iff in Emiss. contradiction. }
  destruct (has_duplicates option_ident_eq_dec (map rec_id (r :: rows'))) eqn:Edup.
  { split; [intros _; simpl; repeat split; eauto; discriminate |].
    intros _ _ Hd. apply has_duplicates_iff in Edup. contradiction. }
  destruct (encode (embed_model_dir a) (map text_of (r :: rows')) (batch a)) as [vecs|e].
  - destruct (Nat.eqb_spec (shape0 vec vecs) (List.length (r :: rows'))) as [Hshape | Hshape];
      cbn [negb].
    + split.
      * intros [H | [H | [H | (v & [= <-] & Hv)]]].
        -- discriminate.
        -- apply missing_id_iff in H. congruence.
        -- apply has_duplicates_false in Edup. contradiction.
        -- contradiction.
      * intros _ _ _ v [= <-] _. split; [| split].
        -- unfold shape0 at 1, astype_float32 at 2. cbn [array_rows shape1].
           rewrite length_map. fold (shape0 vec vecs). rewrite Hshape. reflexivity.
        -- exact Hfilter.
        -- unfold astype_float32. cbn [array_rows]. rewrite length_map. exact Hshape.
    + split; [intros _; simpl; repeat split; eauto; discriminate |].
      intros _ _ _ v [= <-] Hv. contradiction.
  - split.
    + intros [H | [H | [H | (v & Hv & _)]]].
      * discriminate.
      * apply missing_id_iff in H. congruence.
      * apply has_duplicates_false in Edup. contradiction.
      * discriminate.
    + intros _ _ _ v Hv. discriminate.
Qed.

End Writer.

(** A stand-in for the embedding model: one number for each text. *)
Definition toy_encode (model_dir : string) (texts : list string) (batch : nat)
    : result (ndarray nat) :=
  Ok {| array_rows := map String.length texts; shape1 := 1 |}.

Definition toy_args : args :=
  {| jsonl := "chunks.jsonl"; embed_model_dir := "models/hf/qwen3-embedding-0.6b";
     out_dir := "data/processed/courses"; batch := 32; device := None |}.

Definition row (id text : string) : option record :=
  Some {| rec_id := Some (IdStr id); rec_text := Some text; rec_meta := None |}.

Definition overview_text : string :=
  "Overview: this course is about many interesting things.".

Definition notes_text : string :=
  "Notes: students should check the timetable before enrolling.".

Lemma index_writer_fails_fast_witness :
  (* two rows with the same id: nothing but the directory *)
  snd (main nat toy_encode (fun x => x) "2025-11-10T00:00:00" (fun p => p) toy_args
         [row "a" overview_text; None; row "a" notes_text])
  = [Makedirs nat "data/processed/courses"]
  (* two rows with different ids: the script returns *)
  /\ fst (main nat toy_encode (fun x => x) "2025-11-10T00:00:00" (fun p => p) toy_args
            [row "a" overview_text; None; row "b" notes_text])
     = Returned.
Proof.
  split.
  - apply (index_writer_fails_fast nat toy_encode (fun x => x) "2025-11-10T00:00:00"
             (fun p => p) toy_args [row "a" overview_text; None; row "a" notes_text]).
    right. right. left. vm_compute. intros H.
    inversion H as [|x l Hin _]; subst. apply Hin. now left.
  - destruct (index_writer_fails_fast nat toy_encode (fun x => x) "2025-11-10T00:00:00"
                (fun p => p) toy_args [row "a" overview_text; None; row "b" notes_text])
      as [_ Hok].
    assert (H1 : load_jsonl [row "a" overview_text; None; row "b" notes_text] <> [])
      by (vm_compute; discriminate).
    assert (H2 : ~ In None (map rec_id
                              (load_jsonl [row "a" overview_text; None; row "b" notes_text])))
      by (vm_compute; intros [H | [H | []]]; discriminate).
    assert (H3 : NoDup (map rec_id
                          (load_jsonl [row "a" overview_text; None; row "b" notes_text]))).
    { vm_compute. repeat constructor; simpl; intuition discriminate. }
    destruct (Hok H1 H2 H3 _ eq_refl) as [Hrun _]; [vm_compute; reflexivity |].
    rewrite Hrun. reflexivity.
Defined.

End SaveKbFacts.

(* ====================================================================== *)
(** * The index upsert *)
(* ====================================================================== *)

Module UpsertFacts.
Import PyStr Json Jsonl Upsert.

Definition string_id (r : record) : Prop :=
  exists s, rec_id r = Some (IdStr s) /\ s <> "".

(** With string ids, the ids given to Qdrant are line numbers: strictly
    increasing from the first line read, whatever the ids of the rows. *)
Lemma load_rows_string_ids (f : file) :
  Forall string_id (SaveKbFacts.records f) ->
  forall i, exists ids payloads,
    load_rows i f = inr (ids, payloads)
    /\ List.length ids = List.length (SaveKbFacts.records f)
    /\ Forall (fun z => Z.of_nat i <= z)%Z ids
    /\ NoDup ids.
Proof.
  induction f as [|[r|] f IH]; simpl; intros Hall i.
  - exists [], []. repeat split; constructor.
  - inversion Hall as [|? ? (s & Hs & Hne) Hrest]; subst.
    destruct (IH Hrest (S i)) as (ids & payloads & Hload & Hlen & Hge & Hnd).
    rewrite Hs. cbn [falsy_id]. destruct s as [|c s]; [congruence |]. cbn [is_empty].
    rewrite Hload. exists (Z.of_nat i :: ids), (payload_of r (IdStr (String c s)) :: payloads).
    split; [reflexivity |]. split; [simpl; lia |]. split.
    + constructor; [lia |]. eapply Forall_impl; [| exact Hge]. simpl. intros z Hz. lia.
    + constructor; [| assumption]. intros Hin.
      rewrite Forall_forall in Hge. specialize (Hge _ Hin). lia.
  - destruct (IH Hall (S i)) as (ids & payloads & Hload & Hlen & Hge & Hnd).
    exists ids, payloads. split; [assumption |]. split; [assumption |]. split; [| assumption].
    eapply Forall_impl; [| exact Hge]. simpl. intros z Hz. lia.
Qed.

(** The duplicate check of [load_payloads] never fires on a file of rows
    with string ids, whether two of them carry the same id or not. *)
Lemma load_payloads_string_ids (f : file) :
  Forall string_id (SaveKbFacts.records f) ->
  exists ids payloads,
    load_payloads f = inr (ids, payloads)
    /\ List.length ids = List.length (SaveKbFacts.records f).
Proof.
  intros Hall. destruct (load_rows_string_ids f Hall 0) as (ids & payloads & H & Hlen & _ & Hnd).
  exists ids, payloads. unfold load_payloads. rewrite H.
  apply (SaveKbFacts.has_duplicates_false Z.eq_dec) in Hnd. rewrite Hnd. auto.
Qed.

Definition upsert_args : args :=
  {| payloads_path := "payloads.jsonl"; emb := "embeddings.npy"; collection := "courses";
     batch := 64; no_recreate := false |}.

Definition chunk_uuid : string := "b34807cf-4d27-51f9-a5ee-3c36deec35f7".

Definition duplicated_file : file :=
  [ SaveKbFacts.row chunk_uuid SaveKbFacts.overview_text;
    SaveKbFacts.row chunk_uuid SaveKbFacts.notes_text ].

(** C7 at a failing input.  A payload file with two rows that carry the same
    string id and an embedding array of two rows: the upsert does not abort,
    it gives the two rows the keys 0 and 1 and writes both points, each
    with the shared id as [row_id].  The writer of the index, on the same
    rows, stops with its duplicate-id message. *)
Theorem duplicate_string_ids_are_upserted :
  main nat (fun x => x) upsert_args [7; 8] duplicated_file None
  = (Returned,
     Some [ {| point_id := 0; point_vector := 7;
               point_payload := [("text", VStr SaveKbFacts.overview_text);
                                 ("row_id", VStr chunk_uuid)] |};
            {| point_id := 1; point_vector := 8;
               point_payload := [("text", VStr SaveKbFacts.notes_text);
                                 ("row_id", VStr chunk_uuid)] |} ],
     1)
  /\ fst (SaveKb.main nat SaveKbFacts.toy_encode (fun x => x) "2025-11-10T00:00:00"
            (fun p => p) SaveKbFacts.toy_args duplicated_file)
     = SystemExit "Duplicate ids detected in JSONL. UUIDv5 should be unique per chunk.".
Proof.
  split; vm_compute; reflexivity.
Qed.

(** What the upsert does check: an array whose number of rows is not the
    number of payload rows, and two rows with the same integer id, stop the
    script before the collection is touched. *)
Lemma upsert_checks (vec : Type) (to_float32 : vec -> vec) (a : args) (vecs : list vec)
    (f : file) (before : option (points vec)) :
  (forall ids payloads, load_payloads f = inr (ids, payloads) ->
     List.length vecs <> List.length ids ->
     exists msg, main vec to_float32 a vecs f before = (SystemExit msg, before, 0))
  /\ (forall msg, load_payloads f = inl msg ->
        main vec to_float32 a vecs f before = (SystemExit msg, before, 0)).
Proof.
  unfold main. split.
  - intros ids payloads -> Hlen. apply Nat.eqb_neq in Hlen. rewrite Hlen. simpl. eauto.
  - intros msg ->. reflexivity.
Qed.

Example duplicate_integer_ids_abort :
  load_payloads
    [ Some {| rec_id := Some (IdInt 5); rec_text := Some "a"; rec_meta := None |};
      Some {| rec_id := Some (IdInt 5); rec_text := Some "b"; rec_meta := None |} ]
  = inl "Duplicate ids found in payloads.jsonl".
Proof. reflexivity. Qed.

End UpsertFacts.

(* ====================================================================== *)
(** * The context assembler *)
(* ====================================================================== *)

Module ContextFacts.
Import PyStr Rag.

(** The length the budget counts for a hit: that of its text alone. *)
Definition raw_length (h : hit) : nat := String.length (pget h p_text "").

Definition total (hits : list hit) : nat := list_sum (map raw_length hits).

(** The hits whose text the loop includes, from a given running length. *)
Fixpoint included_from (max_context_length : nat) (hits : list hit) (current_length : nat)
    : list hit :=
  match hits with
  | [] => []
  | h :: rest =>
      if (current_length + raw_length h <? max_context_length)%nat
      then h :: included_from max_context_length rest (current_length + raw_length h)
      else included_from max_context_length rest current_length
  end.

Definition included (hits : list hit) (max_context_length : nat) : list hit :=
  included_from max_context_length hits 0.

(** One list within another, in the same order. *)
Inductive subsequence {A : Type} : list A -> list A -> Prop :=
| sub_nil : subsequence [] []
| sub_keep x l l' : subsequence l l' -> subsequence (x :: l) (x :: l')
| sub_skip x l l' : subsequence l l' -> subsequence l (x :: l').

Lemma context_loop_included (max_context_length : nat) (hits : list hit) :
  forall context_parts current_length,
  context_loop max_context_length hits context_parts current_length
  = (context_parts
     ++ map context_part (included_from max_context_length hits current_length))%list.
Proof.
  induction hits as [|h rest IH]; intros parts cur; simpl.
  - now rewrite app_nil_r.
  - unfold raw_length.
    destruct (cur + String.length (pget h p_text "") <? max_context_length)%nat.
    + rewrite IH, <- app_assoc. reflexivity.
    + apply IH.
Qed.

Lemma included_subsequence (max_context_length : nat) (hits : list hit) :
  forall current_length,
  subsequence (included_from max_context_length hits current_length) hits.
Proof.
  induction hits as [|h rest IH]; intros cur; simpl.
  - constructor.
  - destruct (cur + raw_length h <? max_context_length)%nat; constructor; apply IH.
Qed.

Lemma total_cons (h : hit) (l : list hit) : total (h :: l) = raw_length h + total l.
Proof. reflexivity. Qed.

(** The running length stays strictly under the budget once a hit is in. *)
Lemma included_under_budget (max_context_length : nat) (hits : list hit) :
  forall current_length,
  included_from max_context_length hits current_length = []
  \/ current_length + total (included_from max_context_length hits current_length)
     < max_context_length.
Proof.
  induction hits as [|h rest IH]; intros cur; simpl; [now left |].
  destruct (Nat.ltb_spec (cur + raw_length h) max_context_length) as [Hlt | Hge].
  - right. rewrite total_cons.
    destruct (IH (cur + raw_length h)) as [-> | H]; [unfold total; simpl; lia | lia].
  - apply IH.
Qed.

(** The loop over a list in two pieces: the second piece starts from the
    length the first one has reached. *)
Lemma included_app (max_context_length : nat) (l1 l2 : list hit) :
  forall current_length,
  included_from max_context_length (l1 ++ l2) current_length
  = (included_from max_context_length l1 current_length
     ++ included_from max_context_length l2
          (current_length + total (included_from max_context_length l1 current_length)))%list.
Proof.
  induction l1 as [|h l1 IH]; intros cur; simpl.
  - unfold total. simpl. now rewrite Nat.add_0_r.
  - destruct (cur + raw_length h <? max_context_length)%nat.
    + simpl. rewrite IH, total_cons. do 3 f_equal. lia.
    + apply IH.
Qed.

(** C8, as the code has it.  The context is made of the included hits in
    ranked order, joined by blank lines.  A hit is included exactly when the
    raw text lengths included before it plus its own raw text length stay
    strictly below the budget; a hit that does not fit is skipped and the
    scan goes on with the hits after it, which are included when they fit.
    The included hits are a subsequence of the ranked list, and their raw
    text lengths sum to less than the budget. *)
Theorem context_budget (hits : list hit) (max_context_length : nat) :
  build_course_context hits max_context_length
  = join (nl ++ nl) (map context_part (included hits max_context_length))
  /\ subsequence (included hits max_context_length) hits
  /\ (included hits max_context_length = []
      \/ total (included hits max_context_length) < max_context_length)
  /\ (forall before h after,
        included (before ++ h :: after) max_context_length
        = let used := total (included before max_context_length) in
          (included before max_context_length
           ++ if (used + raw_length h <? max_context_length)%nat
              then h :: included_from max_context_length after (used + raw_length h)
              else included_from max_context_length after used)%list).
Proof.
  split; [| split; [| split]].
  - unfold build_course_context, included. now rewrite context_loop_included.
  - apply included_subsequence.
  - apply (included_under_budget max_context_length hits 0).
  - intros before h after. unfold included. rewrite included_app. simpl.
    reflexivity.
Qed.

Fixpoint text_of_length (n : nat) : string :=
  match n with
  | O => ""
  | S n' => String "a" (text_of_length n')
  end.

Definition hit_of (score : Q) (label : string) (n : nat) : hit :=
  {| hit_score := score;
     hit_payload := Some {| p_text := Some (text_of_length n);
                            p_course_code := Some "C10302";
                            p_course_name := Some "Bachelor of Sport";
                            p_chunk_label := Some label;
                            p_source_url := None |} |}.

Definition label_of (h : hit) : string := pget h p_chunk_label "".

Definition ranked_hits : list hit :=
  [ hit_of (9 # 10) "Overview" 3000;
    hit_of (8 # 10) "Course Structure" 2000;
    hit_of (7 # 10) "Notes" 500 ].

(** C8 as stated fails.  Three hits of 3000, 2000 and 500 characters and
    the budget of 4000: the second hit does not fit and is left out, the
    third one, ranked after it, is included.  The included hits are no
    prefix of the ranked list, and the excluded hit comes before an
    included one. *)
Lemma skipped_hit_is_no_cutoff :
  4000 < total ranked_hits
  /\ map label_of (included ranked_hits 4000) = ["Overview"; "Notes"]
  /\ (forall n, included ranked_hits 4000 <> firstn n ranked_hits)
  /\ build_course_context ranked_hits 4000
     = join (nl ++ nl) [ context_part (hit_of (9 # 10) "Overview" 3000);
                         context_part (hit_of (7 # 10) "Notes" 500) ].
Proof.
  split; [apply Nat.ltb_lt; vm_compute; reflexivity |].
  split; [vm_compute; reflexivity |]. split.
  - intros n E. apply (f_equal (map label_of)) in E.
    destruct n as [|[|[|n]]]; vm_compute in E; discriminate.
  - vm_compute. reflexivity.
Qed.

End ContextFacts.

(* ====================================================================== *)
(** * Generation and the fallback of the chat endpoint *)
(* ====================================================================== *)

Module RagFacts.
Import PyStr Rag.

(** ** The generation step *)

Definition ERROR_PREFIX : string := "Error generating response: ".

Lemma answer_cases (service : ollama) (query context : string) (concise : bool) :
  let g := service (system_msg concise) (prompt query context concise) in
  let answer := answer_with_ollama service query context concise in
  (forall e, request_content g = Raise e -> answer = Json.VStr (ERROR_PREFIX ++ exn_str e))
  /\ (forall content, request_content g = Ok content -> answer = content).
Proof.
  cbv zeta. unfold answer_with_ollama.
  destruct (request_content _) as [content|e]; split; intros x [= <-]; reflexivity.
Qed.

Lemma strip_cons_not_space (c : ascii) (s : string) :
  is_space c = false -> strip (String c s) <> "".
Proof.
  intros Hc. unfold strip. cbn [lstrip]. rewrite Hc. cbn [rstrip]. rewrite Hc.
  discriminate.
Qed.

(** The error text is not blank, so the endpoint passes it on as it is. *)
Lemma or_rephrase_error (msg : string) :
  or_rephrase (ERROR_PREFIX ++ msg) = ERROR_PREFIX ++ msg.
Proof.
  unfold or_rephrase.
  assert (H : strip (ERROR_PREFIX ++ msg) <> "") by (apply strip_cons_not_space; reflexivity).
  destruct (strip (ERROR_PREFIX ++ msg)); [congruence | reflexivity].
Qed.

Lemma checked_response_error (msg : string) :
  checked_response (Json.VStr (ERROR_PREFIX ++ msg)) = Ok (ERROR_PREFIX ++ msg).
Proof.
  cbn [checked_response]. now rewrite or_rephrase_error.
Qed.

(** ** When the primary pipeline raises *)

Lemma check_result_quality_has_results (hits : list hit) (q : quality) :
  check_result_quality hits = Ok q -> has_results q = negb (match hits with [] => true | _ => false end).
Proof.
  unfold check_result_quality. destruct hits as [|top rest]; [now intros [= <-] |].
  destruct (2 <=? _)%nat.
  - destruct (mapM source_of _); simpl; [now intros [= <-] | discriminate].
  - now intros [= <-].
Qed.

Section Pipeline.

Variable w : services.
Variable query : string.
Variables code name : option string.
Variable concise : bool.

Let primary := query_with_full_pipeline w query code name concise.

(** The primary pipeline raises exactly what the filtered search or the
    quality check raises. *)
Lemma primary_raises_iff (e : exn) :
  primary = Raise e <->
  filtered_search w query code name 30 = Raise e
  \/ exists hits, filtered_search w query code name 30 = Ok hits
                  /\ check_result_quality hits = Raise e.
Proof.
  unfold primary, query_with_full_pipeline, query_with_filtering.
  destruct (filtered_search w query code name 30) as [hits|e0]; cbn [bind].
  - destruct (check_result_quality hits) as [q|e1] eqn:Hq; cbn [bind].
    + assert (Hnot : Ok q <> Raise e) by discriminate.
      destruct (has_results q); cbn [negb bind].
      * rewrite Hq. cbn [bind]. destruct (has_results q); cbn [negb].
        -- split; [discriminate |]. intros [H | (h & [= <-] & H)]; congruence.
        -- split; [discriminate |]. intros [H | (h & [= <-] & H)]; congruence.
      * split; [discriminate |]. intros [H | (h & [= <-] & H)]; congruence.
    + split.
      * intros [= <-]. right. eauto.
      * intros [H | (h & [= <-] & H)]; congruence.
  - split.
    + intros [= <-]. now left.
    + intros [H | (h & H & _)]; congruence.
Qed.

(** With hits and a quality check that passes, the primary pipeline
    returns what the generation step returns. *)
Lemma primary_generates (hits : list hit) (q : quality) :
  filtered_search w query code name 30 = Ok hits ->
  hits <> [] ->
  check_result_quality hits = Ok q ->
  primary = Ok (answer_with_ollama (primary_llm w) query
                  (build_course_context hits 4000) concise).
Proof.
  intros Hs Hne Hq.
  unfold primary, query_with_full_pipeline, query_with_filtering.
  rewrite Hs. cbn [bind]. rewrite Hq. cbn [bind].
  rewrite (check_result_quality_has_results hits q Hq).
  destruct hits as [|h rest]; [congruence |]. cbn [negb bind].
  rewrite Hq. cbn [bind]. rewrite (check_result_quality_has_results _ q Hq). reflexivity.
Qed.

End Pipeline.

(** ** The endpoint *)

(** What the endpoint answers from the outcome of a pipeline. *)
Definition reply_of (outcome : result Json.value) : reply :=
  match (response_text <- outcome ;; checked_response response_text) with
  | Ok response_text => Responded (mkResponse response_text true None)
  | Raise e => Responded (mkResponse APOLOGY false (Some (exn_str e)))
  end.

(** The primary pipeline and the fallback as the endpoint calls them. *)
Definition primary_call (w : services) (request : ChatRequest) : result Json.value :=
  let query := strip (message request) in
  query_with_full_pipeline w query (final_course_code request query) (course_name request)
    (concise_flag request).

Definition fallback_call (w : services) (request : ChatRequest) : result Json.value :=
  let query := strip (message request) in
  query_courses w query (final_course_code request query) (course_name request) DEFAULT_K
    (concise_flag request).

Lemma chat_with_preprocessing (w : services) (request : ChatRequest) :
  strip (message request) <> "" -> use_preprocessing request = Some true ->
  chat w request
  = match primary_call w request with
    | Ok response_text => (reply_of (Ok response_text), [CallFullPipeline])
    | Raise _ => (reply_of (fallback_call w request), [CallFullPipeline; CallQueryCourses])
    end.
Proof.
  intros Hq Hpre. unfold chat, answer_query, primary_call, fallback_call, reply_of. cbv zeta.
  destruct (is_empty (strip (message request))) eqn:E.
  { apply ThresholdFacts.is_empty_true in E. contradiction. }
  rewrite Hpre.
  match goal with
  | |- context [query_with_full_pipeline ?a ?b ?c ?d ?e] =>
      destruct (query_with_full_pipeline a b c d e) as [t|e0] eqn:Hfull
  end.
  - cbn [bind]. destruct (checked_response t); reflexivity.
  - match goal with
    | |- context [query_courses ?a ?b ?c ?d ?e ?f] =>
        destruct (query_courses a b c d e f) as [t|e1]
    end.
    + cbn [bind]. destruct (checked_response t); reflexivity.
    + reflexivity.
Qed.

(** C9, as the code has it.  For a request with a message that goes
    through the primary pipeline: the pipeline raises exactly when the
    filtered search or the quality check raises; the endpoint then calls the
    fallback [query_courses] once, with the same course filters, and
    answers with its result, or with the fixed apology when the fallback
    raises as well, so that nothing is raised to the caller.  A failure of
    the generation service, a timeout included, is turned into a text by
    [answer_with_ollama]: the pipeline returns it, and the fallback is not
    called. *)
Theorem fallback_on_primary_failure (w : services) (request : ChatRequest) :
  strip (message request) <> "" ->
  use_preprocessing request = Some true ->
  let query := strip (message request) in
  let code := final_course_code request query in
  let found := filtered_search w query code (course_name request) 30 in
  (forall e, primary_call w request = Raise e <->
     found = Raise e
     \/ exists hits, found = Ok hits /\ check_result_quality hits = Raise e)
  /\ (forall e, primary_call w request = Raise e ->
        snd (chat w request) = [CallFullPipeline; CallQueryCourses]
        /\ List.length (filter is_fallback (snd (chat w request))) = 1
        /\ fst (chat w request) = reply_of (fallback_call w request))
  /\ (forall hits q, found = Ok hits -> hits <> [] -> check_result_quality hits = Ok q ->
        primary_call w request
        = Ok (answer_with_ollama (primary_llm w) query (build_course_context hits 4000)
                (concise_flag request))
        /\ snd (chat w request) = [CallFullPipeline]
        /\ List.length (filter is_fallback (snd (chat w request))) = 0)
  /\ (exists r, fst (chat w request) = Responded r).
Proof.
  intros Hq Hpre query code found.
  pose proof (chat_with_preprocessing w request Hq Hpre) as Hchat.
  split; [| split; [| split]].
  - intros e. unfold primary_call. apply primary_raises_iff.
  - intros e He. rewrite Hchat, He. auto.
  - intros hits q Hs Hne Hcheck.
    assert (Hp : primary_call w request
                 = Ok (answer_with_ollama (primary_llm w) query
                         (build_course_context hits 4000) (concise_flag request)))
      by exact (primary_generates w query code (course_name request) (concise_flag request)
                  hits q Hs Hne Hcheck).
    split; [exact Hp |]. rewrite Hchat, Hp. auto.
  - rewrite Hchat. unfold reply_of.
    destruct (primary_call w request) as [t|e]; cbn [fst bind].
    + destruct (checked_response t); eauto.
    + destruct (fallback_call w request) as [t|e']; cbn [bind]; [| eauto].
      destruct (checked_response t); eauto.
Qed.

Definition a_hit : hit :=
  {| hit_score := 62 # 100;
     hit_payload := Some {| p_text := Some "Overview: the course runs for three years.";
                            p_course_code := Some "C10302";
                            p_course_name := Some "Bachelor of Sport";
                            p_chunk_label := Some "Overview";
                            p_source_url := None |} |}.

Definition a_request : ChatRequest :=
  {| message := "How long is C10302?"; course_code := None; course_name := None;
     history := None; concise := None; use_preprocessing := Some true |}.

(** Qdrant refuses the filtered search; the fallback search and Ollama work. *)
Definition search_down : services :=
  {| filtered_search := fun _ _ _ _ => Raise (ServiceError "Connection refused");
     hybrid_search := fun _ _ _ _ => Ok [a_hit];
     primary_llm := fun _ _ => Content "Three years.";
     fallback_llm := fun _ _ => Content "Three years full time." |}.

Lemma fallback_on_primary_failure_witness :
  chat search_down a_request
  = (Responded (mkResponse "Three years full time." true None),
     [CallFullPipeline; CallQueryCourses]).
Proof.
  assert (Hq : strip (message a_request) <> "") by (vm_compute; discriminate).
  destruct (fallback_on_primary_failure search_down a_request Hq eq_refl)
    as (_ & Hfall & _ & _).
  destruct (Hfall (ServiceError "Connection refused") eq_refl) as (Hcalls & _ & Hreply).
  destruct (chat search_down a_request) as [r calls]. simpl in Hcalls, Hreply.
  subst r calls. reflexivity.
Defined.

Definition TIMEOUT : string :=
  "HTTPConnectionPool(host='127.0.0.1', port=11434): Read timed out. (read timeout=180)".

(** The searches work; Ollama times out for the primary pipeline. *)
Definition generation_times_out : services :=
  {| filtered_search := fun _ _ _ _ => Ok [a_hit];
     hybrid_search := fun _ _ _ _ => Ok [a_hit];
     primary_llm := fun _ _ => PostRaises (RequestError TIMEOUT);
     fallback_llm := fun _ _ => Content "Three years full time." |}.

(** C9 as stated fails.  The generation service times out inside the
    primary pipeline: the fallback is not called, and the caller gets the
    error text as the answer, not the result of the fallback. *)
Lemma generation_timeout_no_fallback :
  chat generation_times_out a_request
  = (Responded (mkResponse ("Error generating response: " ++ TIMEOUT) true None),
     [CallFullPipeline])
  /\ List.length (filter is_fallback (snd (chat generation_times_out a_request))) = 0
  /\ fallback_call generation_times_out a_request = Ok (Json.VStr "Three years full time.").
Proof.
  repeat split; vm_compute; reflexivity.
Qed.

(** What the generation step returns: the content of the reply as it is
    when the request, the status check, the decoding and the two look-ups
    succeed, and otherwise the text "Error generating response: " followed
    by the message of the exception.  That text is not blank, and both
    pipelines and the endpoint hand it to the caller as the answer, with
    [success] set. *)
Lemma generation_errors_are_answers :
  (forall (service : ollama) (query context : string) (concise : bool),
     let g := service (system_msg concise) (prompt query context concise) in
     let answer := answer_with_ollama service query context concise in
     (forall content, g = Content content -> answer = Json.VStr content)
     /\ (forall v, g = NonString v -> answer = v)
     /\ (forall e, g = PostRaises e \/ g = StatusRaises e \/ g = JsonRaises e
                   \/ g = IndexRaises e ->
           answer = Json.VStr ("Error generating response: " ++ exn_str e))
     /\ ((exists content, request_content g = Ok content /\ answer = content)
         \/ (exists e, request_content g = Raise e
                       /\ answer = Json.VStr ("Error generating response: " ++ exn_str e))))
  /\ (forall (w : services) (request : ChatRequest) (hits : list hit) (q : quality) (e : exn),
        let query := strip (message request) in
        let code := final_course_code request query in
        let context := build_course_context hits 4000 in
        query <> "" ->
        use_preprocessing request = Some true ->
        filtered_search w query code (course_name request) 30 = Ok hits ->
        hits <> [] ->
        check_result_quality hits = Ok q ->
        request_content (primary_llm w (system_msg (concise_flag request))
                           (prompt query context (concise_flag request))) = Raise e ->
        chat w request
        = (Responded (mkResponse ("Error generating response: " ++ exn_str e) true None),
           [CallFullPipeline]))
  /\ (forall (w : services) (request : ChatRequest) (hits : list hit) (e : exn),
        let query := strip (message request) in
        let code := final_course_code request query in
        let context := build_course_context hits 4000 in
        query <> "" ->
        use_preprocessing request <> Some true ->
        hybrid_search w query code (course_name request) DEFAULT_K = Ok hits ->
        hits <> [] ->
        request_content (fallback_llm w (system_msg (concise_flag request))
                           (prompt query context (concise_flag request))) = Raise e ->
        chat w request
        = (Responded (mkResponse ("Error generating response: " ++ exn_str e) true None),
           [CallQueryCourses])).
Proof.
  split; [| split].
  - intros service query context concise g answer.
    destruct (answer_cases service query context concise) as [Herr Hok].
    fold g in Herr, Hok. fold answer in Herr, Hok.
    split; [| split; [| split]].
    + intros content Hg. apply Hok. now rewrite Hg.
    + intros v Hg. apply Hok. now rewrite Hg.
    + intros e [Hg | [Hg | [Hg | Hg]]]; apply Herr; now rewrite Hg.
    + destruct (request_content g) as [content|e] eqn:Hg.
      * left. exists content. split; [reflexivity | now apply Hok].
      * right. exists e. split; [reflexivity | now apply Herr].
  - intros w request hits q e query code context Hq Hpre Hs Hne Hcheck Hgen.
    rewrite (chat_with_preprocessing w request Hq Hpre).
    assert (Hp : primary_call w request
                 = Ok (answer_with_ollama (primary_llm w) query context (concise_flag request)))
      by exact (primary_generates w query code (course_name request) (concise_flag request)
                  hits q Hs Hne Hcheck).
    rewrite Hp.
    destruct (answer_cases (primary_llm w) query context (concise_flag request)) as [Herr _].
    fold context. rewrite (Herr e Hgen). unfold reply_of. cbn [bind].
    now rewrite checked_response_error.
  - intros w request hits e query code context Hq Hpre Hs Hne Hgen.
    unfold chat. cbv zeta. fold query.
    destruct (is_empty query) eqn:E.
    { apply ThresholdFacts.is_empty_true in E. contradiction. }
    fold code.
    assert (Hdirect : query_courses w query code (course_name request) DEFAULT_K
                        (concise_flag request)
                      = Ok (Json.VStr (ERROR_PREFIX ++ exn_str e))).
    { unfold query_courses. rewrite Hs. cbn [bind].
      destruct hits as [|h rest]; [congruence |].
      destruct (answer_cases (fallback_llm w) query context (concise_flag request))
        as [Herr _].
      fold context. now rewrite (Herr e Hgen). }
    unfold answer_query. rewrite Hdirect.
    destruct (use_preprocessing request) as [[|]|]; try congruence;
      cbn [bind]; now rewrite checked_response_error.
Qed.

(** ** A reply whose content is no string *)

(** The generation service answers with status 200 and a body that is JSON
    and has both keys, [{"message": {"content": null}}], or with the
    content [5]. *)
Definition null_content : ollama := fun _ _ => NonString Json.VNone.

Definition number_content : ollama := fun _ _ => NonString (Json.VInt 5).

(** Both searches work, and both pipelines reach the same service. *)
Definition generation_by (service : ollama) : services :=
  {| filtered_search := fun _ _ _ _ => Ok [a_hit];
     hybrid_search := fun _ _ _ _ => Ok [a_hit];
     primary_llm := service;
     fallback_llm := service |}.

(** C10. The generation step does not always return a string.  It never
    raises, and every exception of the request is turned into the error
    text; but the content of a reply is returned unchecked, so a reply
    whose content is null, or the number 5, makes it return [None], or 5:
    what it returns is a string exactly when the content is one or an
    exception was caught.  The endpoint then answers the null content with
    its fixed request to rephrase, and the number with the apology and
    [success] unset, the check of the response having raised. *)
Theorem non_string_content_is_returned :
  (forall query context concise,
     answer_with_ollama null_content query context concise = Json.VNone
     /\ answer_with_ollama number_content query context concise = Json.VInt 5)
  /\ (forall (service : ollama) (query context : string) (concise : bool),
        let g := service (system_msg concise) (prompt query context concise) in
        let answer := answer_with_ollama service query context concise in
        (forall v, g = NonString v -> answer = v)
        /\ ((exists s, answer = Json.VStr s) <->
            ~ exists v, g = NonString v /\ forall s, v <> Json.VStr s))
  /\ chat (generation_by null_content) a_request
     = (Responded (mkResponse REPHRASE true None), [CallFullPipeline])
  /\ chat (generation_by number_content) a_request
     = (Responded (mkResponse APOLOGY false
                     (Some "'int' object has no attribute 'strip'")),
        [CallFullPipeline]).
Proof.
  split; [| split; [| split]].
  - intros query context concise. split; reflexivity.
  - intros service query context concise g answer.
    destruct (answer_cases service query context concise) as [Herr Hok].
    fold g in Herr, Hok. fold answer in Herr, Hok.
    split.
    + intros v Hg. apply Hok. now rewrite Hg.
    + destruct g as [e|e|e|e|content|v] eqn:Hg.
      1-4: split; [intros _ (v & Hv & _); discriminate |];
           intros _; eexists; apply Herr; reflexivity.
      * split; [intros _ (v & Hv & _); discriminate |].
        intros _. exists content. now apply Hok.
      * rewrite (Hok v eq_refl). split.
        -- intros (s & ->) (v' & [= <-] & Hv'). now apply (Hv' s).
        -- intros Hnot. destruct v as [| | |s| |]; try (now exists s);
             elim Hnot; eexists; (split; [reflexivity | discriminate]).
  - vm_compute. reflexivity.
  - vm_compute. reflexivity.
Qed.

End RagFacts.

(* ====================================================================== *)
(** * Course codes: what the extractors and the resolution return *)
(* ====================================================================== *)

Module CodeFacts.
Import PyStr Json Ingest.

(** ** Upper case *)

Lemma upper_char_idem (c : ascii) : upper_char (upper_char c) = upper_char c.
Proof. destruct c as [[] [] [] [] [] [] [] []]; reflexivity. Qed.

Lemma upper_idem (s : string) : upper (upper s) = upper s.
Proof.
  unfold upper. induction s as [|c s IH]; cbn [smap]; [reflexivity |].
  now rewrite upper_char_idem, IH.
Qed.

Lemma upper_char_cC (a : ascii) : is_cC a = true -> upper_char a = "C"%char.
Proof.
  unfold is_cC. rewrite orb_true_iff.
  intros [H | H]; apply Ascii.eqb_eq in H; subst; reflexivity.
Qed.

Lemma upper_char_digit (d : ascii) : is_digit d = true -> upper_char d = d.
Proof. destruct d as [[] [] [] [] [] [] [] []]; simpl; intros H; try discriminate; reflexivity. Qed.

(** The six characters of a course code: C or c, and five digits. *)
Definition code_shape (m : string) : Prop :=
  exists a d1 d2 d3 d4 d5,
    m = String a (String d1 (String d2 (String d3 (String d4 (String d5 "")))))
    /\ is_cC a = true
    /\ is_digit d1 = true /\ is_digit d2 = true /\ is_digit d3 = true
    /\ is_digit d4 = true /\ is_digit d5 = true.

Lemma code_shape_upper (m : string) :
  code_shape m ->
  code_shape (upper m) /\ upper (upper m) = upper m /\ String.length (upper m) = 6
  /\ is_course_code (upper m) = true
  /\ match_classes FILENAME_PATTERN (upper m) = Some (upper m).
Proof.
  intros (a & d1 & d2 & d3 & d4 & d5 & -> & Ha & H1 & H2 & H3 & H4 & H5).
  unfold upper. cbn [smap].
  rewrite (upper_char_cC a Ha), !(upper_char_digit d1 H1), !(upper_char_digit d2 H2),
    !(upper_char_digit d3 H3), !(upper_char_digit d4 H4), !(upper_char_digit d5 H5).
  change (upper_char "C") with "C"%char.
  split; [| split; [| split; [| split]]].
  - exists "C"%char, d1, d2, d3, d4, d5. auto 10.
  - reflexivity.
  - reflexivity.
  - apply CourseCodeFacts.is_course_code_spec.
    exists "C"%char, d1, d2, d3, d4, d5, "". auto 10.
  - unfold FILENAME_PATTERN, code_tail. cbn [match_classes].
    rewrite H1, H2, H3, H4, H5. reflexivity.
Qed.

(** ** Searching a pattern of fixed length *)

Lemma match_classes_cons (p : ascii -> bool) (cs : list (ascii -> bool)) (s m : string) :
  match_classes (p :: cs) s = Some m ->
  exists a s' m', s = String a s' /\ m = String a m' /\ p a = true
                  /\ match_classes cs s' = Some m'.
Proof.
  destruct s as [|a s']; simpl; [discriminate |].
  destruct (p a) eqn:Hp; [| discriminate].
  destruct (match_classes cs s') as [m'|] eqn:Hm; simpl; [| discriminate].
  intros [= <-]. exists a, s', m'. auto.
Qed.

(** A match is a prefix of the text. *)
Lemma match_classes_prefix (cs : list (ascii -> bool)) :
  forall s m, match_classes cs s = Some m ->
  exists post, s = m ++ post /\ match_classes cs m = Some m.
Proof.
  induction cs as [|p cs IH]; intros s m; simpl.
  - intros [= <-]. exists s. auto.
  - destruct s as [|a s']; [discriminate |].
    destruct (p a) eqn:Hp; [| discriminate].
    destruct (match_classes cs s') as [m'|] eqn:Hm; simpl; [| discriminate].
    intros [= <-]. destruct (IH s' m' Hm) as (post & -> & Hm').
    exists post. split; [reflexivity |]. simpl. rewrite Hp, Hm'. reflexivity.
Qed.

(** What follows a match does not matter. *)
Lemma match_classes_extend (cs : list (ascii -> bool)) :
  forall m post, match_classes cs m = Some m -> match_classes cs (m ++ post) = Some m.
Proof.
  induction cs as [|p cs IH]; intros m post; simpl.
  - now intros [= <-].
  - destruct m as [|a m']; [discriminate |]. simpl.
    destruct (p a); [| discriminate].
    destruct (match_classes cs m') as [m''|] eqn:Hm; simpl; [| discriminate].
    intros [= ->]. now rewrite (IH m' post Hm).
Qed.

(** [re.search] returns the leftmost match: the text is cut into what comes
    before the match, the match and the rest, and the pattern matches at no
    earlier position. *)
Lemma search_classes_Some (cs : list (ascii -> bool)) :
  forall s m, search_classes cs s = Some m <->
  exists pre post,
    s = pre ++ m ++ post
    /\ match_classes cs m = Some m
    /\ forall p1 p2, pre = p1 ++ p2 -> p2 <> "" ->
         match_classes cs (p2 ++ m ++ post) = None.
Proof.
  induction s as [|a s IH]; intros m.
  - simpl. split.
    + destruct (match_classes cs "") as [m'|] eqn:Hm; [| discriminate].
      intros [= <-]. destruct (match_classes_prefix cs "" m' Hm) as (post & E & Hm').
      exists "", post. split; [exact E |]. split; [exact Hm' |].
      intros [|] [|] E' Hne; simpl in E'; congruence.
    + intros ([|] & post & E & Hm & _); [| discriminate].
      simpl in E. rewrite E. now rewrite (match_classes_extend cs m post Hm).
  - cbn [search_classes]. split.
    + destruct (match_classes cs (String a s)) as [m'|] eqn:Hm.
      * intros [= <-]. destruct (match_classes_prefix cs _ m' Hm) as (post & E & Hm').
        exists "", post. split; [exact E |]. split; [exact Hm' |].
        intros [|] [|] E' Hne; simpl in E'; congruence.
      * intros H. apply IH in H as (pre & post & -> & Hm' & Hleft).
        exists (String a pre), post. split; [reflexivity |]. split; [exact Hm' |].
        intros [|b p1] p2 E Hne.
        -- simpl in E. subst p2. exact Hm.
        -- simpl in E. injection E as <- ->. now apply (Hleft p1 p2).
    + intros ([|b pre] & post & E & Hm & Hleft).
      * simpl in E. rewrite E. now rewrite (match_classes_extend cs m post Hm).
      * simpl in E. injection E as <- ->.
        assert (H0 : match_classes cs (String a pre ++ m ++ post) = None)
          by (apply (Hleft "" (String a pre) eq_refl); discriminate).
        simpl in H0. rewrite H0.
        apply IH. exists pre, post. split; [reflexivity |]. split; [exact Hm |].
        intros p1 p2 -> Hne. now apply (Hleft (String a p1) p2).
Qed.

Lemma search_classes_None (cs : list (ascii -> bool)) :
  forall s, search_classes cs s = None <->
  forall pre rest, s = pre ++ rest -> match_classes cs rest = None.
Proof.
  induction s as [|a s IH].
  - simpl. split.
    + destruct (match_classes cs "") eqn:Hm; [discriminate |].
      intros _ [|] [|] E'; simpl in E'; congruence.
    + intros H. now rewrite (H "" "" eq_refl).
  - cbn [search_classes]. split.
    + destruct (match_classes cs (String a s)) eqn:Hm; [discriminate |].
      intros H [|b pre] rest E; simpl in E.
      * now subst rest.
      * injection E as <- ->. rewrite IH in H. now apply (H pre rest).
    + intros H. rewrite (H "" (String a s) eq_refl).
      apply IH. intros pre rest ->. now apply (H (String a pre) rest).
Qed.

Lemma filename_pattern_shape (m : string) :
  match_classes FILENAME_PATTERN m = Some m <->
  code_shape m /\ substring 0 1 m = "C".
Proof.
  unfold FILENAME_PATTERN, code_tail. split.
  - intros H.
    destruct m as [|a [|d1 [|d2 [|d3 [|d4 [|d5 tail]]]]]]; cbn [match_classes] in H;
      repeat match type of H with
             | context [if ?b then _ else _] => destruct b eqn:?; cbn [option_map] in H
             end; try discriminate.
    injection H as <-.
    match goal with H : is_C a = true |- _ => apply Ascii.eqb_eq in H; subst a end.
    split; [| reflexivity].
    do 6 eexists. split; [reflexivity |]. auto 10.
  - intros [(a & d1 & d2 & d3 & d4 & d5 & -> & Ha & H1 & H2 & H3 & H4 & H5) HC].
    simpl in HC. injection HC as ->. cbn [match_classes is_C].
    rewrite H1, H2, H3, H4, H5. reflexivity.
Qed.


Lemma url_pattern_shape (m : string) :
  match_classes URL_PATTERN m = Some m <-> exists k, m = "/courses/" ++ k /\ code_shape k.
Proof.
  unfold URL_PATTERN, code_tail. cbn [lit list_ascii_of_string map app]. split.
  - intros H.
    destruct m as [|a1 [|a2 [|a3 [|a4 [|a5 [|a6 [|a7 [|a8 [|a9
                  [|a [|d1 [|d2 [|d3 [|d4 [|d5 tail]]]]]]]]]]]]]]];
      cbn [match_classes] in H;
      repeat match type of H with
             | context [if ?b then _ else _] => destruct b eqn:?; cbn [option_map] in H
             end; try discriminate.
    injection H as <-.
    repeat match goal with
           | H : (_ =? _)%char = true |- _ => apply Ascii.eqb_eq in H; subst
           end.
    eexists. split; [reflexivity |].
    do 6 eexists. split; [reflexivity |]. auto 10.
  - intros (k & -> & a & d1 & d2 & d3 & d4 & d5 & -> & Ha & H1 & H2 & H3 & H4 & H5).
    cbn [append match_classes Ascii.eqb Bool.eqb option_map].
    rewrite Ha, H1, H2, H3, H4, H5. reflexivity.
Qed.

Lemma code_shape_substring (k : string) :
  code_shape k -> substring 9 6 ("/courses/" ++ k) = k.
Proof.
  intros (a & d1 & d2 & d3 & d4 & d5 & -> & _). reflexivity.
Qed.

Lemma extract_url_Some (url : value) (c : string) :
  extract_course_code_from_url url = Ok (Some c) <->
  exists u m, url = VStr u /\ search_classes URL_PATTERN u = Some m
              /\ c = upper (substring 9 6 m).
Proof.
  unfold extract_course_code_from_url. split.
  - destruct (negb (truthy url)); [discriminate |].
    destruct url as [| | |u| |]; try discriminate.
    destruct (search_classes URL_PATTERN u) as [m|] eqn:Hm; [| discriminate].
    intros [= <-]. eauto.
  - intros (u & m & -> & Hm & ->).
    destruct u as [|a u]; [discriminate |]. cbn [truthy is_empty negb].
    now rewrite Hm.
Qed.

(** A stripped text that is a course code has no line feed at its end. *)
Lemma stripped_code_shape (s : string) :
  is_course_code (strip s) = true -> code_shape (strip s).
Proof.
  intros H. apply CourseCodeFacts.is_course_code_spec in H
    as (a & d1 & d2 & d3 & d4 & d5 & tail & E & Ha & H1 & H2 & H3 & H4 & H5 & [-> | ->]).
  - rewrite E. exists a, d1, d2, d3, d4, d5. auto 10.
  - exfalso.
    assert (Hsp : is_space Re.line_feed = false).
    { apply (JunkFacts.strip_last s
               (String a (String d1 (String d2 (String d3 (String d4 (String d5 ""))))))).
      exact E. }
    discriminate.
Qed.

(** The resolution returns the upper case of a well-formed code, or of the
    stripped value of the record, which is then not a well-formed code. *)
Lemma get_course_code_cases (course_data : dict) (filename code : string) :
  get_course_code course_data filename = Ok code ->
  (exists k, code_shape k /\ code = upper k)
  \/ (exists raw,
        attr_strip (get course_data "course_code" (VStr "UNKNOWN")) = Ok raw
        /\ code = upper raw /\ is_course_code raw = false).
Proof.
  assert (Hurl : forall v c, extract_course_code_from_url v = Ok (Some c) ->
            exists k, code_shape k /\ c = upper k).
  { intros v c H. apply extract_url_Some in H as (u & m & _ & Hm & ->).
    apply search_classes_Some in Hm as (_ & _ & _ & Hm & _).
    apply url_pattern_shape in Hm as (k & -> & Hk).
    exists k. split; [exact Hk |]. now rewrite code_shape_substring. }
  unfold get_course_code.
  destruct (attr_strip (get course_data "course_code" (VStr ""))) as [c|e] eqn:Hc;
    cbn [bind]; [| discriminate].
  assert (Hstrip : exists s, c = strip s).
  { unfold attr_strip in Hc. destruct (get course_data "course_code" (VStr ""));
      try discriminate. injection Hc as <-. eauto. }
  destruct (negb (is_empty c) && is_course_code c) eqn:Hvalid.
  - intros [= <-]. apply andb_true_iff in Hvalid as [_ Hvalid].
    destruct Hstrip as [s ->]. left. exists (strip s).
    split; [now apply stripped_code_shape | reflexivity].
  - destruct (attr_get (get course_data "metadata" (VDict [])) "source_url" (VStr ""))
      as [url|e]; cbn [bind]; [| discriminate].
    destruct (extract_course_code_from_url url) as [[c'|]|e] eqn:Hu; cbn [bind];
      [| | discriminate].
    { intros [= <-]. left. exact (Hurl _ _ Hu). }
    destruct (extract_course_code_from_url (VStr filename)) as [[c'|]|e] eqn:Hf; cbn [bind];
      [| | discriminate].
    { intros [= <-]. left. exact (Hurl _ _ Hf). }
    destruct (attr_strip (get course_data "course_code" (VStr "UNKNOWN"))) as [raw|e] eqn:Hraw;
      cbn [bind]; [| discriminate].
    intros [= <-]. right. exists raw.
    split; [reflexivity |]. split; [reflexivity |].
    unfold get in Hc, Hraw. destruct (lookup course_data "course_code") as [v|].
    + assert (raw = c) by congruence. subst raw.
      apply andb_false_iff in Hvalid as [Hv | Hv]; [| exact Hv].
      apply negb_false_iff, ThresholdFacts.is_empty_true in Hv. now subst c.
    + injection Hraw as <-. reflexivity.
Qed.

(** X1. Whatever the record and the file name, the course code that the
    resolution returns is in upper case.  It is either a well-formed code,
    a capital C and five digits, that passes the check of the first step,
    or the stripped value of the record (["UNKNOWN"] without one) in upper
    case, and then that value is not a well-formed code. *)
Theorem resolved_code_is_upper_case (course_data : dict) (filename code : string) :
  get_course_code course_data filename = Ok code ->
  upper code = code
  /\ ((code_shape code /\ substring 0 1 code = "C" /\ is_course_code code = true)
      \/ exists raw,
           attr_strip (get course_data "course_code" (VStr "UNKNOWN")) = Ok raw
           /\ code = upper raw /\ is_course_code raw = false).
Proof.
  intros H. destruct (get_course_code_cases _ _ _ H) as [(k & Hk & ->) | (raw & Hraw & -> & Hn)].
  - destruct (code_shape_upper k Hk) as (Hs & Hu & _ & Hc & Hf).
    split; [exact Hu |]. left. split; [exact Hs |]. split; [| exact Hc].
    now apply filename_pattern_shape in Hf.
  - split; [apply upper_idem |]. right. exists raw. auto.
Qed.

Definition url_record : dict :=
  [ ("course_code", VStr "sport science");
    ("metadata", VDict [("source_url", VStr "https://handbook.uts.edu.au/courses/c10302.html")]) ].

Lemma resolved_code_is_upper_case_witness :
  upper "C10302" = "C10302"
  /\ ((code_shape "C10302" /\ substring 0 1 "C10302" = "C" /\ is_course_code "C10302" = true)
      \/ exists raw,
           attr_strip (get url_record "course_code" (VStr "UNKNOWN")) = Ok raw
           /\ "C10302" = upper raw /\ is_course_code raw = false).
Proof.
  apply (resolved_code_is_upper_case url_record "course_7.json" "C10302"). reflexivity.
Defined.

(** X2. The extractor of the source URL gives no code for a falsy value
    (null, the empty string, zero, an empty list or dict) and raises a
    [TypeError] for a truthy value that is no string.  On a string it finds
    a code exactly when the string holds [/courses/] followed by C or c and
    five digits: the code is the one of the leftmost such place, in upper
    case; without such a place it gives no code. *)
Theorem url_code_extraction :
  (forall url, truthy url = false -> extract_course_code_from_url url = Ok None)
  /\ (forall url, truthy url = true -> (forall u, url <> VStr u) ->
        exists msg, extract_course_code_from_url url = Raise (TypeError msg))
  /\ (forall u c,
        extract_course_code_from_url (VStr u) = Ok (Some c) <->
        exists pre k post,
          u = pre ++ "/courses/" ++ k ++ post /\ code_shape k /\ c = upper k
          /\ forall p1 p2, pre = p1 ++ p2 -> p2 <> "" ->
               match_classes URL_PATTERN (p2 ++ "/courses/" ++ k ++ post) = None)
  /\ (forall u,
        extract_course_code_from_url (VStr u) = Ok None <->
        forall pre k post, u = pre ++ "/courses/" ++ k ++ post -> ~ code_shape k).
Proof.
  split; [| split; [| split]].
  - intros url H. unfold extract_course_code_from_url. now rewrite H.
  - intros url H Hn. unfold extract_course_code_from_url. rewrite H. cbn [negb].
    destruct url; eauto. now elim (Hn s).
  - intros u c. rewrite extract_url_Some. split.
    + intros (u' & m & [= <-] & Hm & ->).
      apply search_classes_Some in Hm as (pre & post & -> & Hm & Hleft).
      apply url_pattern_shape in Hm as (k & -> & Hk).
      exists pre, k, post. rewrite code_shape_substring by assumption.
      split; [reflexivity |]. split; [exact Hk |]. split; [reflexivity |].
      intros p1 p2 E Hne. exact (Hleft p1 p2 E Hne).
    + intros (pre & k & post & -> & Hk & -> & Hleft).
      exists (pre ++ "/courses/" ++ k ++ post), ("/courses/" ++ k).
      split; [reflexivity |]. rewrite code_shape_substring by assumption.
      split; [| reflexivity].
      apply search_classes_Some. exists pre, post.
      split; [reflexivity |].
      split; [apply url_pattern_shape; eauto |].
      intros p1 p2 E Hne. exact (Hleft p1 p2 E Hne).
  - intros u. unfold extract_course_code_from_url.
    destruct u as [|a u].
    + cbn [truthy is_empty negb]. split; [| reflexivity].
      intros _ [|] k post E; discriminate.
    + cbn [truthy is_empty negb].
      destruct (search_classes URL_PATTERN (String a u)) as [m|] eqn:Hm.
      * split; [discriminate |]. intros H. exfalso.
        apply search_classes_Some in Hm as (pre & post & E & Hm & _).
        apply url_pattern_shape in Hm as (k & -> & Hk).
        apply (H pre k post); [| exact Hk].
        rewrite E. reflexivity.
      * split; [| reflexivity]. intros _ pre k post E Hk.
        rewrite search_classes_None in Hm.
        specialize (Hm pre ("/courses/" ++ k ++ post) E).
        assert (Hmatch : match_classes URL_PATTERN (("/courses/" ++ k) ++ post)
                         = Some ("/courses/" ++ k)).
        { apply match_classes_extend, url_pattern_shape. eauto. }
        change (("/courses/" ++ k) ++ post) with ("/courses/" ++ k ++ post) in Hmatch.
        congruence.
Qed.

Lemma url_code_extraction_witness :
  extract_course_code_from_url (VStr "") = Ok None
  /\ (exists msg, extract_course_code_from_url (VInt 7) = Raise (TypeError msg))
  /\ exists pre k post,
       "https://handbook.uts.edu.au/courses/c10302.html" = pre ++ "/courses/" ++ k ++ post
       /\ code_shape k /\ "C10302" = upper k.
Proof.
  destruct url_code_extraction as (Hfalsy & Htype & Hsome & _).
  split; [apply Hfalsy; reflexivity |].
  split; [apply Htype; [reflexivity | discriminate] |].
  destruct (proj1 (Hsome "https://handbook.uts.edu.au/courses/c10302.html" "C10302") eq_refl)
    as (pre & k & post & E & Hk & Hc & _).
  exists pre, k, post. auto.
Defined.

(** X3. The extractor of the file name finds a code exactly when the name
    holds a capital C followed by five digits, and returns the leftmost
    such place as it is; a lower-case c does not count.  What it returns
    passes the check that the resolution applies to the code of a record,
    and is in upper case already. *)
Theorem filename_code_extraction (filename : string) :
  (forall m,
     extract_course_code_from_filename filename = Some m <->
     exists pre post,
       filename = pre ++ m ++ post /\ code_shape m /\ substring 0 1 m = "C"
       /\ forall p1 p2, pre = p1 ++ p2 -> p2 <> "" ->
            match_classes FILENAME_PATTERN (p2 ++ m ++ post) = None)
  /\ (extract_course_code_from_filename filename = None <->
      forall pre m post, filename = pre ++ m ++ post -> code_shape m ->
        substring 0 1 m <> "C")
  /\ (forall m, extract_course_code_from_filename filename = Some m ->
        is_course_code m = true /\ upper m = m).
Proof.
  unfold extract_course_code_from_filename.
  assert (Hfirst : forall m,
            search_classes FILENAME_PATTERN filename = Some m <->
            exists pre post,
              filename = pre ++ m ++ post /\ code_shape m /\ substring 0 1 m = "C"
              /\ forall p1 p2, pre = p1 ++ p2 -> p2 <> "" ->
                   match_classes FILENAME_PATTERN (p2 ++ m ++ post) = None).
  { intros m. rewrite search_classes_Some. split.
    - intros (pre & post & E & Hm & Hleft). apply filename_pattern_shape in Hm as [Hs HC].
      exists pre, post. auto.
    - intros (pre & post & E & Hs & HC & Hleft). exists pre, post.
      split; [exact E |]. split; [now apply filename_pattern_shape | exact Hleft]. }
  split; [exact Hfirst |]. split.
  - rewrite search_classes_None. split.
    + intros H pre m post E Hs HC.
      specialize (H pre (m ++ post) E).
      rewrite match_classes_extend in H; [discriminate |].
      now apply filename_pattern_shape.
    + intros H pre rest E.
      destruct (match_classes FILENAME_PATTERN rest) as [m|] eqn:Hm; [| reflexivity].
      exfalso. apply match_classes_prefix in Hm as (post & -> & Hm).
      apply filename_pattern_shape in Hm as [Hs HC].
      now apply (H pre m post).
  - intros m Hm. apply Hfirst in Hm as (_ & _ & _ & Hs & HC & _).
    destruct Hs as (a & d1 & d2 & d3 & d4 & d5 & -> & Ha & H1 & H2 & H3 & H4 & H5).
    simpl in HC. injection HC as ->.
    split.
    + apply CourseCodeFacts.is_course_code_spec.
      exists "C"%char, d1, d2, d3, d4, d5, "". auto 10.
    + unfold upper. cbn [smap].
      now rewrite (upper_char_digit d1 H1), (upper_char_digit d2 H2), (upper_char_digit d3 H3),
        (upper_char_digit d4 H4), (upper_char_digit d5 H5).
Qed.

Lemma filename_code_extraction_witness :
  is_course_code "C10302" = true /\ upper "C10302" = "C10302".
Proof.
  apply (proj2 (proj2 (filename_code_extraction "Bachelor_of_Sport_C10302.json")) "C10302").
  reflexivity.
Defined.

End CodeFacts.

(* ====================================================================== *)
(** * Field formatting and the course name *)
(* ====================================================================== *)

Module FormatFacts.
Import PyStr Json Ingest.

Definition NO_GET : exn := AttributeError "object has no attribute 'get'".

Lemma numbered_line_dict (d : dict) : exists line, numbered_line (VDict d) = Ok line.
Proof.
  unfold numbered_line. cbn [attr_get bind]. destruct (truthy _); cbn [bind]; eauto.
Qed.

Lemma numbered_line_other (item : value) :
  TypedRecords.is_dict item = false -> numbered_line item = Raise NO_GET.
Proof. destruct item; try discriminate; reflexivity. Qed.

(** The comprehension over the items raises exactly when one of them is no
    dict. *)
Lemma numbered_lines_raise (items : list value) :
  (forall e, filter_mapM numbered_line items = Raise e -> e = NO_GET)
  /\ ((exists e, filter_mapM numbered_line items = Raise e) <->
      exists x, In x items /\ TypedRecords.is_dict x = false).
Proof.
  induction items as [|item items [IHe IH]]; cbn [filter_mapM].
  - split; [discriminate |]. split; [intros [e H]; discriminate | intros (x & [] & _)].
  - destruct (TypedRecords.is_dict item) eqn:Hd.
    + destruct item; try discriminate.
      destruct (numbered_line_dict d) as [line ->]. cbn [bind].
      destruct (filter_mapM numbered_line items) as [lines|e0]; cbn [bind].
      * split; [discriminate |]. split; [intros [e H]; discriminate |].
        intros (x & [<- | Hx] & Hn); [discriminate |].
        destruct (proj2 IH) as [e He]; [eauto | discriminate].
      * split; [intros e [= <-]; now apply IHe |].
        split; [| eauto]. intros _. destruct (proj1 IH) as (x & Hx & Hn); [eauto |].
        exists x. split; [now right | exact Hn].
    + rewrite (numbered_line_other item Hd). cbn [bind].
      split; [now intros e [= <-] |]. split; [| eauto].
      intros _. exists item. split; [now left | exact Hd].
Qed.

(** X4. Formatting a field value raises in one case only: the value is a
    list whose first item is a dict and which holds an item that is no
    dict; the exception is then the [AttributeError] of the missing [get].
    Null and the empty list give the empty text, and a list that starts
    with anything but a dict is joined without a check of its items. *)
Theorem format_field_value_errors (v : value) :
  ((exists e, format_field_value v = Raise e) <->
   exists d rest, v = VList (VDict d :: rest)
                  /\ exists x, In x rest /\ TypedRecords.is_dict x = false)
  /\ (forall e, format_field_value v = Raise e -> exists msg, e = AttributeError msg)
  /\ (v = VNone \/ v = VList [] -> format_field_value v = Ok "")
  /\ (forall x rest, v = VList (x :: rest) -> TypedRecords.is_dict x = false ->
        format_field_value v = Ok (join ", " (map py_str (filter truthy (x :: rest))))).
Proof.
  split; [| split; [| split]].
  - split.
    + intros [e H]. destruct v as [| | | |[|x rest]|]; try discriminate.
      destruct x; try discriminate. cbn [format_field_value] in H.
      destruct (filter_mapM numbered_line (VDict d :: rest)) as [lines|e0] eqn:Hl;
        cbn [bind] in H; [discriminate |].
      destruct (proj1 (proj2 (numbered_lines_raise (VDict d :: rest))))
        as (y & [<- | Hy] & Hn); [eauto | discriminate |].
      exists d, rest. split; [reflexivity |]. eauto.
    + intros (d & rest & -> & x & Hx & Hn). cbn [format_field_value].
      destruct (proj2 (proj2 (numbered_lines_raise (VDict d :: rest)))) as [e He].
      { exists x. split; [now right | exact Hn]. }
      rewrite He. cbn [bind]. eauto.
  - intros e H. destruct v as [| | | |[|x rest]|]; try discriminate.
    destruct x; try discriminate. cbn [format_field_value] in H.
    destruct (filter_mapM numbered_line (VDict d :: rest)) as [lines|e0] eqn:Hl;
      cbn [bind] in H; [discriminate |].
    injection H as <-. exists "object has no attribute 'get'".
    now apply (proj1 (numbered_lines_raise (VDict d :: rest))).
  - intros [-> | ->]; reflexivity.
  - intros x rest -> Hx. destruct x; try discriminate; reflexivity.
Qed.

Lemma format_field_value_errors_witness :
  exists e,
    format_field_value
      (VList [VDict [("number", VStr "1"); ("text", VStr "Apply exercise science.")];
              VStr "Communicate effectively."])
    = Raise e.
Proof.
  apply (proj2 (proj1 (format_field_value_errors _))).
  exists [("number", VStr "1"); ("text", VStr "Apply exercise science.")],
         [VStr "Communicate effectively."].
  split; [reflexivity |]. exists (VStr "Communicate effectively.").
  split; [now left | reflexivity].
Defined.

(** ** The course name taken from the file name *)

Definition TEQSA : string := "TEQSA Category: Australian University".

Definition underscore : ascii := "_"%char.

Definition no_underscore (s : string) : Prop := contains underscore s = false.

Lemma no_underscore_cons (c : ascii) (s : string) :
  no_underscore (String c s) <-> c <> underscore /\ no_underscore s.
Proof.
  unfold no_underscore, contains. cbn [PyStr.forallb].
  rewrite !negb_false_iff, andb_true_iff, negb_true_iff.
  destruct (Ascii.eqb_spec c underscore); split; intros [H1 H2]; auto; congruence.
Qed.

Lemma no_underscore_nil : no_underscore "".
Proof. reflexivity. Qed.

Lemma no_underscore_app (a b : string) :
  no_underscore a -> no_underscore b -> no_underscore (a ++ b).
Proof.
  induction a as [|c a IH]; simpl; [auto |].
  rewrite !no_underscore_cons. intros [Hc Ha] Hb. auto.
Qed.

(** The pieces of [s.split('_')] hold no underscore. *)
Lemma split_on_pieces (s : string) : Forall no_underscore (split_on underscore s).
Proof.
  induction s as [|c s IH]; cbn [split_on].
  - constructor; [apply no_underscore_nil | constructor].
  - destruct (Ascii.eqb_spec c underscore) as [-> | Hc].
    + constructor; [apply no_underscore_nil | exact IH].
    + destruct (split_on underscore s) as [|p ps].
      * constructor; [| constructor]. apply no_underscore_cons. split; [exact Hc | reflexivity].
      * inversion IH; subst. constructor; [| assumption].
        apply no_underscore_cons. auto.
Qed.

Lemma join_no_underscore (l : list string) :
  Forall no_underscore l -> no_underscore (join " " l).
Proof.
  induction 1 as [|x l Hx Hl IH]; [reflexivity |].
  destruct l as [|y l]; [exact Hx |].
  change (join " " (x :: y :: l)) with (x ++ " " ++ join " " (y :: l)).
  apply no_underscore_app; [exact Hx |].
  apply no_underscore_app; [reflexivity | exact IH].
Qed.

Lemma replace_no_underscore (s : string) :
  no_underscore s -> replace_char underscore " " s = s.
Proof.
  unfold replace_char. induction s as [|c s IH]; [reflexivity |].
  rewrite no_underscore_cons. intros [Hc Hs]. cbn [smap].
  destruct (Ascii.eqb_spec c underscore); [contradiction |]. now rewrite IH.
Qed.

(** The pieces of the stem that make the name: neither empty, nor "None",
    nor a course code. *)
Definition name_parts (filename : string) : list string :=
  filter (fun p => negb ((p =? "None") || (p =? "")) && negb (is_course_code p))
         (split_on underscore (path_stem filename)).

(** X5. A course name of the record that is neither empty nor the TEQSA
    placeholder is kept as it is.  Otherwise the name is made of the pieces
    of the stem of the file name between underscores, without the empty
    ones, the ones that read "None" and the ones that are course codes,
    joined by single spaces; the replacement of underscores that the code
    applies afterwards never changes it, and the result holds no
    underscore.  When no piece is left the name of the record stays. *)
Theorem course_name_from_filename (course_name filename : string) :
  (course_name <> "" -> course_name <> TEQSA ->
     fix_course_name course_name filename = course_name)
  /\ (course_name = "" \/ course_name = TEQSA ->
      fix_course_name course_name filename
      = match name_parts filename with
        | [] => course_name
        | parts => join " " parts
        end
      /\ no_underscore (fix_course_name course_name filename)
      /\ Forall (fun p => p <> "" /\ p <> "None" /\ is_course_code p = false
                          /\ no_underscore p)
           (name_parts filename)).
Proof.
  assert (Hparts : Forall no_underscore (name_parts filename)).
  { unfold name_parts. apply Forall_forall. intros p Hp.
    apply filter_In in Hp as [Hp _].
    pose proof (split_on_pieces (path_stem filename)) as H.
    rewrite Forall_forall in H. now apply H. }
  split.
  - intros Hne Ht. unfold fix_course_name.
    destruct course_name as [|c s]; [congruence |]. cbn [is_empty orb].
    destruct (String.eqb_spec (String c s) "TEQSA Category: Australian University");
      [contradiction | reflexivity].
  - intros Hbad.
    assert (Hfix : fix_course_name course_name filename
                   = match name_parts filename with
                     | [] => course_name
                     | parts => join " " parts
                     end).
    { unfold fix_course_name.
      assert (Hcond : is_empty course_name
                      || (course_name =? "TEQSA Category: Australian University") = true).
      { destruct Hbad as [-> | ->]; reflexivity. }
      rewrite Hcond. fold (name_parts filename).
      change "_"%char with underscore.
      fold (name_parts filename).
      destruct (name_parts filename) as [|p ps] eqn:E; [reflexivity |].
      apply replace_no_underscore, join_no_underscore. exact Hparts. }
    split; [exact Hfix |]. split.
    + rewrite Hfix. destruct (name_parts filename) as [|p ps] eqn:E.
      * destruct Hbad as [-> | ->]; reflexivity.
      * now apply join_no_underscore.
    + apply Forall_forall. intros p Hp.
      assert (Hu : no_underscore p) by (rewrite Forall_forall in Hparts; now apply Hparts).
      unfold name_parts in Hp. apply filter_In in Hp as [_ Hp].
      apply andb_true_iff in Hp as [H1 H2].
      apply negb_true_iff, orb_false_iff in H1 as [Hnone Hempty].
      apply negb_true_iff in H2.
      apply String.eqb_neq in Hnone, Hempty. auto.
Qed.

Lemma course_name_from_filename_witness :
  fix_course_name "" "Bachelor_of_Sport_None_C10302.json" = "Bachelor of Sport"
  /\ fix_course_name "Bachelor of Sport (Honours)" "Bachelor_of_Sport_None_C10302.json"
     = "Bachelor of Sport (Honours)".
Proof.
  split.
  - destruct (proj2 (course_name_from_filename "" "Bachelor_of_Sport_None_C10302.json"))
      as (H & _); [now left |].
    rewrite H. reflexivity.
  - apply (proj1 (course_name_from_filename "Bachelor of Sport (Honours)"
                    "Bachelor_of_Sport_None_C10302.json")); discriminate.
Defined.

End FormatFacts.

(* ====================================================================== *)
(** * The chunks of one record: order, number and shared metadata *)
(* ====================================================================== *)

Module ChunkerFacts.
Import PyStr Json Ingest IngestFacts.

Abbreviation subsequence := ContextFacts.subsequence.

Lemma subsequence_nil {A : Type} (l : list A) : subsequence [] l.
Proof. induction l; constructor; assumption. Qed.

Lemma subsequence_refl {A : Type} (l : list A) : subsequence l l.
Proof. induction l; constructor; assumption. Qed.

Lemma subsequence_app {A : Type} (a b c d : list A) :
  subsequence a b -> subsequence c d -> subsequence (a ++ c) (b ++ d).
Proof.
  induction 1; intros Hcd; simpl; try constructor; auto.
Qed.

Lemma subsequence_In {A : Type} (l l' : list A) (x : A) :
  subsequence l l' -> In x l -> In x l'.
Proof.
  induction 1; simpl; intuition.
Qed.

Lemma subsequence_NoDup {A : Type} (l l' : list A) :
  subsequence l l' -> NoDup l' -> NoDup l.
Proof.
  induction 1 as [|x l l' Hs IH|x l l' Hs IH]; intros Hnd.
  - constructor.
  - inversion Hnd; subst. constructor; [| auto].
    intros Hin. eauto using subsequence_In.
  - inversion Hnd; subst. auto.
Qed.

Lemma subsequence_length {A : Type} (l l' : list A) :
  subsequence l l' -> List.length l <= List.length l'.
Proof. induction 1; simpl; lia. Qed.

(** The labels of all chunk types. *)
Definition chunk_labels : list (string * string) :=
  (chunkable_fields
   ++ [("learning_outcomes", "Learning Outcomes"); ("course_info", "Course Information")])%list.

Section Run.

Variable course_data : dict.
Variables course_code course_name : string.
Variable source_url : value.
Variables ingested_at unique_id : string.

(** What every chunk of a run carries besides its own type and text. *)
Definition stamped (c : chunk) : Prop :=
  meta_course_code c = course_code /\ meta_course_name c = course_name
  /\ meta_source_url c = source_url /\ meta_ingested_at c = ingested_at.

Lemma emit_one (st : loop_state) (ty label text : string) :
  exists c,
    fst (emit course_code course_name source_url ingested_at unique_id st ty label text)
    = (fst st ++ [c])%list
    /\ meta_chunk_type c = ty /\ meta_chunk_label c = label /\ chunk_text c = text
    /\ stamped c.
Proof.
  destruct st as [cs n]. simpl. eexists. split; [reflexivity |].
  unfold stamped. simpl. auto 10.
Qed.

Lemma chunk_fields_order (fields : list (string * string)) :
  forall st st',
  chunk_fields course_data course_code course_name source_url ingested_at unique_id
    fields st = Ok st' ->
  exists new,
    fst st' = (fst st ++ new)%list
    /\ subsequence (map meta_chunk_type new) (map fst fields)
    /\ Forall (fun c => stamped c /\ In (meta_chunk_type c, meta_chunk_label c) fields) new.
Proof.
  induction fields as [|[field label] rest IH]; intros st st'; cbn [chunk_fields].
  - intros [= <-]. exists []. rewrite app_nil_r. repeat split; constructor.
  - destruct (field_text (get course_data field VNone)) as [[text|]|e]; cbn [bind];
      [| | discriminate].
    + intros H. apply IH in H as (new & E & Hsub & Hall).
      destruct (emit_one st field label (label ++ ":" ++ nl ++ text))
        as (c & Ec & Hty & Hlab & _ & Hst).
      rewrite Ec in E. exists (c :: new). rewrite <- app_assoc in E.
      split; [exact E |]. split.
      * simpl. rewrite Hty. now constructor.
      * constructor.
        -- split; [exact Hst |]. rewrite Hty, Hlab. now left.
        -- eapply Forall_impl; [| exact Hall]. intros c' [H1 H2]. split; [exact H1 | now right].
    + intros H. apply IH in H as (new & E & Hsub & Hall).
      exists new. split; [exact E |]. split; [now constructor |].
      eapply Forall_impl; [| exact Hall]. intros c' [H1 H2]. split; [exact H1 | now right].
Qed.

(** A pass that gives at most one chunk, of a given type and label. *)
Definition at_most_one (ty label : string) (new : list chunk) : Prop :=
  new = []
  \/ exists c, new = [c] /\ meta_chunk_type c = ty /\ meta_chunk_label c = label
               /\ stamped c.

Lemma at_most_one_order (ty label : string) (new : list chunk) :
  at_most_one ty label new ->
  subsequence (map meta_chunk_type new) [ty]
  /\ Forall (fun c => stamped c /\ meta_chunk_type c = ty /\ meta_chunk_label c = label) new.
Proof.
  intros [-> | (c & -> & Hty & Hlab & Hst)].
  - split; [apply subsequence_nil | constructor].
  - split; [simpl; rewrite Hty; apply subsequence_refl |].
    constructor; [auto | constructor].
Qed.

Lemma chunk_learning_outcomes_order (st st' : loop_state) :
  chunk_learning_outcomes course_data course_code course_name source_url ingested_at
    unique_id st = Ok st' ->
  exists new,
    fst st' = (fst st ++ new)%list
    /\ at_most_one "learning_outcomes" "Learning Outcomes" new.
Proof.
  unfold chunk_learning_outcomes.
  assert (Hnone : Ok st = Ok st' ->
            exists new,
              fst st' = (fst st ++ new)%list
              /\ at_most_one "learning_outcomes" "Learning Outcomes" new).
  { intros [= <-]. exists []. rewrite app_nil_r. split; [reflexivity | now left]. }
  destruct (get course_data "learning_outcomes" (VList [])) as [| | | |[|x l]|]; try exact Hnone.
  destruct (filter_mapM numbered_line (x :: l)) as [lines|e]; cbn [bind]; [| discriminate].
  destruct (is_empty (join nl lines)); [exact Hnone |].
  intros [= <-].
  destruct (emit_one st "learning_outcomes" "Learning Outcomes"
              ("Learning Outcomes:" ++ nl ++ join nl lines)) as (c & Ec & Hty & Hlab & _ & Hst).
  exists [c]. split; [exact Ec |]. right. exists c. auto.
Qed.

Lemma course_info_parts_code (parts : list string) :
  course_info_parts course_data course_code course_name = Ok parts ->
  course_code <> "" -> In ("Course Code: " ++ course_code) parts.
Proof.
  unfold course_info_parts. cbv zeta.
  destruct (joined_part "Faculty: " _) as [f|e]; cbn [bind]; [| discriminate].
  destruct (joined_part "Location: " _) as [l|e]; cbn [bind]; [| discriminate].
  destruct (joined_part "Awards: " _) as [a|e]; cbn [bind]; [| discriminate].
  intros H Hne. injection H as H. rewrite <- H.
  apply in_or_app. right. apply in_or_app. left.
  destruct course_code; [congruence | now left].
Qed.

Lemma chunk_course_info_order (st st' : loop_state) :
  chunk_course_info course_data course_code course_name source_url ingested_at
    unique_id st = Ok st' ->
  exists new,
    fst st' = (fst st ++ new)%list
    /\ at_most_one "course_info" "Course Information" new
    /\ (course_code <> "" ->
        exists c parts,
          new = [c] /\ meta_chunk_type c = "course_info"
          /\ course_info_parts course_data course_code course_name = Ok parts
          /\ chunk_text c = join nl parts
          /\ In ("Course Code: " ++ course_code) parts).
Proof.
  unfold chunk_course_info.
  destruct (course_info_parts course_data course_code course_name) as [parts|e] eqn:Hp;
    cbn [bind]; [| discriminate].
  pose proof (course_info_parts_code parts Hp) as Hcode.
  destruct parts as [|p ps].
  - intros [= <-]. exists []. rewrite app_nil_r.
    split; [reflexivity |]. split; [now left |].
    intros Hne. destruct (Hcode Hne).
  - intros [= <-].
    destruct (emit_one st "course_info" "Course Information" (join nl (p :: ps)))
      as (c & Ec & Hty & Hlab & Htext & Hst).
    exists [c]. split; [exact Ec |]. split; [right; exists c; auto |].
    intros Hne. exists c, (p :: ps). auto 10.
Qed.

(** The three passes together. *)
Lemma passes_order (st : loop_state) :
  passes course_data course_code course_name source_url ingested_at unique_id = Ok st ->
  subsequence (map meta_chunk_type (fst st)) chunk_types
  /\ Forall (fun c => stamped c /\ In (meta_chunk_type c, meta_chunk_label c) chunk_labels)
       (fst st)
  /\ (course_code <> "" ->
      exists before c parts,
        fst st = (before ++ [c])%list /\ meta_chunk_type c = "course_info"
        /\ Forall (fun c' => meta_chunk_type c' <> "course_info") before
        /\ course_info_parts course_data course_code course_name = Ok parts
        /\ chunk_text c = join nl parts
        /\ In ("Course Code: " ++ course_code) parts).
Proof.
  unfold passes. intros H.
  apply bind_Ok_inv in H as (st1 & H1 & H).
  apply bind_Ok_inv in H as (st2 & H2 & H3).
  apply chunk_fields_order in H1 as (new1 & E1 & Hs1 & Ha1).
  apply chunk_learning_outcomes_order in H2 as (new2 & E2 & Hone2).
  apply chunk_course_info_order in H3 as (new3 & E3 & Hone3 & Hlast).
  destruct (at_most_one_order _ _ _ Hone2) as [Hs2 Ha2].
  destruct (at_most_one_order _ _ _ Hone3) as [Hs3 Ha3].
  simpl in E1. rewrite E3, E2, E1.
  split; [| split].
  - rewrite !map_app. unfold chunk_types.
    change (map fst chunkable_fields ++ ["learning_outcomes"; "course_info"])%list
      with ((map fst chunkable_fields ++ ["learning_outcomes"]) ++ ["course_info"])%list.
    apply subsequence_app; [| exact Hs3]. now apply subsequence_app.
  - rewrite !Forall_app. repeat split.
    + eapply Forall_impl; [| exact Ha1]. intros c [Hc Hin]. split; [exact Hc |].
      unfold chunk_labels. apply in_or_app. now left.
    + eapply Forall_impl; [| exact Ha2]. intros c (Hc & Hty & Hlab). split; [exact Hc |].
      rewrite Hty, Hlab. unfold chunk_labels. apply in_or_app. right. now left.
    + eapply Forall_impl; [| exact Ha3]. intros c (Hc & Hty & Hlab). split; [exact Hc |].
      rewrite Hty, Hlab. unfold chunk_labels. apply in_or_app. right. right. now left.
  - intros Hne. destruct (Hlast Hne) as (c & parts & -> & Hty & Hp & Htext & Hin).
    exists (new1 ++ new2)%list, c, parts.
    split; [reflexivity |]. split; [exact Hty |]. split; [| auto].
    rewrite Forall_app. split.
    + eapply Forall_impl; [| exact Ha1]. intros c' [_ Hin'] E.
      rewrite E in Hin'.
      destruct (ThresholdFacts.field_name_not_aggregate _ _ Hin') as [_ Hn]. congruence.
    + eapply Forall_impl; [| exact Ha2]. intros c' (_ & Hty' & _) E. congruence.
Qed.

End Run.

(** X6. The chunks of a record come in a fixed order: at most one chunk for
    each of the eight fields, in the order of the field list, then at most
    one chunk of learning outcomes, then at most one course information
    chunk; so there are at most ten, and no two have the same type.  Every
    chunk carries the resolved course code, the course name, the source URL
    and the time stamp of the run, and the label that goes with its
    type. *)
Theorem chunks_in_field_order (course_data : dict) (filename now : string)
    (chunks : list chunk) :
  create_chunks_from_course course_data filename now = Ok chunks ->
  subsequence (map meta_chunk_type chunks) chunk_types
  /\ NoDup (map meta_chunk_type chunks)
  /\ List.length chunks <= 10
  /\ exists code name url,
       get_course_code course_data filename = Ok code
       /\ attr_strip (get course_data "course_name" (VStr "")) = Ok name
       /\ attr_get (get course_data "metadata" (VDict [])) "source_url" (VStr "") = Ok url
       /\ Forall (fun c => meta_course_code c = code
                           /\ meta_course_name c = fix_course_name name filename
                           /\ meta_source_url c = url
                           /\ meta_ingested_at c = now ++ "Z"
                           /\ In (meta_chunk_type c, meta_chunk_label c) chunk_labels)
            chunks.
Proof.
  intros H. apply create_chunks_Ok_inv in H as (code & name & url & n & Hcode & Hname & Hurl & Hp).
  apply passes_order in Hp as (Hsub & Hall & _). simpl in Hsub, Hall.
  split; [exact Hsub |]. split; [| split].
  - apply (subsequence_NoDup _ _ Hsub). vm_compute.
    repeat (constructor; [simpl; intuition discriminate |]). constructor.
  - apply subsequence_length in Hsub. rewrite length_map in Hsub. exact Hsub.
  - exists code, name, url. repeat (split; [assumption |]).
    eapply Forall_impl; [| exact Hall]. unfold stamped. intros c [(H1 & H2 & H3 & H4) H5]. auto.
Qed.

Lemma chunks_in_field_order_witness :
  exists chunks,
    create_chunks_from_course sample_record sample_filename "2025-11-10T00:00:00" = Ok chunks
    /\ NoDup (map meta_chunk_type chunks) /\ List.length chunks <= 10.
Proof.
  destruct (create_chunks_from_course sample_record sample_filename "2025-11-10T00:00:00")
    as [chunks|e] eqn:Hrun; [| vm_compute in Hrun; discriminate].
  exists chunks. split; [reflexivity |].
  destruct (chunks_in_field_order sample_record sample_filename "2025-11-10T00:00:00" chunks
              Hrun) as (_ & Hnd & Hlen & _).
  auto.
Defined.

(** X7. When the chunker returns and the resolved course code is not
    empty, the last chunk is the course information chunk, the only one of
    its type; its text is the lines of course information joined by line
    feeds, and one of them reads "Course Code: " followed by the code.  The
    list of chunks is then not empty.  This is so in particular for every
    record without a [course_code] key. *)
Theorem course_info_chunk_is_last (course_data : dict) (filename now : string)
    (chunks : list chunk) (code : string) :
  create_chunks_from_course course_data filename now = Ok chunks ->
  get_course_code course_data filename = Ok code ->
  (code <> "" ->
   exists before c name parts,
     chunks = (before ++ [c])%list
     /\ meta_chunk_type c = "course_info"
     /\ Forall (fun c' => meta_chunk_type c' <> "course_info") before
     /\ course_info_parts course_data code name = Ok parts
     /\ chunk_text c = join nl parts
     /\ In ("Course Code: " ++ code) parts)
  /\ (lookup course_data "course_code" = None -> code <> "" /\ chunks <> []).
Proof.
  intros H Hcode.
  apply create_chunks_Ok_inv in H as (code' & name & url & n & Hcode' & Hname & Hurl & Hp).
  assert (code' = code) by congruence. subst code'.
  apply passes_order in Hp as (_ & _ & Hlast). simpl in Hlast.
  assert (Hfirst : code <> "" ->
            exists before c name parts,
              chunks = (before ++ [c])%list
              /\ meta_chunk_type c = "course_info"
              /\ Forall (fun c' => meta_chunk_type c' <> "course_info") before
              /\ course_info_parts course_data code name = Ok parts
              /\ chunk_text c = join nl parts
              /\ In ("Course Code: " ++ code) parts).
  { intros Hne. destruct (Hlast Hne) as (before & c & parts & E & Hrest).
    exists before, c, (fix_course_name name filename), parts. auto. }
  split; [exact Hfirst |].
  intros Hnone.
  assert (Hne : code <> "").
  { destruct (CodeFacts.get_course_code_cases _ _ _ Hcode)
      as [(k & (a & d1 & d2 & d3 & d4 & d5 & -> & _) & ->) | (raw & Hraw & -> & _)].
    - discriminate.
    - unfold get in Hraw. rewrite Hnone in Hraw. injection Hraw as <-. discriminate. }
  split; [exact Hne |].
  destruct (Hfirst Hne) as (before & c & _ & _ & -> & _).
  destruct before; discriminate.
Qed.

Lemma course_info_chunk_is_last_witness :
  exists before c,
    create_chunks_from_course sample_record sample_filename "2025-11-10T00:00:00"
    = Ok (before ++ [c])%list
    /\ meta_chunk_type c = "course_info".
Proof.
  destruct (create_chunks_from_course sample_record sample_filename "2025-11-10T00:00:00")
    as [chunks|e] eqn:Hrun; [| vm_compute in Hrun; discriminate].
  destruct (course_info_chunk_is_last sample_record sample_filename "2025-11-10T00:00:00"
              chunks "C10302" Hrun eq_refl) as [Hlast _].
  destruct Hlast as (before & c & _ & _ & -> & Hty & _); [discriminate |].
  exists before, c. auto.
Defined.

End ChunkerFacts.

(* ====================================================================== *)
(** * The ingestion script over a directory of records *)
(* ====================================================================== *)

Module CorpusFacts.
Import PyStr Json Ingest IngestFacts IngestCli.

(** ** Keys of chunks of different records *)

Definition no_lower (s : string) : bool := PyStr.forallb (fun a => negb (is_lower a)) s.

Lemma upper_char_not_lower (c : ascii) : is_lower (upper_char c) = false.
Proof. destruct c as [[] [] [] [] [] [] [] []]; reflexivity. Qed.

Lemma upper_no_lower (s : string) : no_lower (upper s) = true.
Proof.
  unfold no_lower, upper. induction s as [|c s IH]; [reflexivity |].
  cbn [smap PyStr.forallb]. now rewrite upper_char_not_lower, IH.
Qed.

(** A text without lower-case letters ends where ["|type:"] first shows. *)
Lemma split_at_type (a b x y : string) :
  no_lower a = true -> no_lower b = true ->
  a ++ "|type:" ++ x = b ++ "|type:" ++ y -> a = b /\ x = y.
Proof.
  revert b. induction a as [|c a IH]; intros [|d b] Ha Hb E.
  - simpl in E. injection E as ->. auto.
  - exfalso. simpl in E. injection E as <- E.
    destruct b as [|t b]; simpl in E; [discriminate |].
    injection E as <- _. simpl in Hb. discriminate.
  - exfalso. simpl in E. injection E as -> E.
    destruct a as [|t a]; simpl in E; [discriminate |].
    injection E as -> _. simpl in Ha. discriminate.
  - simpl in E. injection E as -> E.
    simpl in Ha, Hb. apply andb_true_iff in Ha as [_ Ha]. apply andb_true_iff in Hb as [_ Hb].
    destruct (IH b Ha Hb E) as [-> ->]. auto.
Qed.

(** The key tells the course code, the chunk type, the index and the
    uniqueness token apart, for course codes without lower-case letters. *)
Lemma make_chunk_key_inj_codes (code code' ty ty' : string) (i i' : nat) (u u' : string) :
  no_lower code = true -> no_lower code' = true ->
  KeyFacts.no_bar ty = true -> KeyFacts.no_bar ty' = true ->
  make_chunk_key code ty i u = make_chunk_key code' ty' i' u' ->
  code = code' /\ ty = ty' /\ i = i' /\ u = u'.
Proof.
  intros Hc Hc' Hty Hty' H.
  assert (E : code = code').
  { unfold make_chunk_key in H. apply (KeyFacts.append_inv_head "course|") in H.
    now apply split_at_type in H as [E _]. }
  subst code'. split; [reflexivity |].
  now apply (KeyFacts.make_chunk_key_inj code ty ty' i i' u u').
Qed.

Section Script.

Variable clock : string -> string.
Variable path_str : string -> string.
Variable parent : string -> string.

(** What the [try] block gives for a file. *)
Definition outcome (f : course_file) : result (list chunk) :=
  chunks_of_file (clock (file_name f)) f.

Definition processed (f : course_file) : bool :=
  match outcome f with
  | Ok (_ :: _) => true
  | _ => false
  end.

Definition file_chunks (f : course_file) : list chunk := ThresholdFacts.chunks_of (outcome f).

Lemma process_tally (json_files : list course_file) :
  forall t,
  let t' := process clock json_files t in
  all_chunks t' = (all_chunks t ++ flat_map file_chunks json_files)%list
  /\ courses_processed t' = courses_processed t + List.length (filter processed json_files)
  /\ courses_skipped t'
     = courses_skipped t + List.length (filter (fun f => negb (processed f)) json_files).
Proof.
  induction json_files as [|f rest IH]; intros t; cbn [process flat_map filter].
  - cbv zeta. rewrite app_nil_r. simpl. repeat split; lia.
  - cbv zeta.
    assert (Hc : file_chunks f = ThresholdFacts.chunks_of (chunks_of_file (clock (file_name f)) f))
      by reflexivity.
    assert (Hp : processed f = match chunks_of_file (clock (file_name f)) f with
                               | Ok (_ :: _) => true
                               | _ => false
                               end) by reflexivity.
    rewrite Hc, Hp.
    destruct (chunks_of_file (clock (file_name f)) f) as [[|c cs]|e];
      match goal with
      | |- context [process clock rest ?t0] =>
          destruct (IH t0) as (H1 & H2 & H3); rewrite H1, H2, H3
      end;
      cbn [ThresholdFacts.chunks_of negb all_chunks courses_processed courses_skipped
           List.length app];
      rewrite <- ?app_assoc; repeat split; try reflexivity; lia.
Qed.

(** X8. The ingestion script stops before reading anything when the
    courses directory is no directory or holds no JSON file.  Otherwise it
    returns whatever the files hold: a file that cannot be read, decoded or
    chunked is counted as skipped and leaves the chunks of the other files
    untouched.  The chunks written are those of the files that could be
    chunked, file after file in the order of the listing; a file counts as
    processed exactly when it gave at least one chunk, and the two counters
    add up to the number of files.  With [--dry_run] nothing is written. *)
Theorem ingest_script_isolates_failures (a : args) (json_files : list course_file) :
  (forall files, exists msg,
     main clock path_str parent a false files = (SystemExit msg, [], None))
  /\ (exists msg, main clock path_str parent a true [] = (SystemExit msg, [], None))
  /\ (json_files <> [] ->
      exists t,
        main clock path_str parent a true json_files
        = (Returned,
           (if dry_run a then []
            else [Mkdir (parent (out a)); WriteChunks (path_str (out a)) (all_chunks t)]),
           Some t)
        /\ all_chunks t = flat_map file_chunks json_files
        /\ courses_processed t = List.length (filter processed json_files)
        /\ courses_processed t + courses_skipped t = List.length json_files).
Proof.
  split; [| split].
  - intros files. unfold main. simpl. eauto.
  - unfold main. simpl. eauto.
  - intros Hne. unfold main. cbn [negb].
    destruct json_files as [|f rest]; [congruence |].
    exists (process clock (f :: rest) (mkTally [] 0 0)).
    destruct (process_tally (f :: rest) (mkTally [] 0 0)) as (H1 & H2 & H3).
    cbn [all_chunks courses_processed courses_skipped app Nat.add] in H1, H2, H3.
    split; [destruct (dry_run a); reflexivity |].
    split; [exact H1 |]. split; [exact H2 |].
    rewrite H2, H3. rewrite <- (filter_length processed (f :: rest)). reflexivity.
Qed.

Definition sport_file : course_file :=
  {| file_name := sample_filename; file_json := Ok (VDict sample_record) |}.

Definition broken_file : course_file :=
  {| file_name := "Bachelor_of_Science_C10242.json";
     file_json := Raise (ValueError "Expecting value: line 1 column 1 (char 0)") |}.

Definition honours_file : course_file :=
  {| file_name := KeyFacts.honours_filename; file_json := Ok (VDict KeyFacts.honours_record) |}.

(** ** The keys of the chunks of a whole run *)

(** The composite keys of the chunks a file gives. *)
Definition file_keys (f : course_file) : list string :=
  match file_json f with
  | Ok (VDict d) =>
      match get_course_code d (file_name f) with
      | Ok code => KeyFacts.chunk_keys code (path_stem (file_name f)) (file_chunks f)
      | Raise _ => []
      end
  | _ => []
  end.

Lemma file_keys_ids (f : course_file) :
  map chunk_id (file_chunks f) = map Uuid.uuid5_url (file_keys f)
  /\ NoDup (file_keys f)
  /\ forall k, In k (file_keys f) ->
       exists code ty j,
         no_lower code = true /\ KeyFacts.no_bar ty = true
         /\ k = make_chunk_key code ty j (path_stem (file_name f)).
Proof.
  unfold file_keys, file_chunks, outcome, chunks_of_file.
  destruct (file_json f) as [v|e]; cbn [bind];
    [| repeat split; [constructor | intros k []]].
  destruct v as [| | | | |d];
    try (repeat split; [constructor | intros k []]).
  destruct (create_chunks_from_course d (file_name f) (clock (file_name f)))
    as [chunks|e] eqn:Hrun; cbn [ThresholdFacts.chunks_of].
  - destruct (create_chunks_Ok_inv _ _ _ _ Hrun) as (code & _ & _ & _ & Hcode & _).
    rewrite Hcode.
    destruct (KeyFacts.run_keys _ _ _ _ _ Hrun Hcode) as [Hty Hids].
    split; [exact Hids |]. split; [now apply KeyFacts.keys_from_NoDup |].
    intros k Hk. destruct (KeyFacts.keys_from_In _ _ _ Hty _ _ Hk) as (j & ty & _ & Hb & ->).
    exists code, ty, j. split; [| auto].
    destruct (CodeFacts.get_course_code_cases _ _ _ Hcode) as [(x & _ & ->) | (x & _ & -> & _)];
      apply upper_no_lower.
  - destruct (get_course_code d (file_name f)); repeat split; try constructor; intros k [].
Qed.

(** X9. Over a whole directory whose file names have pairwise different
    stems, the composite keys of all the chunks written are pairwise
    different, whatever the course codes of the records are and whether two
    records share one or not; the ids written are the UUIDv5 of these keys,
    file after file, and are therefore pairwise different whenever UUIDv5
    does not collide on them. *)
Theorem corpus_keys_distinct (json_files : list course_file) :
  NoDup (map (fun f => path_stem (file_name f)) json_files) ->
  let written := all_chunks (process clock json_files (mkTally [] 0 0)) in
  let keys := flat_map file_keys json_files in
  NoDup keys
  /\ map chunk_id written = map Uuid.uuid5_url keys
  /\ (KeyFacts.collision_free keys -> NoDup (map chunk_id written)).
Proof.
  intros Hstems written keys.
  assert (Hkeys : NoDup keys).
  { subst keys. induction json_files as [|f rest IH]; [constructor |].
    inversion Hstems as [|x l Hnotin Hrest]; subst. cbn [flat_map].
    destruct (file_keys_ids f) as (_ & Hnd & Hshape).
    apply NoDup_app; [exact Hnd | now apply IH |].
    intros k Hk Hk'. apply in_flat_map in Hk' as (f' & Hf' & Hk').
    destruct (Hshape k Hk) as (code & ty & j & Hc & Hb & ->).
    destruct (file_keys_ids f') as (_ & _ & Hshape').
    destruct (Hshape' _ Hk') as (code' & ty' & j' & Hc' & Hb' & E).
    apply make_chunk_key_inj_codes in E as (_ & _ & _ & E); auto.
    apply Hnotin. rewrite E. now apply (in_map (fun f => path_stem (file_name f))). }
  assert (Hids : map chunk_id written = map Uuid.uuid5_url keys).
  { subst written keys.
    destruct (process_tally json_files (mkTally [] 0 0)) as (H1 & _). cbv zeta in H1.
    rewrite H1. cbn [all_chunks app]. clear.
    induction json_files as [|f rest IH]; [reflexivity |].
    cbn [flat_map]. rewrite !map_app, IH.
    now rewrite (proj1 (file_keys_ids f)). }
  split; [exact Hkeys |]. split; [exact Hids |].
  intros Hfree. rewrite Hids. now apply NoDup_map_NoDup_ForallPairs.
Qed.

End Script.

Definition ingest_args : args :=
  {| courses_dir := "data/courses"; out := "data/processed/courses_chunks.jsonl";
     dry_run := false |}.

Lemma ingest_script_isolates_failures_witness :
  exists t,
    main (fun _ => "2025-11-10T00:00:00") (fun p => p) (fun _ => "data/processed") ingest_args
      true [broken_file; sport_file]
    = (Returned,
       [Mkdir "data/processed";
        WriteChunks "data/processed/courses_chunks.jsonl" (all_chunks t)],
       Some t)
    /\ courses_processed t = 1 /\ courses_skipped t = 1
    /\ map meta_chunk_type (all_chunks t) = ["overview"; "learning_outcomes"; "course_info"].
Proof.
  destruct (ingest_script_isolates_failures (fun _ => "2025-11-10T00:00:00") (fun p => p)
              (fun _ => "data/processed") ingest_args [broken_file; sport_file])
    as (_ & _ & Hrun).
  destruct Hrun as (t & Hmain & Hchunks & Hp & Hsum); [discriminate |].
  exists t. split; [exact Hmain |].
  assert (Hone : courses_processed t = 1) by (rewrite Hp; vm_compute; reflexivity).
  split; [exact Hone |]. split; [simpl in Hsum; lia |].
  rewrite Hchunks. vm_compute. reflexivity.
Defined.

Lemma corpus_keys_distinct_witness :
  NoDup (flat_map (file_keys (fun _ => "2025-11-10T00:00:00"))
           [sport_file; broken_file; honours_file]).
Proof.
  apply (corpus_keys_distinct (fun _ => "2025-11-10T00:00:00")
           [sport_file; broken_file; honours_file]).
  vm_compute. repeat (constructor; [simpl; intuition discriminate |]). constructor.
Defined.

End CorpusFacts.

(* ====================================================================== *)
(** * The rows the index writer keeps *)
(* ====================================================================== *)

Module LoaderFacts.
Import PyStr Json Jsonl SaveKb.

(** ** Dictionaries *)

Lemma lookup_set_same (d : dict) (k : string) (v : value) : lookup (set d k v) k = Some v.
Proof.
  induction d as [|[k' v'] d IH]; simpl.
  - now rewrite String.eqb_refl.
  - destruct (String.eqb_spec k' k) as [-> | Hne]; simpl.
    + now rewrite String.eqb_refl.
    + apply String.eqb_neq in Hne. now rewrite Hne.
Qed.

Lemma lookup_set_other (d : dict) (k k' : string) (v : value) :
  k <> k' -> lookup (set d k v) k' = lookup d k'.
Proof.
  intros Hne. induction d as [|[k0 v0] d IH]; simpl.
  - apply String.eqb_neq in Hne. now rewrite Hne.
  - destruct (String.eqb_spec k0 k) as [-> | H0]; simpl.
    + apply String.eqb_neq in Hne. now rewrite Hne.
    + destruct (k0 =? k'); [reflexivity | exact IH].
Qed.

(** ** White space at both ends *)

Lemma length_append (a b : string) :
  String.length (a ++ b) = String.length a + String.length b.
Proof. induction a as [|c a IH]; simpl; [reflexivity | now rewrite IH]. Qed.

Lemma rstrip_app (a b : string) : rstrip b <> "" -> rstrip (a ++ b) = a ++ rstrip b.
Proof.
  intros Hb. induction a as [|c a IH]; [reflexivity |].
  cbn [append rstrip]. rewrite IH.
  destruct (a ++ rstrip b) as [|x y] eqn:E.
  - destruct a; [simpl in E; congruence | discriminate].
  - cbn [is_empty]. now rewrite andb_false_r.
Qed.

Lemma rstrip_lstrip_length (s : string) :
  String.length (rstrip (lstrip s)) <= String.length (rstrip s).
Proof.
  induction s as [|c s IH]; [reflexivity |].
  cbn [lstrip]. destruct (is_space c) eqn:Hc; [| reflexivity].
  cbn [rstrip]. rewrite Hc. cbn [andb].
  destruct (rstrip s) as [|x y]; cbn [is_empty] in *; simpl in *; lia.
Qed.

(** A text that starts with a character that is no white space, followed
    by a text that is not blank: stripping touches the end only. *)
Lemma strip_app (c : ascii) (p x : string) :
  is_space c = false -> strip x <> "" ->
  strip (String c p ++ x) = String c p ++ rstrip x.
Proof.
  intros Hc Hx. unfold strip. cbn [append lstrip]. rewrite Hc.
  change (String c (p ++ x)) with (String c p ++ x).
  apply rstrip_app. intros E.
  pose proof (rstrip_lstrip_length x) as Hle. rewrite E in Hle.
  unfold strip in Hx. destruct (rstrip (lstrip x)); [congruence | simpl in Hle; lia].
Qed.

Lemma strip_idem (s : string) : strip (strip s) = strip s.
Proof.
  assert (Hl : forall x, lstrip (lstrip x) = lstrip x).
  { induction x as [|c x IH]; [reflexivity |]. cbn [lstrip].
    destruct (is_space c) eqn:Hc; [exact IH |]. cbn [lstrip]. now rewrite Hc. }
  assert (Hr : forall x, rstrip (rstrip x) = rstrip x).
  { induction x as [|c x IH]; [reflexivity |]. cbn [rstrip].
    destruct (is_space c && is_empty (rstrip x)) eqn:Hc; [reflexivity |].
    cbn [rstrip]. rewrite IH, Hc. reflexivity. }
  assert (Hlr : forall x, lstrip (rstrip (lstrip x)) = rstrip (lstrip x)).
  { intros x. destruct (rstrip (lstrip x)) as [|c r] eqn:E; [reflexivity |].
    cbn [lstrip]. now rewrite (JunkFacts.strip_head x c r E). }
  unfold strip. now rewrite Hlr, Hr.
Qed.

Lemma matches_Nul (s : string) : Re.matches Re.Nul s = false.
Proof. induction s as [|a s IH]; [reflexivity | exact IH]. Qed.

(** ** Rows *)

Definition meta_of (r : record) : dict :=
  match rec_meta r with
  | Some m => m
  | None => []
  end.

Lemma with_page_end_meta (r : record) :
  rec_id (with_page_end r) = rec_id r
  /\ rec_text (with_page_end r) = rec_text r
  /\ exists meta,
       rec_meta (with_page_end r) = Some meta
       /\ lookup meta "page_end"
          = Some (match lookup (meta_of r) "page_end" with
                  | Some v => v
                  | None => get (meta_of r) "page_start" VNone
                  end)
       /\ forall k, k <> "page_end" -> lookup meta k = lookup (meta_of r) k.
Proof.
  unfold with_page_end. fold (meta_of r). cbn [rec_id rec_text rec_meta].
  split; [reflexivity |]. split; [reflexivity |].
  destruct (lookup (meta_of r) "page_end") as [v|] eqn:E.
  - exists (meta_of r). auto.
  - eexists. split; [reflexivity |]. split; [apply lookup_set_same |].
    intros k Hk. apply lookup_set_other. congruence.
Qed.

Lemma with_page_end_idem (r : record) : with_page_end (with_page_end r) = with_page_end r.
Proof.
  destruct (with_page_end_meta r) as (Hid & Htext & meta & Hmeta & Hpe & _).
  unfold with_page_end at 1. rewrite Hid, Htext, Hmeta, Hpe.
  destruct (with_page_end r) as [i t m]. simpl in *. congruence.
Qed.

(** X10. Every row that the loader keeps comes from a line of the file
    whose text is not junk, with the same id and text, and with a [meta]
    dict that has a [page_end] key: the value the line had for it, and
    otherwise the value of [page_start], or null when that is missing too.
    All the other keys of [meta] are as in the line. *)
Theorem loaded_rows_have_page_end (f : file) (r : record) :
  In r (load_jsonl f) ->
  exists r0 meta,
    In (Some r0) f
    /\ looks_junky (text_of r0) = false
    /\ rec_id r = rec_id r0 /\ rec_text r = rec_text r0
    /\ rec_meta r = Some meta
    /\ lookup meta "page_end"
       = Some (match lookup (meta_of r0) "page_end" with
               | Some v => v
               | None => get (meta_of r0) "page_start" VNone
               end)
    /\ forall k, k <> "page_end" -> lookup meta k = lookup (meta_of r0) k.
Proof.
  induction f as [|[r0|] f IH]; cbn [load_jsonl]; [intros [] | |].
  - destruct (looks_junky (text_of r0)) eqn:Hj.
    + intros H. destruct (IH H) as (r1 & meta & Hin & Hrest).
      exists r1, meta. split; [now right | exact Hrest].
    + intros [<- | H].
      * destruct (with_page_end_meta r0) as (Hid & Htext & meta & Hmeta & Hpe & Hother).
        exists r0, meta. split; [now left |]. auto 10.
      * destruct (IH H) as (r1 & meta & Hin & Hrest).
        exists r1, meta. split; [now right | exact Hrest].
  - intros H. destruct (IH H) as (r1 & meta & Hin & Hrest).
    exists r1, meta. split; [now right | exact Hrest].
Qed.

Definition chunk_row : record :=
  {| rec_id := Some (IdStr "b34807cf-4d27-51f9-a5ee-3c36deec35f7");
     rec_text := Some "Overview: this course is about many interesting things.";
     rec_meta := Some [("course_code", VStr "C10302"); ("chunk_type", VStr "overview")] |}.

Lemma loaded_rows_have_page_end_witness :
  exists meta,
    rec_meta (with_page_end chunk_row) = Some meta
    /\ lookup meta "page_end" = Some VNone
    /\ lookup meta "course_code" = Some (VStr "C10302").
Proof.
  destruct (loaded_rows_have_page_end [None; Some chunk_row] (with_page_end chunk_row))
    as (r0 & meta & Hin & _ & _ & _ & Hmeta & Hpe & Hother).
  { vm_compute. now left. }
  exists meta. split; [exact Hmeta |].
  destruct Hin as [H | [H | []]]; [discriminate |]. injection H as <-.
  split; [exact Hpe |]. apply Hother. discriminate.
Defined.

(** X11. Loading is idempotent: the rows the loader keeps, written out one
    per line and loaded again, are kept as they are, none dropped and none
    changed. *)
Theorem load_jsonl_idempotent (f : file) :
  load_jsonl (map Some (load_jsonl f)) = load_jsonl f.
Proof.
  assert (Hkeep : forall rows,
            Forall (fun r => looks_junky (text_of r) = false /\ with_page_end r = r) rows ->
            load_jsonl (map Some rows) = rows).
  { induction 1 as [|r rows [Hj Hw] _ IH]; [reflexivity |].
    cbn [map load_jsonl]. now rewrite Hj, Hw, IH. }
  apply Hkeep. induction f as [|[r|] f IH]; cbn [load_jsonl]; [constructor | | exact IH].
  destruct (looks_junky (text_of r)) eqn:Hj; [exact IH |].
  constructor; [| exact IH]. split; [| apply with_page_end_idem].
  unfold text_of in *. now destruct (with_page_end_meta r) as (_ & -> & _).
Qed.

(** A line feed and a tab. *)
Definition nl_tab : string := String "010" (String "009" "").

Definition blank (ws : string) : Prop := PyStr.forallb is_space ws = true.

Lemma lstrip_blank (ws x : string) : blank ws -> lstrip (ws ++ x) = lstrip x.
Proof.
  unfold blank. induction ws as [|c ws IH]; [reflexivity |].
  cbn [PyStr.forallb append lstrip]. rewrite andb_true_iff. intros [-> Hws]. auto.
Qed.

Lemma rstrip_blank (ws : string) : blank ws -> rstrip ws = "".
Proof.
  unfold blank. induction ws as [|c ws IH]; [reflexivity |].
  cbn [PyStr.forallb rstrip]. rewrite andb_true_iff. intros [-> Hws].
  now rewrite (IH Hws).
Qed.

Lemma rstrip_app_blank (x ws : string) : blank ws -> rstrip (x ++ ws) = rstrip x.
Proof.
  intros Hws. induction x as [|c x IH]; [now apply rstrip_blank |].
  cbn [append rstrip]. now rewrite IH.
Qed.

Lemma strip_padded (ws1 text ws2 : string) :
  blank ws1 -> blank ws2 -> strip (ws1 ++ text ++ ws2) = strip text.
Proof.
  intros H1 H2. unfold strip. rewrite (lstrip_blank ws1 _ H1).
  induction text as [|c t IH].
  - cbn [append]. replace (lstrip ws2) with (lstrip (ws2 ++ "")).
    + now rewrite (lstrip_blank ws2 "" H2).
    + now rewrite ReFacts.append_nil_r.
  - cbn [append lstrip]. destruct (is_space c); [exact IH |].
    change (String c (t ++ ws2)) with (String c t ++ ws2).
    now apply rstrip_app_blank.
Qed.

(** X12. The verdict of the junk filter does not depend on white space
    around the text: a text padded with white space on either side is
    judged as the text itself, and so is its stripped form. *)
Theorem looks_junky_ignores_margins (ws1 text ws2 : string) :
  blank ws1 -> blank ws2 ->
  looks_junky (ws1 ++ text ++ ws2) = looks_junky text
  /\ looks_junky (strip text) = looks_junky text.
Proof.
  intros H1 H2. unfold looks_junky.
  now rewrite (strip_padded ws1 text ws2 H1 H2), strip_idem.
Qed.

Lemma looks_junky_ignores_margins_witness :
  looks_junky ("  " ++ "Page 3 of 12" ++ nl_tab) = looks_junky "Page 3 of 12".
Proof.
  apply (looks_junky_ignores_margins "  " "Page 3 of 12" nl_tab); reflexivity.
Defined.

End LoaderFacts.

(* ====================================================================== *)
(** * From the chunker to the index writer *)
(* ====================================================================== *)

Module PipelineFacts.
Import PyStr Json Jsonl Ingest SaveKb.

Definition optional_line_feed : Re.re :=
  Re.Opt (Re.Chr (fun a => (a =? Re.line_feed)%char)).

(** The two junk patterns ask for a text that starts with white space, with
    [t] or with [pa], in either case; no label of a field starts so. *)
Lemma label_is_no_boilerplate (field label : string) :
  In (field, label) chunkable_fields ->
  exists c1 c2 rest,
    label = String c1 (String c2 rest)
    /\ is_space c1 = false
    /\ Re.deriv c1 (Re.Cat JUNK_INTENT_BLANK optional_line_feed) = Re.Nul
    /\ Re.deriv c2 (Re.deriv c1 (Re.Cat JUNK_PAGE_FOOTER optional_line_feed)) = Re.Nul.
Proof.
  intros H. simpl in H.
  repeat (destruct H as [[= <- <-] | H];
          [do 3 eexists; split; [reflexivity |]; split; [reflexivity |];
           split; vm_compute; reflexivity |]).
  contradiction.
Qed.

(** X13. A chunk that the chunker made from one of the eight fields is
    never dropped by the junk filter of the index writer for being empty,
    short or boilerplate: its stripped text has more than 40 characters and
    matches neither pattern.  The filter drops it exactly when more than
    half of the characters of the stripped text are digits. *)
Theorem field_chunks_pass_the_filter (course_data : dict) (filename now : string)
    (chunks : list chunk) (c : chunk) (label : string) :
  create_chunks_from_course course_data filename now = Ok chunks ->
  In c chunks ->
  In (meta_chunk_type c, label) chunkable_fields ->
  let t := strip (chunk_text c) in
  40 < String.length t
  /\ Re.search_anchored JUNK_INTENT_BLANK t = false
  /\ Re.search_anchored JUNK_PAGE_FOOTER t = false
  /\ (looks_junky (chunk_text c) = true <-> String.length t < 2 * count is_digit t).
Proof.
  intros Hrun Hc Hfield t.
  destruct (ThresholdFacts.run_field_chunks _ _ _ _ Hrun _ _ Hfield) as [_ Htext].
  destruct (Htext c Hc eq_refl) as (text & Hf & Ht).
  apply ThresholdFacts.field_text_threshold in Hf as [_ Hlen].
  destruct (label_is_no_boilerplate _ _ Hfield) as (c1 & c2 & rest & -> & Hc1 & Hblank & Hfooter).
  assert (Hne : strip text <> "").
  { intros E. rewrite E in Hlen. simpl in Hlen. lia. }
  assert (Hr : rstrip text <> "").
  { intros E. pose proof (LoaderFacts.rstrip_lstrip_length text) as Hle.
    fold (strip text) in Hle. rewrite E in Hle. simpl in Hle. lia. }
  assert (Et : t = String c1 (String c2 rest) ++ ":" ++ nl ++ rstrip text).
  { subst t. rewrite Ht.
    rewrite (LoaderFacts.strip_app c1 (String c2 rest) (":" ++ nl ++ text) Hc1).
    - change (":" ++ nl ++ text) with ((":" ++ nl) ++ text).
      now rewrite (LoaderFacts.rstrip_app (":" ++ nl) text Hr).
    - apply RagFacts.strip_cons_not_space. reflexivity. }
  assert (Hlong : 40 < String.length t).
  { rewrite Et. rewrite !LoaderFacts.length_append.
    pose proof (LoaderFacts.rstrip_lstrip_length text) as Hle.
    fold (strip text) in Hle. simpl. lia. }
  assert (Hb : Re.search_anchored JUNK_INTENT_BLANK t = false).
  { rewrite Et. unfold Re.search_anchored. cbn [append Re.matches].
    fold optional_line_feed. rewrite Hblank. apply LoaderFacts.matches_Nul. }
  assert (Hp : Re.search_anchored JUNK_PAGE_FOOTER t = false).
  { rewrite Et. unfold Re.search_anchored. cbn [append Re.matches].
    fold optional_line_feed. rewrite Hfooter. apply LoaderFacts.matches_Nul. }
  split; [exact Hlong |]. split; [exact Hb |]. split; [exact Hp |].
  unfold looks_junky. fold t. rewrite Hb, Hp.
  destruct t as [|x y] eqn:E; [simpl in Hlong; lia |]. cbn [is_empty].
  destruct (Nat.ltb_spec (String.length (String x y)) 40) as [Hlt | _]; [lia |].
  assert (Hmax : Nat.max 1 (String.length (String x y)) = String.length (String x y))
    by (simpl; lia).
  rewrite Hmax.
  destruct (Nat.ltb_spec (String.length (String x y)) (2 * count is_digit (String x y)));
    split; intros; try reflexivity; try discriminate; lia.
Qed.

Lemma field_chunks_pass_the_filter_witness :
  exists c,
    In c (ThresholdFacts.chunks_of
            (create_chunks_from_course IngestFacts.sample_record IngestFacts.sample_filename
               "2025-11-10T00:00:00"))
    /\ meta_chunk_type c = "overview"
    /\ 40 < String.length (strip (chunk_text c))
    /\ looks_junky (chunk_text c) = false.
Proof.
  destruct (create_chunks_from_course IngestFacts.sample_record IngestFacts.sample_filename
              "2025-11-10T00:00:00") as [chunks|e] eqn:Hrun;
    [| vm_compute in Hrun; discriminate].
  destruct chunks as [|c chunks]; [vm_compute in Hrun; discriminate |].
  assert (Hty : meta_chunk_type c = "overview").
  { vm_compute in Hrun. injection Hrun as <- _. reflexivity. }
  exists c. split; [now left |]. split; [exact Hty |].
  destruct (field_chunks_pass_the_filter _ _ _ _ c "Overview" Hrun) as (Hlong & _ & _ & Hj).
  - now left.
  - rewrite Hty. now left.
  - split; [exact Hlong |].
    destruct (looks_junky (chunk_text c)) eqn:E; [| reflexivity].
    exfalso. apply proj1 in Hj. specialize (Hj eq_refl).
    vm_compute in Hrun. injection Hrun as <- _. vm_compute in Hj. lia.
Defined.

(** ** What the index writer leaves behind when it returns *)

Lemma loaded_row_kept (f : file) (r : record) :
  In r (load_jsonl f) ->
  looks_junky (text_of r) = false
  /\ exists meta, rec_meta r = Some meta /\ lookup meta "page_end" <> None.
Proof.
  rewrite SaveKbFacts.load_jsonl_filter. intros H.
  apply in_map_iff in H as (r0 & <- & H). apply filter_In in H as [_ Hj].
  apply negb_true_iff in Hj.
  destruct (LoaderFacts.with_page_end_meta r0) as (_ & Htext & meta & Hmeta & Hpe & _).
  split.
  - unfold text_of in *. now rewrite Htext.
  - exists meta. split; [exact Hmeta |]. rewrite Hpe. discriminate.
Qed.

Section Writer.

Variable vec : Type.
Variable encode : string -> list string -> nat -> result (ndarray vec).
Variable to_float32 : vec -> vec.
Variable now : string.
Variable abspath : string -> string.

(** The checks that a run that returns has passed. *)
Lemma main_returned_inv (a : args) (input : file) :
  fst (main vec encode to_float32 now abspath a input) = Returned ->
  exists vecs,
    encode (embed_model_dir a) (map text_of (load_jsonl input)) (batch a) = Ok vecs
    /\ snd (main vec encode to_float32 now abspath a input)
       = [ Makedirs vec (out_dir a);
           NpSave vec (path_join (out_dir a) "embeddings.npy")
             (astype_float32 vec to_float32 vecs);
           WriteJsonl vec (path_join (out_dir a) "payloads.jsonl") (load_jsonl input);
           WriteJson vec (path_join (out_dir a) "manifest.json")
             {| created_at := now ++ "Z";
                n_points := shape0 vec (astype_float32 vec to_float32 vecs);
                dim := shape1 vec (astype_float32 vec to_float32 vecs);
                embed_model := embed_model_dir a;
                source_jsonl := abspath (jsonl a) |} ]
    /\ load_jsonl input <> []
    /\ ~ In None (map rec_id (load_jsonl input))
    /\ NoDup (map rec_id (load_jsonl input))
    /\ List.length (array_rows vec vecs) = List.length (load_jsonl input).
Proof.
  unfold main. cbv zeta.
  destruct (load_jsonl input) as [|r rows']; [discriminate |]. cbv iota.
  destruct (existsb (fun i => match i with None => true | Some _ => false end)
              (map rec_id (r :: rows'))) eqn:Emiss; [discriminate |].
  destruct (has_duplicates option_ident_eq_dec (map rec_id (r :: rows'))) eqn:Edup;
    [discriminate |].
  destruct (encode (embed_model_dir a) (map text_of (r :: rows')) (batch a)) as [vecs|e];
    [| discriminate].
  destruct (Nat.eqb_spec (shape0 vec vecs) (List.length (r :: rows'))) as [Hshape | Hshape];
    cbn [negb]; [| discriminate].
  intros _. exists vecs. split; [reflexivity |]. split; [reflexivity |].
  split; [discriminate |]. split.
  - intros Hin. apply SaveKbFacts.missing_id_iff in Hin. congruence.
  - split; [now apply (SaveKbFacts.has_duplicates_false option_ident_eq_dec) | exact Hshape].
Qed.

(** X14. When the index writer returns, it has written exactly three
    files after creating the output directory: the vectors of the encoder
    converted to float32, the rows kept by the loader, and the manifest.
    The rows are not empty, each has an id, no two have the same id, none
    is junk and each has a [page_end]; there are as many vectors as rows,
    and the manifest counts that many points.  In every other case the
    script ends with a non-zero status. *)
Theorem index_writer_postcondition (a : args) (input : file) :
  let run := main vec encode to_float32 now abspath a input in
  let rows := load_jsonl input in
  (fst run = Returned <-> exit_status (fst run) = 0%Z)
  /\ (fst run = Returned ->
      exists vecs m,
        encode (embed_model_dir a) (map text_of rows) (batch a) = Ok vecs
        /\ snd run
           = [ Makedirs vec (out_dir a);
               NpSave vec (path_join (out_dir a) "embeddings.npy")
                 (astype_float32 vec to_float32 vecs);
               WriteJsonl vec (path_join (out_dir a) "payloads.jsonl") rows;
               WriteJson vec (path_join (out_dir a) "manifest.json") m ]
        /\ rows <> []
        /\ NoDup (map rec_id rows)
        /\ Forall (fun r => rec_id r <> None
                            /\ looks_junky (text_of r) = false
                            /\ exists meta, rec_meta r = Some meta
                                            /\ lookup meta "page_end" <> None) rows
        /\ List.length (array_rows vec (astype_float32 vec to_float32 vecs))
           = List.length rows
        /\ n_points m = List.length rows
        /\ dim m = shape1 vec vecs
        /\ embed_model m = embed_model_dir a).
Proof.
  intros run rows. split.
  - destruct (fst run); simpl; split; intros H; try reflexivity; discriminate.
  - intros H. destruct (main_returned_inv a input H)
      as (vecs & Henc & Hev & Hne & Hmiss & Hnd & Hlen).
    eexists vecs, _. split; [exact Henc |]. split; [exact Hev |].
    split; [exact Hne |]. split; [exact Hnd |]. split.
    + apply Forall_forall. intros x Hx. split; [| exact (loaded_row_kept input x Hx)].
      intros E. apply Hmiss. rewrite <- E. now apply in_map.
    + cbn [n_points dim embed_model]. unfold shape0, astype_float32. cbn [array_rows shape1].
      rewrite length_map. auto.
Qed.

End Writer.

Lemma index_writer_postcondition_witness :
  exists vecs m,
    snd (main nat SaveKbFacts.toy_encode (fun x => x) "2025-11-10T00:00:00" (fun p => p)
           SaveKbFacts.toy_args
           [SaveKbFacts.row "a" SaveKbFacts.overview_text; None;
            SaveKbFacts.row "b" SaveKbFacts.notes_text])
    = [ Makedirs nat "data/processed/courses";
        NpSave nat "data/processed/courses/embeddings.npy" vecs;
        WriteJsonl nat "data/processed/courses/payloads.jsonl"
          (load_jsonl [SaveKbFacts.row "a" SaveKbFacts.overview_text; None;
                       SaveKbFacts.row "b" SaveKbFacts.notes_text]);
        WriteJson nat "data/processed/courses/manifest.json" m ]
    /\ n_points m = 2.
Proof.
  destruct (index_writer_postcondition nat SaveKbFacts.toy_encode (fun x => x)
              "2025-11-10T00:00:00" (fun p => p) SaveKbFacts.toy_args
              [SaveKbFacts.row "a" SaveKbFacts.overview_text; None;
               SaveKbFacts.row "b" SaveKbFacts.notes_text]) as [_ Hpost].
  destruct (Hpost eq_refl) as (vecs & m & _ & Hev & _ & _ & _ & _ & Hn & _).
  exists (astype_float32 nat (fun x => x) vecs), m. split; [exact Hev |].
  rewrite Hn. reflexivity.
Defined.

End PipelineFacts.

(* ====================================================================== *)
(** * The upsert: rows, batches and the collection *)
(* ====================================================================== *)

Module BatchFacts.
Import PyStr Json Jsonl Upsert.

(** The lines of a file that are not blank, with their line numbers
    counted from [i]. *)
Fixpoint numbered (i : nat) (f : file) : list (nat * record) :=
  match f with
  | [] => []
  | None :: f' => numbered (S i) f'
  | Some r :: f' => (i, r) :: numbered (S i) f'
  end.

(** The id a line gets in Qdrant: its own id when that is an integer, its
    line number when it is a string. *)
Definition qdrant_id (line : nat * record) : Z :=
  match rec_id (snd line) with
  | Some (IdInt z) => z
  | _ => Z.of_nat (fst line)
  end.

Definition row_payload (line : nat * record) : dict :=
  match rec_id (snd line) with
  | Some rid => payload_of (snd line) rid
  | None => []
  end.

Definition has_id (line : nat * record) : Prop := falsy_id (rec_id (snd line)) = false.

Definition MISSING : string := "Row missing 'id' in payloads.jsonl".
Definition DUPLICATE : string := "Duplicate ids found in payloads.jsonl".

Lemma load_rows_numbered (f : file) :
  forall i,
  (Forall has_id (numbered i f) ->
   load_rows i f = inr (map qdrant_id (numbered i f), map row_payload (numbered i f)))
  /\ (~ Forall has_id (numbered i f) -> load_rows i f = inl MISSING).
Proof.
  induction f as [|[r|] f IH]; intros i; cbn [numbered load_rows].
  - split; [reflexivity |]. intros H. elim H. constructor.
  - destruct (IH (S i)) as [IHok IHbad].
    destruct (rec_id r) as [rid|] eqn:Hid.
    + destruct (falsy_id (Some rid)) eqn:Hf.
      * split; [| reflexivity]. intros H. inversion H as [|x l Hx _]; subst.
        unfold has_id in Hx. cbn [snd] in Hx. rewrite Hid in Hx. congruence.
      * split.
        -- intros H. inversion H as [|x l _ Hrest]; subst. rewrite (IHok Hrest).
           cbn [map].
           assert (Eq : qdrant_id (i, r)
                        = match rid with IdStr _ => Z.of_nat i | IdInt z => z end).
           { unfold qdrant_id. cbn [fst snd]. rewrite Hid. now destruct rid. }
           assert (Ep : row_payload (i, r) = payload_of r rid).
           { unfold row_payload. cbn [snd]. now rewrite Hid. }
           now rewrite Eq, Ep.
        -- intros H. rewrite IHbad; [reflexivity |].
           intros Hrest. apply H. constructor; [| exact Hrest].
           unfold has_id. cbn [snd]. now rewrite Hid.
    + split; [| reflexivity]. intros H. inversion H as [|x l Hx _]; subst.
      unfold has_id in Hx. cbn [snd] in Hx. rewrite Hid in Hx. discriminate.
  - apply IH.
Qed.

Lemma payload_of_lookup (r : record) (rid : ident) :
  lookup (payload_of r rid) "row_id" = Some (value_of_ident rid)
  /\ lookup (payload_of r rid) "text" = Some (VStr (SaveKb.text_of r))
  /\ forall k, k <> "text" -> k <> "row_id" ->
       lookup (payload_of r rid) k = lookup (LoaderFacts.meta_of r) k.
Proof.
  unfold payload_of. fold (LoaderFacts.meta_of r). split; [| split].
  - apply LoaderFacts.lookup_set_same.
  - rewrite LoaderFacts.lookup_set_other by discriminate. apply LoaderFacts.lookup_set_same.
  - intros k H1 H2. rewrite !LoaderFacts.lookup_set_other by congruence. reflexivity.
Qed.

(** ** Batches *)

Lemma batches_concat {A : Type} (B : nat) :
  0 < B -> forall fuel (l : list A), List.length l <= fuel -> concat (batches fuel B l) = l.
Proof.
  intros HB. induction fuel as [|fuel IH]; intros l Hl.
  - destruct l; [reflexivity | simpl in Hl; lia].
  - destruct l as [|x l]; [reflexivity |]. cbn [batches concat].
    rewrite IH.
    + apply firstn_skipn.
    + rewrite length_skipn. cbn [List.length] in *. lia.
Qed.

Lemma batches_length {A : Type} (B : nat) :
  0 < B -> forall fuel (l : list A), List.length l <= fuel ->
  List.length (batches fuel B l) = (List.length l + B - 1) / B.
Proof.
  intros HB. induction fuel as [|fuel IH]; intros l Hl.
  - destruct l; [| simpl in Hl; lia]. simpl. symmetry. apply Nat.div_small. lia.
  - destruct l as [|x l]; [simpl; symmetry; apply Nat.div_small; lia |].
    cbn [batches List.length]. rewrite IH by (rewrite length_skipn; cbn [List.length] in *; lia).
    rewrite length_skipn. cbn [List.length].
    destruct (Nat.le_gt_cases (S (List.length l)) B) as [Hle | Hgt].
    + replace (S (List.length l) - B) with 0 by lia.
      rewrite (Nat.div_small (0 + B - 1) B) by lia.
      apply (Nat.div_unique _ _ 1 (List.length l)); lia.
    + replace (S (List.length l) + B - 1) with ((S (List.length l) - B + B - 1) + 1 * B) by lia.
      rewrite Nat.div_add by lia. lia.
Qed.

Section Client.

Variable vec : Type.
Variable to_float32 : vec -> vec.

Lemma fold_upsert_concat (bs : list (list (point vec))) :
  forall c, fold_left (upsert vec) bs c = fold_left (upsert_point vec) (concat bs) c.
Proof.
  induction bs as [|b bs IH]; intros c; [reflexivity |].
  cbn [fold_left concat]. rewrite IH, fold_left_app. reflexivity.
Qed.

Lemma zip3_ids (ids : list Z) :
  forall (vs : list vec) (ps : list dict),
  List.length vs = List.length ids -> List.length ps = List.length ids ->
  map (point_id vec) (zip3 vec ids vs ps) = ids
  /\ List.length (zip3 vec ids vs ps) = List.length ids.
Proof.
  induction ids as [|i ids IH]; intros [|v vs] [|p ps] Hv Hp; simpl in *; try lia; auto.
  destruct (IH vs ps) as [H1 H2]; try lia. rewrite H1, H2. auto.
Qed.

Lemma zip3_vectors (ids : list Z) :
  forall (vs : list vec) (ps : list dict),
  List.length vs = List.length ids -> List.length ps = List.length ids ->
  map (point_vector vec) (zip3 vec ids vs ps) = vs
  /\ map (point_payload vec) (zip3 vec ids vs ps) = ps.
Proof.
  induction ids as [|i ids IH]; intros [|v vs] [|p ps] Hv Hp; simpl in *; try lia; auto.
  destruct (IH vs ps) as [H1 H2]; try lia. rewrite H1, H2. auto.
Qed.

(** A point whose id is new goes to the end of the collection. *)
Lemma upsert_point_new (c : points vec) (p : point vec) :
  ~ In (point_id vec p) (map (point_id vec) c) -> upsert_point vec c p = (c ++ [p])%list.
Proof.
  induction c as [|q c IH]; [reflexivity |]. cbn [map In upsert_point app]. intros H.
  destruct (Z.eqb_spec (point_id vec q) (point_id vec p)) as [E | _]; [tauto |].
  rewrite IH; [reflexivity | tauto].
Qed.

Lemma upsert_points_new (pts : list (point vec)) :
  forall c,
  NoDup (map (point_id vec) pts) ->
  (forall i, In i (map (point_id vec) pts) -> ~ In i (map (point_id vec) c)) ->
  fold_left (upsert_point vec) pts c = (c ++ pts)%list.
Proof.
  induction pts as [|p pts IH]; intros c Hnd Hnew; cbn [fold_left].
  - now rewrite app_nil_r.
  - inversion Hnd as [|x l Hp Hrest]; subst.
    rewrite upsert_point_new by (apply Hnew; now left).
    rewrite IH; [now rewrite <- app_assoc | exact Hrest |].
    intros i Hi. rewrite map_app, in_app_iff. cbn [map In].
    intros [Hc | [<- | []]]; [| contradiction].
    apply (Hnew i); [now right | exact Hc].
Qed.

Lemma load_payloads_lengths (f : file) (ids : list Z) (payloads : list dict) :
  load_payloads f = inr (ids, payloads) ->
  NoDup ids /\ List.length payloads = List.length ids.
Proof.
  intros H.
  destruct (Forall_dec has_id
              (fun line => bool_dec (falsy_id (rec_id (snd line))) false) (numbered 0 f))
    as [Hall | Hnot].
  - destruct (load_rows_numbered f 0) as [Hok _]. unfold load_payloads in H.
    rewrite (Hok Hall) in H.
    destruct (has_duplicates Z.eq_dec (map qdrant_id (numbered 0 f))) eqn:Hd; [discriminate |].
    injection H as <- <-. split.
    + now apply (SaveKbFacts.has_duplicates_false Z.eq_dec).
    + now rewrite !length_map.
  - destruct (load_rows_numbered f 0) as [_ Hbad]. unfold load_payloads in H.
    rewrite (Hbad Hnot) in H. discriminate.
Qed.

(** The run of the script on an accepted payload file and an array of as
    many rows, for a positive batch size. *)
Lemma main_batched (a : args) (vecs : list vec) (f : file)
    (before : option (points vec)) (ids : list Z) (payloads : list dict) :
  load_payloads f = inr (ids, payloads) ->
  List.length vecs = List.length ids ->
  let pts := zip3 vec ids (map to_float32 vecs) payloads in
  let start := if no_recreate a then match before with Some c => c | None => [] end else [] in
  map (point_id vec) pts = ids
  /\ (0 < batch a ->
      main vec to_float32 a vecs f before
      = (Returned, Some (fold_left (upsert_point vec) pts start),
         (List.length ids + batch a - 1) / batch a))
  /\ (0 < batch a -> no_recreate a = false ->
      main vec to_float32 a vecs f before
      = (Returned, Some pts, (List.length ids + batch a - 1) / batch a)).
Proof.
  intros Hload Hlen pts start.
  destruct (load_payloads_lengths f ids payloads Hload) as [Hnd Hpl].
  destruct (zip3_ids ids (map to_float32 vecs) payloads) as [Hids Hzl];
    [now rewrite length_map | exact Hpl |].
  fold pts in Hids, Hzl.
  assert (Hmain : 0 < batch a ->
            main vec to_float32 a vecs f before
            = (Returned, Some (fold_left (upsert_point vec) pts start),
               (List.length ids + batch a - 1) / batch a)).
  { intros HB. unfold main. rewrite Hload.
    apply Nat.eqb_eq in Hlen. rewrite Hlen. cbn [negb]. fold pts. fold start.
    destruct (batch a) as [|b] eqn:EB; [lia |]. rewrite <- EB.
    rewrite fold_upsert_concat.
    rewrite <- Hzl at 1 2.
    rewrite batches_concat, batches_length by (rewrite ?EB; lia).
    now rewrite Hzl. }
  split; [exact Hids |]. split; [exact Hmain |].
  intros HB Hre. rewrite (Hmain HB). subst start. rewrite Hre.
  rewrite upsert_points_new; [reflexivity | now rewrite Hids | intros i _ []].
Qed.

(** X16. Batching is invisible in the result.  When the payload file is
    accepted and the array has as many rows as the file, the script, for
    any positive batch size, leaves the collection that upserting the
    points one by one, in the order of the file, gives, each point made of
    the Qdrant id, the vector converted to float32 and the payload of its
    line; it calls [upsert] once for every [batch] rows, rounded up.
    Without [--no_recreate] the collection is exactly these points.  With a
    batch size of zero the script fails with a [ValueError] after the
    collection has been recreated, having upserted nothing. *)
Theorem upsert_in_batches (a : args) (vecs : list vec) (f : file)
    (before : option (points vec)) (ids : list Z) (payloads : list dict) :
  load_payloads f = inr (ids, payloads) ->
  List.length vecs = List.length ids ->
  let pts := zip3 vec ids (map to_float32 vecs) payloads in
  let start := if no_recreate a then match before with Some c => c | None => [] end else [] in
  map (point_id vec) pts = ids
  /\ (0 < batch a ->
      main vec to_float32 a vecs f before
      = (Returned, Some (fold_left (upsert_point vec) pts start),
         (List.length ids + batch a - 1) / batch a))
  /\ (0 < batch a -> no_recreate a = false ->
      main vec to_float32 a vecs f before
      = (Returned, Some pts, (List.length ids + batch a - 1) / batch a))
  /\ (batch a = 0 ->
      exists msg,
        main vec to_float32 a vecs f before = (Uncaught (ValueError msg), Some start, 0)).
Proof.
  intros Hload Hlen pts start.
  destruct (main_batched a vecs f before ids payloads Hload Hlen) as (Hids & Hmain & Hnew).
  split; [exact Hids |]. split; [exact Hmain |]. split; [exact Hnew |].
  intros HB. unfold main. rewrite Hload.
  apply Nat.eqb_eq in Hlen. rewrite Hlen. cbn [negb]. fold start. rewrite HB. eauto.
Qed.

(** ** Rows with string ids, one per line *)

Definition ids_upto (i n : nat) : list Z := map Z.of_nat (List.seq i n).

Lemma string_rows_numbered (rows : list record) :
  Forall UpsertFacts.string_id rows ->
  forall i,
  Forall has_id (numbered i (map Some rows))
  /\ map qdrant_id (numbered i (map Some rows)) = ids_upto i (List.length rows)
  /\ map snd (numbered i (map Some rows)) = rows.
Proof.
  induction 1 as [|r rows (s & Hs & Hne) _ IH]; intros i; cbn [map numbered].
  - repeat split. constructor.
  - destruct (IH (S i)) as (H1 & H2 & H3). split; [| split].
    + constructor; [| exact H1]. unfold has_id. cbn [snd]. rewrite Hs.
      destruct s; [congruence | reflexivity].
    + unfold ids_upto in *. cbn [List.length List.seq map]. rewrite H2.
      unfold qdrant_id. cbn [fst snd]. now rewrite Hs.
    + cbn [snd]. now rewrite H3.
Qed.

Lemma ids_upto_NoDup (i n : nat) : NoDup (ids_upto i n).
Proof.
  unfold ids_upto. apply NoDup_map_NoDup_ForallPairs; [| apply seq_NoDup].
  intros x y _ _. apply Nat2Z.inj.
Qed.

Lemma ids_upto_In (i n : nat) (z : Z) :
  In z (ids_upto i n) -> (Z.of_nat i <= z < Z.of_nat (i + n))%Z.
Proof.
  unfold ids_upto. rewrite in_map_iff. intros (k & <- & Hk). apply in_seq in Hk. lia.
Qed.

Lemma load_payloads_string_rows (rows : list record) :
  Forall UpsertFacts.string_id rows ->
  load_payloads (map Some rows)
  = inr (ids_upto 0 (List.length rows), map row_payload (numbered 0 (map Some rows))).
Proof.
  intros H. destruct (string_rows_numbered rows H 0) as (Hall & Hids & _).
  destruct (load_rows_numbered (map Some rows) 0) as [Hok _].
  unfold load_payloads. rewrite (Hok Hall), Hids.
  now rewrite (proj2 (SaveKbFacts.has_duplicates_false Z.eq_dec _) (ids_upto_NoDup 0 _)).
Qed.

(** A point goes through the points with other ids. *)
Lemma upsert_point_app (done todo : points vec) (p : point vec) :
  ~ In (point_id vec p) (map (point_id vec) done) ->
  upsert_point vec (done ++ todo)%list p = (done ++ upsert_point vec todo p)%list.
Proof.
  induction done as [|q done IH]; [reflexivity |]. cbn [map In app upsert_point]. intros H.
  destruct (Z.eqb_spec (point_id vec q) (point_id vec p)) as [E | _]; [tauto |].
  rewrite IH; [reflexivity | tauto].
Qed.

(** Points numbered from [k] on, upserted into a collection whose points
    are numbered from zero: they take the place of the points with their
    numbers, and the ones that are left go to the end. *)
Lemma upsert_numbered (pts : list (point vec)) :
  forall (k : nat) (done todo : points vec),
  map (point_id vec) done = ids_upto 0 k ->
  map (point_id vec) todo = ids_upto k (List.length todo) ->
  map (point_id vec) pts = ids_upto k (List.length pts) ->
  fold_left (upsert_point vec) pts (done ++ todo)%list
  = (done ++ pts ++ skipn (List.length pts) todo)%list.
Proof.
  induction pts as [|p pts IH]; intros k done todo Hdone Htodo Hpts.
  - reflexivity.
  - cbn [fold_left List.length]. unfold ids_upto in Hpts. cbn [List.length List.seq map] in Hpts.
    injection Hpts as Hp Hpts. fold (ids_upto (S k) (List.length pts)) in Hpts.
    assert (Hnew : ~ In (point_id vec p) (map (point_id vec) done)).
    { rewrite Hdone, Hp. intros Hin. apply ids_upto_In in Hin. lia. }
    rewrite (upsert_point_app done todo p Hnew).
    assert (Hstep : upsert_point vec todo p = p :: skipn 1 todo
                    /\ map (point_id vec) (skipn 1 todo)
                       = ids_upto (S k) (List.length (skipn 1 todo))).
    { destruct todo as [|q todo]; [split; reflexivity |].
      unfold ids_upto in Htodo. cbn [List.length List.seq map] in Htodo.
      injection Htodo as Hq Htodo. cbn [upsert_point skipn].
      rewrite Hq, Hp, Z.eqb_refl. split; [reflexivity | exact Htodo]. }
    destruct Hstep as [-> Hrest].
    change (done ++ p :: skipn 1 todo)%list with (done ++ [p] ++ skipn 1 todo)%list.
    rewrite app_assoc.
    rewrite (IH (S k) (done ++ [p])%list (skipn 1 todo)).
    + rewrite <- app_assoc. cbn [app]. rewrite skipn_skipn.
      now rewrite Nat.add_1_r.
    + rewrite map_app, Hdone. cbn [map]. rewrite Hp. unfold ids_upto.
      replace (S k) with (k + 1) by lia. rewrite seq_app, map_app. reflexivity.
    + exact Hrest.
    + exact Hpts.
Qed.

(** X17. With rows that carry string ids, the ids given to Qdrant are the
    line numbers, so a second run with [--no_recreate] does not add its
    rows to those of the first run: line by line it overwrites them, and
    only the points of the first run beyond the last line of the second
    file are left.  The collection ends with as many points as the longer
    of the two files has rows, whatever the ids of the rows are. *)
Theorem append_run_overwrites_by_line (a1 a2 : args) (rows1 rows2 : list record)
    (vecs1 vecs2 : list vec) :
  Forall UpsertFacts.string_id rows1 -> Forall UpsertFacts.string_id rows2 ->
  List.length vecs1 = List.length rows1 -> List.length vecs2 = List.length rows2 ->
  0 < batch a1 -> 0 < batch a2 ->
  no_recreate a1 = false -> no_recreate a2 = true ->
  exists pts1 pts2 calls1 calls2,
    main vec to_float32 a1 vecs1 (map Some rows1) None = (Returned, Some pts1, calls1)
    /\ main vec to_float32 a2 vecs2 (map Some rows2) (Some pts1)
       = (Returned, Some (pts2 ++ skipn (List.length rows2) pts1)%list, calls2)
    /\ map (point_id vec) pts1 = ids_upto 0 (List.length rows1)
    /\ map (point_id vec) pts2 = ids_upto 0 (List.length rows2)
    /\ map (point_vector vec) pts2 = map to_float32 vecs2
    /\ List.length (pts2 ++ skipn (List.length rows2) pts1)%list
       = Nat.max (List.length rows1) (List.length rows2).
Proof.
  intros Hs1 Hs2 Hl1 Hl2 HB1 HB2 Hre1 Hre2.
  pose proof (load_payloads_string_rows rows1 Hs1) as Hload1.
  pose proof (load_payloads_string_rows rows2 Hs2) as Hload2.
  set (pay1 := map row_payload (numbered 0 (map Some rows1))) in *.
  set (pay2 := map row_payload (numbered 0 (map Some rows2))) in *.
  set (pts1 := zip3 vec (ids_upto 0 (List.length rows1)) (map to_float32 vecs1) pay1).
  set (pts2 := zip3 vec (ids_upto 0 (List.length rows2)) (map to_float32 vecs2) pay2).
  assert (Hn : forall n, List.length (ids_upto 0 n) = n).
  { intros n. unfold ids_upto. now rewrite length_map, length_seq. }
  assert (Hp1 : List.length pay1 = List.length rows1).
  { subst pay1. rewrite length_map.
    destruct (string_rows_numbered rows1 Hs1 0) as (_ & _ & H).
    rewrite <- H at 2. now rewrite length_map. }
  assert (Hp2 : List.length pay2 = List.length rows2).
  { subst pay2. rewrite length_map.
    destruct (string_rows_numbered rows2 Hs2 0) as (_ & _ & H).
    rewrite <- H at 2. now rewrite length_map. }
  destruct (zip3_ids (ids_upto 0 (List.length rows1)) (map to_float32 vecs1) pay1)
    as [Hid1 Hz1]; [now rewrite length_map, Hn | now rewrite Hn |].
  destruct (zip3_ids (ids_upto 0 (List.length rows2)) (map to_float32 vecs2) pay2)
    as [Hid2 Hz2]; [now rewrite length_map, Hn | now rewrite Hn |].
  fold pts1 in Hid1, Hz1. fold pts2 in Hid2, Hz2. rewrite Hn in Hz1, Hz2.
  destruct (main_batched a1 vecs1 (map Some rows1) None _ _ Hload1)
    as (_ & _ & Hrun1); [now rewrite Hn |].
  destruct (main_batched a2 vecs2 (map Some rows2) (Some pts1) _ _ Hload2)
    as (_ & Hrun2 & _); [now rewrite Hn |].
  fold pts1 in Hrun1. fold pts2 in Hrun2. rewrite Hre2 in Hrun2.
  exists pts1, pts2. eexists. eexists.
  split; [exact (Hrun1 HB1 Hre1) |]. split.
  - pose proof (upsert_numbered pts2 0 [] pts1 eq_refl) as H. cbn [app] in H.
    rewrite Hz1, Hz2 in H. rewrite H in Hrun2 by assumption.
    exact (Hrun2 HB2).
  - split; [exact Hid1 |]. split; [exact Hid2 |]. split.
    + subst pts2. apply zip3_vectors; [now rewrite length_map, Hn | now rewrite Hn].
    + rewrite length_app, length_skipn, Hz1, Hz2. lia.
Qed.

End Client.

Definition overview_row : record :=
  {| rec_id := Some (IdStr "b34807cf-4d27-51f9-a5ee-3c36deec35f7");
     rec_text := Some SaveKbFacts.overview_text; rec_meta := None |}.

Definition outcomes_row : record :=
  {| rec_id := Some (IdStr "5870a98f-2844-5402-ab74-e80c3f3195eb");
     rec_text := Some "Learning Outcomes: apply exercise science in practice.";
     rec_meta := None |}.

Definition notes_row : record :=
  {| rec_id := Some (IdStr "302d62c3-a4b8-57f1-84a8-6034829f57e9");
     rec_text := Some SaveKbFacts.notes_text; rec_meta := None |}.

Definition small_batches : args :=
  {| payloads_path := "payloads.jsonl"; emb := "embeddings.npy"; collection := "courses";
     batch := 2; no_recreate := false |}.

Definition append_mode : args :=
  {| payloads_path := "more.jsonl"; emb := "more.npy"; collection := "courses";
     batch := 2; no_recreate := true |}.

Lemma upsert_in_batches_witness :
  exists pts,
    main nat (fun x => x) small_batches [7; 8; 9]
      [Some overview_row; None; Some outcomes_row; Some notes_row] None
    = (Returned, Some pts, 2)
    /\ map (point_id nat) pts = [0; 2; 3]%Z.
Proof.
  destruct (upsert_in_batches nat (fun x => x) small_batches [7; 8; 9]
              [Some overview_row; None; Some outcomes_row; Some notes_row] None
              [0; 2; 3]%Z
              (map row_payload
                 (numbered 0 [Some overview_row; None; Some outcomes_row; Some notes_row])))
    as (Hids & _ & Hrun & _); [reflexivity | reflexivity |].
  eexists. split; [apply Hrun; [unfold small_batches; simpl; lia | reflexivity] |].
  exact Hids.
Defined.

Lemma append_run_overwrites_by_line_witness :
  exists pts1 pts2 calls1 calls2,
    main nat (fun x => x) small_batches [7; 8] (map Some [overview_row; outcomes_row]) None
    = (Returned, Some pts1, calls1)
    /\ main nat (fun x => x) append_mode [9] (map Some [notes_row]) (Some pts1)
       = (Returned, Some (pts2 ++ skipn 1 pts1)%list, calls2)
    /\ List.length (pts2 ++ skipn 1 pts1)%list = 2.
Proof.
  destruct (append_run_overwrites_by_line nat (fun x => x) small_batches append_mode
              [overview_row; outcomes_row] [notes_row] [7; 8] [9])
    as (pts1 & pts2 & calls1 & calls2 & H1 & H2 & _ & _ & _ & Hlen);
    try reflexivity; try (unfold small_batches, append_mode; simpl; lia).
  - repeat constructor; eexists; (split; [reflexivity | discriminate]).
  - repeat constructor; eexists; (split; [reflexivity | discriminate]).
  - exists pts1, pts2, calls1, calls2. auto.
Defined.

End BatchFacts.

(* ====================================================================== *)
(** * The reader of the payload file on arbitrary lines *)
(* ====================================================================== *)

Module PayloadLinesFacts.
Import PyStr Json PayloadLines.

(** The lines of a file that are not blank, with their line numbers
    counted from [i]. *)
Fixpoint numbered (i : nat) (f : file) : list (nat * dict) :=
  match f with
  | [] => []
  | None :: f' => numbered (S i) f'
  | Some r :: f' => (i, r) :: numbered (S i) f'
  end.

(** [r.get("id")] and [r.get("meta", {})] *)
Definition row_id (line : nat * dict) : value := get (snd line) "id" VNone.

Definition meta_value (line : nat * dict) : value := get (snd line) "meta" (VDict []).

(** The id is true: not missing, null, false, zero, empty. *)
Definition has_id (line : nat * dict) : Prop := truthy (row_id line) = true.

(** The meta is an object, or is not given. *)
Definition has_meta (line : nat * dict) : Prop := exists meta, meta_value line = VDict meta.

Definition accepted (line : nat * dict) : Prop := has_id line /\ has_meta line.

(** The id a line gets in Qdrant: its line number when its id is a string,
    and else its own id. *)
Definition qdrant_id (line : nat * dict) : value :=
  match row_id line with
  | VStr _ => VInt (Z.of_nat (fst line))
  | v => v
  end.

Definition row_payload (line : nat * dict) : dict :=
  match payload_of (snd line) (row_id line) with
  | Ok payload => payload
  | Raise _ => []
  end.

(** An id that can be put in a set, and what the set holds for it. *)
Definition hashable (v : value) : Prop := exists k, hash_of v = Ok k.

Definition key (v : value) : hashed :=
  match hash_of v with
  | Ok k => k
  | Raise _ => HNone
  end.

Definition MISSING : string := "Row missing 'id' in payloads.jsonl".
Definition DUPLICATE : string := "Duplicate ids found in payloads.jsonl".

Lemma has_meta_payload (line : nat * dict) :
  (has_meta line -> payload_of (snd line) (row_id line) = Ok (row_payload line))
  /\ (~ has_meta line ->
      exists msg, payload_of (snd line) (row_id line) = Raise (TypeError msg)).
Proof.
  unfold has_meta, row_payload, meta_value, payload_of.
  destruct (get (snd line) "meta" (VDict [])) as [| b | z | s | l | d]; split;
    try (intros [meta H]; discriminate); try (intros _; eauto; fail).
  intros H. elim H. eauto.
Qed.

Lemma load_rows_step (i : nat) (r : dict) (f : file) :
  load_rows i (Some r :: f)
  = if negb (truthy (row_id (i, r))) then inl (SystemExit MISSING)
    else match payload_of r (row_id (i, r)) with
         | Raise e => inl (Uncaught e)
         | Ok payload =>
             match load_rows (S i) f with
             | inl t => inl t
             | inr (ids, payloads) => inr (qdrant_id (i, r) :: ids, payload :: payloads)
             end
         end.
Proof.
  unfold qdrant_id, row_id. cbn [load_rows fst snd].
  destruct (get r "id" VNone); reflexivity.
Qed.

Lemma load_rows_accepted (f : file) :
  forall i, Forall accepted (numbered i f) ->
  load_rows i f = inr (map qdrant_id (numbered i f), map row_payload (numbered i f)).
Proof.
  induction f as [|[r|] f IH]; intros i; cbn [numbered]; [reflexivity | | apply IH].
  intros H. inversion H as [|x l [Hid Hmeta] Hrest]; subst.
  rewrite load_rows_step. unfold has_id in Hid. rewrite Hid. cbn [negb].
  rewrite (proj1 (has_meta_payload (i, r)) Hmeta : payload_of r _ = _).
  now rewrite (IH (S i) Hrest).
Qed.

Lemma load_rows_first_failure (f : file) :
  forall i before line after,
  numbered i f = (before ++ line :: after)%list ->
  Forall accepted before ->
  (~ has_id line -> load_rows i f = inl (SystemExit MISSING))
  /\ (has_id line -> ~ has_meta line ->
      exists msg, load_rows i f = inl (Uncaught (TypeError msg))).
Proof.
  induction f as [|[r|] f IH]; intros i before line after E Hb; cbn [numbered] in E.
  - destruct before; discriminate.
  - destruct before as [|b before]; cbn [app] in E; injection E as E1 E2.
    + subst line. rewrite load_rows_step. split.
      * intros H. unfold has_id in H. destruct (truthy (row_id (i, r))); [now elim H | reflexivity].
      * intros Hid Hmeta. unfold has_id in Hid. rewrite Hid. cbn [negb].
        destruct (proj2 (has_meta_payload (i, r)) Hmeta) as [msg Hp].
        cbn [snd] in Hp. rewrite Hp. eauto.
    + subst b. inversion Hb as [|x l [Hid Hmeta] Hrest]; subst.
      destruct (IH (S i) before line after E2 Hrest) as [Hmiss Htype].
      rewrite load_rows_step. unfold has_id in Hid. rewrite Hid. cbn [negb].
      rewrite (proj1 (has_meta_payload (i, r)) Hmeta : payload_of r _ = _).
      split.
      * intros H. now rewrite (Hmiss H).
      * intros H1 H2. destruct (Htype H1 H2) as [msg ->]. eauto.
  - now apply (IH (S i) before line after).
Qed.

Lemma hash_all (ids : list value) :
  (Forall hashable ids -> mapM hash_of ids = Ok (map key ids))
  /\ (~ Forall hashable ids -> exists msg, mapM hash_of ids = Raise (TypeError msg)).
Proof.
  induction ids as [|v ids [IHok IHbad]]; cbn [mapM map].
  - split; [reflexivity |]. intros H. elim H. constructor.
  - unfold key at 1, hashable.
    destruct (hash_of v) as [k|e] eqn:Hv; cbn [bind].
    + split.
      * intros H. inversion H; subst. now rewrite IHok.
      * intros H. destruct IHbad as [msg ->]; [| cbn [bind]; eauto].
        intros Hrest. apply H. constructor; [| exact Hrest]. unfold hashable. eauto.
    + split.
      * intros H. inversion H as [|x l [k Hk] _]; subst. congruence.
      * intros _. destruct v; try discriminate; injection Hv as <-; eauto.
Qed.

Lemma payload_lookup (line : nat * dict) (meta : dict) :
  meta_value line = VDict meta ->
  lookup (row_payload line) "row_id" = Some (row_id line)
  /\ lookup (row_payload line) "text" = Some (get (snd line) "text" (VStr ""))
  /\ forall k, k <> "text" -> k <> "row_id" -> lookup (row_payload line) k = lookup meta k.
Proof.
  unfold row_payload, payload_of, meta_value. intros ->. split; [| split].
  - apply LoaderFacts.lookup_set_same.
  - rewrite LoaderFacts.lookup_set_other by discriminate. apply LoaderFacts.lookup_set_same.
  - intros k H1 H2. rewrite !LoaderFacts.lookup_set_other by congruence. reflexivity.
Qed.

(** X15. What the reader of the payload file does, for lines that are JSON
    objects with any keys and values.  It goes through the lines in order
    and fails at the first one it does not accept: with the message of a
    missing id when the id is missing, null or otherwise false (an empty
    string, zero), and with a [TypeError] when the id is there and [meta]
    is given but is no object, null included.  When every line is
    accepted, a line gets its line number, blank lines counted, as Qdrant
    id when its id is a string, and its own id otherwise; the reader fails
    with a [TypeError] when one of these ids is a list or an object, stops
    with the message of duplicate ids when two of them are equal, and else
    returns them with one payload for each line, in the order of the file.
    A payload holds the id of the line under [row_id] and the text of
    the line as it is, null included, under [text] (the empty string when
    the line has none), whatever [meta] holds under these keys, and the
    other keys of [meta] unchanged. *)
Theorem load_payloads_outcome (f : file) :
  let lines := numbered 0 f in
  let ids := map qdrant_id lines in
  (forall before line after,
     lines = (before ++ line :: after)%list -> Forall accepted before ->
     (~ has_id line -> load_payloads f = inl (SystemExit MISSING))
     /\ (has_id line -> ~ has_meta line ->
         exists msg, load_payloads f = inl (Uncaught (TypeError msg))))
  /\ (Forall accepted lines ->
      (~ Forall hashable ids ->
       exists msg, load_payloads f = inl (Uncaught (TypeError msg)))
      /\ (Forall hashable ids -> ~ NoDup (map key ids) ->
          load_payloads f = inl (SystemExit DUPLICATE))
      /\ (Forall hashable ids -> NoDup (map key ids) ->
          load_payloads f = inr (ids, map row_payload lines)))
  /\ (forall line meta,
        In line lines -> meta_value line = VDict meta ->
        lookup (row_payload line) "row_id" = Some (row_id line)
        /\ lookup (row_payload line) "text" = Some (get (snd line) "text" (VStr ""))
        /\ forall k, k <> "text" -> k <> "row_id" ->
             lookup (row_payload line) k = lookup meta k).
Proof.
  intros lines ids. unfold load_payloads. split; [| split].
  - intros before line after E Hb.
    destruct (load_rows_first_failure f 0 before line after E Hb) as [Hmiss Htype].
    split.
    + intros H. now rewrite (Hmiss H).
    + intros H1 H2. destruct (Htype H1 H2) as [msg ->]. eauto.
  - intros Hall. rewrite (load_rows_accepted f 0 Hall). fold lines. fold ids.
    destruct (hash_all ids) as [Hok Hbad].
    split; [| split].
    + intros H. destruct (Hbad H) as [msg ->]. eauto.
    + intros H Hd. rewrite (Hok H).
      apply (SaveKbFacts.has_duplicates_iff hashed_eq_dec) in Hd. now rewrite Hd.
    + intros H Hd. rewrite (Hok H).
      apply (SaveKbFacts.has_duplicates_false hashed_eq_dec) in Hd. now rewrite Hd.
  - intros line meta _ Hmeta. now apply payload_lookup.
Qed.

(** A line with a null meta after a line with a null text. *)
Definition null_lines : file :=
  [ Some [("id", VStr "a"); ("text", VNone); ("meta", VDict [("page", VInt 1)])];
    None;
    Some [("id", VStr "b"); ("text", VStr "T"); ("meta", VNone)] ].

Lemma load_payloads_outcome_witness :
  (exists msg, load_payloads null_lines = inl (Uncaught (TypeError msg)))
  /\ load_payloads (firstn 2 null_lines)
     = inr ([VInt 0], [[("page", VInt 1); ("text", VNone); ("row_id", VStr "a")]]).
Proof.
  split.
  - destruct (load_payloads_outcome null_lines) as (Hfirst & _).
    apply (Hfirst [(0, [("id", VStr "a"); ("text", VNone); ("meta", VDict [("page", VInt 1)])])]
                  (2, [("id", VStr "b"); ("text", VStr "T"); ("meta", VNone)]) []).
    + reflexivity.
    + constructor; [| constructor]. split; [reflexivity |]. eexists. reflexivity.
    + reflexivity.
    + intros [meta H]. discriminate.
  - destruct (load_payloads_outcome (firstn 2 null_lines)) as (_ & Hall & _).
    apply Hall.
    + constructor; [| constructor]. split; [reflexivity |]. eexists. reflexivity.
    + constructor; [| constructor]. eexists. reflexivity.
    + cbn. repeat constructor. intros [].
Defined.

(** ** The rows of the index writer among these lines *)

(** A row as a line: a field that is not given is an absent key. *)
Definition line_of (r : Jsonl.record) : dict :=
  ((match Jsonl.rec_id r with Some i => [("id", Jsonl.value_of_ident i)] | None => [] end)
   ++ (match Jsonl.rec_text r with Some t => [("text", VStr t)] | None => [] end)
   ++ (match Jsonl.rec_meta r with Some m => [("meta", VDict m)] | None => [] end))%list.

Definition lines_of (f : Jsonl.file) : file := map (option_map line_of) f.

Lemma line_of_fields (r : Jsonl.record) :
  get (line_of r) "id" VNone
  = match Jsonl.rec_id r with Some i => Jsonl.value_of_ident i | None => VNone end
  /\ get (line_of r) "text" (VStr "") = VStr (SaveKb.text_of r)
  /\ get (line_of r) "meta" (VDict [])
     = VDict (match Jsonl.rec_meta r with Some m => m | None => [] end).
Proof.
  unfold line_of, SaveKb.text_of.
  destruct (Jsonl.rec_id r), (Jsonl.rec_text r), (Jsonl.rec_meta r); repeat split.
Qed.

Lemma load_rows_on_rows (f : Jsonl.file) :
  forall i,
  load_rows i (lines_of f)
  = match Upsert.load_rows i f with
    | inl msg => inl (SystemExit msg)
    | inr (ids, payloads) => inr (map VInt ids, payloads)
    end.
Proof.
  induction f as [|[r|] f IH]; intros i; cbn [lines_of map option_map]; [reflexivity | |].
  - fold (lines_of f). rewrite load_rows_step. unfold row_id, payload_of. cbn [snd].
    destruct (line_of_fields r) as (Hid & Htext & Hmeta). rewrite Hid, Htext, Hmeta.
    cbn [Upsert.load_rows]. rewrite IH.
    destruct (Jsonl.rec_id r) as [[s|z]|] eqn:E; cbn [Jsonl.value_of_ident truthy Upsert.falsy_id].
    + destruct (is_empty s); cbn [negb]; [reflexivity |].
      unfold qdrant_id, row_id. cbn [fst snd]. rewrite Hid.
      unfold Upsert.payload_of.
      destruct (Upsert.load_rows (S i) f) as [msg|[ids payloads]]; reflexivity.
    + destruct (z =? 0)%Z; cbn [negb]; [reflexivity |].
      unfold qdrant_id, row_id. cbn [fst snd]. rewrite Hid.
      unfold Upsert.payload_of.
      destruct (Upsert.load_rows (S i) f) as [msg|[ids payloads]]; reflexivity.
    + reflexivity.
  - fold (lines_of f). cbn [load_rows Upsert.load_rows]. apply IH.
Qed.

(** On the rows that the index writer writes, the reader is
    [Upsert.load_payloads]. *)
Lemma load_payloads_on_rows (f : Jsonl.file) :
  load_payloads (lines_of f)
  = match Upsert.load_payloads f with
    | inl msg => inl (SystemExit msg)
    | inr (ids, payloads) => inr (map VInt ids, payloads)
    end.
Proof.
  unfold load_payloads, Upsert.load_payloads. rewrite load_rows_on_rows.
  destruct (Upsert.load_rows 0 f) as [msg|[ids payloads]]; [reflexivity |].
  assert (Hk : mapM hash_of (map VInt ids) = Ok (map HInt ids)).
  { induction ids as [|z ids IH]; [reflexivity |]. cbn [map mapM hash_of bind].
    now rewrite IH. }
  rewrite Hk.
  assert (Hd : Jsonl.has_duplicates hashed_eq_dec (map HInt ids)
               = Jsonl.has_duplicates Z.eq_dec ids).
  { destruct (Jsonl.has_duplicates Z.eq_dec ids) eqn:E.
    - apply (SaveKbFacts.has_duplicates_iff hashed_eq_dec).
      intros Hn. apply NoDup_map_inv in Hn.
      apply (SaveKbFacts.has_duplicates_false Z.eq_dec) in Hn. congruence.
    - apply (SaveKbFacts.has_duplicates_false hashed_eq_dec).
      apply NoDup_map_NoDup_ForallPairs.
      + intros a b _ _ [= ->]. reflexivity.
      + now apply (SaveKbFacts.has_duplicates_false Z.eq_dec). }
  rewrite Hd. destruct (Jsonl.has_duplicates Z.eq_dec ids); reflexivity.
Qed.

End PayloadLinesFacts.

(* ====================================================================== *)
(** * The shape of a chunk id *)
(* ====================================================================== *)

Module UuidFacts.
Import PyStr Json Uuid.

(** A lower-case hexadecimal digit. *)
Definition is_hex (c : ascii) : bool :=
  let n := nat_of_ascii c in
  (((48 <=? n) && (n <=? 57)) || ((97 <=? n) && (n <=? 102)))%nat.

Definition all_hex (s : string) : Prop := PyStr.forallb is_hex s = true.

Definition byte (b : Z) : Prop := (0 <= b < 256)%Z.

Lemma hex_digit_hex (k : nat) : k < 16 -> is_hex (hex_digit k) = true.
Proof.
  intros H. do 16 (destruct k as [|k]; [reflexivity |]). lia.
Qed.

Lemma hex2_hex (b : Z) : byte b -> all_hex (hex2 (Z.to_nat b)) /\ String.length (hex2 (Z.to_nat b)) = 2.
Proof.
  intros Hb. unfold all_hex, hex2. cbn [PyStr.forallb String.length].
  rewrite !hex_digit_hex; [auto | |].
  - apply Nat.mod_upper_bound. lia.
  - apply Nat.Div0.div_lt_upper_bound. unfold byte in Hb. lia.
Qed.

Lemma all_hex_app (a b : string) : all_hex a -> all_hex b -> all_hex (a ++ b).
Proof.
  unfold all_hex. induction a as [|c a IH]; simpl; [auto |].
  rewrite !andb_true_iff. intros [Hc Ha] Hb. auto.
Qed.

Lemma hex_of_bytes_hex (bs : list Z) :
  Forall byte bs ->
  all_hex (hex_of_bytes bs) /\ String.length (hex_of_bytes bs) = 2 * List.length bs.
Proof.
  induction 1 as [|b bs Hb _ [IH1 IH2]]; [split; reflexivity |].
  destruct (hex2_hex b Hb) as [H1 H2].
  unfold hex_of_bytes in *. cbn [fold_right List.length]. split.
  - now apply all_hex_app.
  - rewrite LoaderFacts.length_append, H2, IH2. lia.
Qed.

Lemma be_bytes_bytes (n : nat) (x : Z) :
  Forall byte (be_bytes n x) /\ List.length (be_bytes n x) = n.
Proof.
  unfold be_bytes. split.
  - apply Forall_forall. intros b Hb. apply in_map_iff in Hb as (i & <- & _).
    apply Z.mod_pos_bound. lia.
  - now rewrite length_map, length_rev, length_seq.
Qed.

(** The digest has twenty bytes, whatever the message. *)
Lemma sha1_bytes (msg : list Z) : Forall byte (sha1 msg) /\ List.length (sha1 msg) = 20.
Proof.
  unfold sha1. cbv zeta.
  destruct (blocks _ _ _) as [[[[h0 h1] h2] h3] h4].
  split.
  - repeat (apply Forall_app; split); apply be_bytes_bytes.
  - rewrite !length_app. now rewrite !(proj2 (be_bytes_bytes 4 _)).
Qed.

(** The version and the variant of the UUID, read off the first digit of
    the third and of the fourth group. *)
Lemma version_digit (b : Z) :
  byte b ->
  byte (Z.lor (Z.land b 15) 80) /\ Z.to_nat (Z.lor (Z.land b 15) 80) / 16 = 5.
Proof.
  intros Hb. unfold byte in *.
  assert (H : List.forallb
                (fun n => let v := Z.lor (Z.land (Z.of_nat n) 15) 80 in
                          (0 <=? v)%Z && (v <? 256)%Z && (Z.to_nat v / 16 =? 5)%nat)
                (List.seq 0 256) = true) by (vm_compute; reflexivity).
  rewrite forallb_forall in H. specialize (H (Z.to_nat b)).
  rewrite Z2Nat.id in H by lia. cbv zeta in H.
  rewrite !andb_true_iff, Z.leb_le, Z.ltb_lt, Nat.eqb_eq in H.
  apply H, in_seq. lia.
Qed.

Lemma variant_digit (b : Z) :
  byte b ->
  byte (Z.lor (Z.land b 63) 128)
  /\ 8 <= Z.to_nat (Z.lor (Z.land b 63) 128) / 16 <= 11.
Proof.
  intros Hb. unfold byte in *.
  assert (H : List.forallb
                (fun n => let v := Z.lor (Z.land (Z.of_nat n) 63) 128 in
                          (0 <=? v)%Z && (v <? 256)%Z
                          && (8 <=? Z.to_nat v / 16)%nat && (Z.to_nat v / 16 <=? 11)%nat)
                (List.seq 0 256) = true) by (vm_compute; reflexivity).
  rewrite forallb_forall in H. specialize (H (Z.to_nat b)).
  rewrite Z2Nat.id in H by lia. cbv zeta in H.
  rewrite !andb_true_iff, Z.leb_le, Z.ltb_lt, !Nat.leb_le in H.
  assert (Hin : In (Z.to_nat b) (List.seq 0 256)) by (apply in_seq; lia).
  specialize (H Hin). tauto.
Qed.

(** The sixteen bytes of a version-5 UUID. *)
Lemma uuid5_bytes_shape (namespace : list Z) (name : string) :
  exists b0 b1 b2 b3 b4 b5 b6 b7 b8 b9 b10 b11 b12 b13 b14 b15,
    uuid5_bytes namespace name
    = [b0; b1; b2; b3; b4; b5; b6; b7; b8; b9; b10; b11; b12; b13; b14; b15]
    /\ Forall byte [b0; b1; b2; b3; b4; b5; b6; b7; b8; b9; b10; b11; b12; b13; b14; b15]
    /\ Z.to_nat b6 / 16 = 5
    /\ 8 <= Z.to_nat b8 / 16 <= 11.
Proof.
  unfold uuid5_bytes. cbv zeta.
  destruct (sha1_bytes (namespace ++ bytes_of_string name)) as [Hall Hlen].
  destruct (sha1 (namespace ++ bytes_of_string name))
    as [|b0 [|b1 [|b2 [|b3 [|b4 [|b5 [|b6 [|b7 [|b8 [|b9 [|b10 [|b11 [|b12 [|b13 [|b14 [|b15
        [|b16 [|b17 [|b18 [|b19 rest]]]]]]]]]]]]]]]]]]]]; try discriminate.
  cbn [firstn Nat.eqb].
  repeat match goal with H : Forall _ (_ :: _) |- _ => inversion H; clear H; subst end.
  destruct (version_digit b6) as [Hver V6]; [assumption |].
  destruct (variant_digit b8) as [Hvar V8]; [assumption |].
  do 16 eexists. split; [reflexivity |]. split; [| auto].
  repeat (constructor; [assumption |]). constructor.
Qed.

Lemma uuid5_url_not_empty (name : string) : uuid5_url name <> "".
Proof.
  unfold uuid5_url.
  destruct (uuid5_bytes_shape NAMESPACE_URL name)
    as (b0 & b1 & b2 & b3 & b4 & b5 & b6 & b7 & b8 & b9 & b10 & b11 & b12 & b13 & b14 & b15
        & -> & _).
  unfold uuid_str. cbn [firstn]. unfold hex_of_bytes at 1. cbn [fold_right].
  unfold hex2 at 1. discriminate.
Qed.

(** X18. A chunk id is a canonical version-5 UUID: thirty-six characters,
    five groups of eight, four, four, four and twelve lower-case
    hexadecimal digits separated by hyphens; the third group starts with
    the version digit 5 and the fourth with a variant digit 8, 9, a or b.
    In particular it is never empty, for any course code, chunk type, index
    and uniqueness token. *)
Theorem chunk_id_is_a_uuid (course_code chunk_type : string) (chunk_index : nat)
    (unique_id : string) :
  let id := Ingest.make_chunk_uuid course_code chunk_type chunk_index unique_id in
  String.length id = 36
  /\ id <> ""
  /\ exists g1 g2 g3 g4 g5 v,
       id = g1 ++ "-" ++ g2 ++ "-" ++ String "5" g3 ++ "-" ++ String v g4 ++ "-" ++ g5
       /\ String.length g1 = 8 /\ String.length g2 = 4 /\ String.length g3 = 3
       /\ String.length g4 = 3 /\ String.length g5 = 12
       /\ all_hex g1 /\ all_hex g2 /\ all_hex g3 /\ all_hex g4 /\ all_hex g5
       /\ In v ["8"; "9"; "a"; "b"]%char.
Proof.
  cbv zeta. unfold Ingest.make_chunk_uuid, uuid5_url.
  destruct (uuid5_bytes_shape NAMESPACE_URL
              (Ingest.make_chunk_key course_code chunk_type chunk_index unique_id))
    as (b0 & b1 & b2 & b3 & b4 & b5 & b6 & b7 & b8 & b9 & b10 & b11 & b12 & b13 & b14 & b15
        & -> & Hall & V6 & V8).
  unfold uuid_str. cbn [firstn skipn].
  assert (Hg : forall bs, Forall byte bs ->
            all_hex (hex_of_bytes bs) /\ String.length (hex_of_bytes bs) = 2 * List.length bs)
    by apply hex_of_bytes_hex.
  repeat match goal with H : Forall _ (_ :: _) |- _ => inversion H; clear H; subst end.
  assert (E6 : hex_of_bytes [b6; b7]
               = String "5" (String (hex_digit (Z.to_nat b6 mod 16)) (hex_of_bytes [b7]))).
  { unfold hex_of_bytes. cbn [fold_right]. unfold hex2 at 1. now rewrite V6. }
  assert (E8 : exists v, In v ["8"; "9"; "a"; "b"]%char
               /\ hex_of_bytes [b8; b9]
                  = String v (String (hex_digit (Z.to_nat b8 mod 16)) (hex_of_bytes [b9]))).
  { unfold hex_of_bytes. cbn [fold_right]. unfold hex2 at 1.
    destruct (Z.to_nat b8 / 16) as [|[|[|[|[|[|[|[|[|[|[|[|k]]]]]]]]]]]]; try lia;
      eexists; (split; [| reflexivity]); simpl; auto. }
  destruct E8 as (v & Hv & E8). rewrite E6, E8.
  assert (Hlow : forall b, all_hex (String (hex_digit (Z.to_nat b mod 16)) "")).
  { intros b. unfold all_hex. cbn [PyStr.forallb].
    rewrite hex_digit_hex; [reflexivity |]. apply Nat.mod_upper_bound. lia. }
  destruct (Hg [b0; b1; b2; b3]) as [A1 L1]; [repeat (apply Forall_cons; [assumption |]); apply Forall_nil |].
  destruct (Hg [b4; b5]) as [A2 L2]; [repeat (apply Forall_cons; [assumption |]); apply Forall_nil |].
  destruct (Hg [b7]) as [A3 L3]; [repeat (apply Forall_cons; [assumption |]); apply Forall_nil |].
  destruct (Hg [b9]) as [A4 L4]; [repeat (apply Forall_cons; [assumption |]); apply Forall_nil |].
  destruct (Hg [b10; b11; b12; b13; b14; b15]) as [A5 L5]; [repeat (apply Forall_cons; [assumption |]); apply Forall_nil |].
  split; [| split].
  - rewrite !LoaderFacts.length_append. cbn [String.length].
    rewrite ?LoaderFacts.length_append. cbn [String.length]. rewrite L1, L2, L3, L4, L5.
    reflexivity.
  - unfold hex_of_bytes at 1. cbn [fold_right]. unfold hex2 at 1. discriminate.
  - exists (hex_of_bytes [b0; b1; b2; b3]), (hex_of_bytes [b4; b5]),
           (String (hex_digit (Z.to_nat b6 mod 16)) (hex_of_bytes [b7])),
           (String (hex_digit (Z.to_nat b8 mod 16)) (hex_of_bytes [b9])),
           (hex_of_bytes [b10; b11; b12; b13; b14; b15]), v.
    split; [reflexivity |].
    cbn [String.length]. rewrite L1, L2, L3, L4, L5.
    repeat (split; [reflexivity || assumption |]).
    split; [exact (all_hex_app _ _ (Hlow b6) A3) |].
    split; [exact (all_hex_app _ _ (Hlow b8) A4) |].
    split; [exact A5 | exact Hv].
Qed.

End UuidFacts.

(* ====================================================================== *)
(** * From the chunk file to the collection *)
(* ====================================================================== *)

Module HandoverFacts.
Import PyStr Json Jsonl Ingest IngestCli.

Lemma string_rows_row_ids (rows : list record) :
  Forall UpsertFacts.string_id rows ->
  forall i,
  map (fun line => lookup (BatchFacts.row_payload line) "row_id")
      (BatchFacts.numbered i (map Some rows))
  = map (fun r => option_map value_of_ident (rec_id r)) rows.
Proof.
  induction 1 as [|r rows (s & Hs & Hne) _ IH]; intros i; [reflexivity |].
  cbn [map BatchFacts.numbered]. rewrite IH. f_equal.
  unfold BatchFacts.row_payload. cbn [snd]. rewrite Hs. cbn [option_map].
  apply BatchFacts.payload_of_lookup.
Qed.

Section Scripts.

Variable clock : string -> string.
Variable vec : Type.
Variable encode : string -> list string -> nat -> result (SaveKb.ndarray vec).
Variable to_float32 : vec -> vec.
Variable now : string.
Variable abspath : string -> string.

(** The chunks the ingestion script collects carry ids made by
    [make_chunk_uuid]. *)
Lemma collected_chunk_ids (json_files : list course_file) (c : chunk) :
  In c (all_chunks (process clock json_files (mkTally [] 0 0))) ->
  exists code ty i uid, chunk_id c = make_chunk_uuid code ty i uid.
Proof.
  destruct (CorpusFacts.process_tally clock json_files (mkTally [] 0 0)) as (H & _).
  cbv zeta in H. rewrite H. cbn [all_chunks app]. intros Hin.
  apply in_flat_map in Hin as (f & _ & Hc).
  unfold CorpusFacts.file_chunks, CorpusFacts.outcome, chunks_of_file in Hc.
  destruct (file_json f) as [v|e]; cbn [bind] in Hc; [| destruct Hc].
  destruct v as [| | | | |d]; try destruct Hc.
  destruct (create_chunks_from_course d (file_name f) (clock (file_name f)))
    as [chunks|e] eqn:Hrun; [| destruct Hc].
  apply IngestFacts.create_chunks_Ok_inv in Hrun as (code & name & url & n & _ & _ & _ & Hp).
  apply IngestFacts.passes_indexed in Hp as [_ Hp].
  cbn [ThresholdFacts.chunks_of] in Hc. apply In_nth_error in Hc as [i Hi].
  destruct (Hp i c Hi) as (Hid & _). eauto.
Qed.

(** X19. The three scripts fit together.  Take the chunks the ingestion
    script collects over any directory, written one per line and read back
    by the index writer.  Every row that the loader keeps has a string id
    that is not empty, so the index writer never stops for a missing id;
    and when it returns, the upsert run on the two files it wrote, with a
    positive batch size, returns as well: it numbers the points by line
    from zero and keeps the chunk id of each row under [row_id]. *)
Theorem chunk_rows_reach_the_collection (json_files : list course_file)
    (a : SaveKb.args) (a' : Upsert.args) (before : option (Upsert.points vec)) :
  let chunks := all_chunks (process clock json_files (mkTally [] 0 0)) in
  let input := map (fun c => Some (row_of_chunk c)) chunks in
  let rows := SaveKb.load_jsonl input in
  let run := SaveKb.main vec encode to_float32 now abspath a input in
  Forall UpsertFacts.string_id rows
  /\ fst run <> SystemExit "Some rows are missing 'id'. Did ingest write UUIDs?"
  /\ (fst run = Returned -> 0 < Upsert.batch a' -> Upsert.no_recreate a' = false ->
      exists vecs pts calls,
        encode (SaveKb.embed_model_dir a) (map SaveKb.text_of rows) (SaveKb.batch a) = Ok vecs
        /\ Upsert.main vec to_float32 a'
             (SaveKb.array_rows vec (SaveKb.astype_float32 vec to_float32 vecs))
             (map Some rows) before
           = (Returned, Some pts, calls)
        /\ map (Upsert.point_id vec) pts = BatchFacts.ids_upto 0 (List.length rows)
        /\ map (fun p => lookup (Upsert.point_payload vec p) "row_id") pts
           = map (fun r => option_map value_of_ident (rec_id r)) rows).
Proof.
  intros chunks input rows run.
  assert (Hrows : Forall UpsertFacts.string_id rows).
  { apply Forall_forall. intros r Hr. subst rows.
    rewrite SaveKbFacts.load_jsonl_filter in Hr.
    apply in_map_iff in Hr as (r0 & <- & Hr0). apply filter_In in Hr0 as [Hr0 _].
    assert (Hsrc : exists c, In c chunks /\ r0 = row_of_chunk c).
    { subst input. clear - Hr0. induction chunks as [|c cs IH]; [destruct Hr0 |].
      cbn [map SaveKbFacts.records] in Hr0. destruct Hr0 as [<- | Hr0].
      - exists c. split; [now left | reflexivity].
      - destruct (IH Hr0) as (c' & Hc' & E). exists c'. split; [now right | exact E]. }
    destruct Hsrc as (c & Hc & ->).
    destruct (collected_chunk_ids json_files c Hc) as (code & ty & i & uid & Hid).
    exists (chunk_id c). split.
    - now destruct (LoaderFacts.with_page_end_meta (row_of_chunk c)) as (-> & _).
    - rewrite Hid. apply UuidFacts.uuid5_url_not_empty. }
  split; [exact Hrows |]. split.
  - subst run. unfold SaveKb.main. cbv zeta. fold rows.
    assert (Hmiss : existsb (fun i => match i with None => true | Some _ => false end)
                      (map rec_id rows) = false).
    { destruct (existsb _ (map rec_id rows)) eqn:Hm; [| reflexivity].
      apply SaveKbFacts.missing_id_iff, in_map_iff in Hm as (x & Hx & Hin).
      rewrite Forall_forall in Hrows. destruct (Hrows x Hin) as (s & Hs & _). congruence. }
    clearbody rows. destruct rows as [|r rows']; [discriminate |]. cbv iota.
    rewrite Hmiss.
    destruct (has_duplicates _ _); [discriminate |].
    destruct (encode _ _ _) as [vecs|e]; [| discriminate].
    destruct (negb _); discriminate.
  - intros Hret HB Hre.
    destruct (PipelineFacts.main_returned_inv vec encode to_float32 now abspath a input Hret)
      as (vecs & Henc & _ & _ & _ & _ & Hlen).
    fold rows in Henc, Hlen.
    pose proof (BatchFacts.load_payloads_string_rows rows Hrows) as Hload.
    assert (Hn : List.length (BatchFacts.ids_upto 0 (List.length rows)) = List.length rows).
    { unfold BatchFacts.ids_upto. now rewrite length_map, length_seq. }
    destruct (BatchFacts.main_batched vec to_float32 a'
                (SaveKb.array_rows vec (SaveKb.astype_float32 vec to_float32 vecs))
                (map Some rows) before _ _ Hload) as (Hids & _ & Hrun).
    { unfold SaveKb.astype_float32. cbn [SaveKb.array_rows]. now rewrite length_map, Hn. }
    assert (Hv : List.length
                   (map to_float32
                      (SaveKb.array_rows vec (SaveKb.astype_float32 vec to_float32 vecs)))
                 = List.length (BatchFacts.ids_upto 0 (List.length rows))).
    { unfold SaveKb.astype_float32. cbn [SaveKb.array_rows]. now rewrite !length_map, Hn. }
    assert (Hp : List.length
                   (map BatchFacts.row_payload (BatchFacts.numbered 0 (map Some rows)))
                 = List.length (BatchFacts.ids_upto 0 (List.length rows))).
    { rewrite Hn, length_map.
      destruct (BatchFacts.string_rows_numbered rows Hrows 0) as (_ & _ & H).
      rewrite <- H at 2. now rewrite length_map. }
    destruct (BatchFacts.zip3_vectors vec _ _ _ Hv Hp) as [_ Hpay].
    exists vecs. eexists. eexists. split; [exact Henc |].
    split; [exact (Hrun HB Hre) |]. split; [exact Hids |].
    rewrite <- (map_map (Upsert.point_payload vec) (fun d => lookup d "row_id")).
    rewrite Hpay, map_map. apply (string_rows_row_ids rows Hrows 0).
Qed.

End Scripts.

Lemma chunk_rows_reach_the_collection_witness :
  Forall UpsertFacts.string_id
    (SaveKb.load_jsonl
       (map (fun c => Some (row_of_chunk c))
          (all_chunks (process (fun _ => "2025-11-10T00:00:00")
                         [CorpusFacts.broken_file; CorpusFacts.sport_file]
                         (mkTally [] 0 0))))).
Proof.
  apply (proj1 (chunk_rows_reach_the_collection (fun _ => "2025-11-10T00:00:00") nat
                  SaveKbFacts.toy_encode (fun x => x) "2025-11-10T00:00:00" (fun p => p)
                  [CorpusFacts.broken_file; CorpusFacts.sport_file]
                  SaveKbFacts.toy_args BatchFacts.small_batches None)).
Defined.

End HandoverFacts.

(* ====================================================================== *)
(** * The context: whole texts, uncounted citations *)
(* ====================================================================== *)

Module ContextShape.
Import PyStr Rag ContextFacts.

Lemma included_fit (max_context_length : nat) (hits : list hit) :
  forall current_length h,
  In h (included_from max_context_length hits current_length) ->
  In h hits /\ raw_length h < max_context_length.
Proof.
  induction hits as [|x rest IH]; intros cur h; cbn [included_from]; [intros [] |].
  destruct (Nat.ltb_spec (cur + raw_length x) max_context_length) as [Hlt | Hge].
  - intros [<- | Hin].
    + split; [now left | lia].
    + destruct (IH _ _ Hin). split; [now right | assumption].
  - intros Hin. destruct (IH _ _ Hin). split; [now right | assumption].
Qed.

Lemma included_none (max_context_length : nat) (hits : list hit) :
  Forall (fun h => max_context_length <= raw_length h) hits ->
  forall current_length, included_from max_context_length hits current_length = [].
Proof.
  induction 1 as [|x rest Hx _ IH]; intros cur; cbn [included_from]; [reflexivity |].
  destruct (Nat.ltb_spec (cur + raw_length x) max_context_length); [lia | apply IH].
Qed.

(** X20. A hit whose text is as long as the budget or longer is never
    part of the context, wherever it is ranked: the text is not cut to
    fit.  When every hit is that long the context is the empty string, and
    [query_courses], which has hits, still asks the generation service for
    an answer, with an empty context, and returns what it says. *)
Theorem oversize_hits_leave_no_context (hits : list hit) (max_context_length : nat) :
  (forall h, In h (included hits max_context_length) ->
     In h hits /\ raw_length h < max_context_length)
  /\ (Forall (fun h => max_context_length <= raw_length h) hits ->
      build_course_context hits max_context_length = "")
  /\ (forall (w : services) (query : string) (code name : option string) (k : nat)
             (concise : bool),
        hybrid_search w query code name k = Ok hits -> hits <> [] ->
        Forall (fun h => 4000 <= raw_length h) hits ->
        query_courses w query code name k concise
        = Ok (answer_with_ollama (fallback_llm w) query "" concise)).
Proof.
  assert (Hempty : forall m, Forall (fun h => m <= raw_length h) hits ->
            build_course_context hits m = "").
  { intros m H. unfold build_course_context.
    rewrite context_loop_included, (included_none m hits H 0). reflexivity. }
  split; [| split].
  - intros h. apply included_fit.
  - apply Hempty.
  - intros w query code name k concise Hs Hne Hall.
    unfold query_courses. rewrite Hs. cbn [bind].
    destruct hits as [|h rest]; [congruence |]. now rewrite (Hempty 4000 Hall).
Qed.

Definition long_hit : hit := hit_of (9 # 10) "Course Structure" 4000.

Lemma oversize_hits_leave_no_context_witness :
  build_course_context [long_hit; long_hit] 4000 = "".
Proof.
  apply (proj1 (proj2 (oversize_hits_leave_no_context [long_hit; long_hit] 4000))).
  assert (H : (4000 <=? raw_length long_hit)%nat = true) by (vm_compute; reflexivity).
  apply Nat.leb_le in H. repeat constructor; exact H.
Defined.

Lemma join_length (sep : string) (l : list string) :
  String.length (join sep l)
  = list_sum (map String.length l) + String.length sep * (List.length l - 1).
Proof.
  induction l as [|x l IH]; [simpl; lia |].
  destruct l as [|y l].
  - cbn [join map list_sum fold_right List.length]. rewrite Nat.sub_diag, Nat.mul_0_r. lia.
  - change (join sep (x :: y :: l)) with (x ++ sep ++ join sep (y :: l)).
    rewrite !LoaderFacts.length_append, IH. cbn [map list_sum fold_right List.length].
    rewrite !Nat.sub_succ, !Nat.sub_0_r, Nat.mul_succ_r. lia.
Qed.

Lemma join_holds (sep x : string) (l : list string) :
  In x l -> exists pre post, join sep l = pre ++ x ++ post.
Proof.
  induction l as [|y l IH]; [intros [] |].
  destruct l as [|z l].
  - intros [<- | []]. exists "", "". cbn [join append]. now rewrite ReFacts.append_nil_r.
  - change (join sep (y :: z :: l)) with (y ++ sep ++ join sep (z :: l)).
    intros [<- | Hin].
    + exists "", (sep ++ join sep (z :: l)). reflexivity.
    + destruct (IH Hin) as (pre & post & ->).
      exists (y ++ sep ++ pre), post. now rewrite !ReFacts.append_assoc.
Qed.

Lemma context_part_text (h : hit) :
  exists cite, context_part h = "[" ++ cite ++ "]" ++ nl ++ pget h p_text "".
Proof.
  unfold context_part. cbv zeta. eexists. reflexivity.
Qed.

(** X21. The text of every hit that is part of the context stands in it
    whole, after its citation line.  The budget counts the texts only: the
    context is longer than the texts it holds by the brackets and the line
    feed of each citation, three characters at least for each hit, and by
    the two line feeds between hits, so it can be longer than the
    budget. *)
Theorem context_holds_whole_texts (hits : list hit) (max_context_length : nat) :
  let context := build_course_context hits max_context_length in
  let kept := included hits max_context_length in
  (forall h, In h kept ->
     exists pre cite post,
       context = pre ++ "[" ++ cite ++ "]" ++ nl ++ pget h p_text "" ++ post)
  /\ (kept <> [] ->
      total kept + 5 * List.length kept <= String.length context + 2).
Proof.
  intros context kept.
  assert (E : context = join (nl ++ nl) (map context_part kept)).
  { subst context kept. unfold build_course_context, included.
    now rewrite context_loop_included. }
  split.
  - intros h Hh. destruct (context_part_text h) as [cite Hc].
    destruct (join_holds (nl ++ nl) (context_part h) (map context_part kept))
      as (pre & post & Hj); [now apply in_map |].
    exists pre, cite, post. rewrite E, Hj, Hc. now rewrite !ReFacts.append_assoc.
  - intros Hne. rewrite E, join_length, length_map.
    assert (Hsum : total kept + 3 * List.length kept
                   <= list_sum (map String.length (map context_part kept))).
    { clear. induction kept as [|h l IH]; [reflexivity |].
      rewrite total_cons. cbn [map list_sum fold_right List.length] in *.
      destruct (context_part_text h) as [cite ->].
      rewrite !LoaderFacts.length_append. unfold raw_length, list_sum in *.
      simpl String.length. lia. }
    destruct kept as [|h l]; [congruence |]. cbn [List.length] in *.
    change (String.length (nl ++ nl)) with 2. lia.
Qed.

Lemma context_holds_whole_texts_witness :
  4000 < String.length (build_course_context [hit_of (9 # 10) "Overview" 3999] 4000).
Proof.
  destruct (context_holds_whole_texts [hit_of (9 # 10) "Overview" 3999] 4000) as [_ H].
  assert (Hk : included [hit_of (9 # 10) "Overview" 3999] 4000
               = [hit_of (9 # 10) "Overview" 3999]) by (vm_compute; reflexivity).
  rewrite Hk in H.
  assert (Ht : total [hit_of (9 # 10) "Overview" 3999] = 3999).
  { apply Nat.eqb_eq. vm_compute. reflexivity. }
  rewrite Ht in H. cbn [List.length] in H.
  assert (Hne : [hit_of (9 # 10) "Overview" 3999] <> []) by discriminate.
  specialize (H Hne). lia.
Defined.

End ContextShape.

(* ====================================================================== *)
(** * The quality check and the sorted retrieval *)
(* ====================================================================== *)

Module QualityFacts.
Import PyStr Rag.

(** [hit.payload.get('course_code', 'unknown')], when the hit has a
    payload. *)
Definition source (h : hit) : string := pget h p_course_code "unknown".

Definition has_payload (h : hit) : Prop := hit_payload h <> None.

Lemma sources_of (hits : list hit) :
  (Forall has_payload hits -> mapM source_of hits = Ok (map source hits))
  /\ (~ Forall has_payload hits ->
      exists msg, mapM source_of hits = Raise (AttributeError msg)).
Proof.
  induction hits as [|h hits [IHok IHbad]]; cbn [mapM map].
  - split; [reflexivity |]. intros H. elim H. constructor.
  - unfold source_of at 1 3, source at 1, pget, has_payload.
    destruct (hit_payload h) as [p|] eqn:Hp; cbn [bind].
    + split.
      * intros H. inversion H; subst. now rewrite IHok.
      * intros H. destruct IHbad as [msg ->]; [| cbn [bind]; eauto].
        intros Hrest. apply H. constructor; [| exact Hrest]. unfold has_payload. congruence.
    + split; [| eauto]. intros H. inversion H as [|x l Hx _]; subst.
      unfold has_payload in Hx. congruence.
Qed.

Section Distinct.

Context {A : Type} (eq_dec : forall a b : A, {a = b} + {a <> b}).

(** A set with more than one element holds two different ones. *)
Lemma nodup_two (l : list A) :
  1 < List.length (nodup eq_dec l) <-> exists a b, In a l /\ In b l /\ a <> b.
Proof.
  split.
  - pose proof (NoDup_nodup eq_dec l) as Hnd.
    destruct (nodup eq_dec l) as [|a [|b rest]] eqn:E; cbn [List.length]; try lia.
    intros _. exists a, b.
    assert (Ha : In a (nodup eq_dec l)) by (rewrite E; now left).
    assert (Hb : In b (nodup eq_dec l)) by (rewrite E; right; now left).
    apply nodup_In in Ha, Hb. split; [exact Ha |]. split; [exact Hb |].
    inversion Hnd as [|x r Hnotin _]; subst. intros <-. apply Hnotin. now left.
  - intros (a & b & Ha & Hb & Hne).
    apply (nodup_In eq_dec) in Ha, Hb.
    destruct (nodup eq_dec l) as [|x [|y rest]]; cbn [List.length]; try lia.
    + destruct Ha.
    + destruct Ha as [<- | []], Hb as [<- | []]. congruence.
Qed.

End Distinct.

Lemma has_payload_dec (hits : list hit) :
  {Forall has_payload hits} + {~ Forall has_payload hits}.
Proof.
  apply Forall_dec. intros h. unfold has_payload.
  destruct (hit_payload h); [left; discriminate | right; tauto].
Qed.

(** X22. The quality check raises in one case only: there are at least
    two hits and one of the first three has no payload; the exception is
    an [AttributeError].  A single hit without payload, and a hit without
    payload from the fourth rank on, do not make it raise. *)
Theorem quality_check_raises (hits : list hit) :
  ((exists e, check_result_quality hits = Raise e) <->
   2 <= List.length hits /\ exists h, In h (firstn 3 hits) /\ hit_payload h = None)
  /\ (forall e, check_result_quality hits = Raise e -> exists msg, e = AttributeError msg).
Proof.
  assert (Hone : forall l : list hit, (exists h', In h' l /\ hit_payload h' = None)
                           <-> ~ Forall has_payload l).
  { intros l. split.
    - intros (h & Hin & Hp) Hall. rewrite Forall_forall in Hall. now apply (Hall h Hin).
    - intros H. apply neg_Forall_Exists_neg in H.
      + apply Exists_exists in H as (h & Hin & Hp). exists h. split; [exact Hin |].
        unfold has_payload in Hp. destruct (hit_payload h); [elim Hp; discriminate | reflexivity].
      + intros h. unfold has_payload. destruct (hit_payload h); [left; discriminate | right; tauto]. }
  unfold check_result_quality.
  destruct hits as [|top rest].
  { split; [| discriminate]. split; [intros [e H]; discriminate |].
    cbn [List.length]. intros [H _]. lia. }
  destruct (Nat.leb_spec 2 (List.length (top :: rest))) as [Hlen | Hlen].
  - destruct (has_payload_dec (firstn 3 (top :: rest))) as [Hall | Hnot].
    + rewrite (proj1 (sources_of _) Hall). cbn [bind].
      split; [| discriminate]. split; [intros [e H]; discriminate |].
      intros [_ H]. apply Hone in H. contradiction.
    + destruct (proj2 (sources_of _) Hnot) as [msg ->]. cbn [bind]. split.
      * split; [| eauto]. intros _. split; [exact Hlen |]. now apply Hone.
      * intros e [= <-]. eauto.
  - split; [| discriminate]. split; [intros [e H]; discriminate |]. intros [H _]. lia.
Qed.

Definition bare_hit : hit := {| hit_score := 5 # 10; hit_payload := None |}.

Lemma quality_check_raises_witness :
  (exists e, check_result_quality [RagFacts.a_hit; bare_hit] = Raise e)
  /\ check_result_quality [bare_hit] = Ok (mkQuality true false true false).
Proof.
  split.
  - apply (proj1 (quality_check_raises [RagFacts.a_hit; bare_hit])).
    split; [simpl; lia |]. exists bare_hit. split; [right; now left | reflexivity].
  - reflexivity.
Defined.

(** X23. What the four flags of the quality check say when it returns:
    whether there is a hit; whether there are three; whether the first hit,
    and no other, scores above 0.3; and whether two of the first three hits
    come from courses with different codes, a hit without code counting as
    the course "unknown". *)
Theorem quality_flags (hits : list hit) (q : quality) :
  check_result_quality hits = Ok q ->
  (has_results q = true <-> hits <> [])
  /\ (min_results q = true <-> 3 <= List.length hits)
  /\ (has_high_quality q = true <->
      exists top rest, hits = top :: rest /\ (3 # 10 < hit_score top)%Q)
  /\ (diverse_sources q = true <->
      exists h1 h2, In h1 (firstn 3 hits) /\ In h2 (firstn 3 hits) /\ source h1 <> source h2).
Proof.
  unfold check_result_quality.
  destruct hits as [|top rest].
  { intros [= <-]. cbn [has_results min_results has_high_quality diverse_sources List.length].
    split; [split; [discriminate | congruence] |].
    split; [split; [discriminate | lia] |].
    split; [split; [discriminate | intros (t & r & H & _); discriminate] |].
    split; [discriminate | intros (h1 & h2 & [] & _)]. }
  assert (Hhigh : forall b, b = match (hit_score top ?= 3 # 10)%Q with Gt => true | _ => false end ->
            (b = true <-> exists t r, top :: rest = t :: r /\ (3 # 10 < hit_score t)%Q)).
  { intros b ->. split.
    - intros H. exists top, rest. split; [reflexivity |].
      apply Qgt_alt. destruct (hit_score top ?= 3 # 10)%Q; congruence.
    - intros (t & r & [= <- <-] & H). apply Qgt_alt in H. now rewrite H. }
  assert (Hdiv : forall l : list hit,
            (1 <? List.length (nodup string_dec (map source l)))%nat = true <->
            exists h1 h2, In h1 l /\ In h2 l /\ source h1 <> source h2).
  { intros l. rewrite Nat.ltb_lt, (nodup_two string_dec). split.
    - intros (a & b & Ha & Hb & Hne).
      apply in_map_iff in Ha as (h1 & <- & H1). apply in_map_iff in Hb as (h2 & <- & H2).
      eauto.
    - intros (h1 & h2 & H1 & H2 & Hne).
      exists (source h1), (source h2). auto using in_map. }
  assert (Hmin : (3 <=? List.length (top :: rest))%nat = true <-> 3 <= List.length (top :: rest))
    by apply Nat.leb_le.
  destruct (Nat.leb_spec 2 (List.length (top :: rest))) as [Hlen | Hlen].
  - destruct (has_payload_dec (firstn 3 (top :: rest))) as [Hall | Hnot].
    + rewrite (proj1 (sources_of _) Hall). cbn [bind]. intros [= <-].
      cbn [has_results min_results has_high_quality diverse_sources].
      split; [split; [discriminate | reflexivity] |].
      split; [exact Hmin |]. split; [now apply Hhigh |].
      exact (Hdiv (firstn 3 (top :: rest))).
    + destruct (proj2 (sources_of _) Hnot) as [msg ->]. discriminate.
  - intros [= <-]. cbn [has_results min_results has_high_quality diverse_sources].
    split; [split; [discriminate | reflexivity] |].
    split; [exact Hmin |]. split; [now apply Hhigh |].
    split; [discriminate |].
    intros (h1 & h2 & H1 & H2 & Hne). destruct rest; [| simpl in Hlen; lia].
    destruct H1 as [<- | []], H2 as [<- | []]. congruence.
Qed.

Definition other_hit : hit :=
  {| hit_score := 2 # 10;
     hit_payload := Some {| p_text := Some "Overview: a course in science.";
                            p_course_code := None;
                            p_course_name := None;
                            p_chunk_label := None;
                            p_source_url := None |} |}.

Lemma quality_flags_witness :
  exists h1 h2,
    In h1 (firstn 3 [RagFacts.a_hit; other_hit]) /\ In h2 (firstn 3 [RagFacts.a_hit; other_hit])
    /\ source h1 <> source h2.
Proof.
  destruct (quality_flags [RagFacts.a_hit; other_hit] (mkQuality true false true true) eq_refl)
    as (_ & _ & _ & Hd).
  apply Hd. reflexivity.
Defined.

End QualityFacts.

(* ====================================================================== *)
(** * The vector search, its filter and the order of its hits *)
(* ====================================================================== *)

Module RetrievalFacts.
Import PyStr Rag Retrieval.

(** [a] is ranked before [b]: its score is not smaller. *)
Definition ranks_before (a b : hit) : Prop := (hit_score b <= hit_score a)%Q.

(** The hits of score [s]. *)
Definition scoring (s : Q) (h : hit) : bool := Qeq_bool (hit_score h) s.

Lemma insert_by_score_perm (h : hit) (l : list hit) :
  Permutation (h :: l) (insert_by_score h l).
Proof.
  induction l as [|x l IH]; cbn [insert_by_score]; [apply Permutation_refl |].
  destruct (hit_score x ?= hit_score h)%Q; try apply Permutation_refl.
  eapply perm_trans; [apply perm_swap |]. now apply perm_skip.
Qed.

Lemma sort_by_score_perm (l : list hit) : Permutation l (sort_by_score l).
Proof.
  induction l as [|h l IH]; cbn [sort_by_score fold_right]; [constructor |].
  eapply perm_trans; [apply perm_skip, IH |]. apply insert_by_score_perm.
Qed.

Lemma insert_by_score_sorted (h : hit) (l : list hit) :
  StronglySorted ranks_before l -> StronglySorted ranks_before (insert_by_score h l).
Proof.
  induction 1 as [|x l Hl IH Hx]; cbn [insert_by_score].
  - constructor; constructor.
  - destruct (hit_score x ?= hit_score h)%Q eqn:E.
    + apply Qeq_alt in E.
      constructor; [now constructor |]. constructor.
      * unfold ranks_before. rewrite E. apply Qle_refl.
      * eapply Forall_impl; [| exact Hx]. intros b Hb. unfold ranks_before in *.
        rewrite <- E. exact Hb.
    + apply Qlt_alt in E.
      constructor; [now constructor |]. constructor.
      * unfold ranks_before. now apply Qlt_le_weak.
      * eapply Forall_impl; [| exact Hx]. intros b Hb. unfold ranks_before in *.
        eapply Qle_trans; [exact Hb |]. now apply Qlt_le_weak.
    + apply Qgt_alt in E.
      constructor; [exact IH |].
      eapply Permutation_Forall; [apply insert_by_score_perm |].
      constructor; [| exact Hx]. unfold ranks_before. now apply Qlt_le_weak.
Qed.

Lemma sort_by_score_sorted (l : list hit) : StronglySorted ranks_before (sort_by_score l).
Proof.
  induction l as [|h l IH]; cbn [sort_by_score fold_right]; [constructor |].
  now apply insert_by_score_sorted.
Qed.

Lemma insert_by_score_stable (s : Q) (h : hit) (l : list hit) :
  filter (scoring s) (insert_by_score h l) = filter (scoring s) (h :: l).
Proof.
  induction l as [|x l IH]; cbn [insert_by_score]; [reflexivity |].
  destruct (hit_score x ?= hit_score h)%Q eqn:E; try reflexivity.
  apply Qgt_alt in E.
  cbn [filter] in *. rewrite IH.
  destruct (scoring s x) eqn:Hx; [| reflexivity].
  destruct (scoring s h) eqn:Hh; [| reflexivity].
  unfold scoring in Hx, Hh. apply Qeq_bool_iff in Hx, Hh.
  rewrite Hx, Hh in E. now apply Qlt_irrefl in E.
Qed.

Lemma sort_by_score_stable (s : Q) (l : list hit) :
  filter (scoring s) (sort_by_score l) = filter (scoring s) l.
Proof.
  induction l as [|h l IH]; cbn [sort_by_score fold_right]; [reflexivity |].
  fold (sort_by_score l). rewrite insert_by_score_stable. cbn [filter]. now rewrite IH.
Qed.

Lemma sort_by_score_sorted_input (l : list hit) :
  StronglySorted ranks_before l -> sort_by_score l = l.
Proof.
  induction 1 as [|x l Hl IH Hx]; cbn [sort_by_score fold_right]; [reflexivity |].
  fold (sort_by_score l). rewrite IH.
  destruct l as [|y l]; [reflexivity |]. cbn [insert_by_score].
  inversion Hx as [|? ? Hy _]; subst. unfold ranks_before in Hy.
  apply Qle_alt in Hy.
  destruct (hit_score y ?= hit_score x)%Q eqn:E; [reflexivity | reflexivity | now elim Hy].
Qed.

Section Services.

Variable vector : Type.
Variable encode : string -> string -> result vector.
Variable qdrant_search : string -> vector -> option (list condition) -> nat -> result (list hit).

(** X24. The filtered retrieval returns the hits of the vector search in
    decreasing order of score: the same hits, each as often as the search
    gave it, ranked so that no hit has a higher score than one before it,
    and hits of equal score in the order the search gave them; hits that
    come in decreasing order are returned as they are.  It raises what the
    embedding model or the search raises. *)
Theorem filtered_retrieval_sorts_by_score (query embed_dir collection : string)
    (course_code course_name : option string) (limit : nat) :
  let found :=
    retrieve_courses_sorted vector encode qdrant_search
                            query embed_dir collection course_code course_name limit in
  let searched :=
    retrieve_courses vector encode qdrant_search
                     query embed_dir collection course_code course_name limit in
  (forall hits, searched = Ok hits ->
     exists ranked, found = Ok ranked
       /\ Permutation hits ranked
       /\ StronglySorted ranks_before ranked
       /\ (forall s, filter (scoring s) ranked = filter (scoring s) hits)
       /\ (StronglySorted ranks_before hits -> ranked = hits))
  /\ (forall e, searched = Raise e -> found = Raise e).
Proof.
  cbv zeta. unfold retrieve_courses_sorted, retrieve_courses.
  destruct (encode embed_dir query) as [qv|e0]; cbn [bind]; [| split; [discriminate | auto]].
  destruct (qdrant_search collection qv _ limit) as [hits0|e0]; cbn [bind];
    [| split; [discriminate | auto]].
  split; [| discriminate].
  intros hits [= <-]. exists (sort_by_score hits0).
  split; [reflexivity |]. split; [apply sort_by_score_perm |].
  split; [apply sort_by_score_sorted |]. split; [intros s; apply sort_by_score_stable |].
  apply sort_by_score_sorted_input.
Qed.

(** X25. In the primary pipeline the quality flag [has_high_quality] is
    about all hits, not the first one only: since the filtered retrieval
    ranks by score, the flag is set exactly when some returned hit scores
    above 0.3. *)
Theorem high_quality_means_some_hit_above_threshold
    (embed_dir collection : string) (primary fallback : ollama)
    (query : string) (course_code course_name : option string)
    (hits : list hit) (q : quality) :
  query_with_filtering (services_of vector encode qdrant_search embed_dir collection primary fallback)
                       query course_code course_name = Ok hits ->
  check_result_quality hits = Ok q ->
  (has_high_quality q = true <-> exists h, In h hits /\ (3 # 10 < hit_score h)%Q).
Proof.
  unfold query_with_filtering, services_of. cbn [filtered_search].
  unfold retrieve_courses_sorted.
  destruct (encode embed_dir query) as [qv|e0]; cbn [bind]; [| discriminate].
  destruct (qdrant_search collection qv _ 30) as [hits0|e0]; cbn [bind]; [| discriminate].
  pose proof (sort_by_score_sorted hits0) as Hs.
  destruct (check_result_quality (sort_by_score hits0)) as [q0|e0] eqn:Hq0; cbn [bind];
    [| discriminate].
  intros Hret.
  assert (Hsorted : StronglySorted ranks_before hits).
  { destruct (negb (has_results q0)); injection Hret as <-; [constructor | exact Hs]. }
  clear Hs Hq0 Hret. revert Hsorted.
  unfold check_result_quality.
  destruct hits as [|top rest]; intros Hsorted.
  { intros [= <-]. cbn [has_high_quality]. split; [discriminate | intros (h & [] & _)]. }
  assert (Htop : match (hit_score top ?= 3 # 10)%Q with Gt => true | _ => false end = true
                 <-> exists h, In h (top :: rest) /\ (3 # 10 < hit_score h)%Q).
  { split.
    - intros H. exists top. split; [now left |]. apply Qgt_alt.
      destruct (hit_score top ?= 3 # 10)%Q; congruence.
    - intros (h & Hin & Hh).
      assert (Hlt : (3 # 10 < hit_score top)%Q).
      { destruct Hin as [<- | Hin]; [exact Hh |].
        inversion Hsorted as [|? ? _ Hall]; subst. rewrite Forall_forall in Hall.
        eapply Qlt_le_trans; [exact Hh |]. exact (Hall h Hin). }
      apply Qgt_alt in Hlt. now rewrite Hlt. }
  destruct (2 <=? List.length (top :: rest))%nat.
  - destruct (mapM source_of (firstn 3 (top :: rest))); cbn [bind]; [| discriminate].
    intros [= <-]. exact Htop.
  - intros [= <-]. exact Htop.
Qed.

End Services.

Definition low_hit : hit :=
  {| hit_score := 1 # 10;
     hit_payload := Some {| p_text := Some "Notes: see the faculty pages.";
                            p_course_code := Some "C10302";
                            p_course_name := None;
                            p_chunk_label := Some "Notes";
                            p_source_url := None |} |}.

(** A search that answers with two hits, the better one last. *)
Definition length_encode (embed_dir q : string) : result nat := Ok (String.length q).

Definition two_hit_search (collection : string) (qv : nat) (flt : option (list condition))
    (limit : nat) : result (list hit) :=
  Ok [low_hit; RagFacts.a_hit].

Lemma high_quality_means_some_hit_above_threshold_witness :
  exists h, In h [RagFacts.a_hit; low_hit] /\ (3 # 10 < hit_score h)%Q.
Proof.
  apply (high_quality_means_some_hit_above_threshold nat length_encode two_hit_search
           "models/hf/qwen3-embedding-0.6b" "courses"
           (fun _ _ => Content "a") (fun _ _ => Content "b")
           "How long is the course?" None None
           [RagFacts.a_hit; low_hit] (mkQuality true false true false)
           eq_refl eq_refl).
  reflexivity.
Defined.

Lemma filtered_retrieval_sorts_by_score_witness :
  exists ranked,
    retrieve_courses_sorted nat length_encode two_hit_search
      "How long is the course?" "models/hf/qwen3-embedding-0.6b" "courses" None None 30 = Ok ranked
    /\ Permutation [low_hit; RagFacts.a_hit] ranked
    /\ StronglySorted ranks_before ranked
    /\ (forall s, filter (scoring s) ranked = filter (scoring s) [low_hit; RagFacts.a_hit])
    /\ (StronglySorted ranks_before [low_hit; RagFacts.a_hit] -> ranked = [low_hit; RagFacts.a_hit]).
Proof.
  apply (proj1 (filtered_retrieval_sorts_by_score nat length_encode two_hit_search
           "How long is the course?" "models/hf/qwen3-embedding-0.6b" "courses" None None 30)).
  reflexivity.
Defined.

End RetrievalFacts.

(* ====================================================================== *)
(** * The chat endpoint: the code found in a message, the shape of a reply *)
(* ====================================================================== *)

Module EndpointFacts.
Import PyStr Ingest Rag Retrieval.

Abbreviation code_shape := CodeFacts.code_shape.

(** Whether the text [s] ends in a word character; [prev] when it is
    empty. *)
Fixpoint ends_in_word (prev : bool) (s : string) : bool :=
  match s with
  | EmptyString => prev
  | String a s' => ends_in_word (is_word a) s'
  end.

Definition starts_with_word (s : string) : bool :=
  match s with
  | String b _ => is_word b
  | EmptyString => false
  end.

(** [k] is a course code standing between [pre] and [post] with a word
    boundary on either side. *)
Definition code_at (prev : bool) (pre k post : string) : Prop :=
  code_shape k /\ ends_in_word prev pre = false /\ starts_with_word post = false.

(** The match of the pattern at the start of the text, as [find_code]
    computes it. *)
Definition here (prev_word : bool) (text : string) : option string :=
  if prev_word then None
  else match match_classes (is_cC :: code_tail) text with
       | Some m =>
           match substring 6 1 text with
           | String b _ => if is_word b then None else Some m
           | EmptyString => Some m
           end
       | None => None
       end.

Lemma find_code_cons (prev : bool) (a : ascii) (rest : string) :
  find_code prev (String a rest)
  = match here prev (String a rest) with
    | Some m => Some (upper m)
    | None => find_code (is_word a) rest
    end.
Proof. reflexivity. Qed.

Lemma code_shape_not_empty (pre k post : string) :
  code_shape k -> "" <> pre ++ k ++ post.
Proof.
  intros (a & d1 & d2 & d3 & d4 & d5 & -> & _). destruct pre; discriminate.
Qed.

Lemma code_pattern_shape (m : string) :
  match_classes (is_cC :: code_tail) m = Some m -> code_shape m.
Proof.
  unfold code_tail. intros H.
  destruct m as [|a [|d1 [|d2 [|d3 [|d4 [|d5 tail]]]]]]; cbn [match_classes] in H;
    repeat match type of H with
           | context [if ?b then _ else _] => destruct b eqn:?; cbn [option_map] in H
           end; try discriminate.
  injection H as <-.
  do 6 eexists. split; [reflexivity |]. auto 10.
Qed.

Lemma here_Some (prev : bool) (text m : string) :
  here prev text = Some m <->
  exists post, text = m ++ post /\ code_at prev "" m post.
Proof.
  unfold here, code_at. cbn [ends_in_word]. split.
  - destruct prev; [discriminate |].
    destruct (match_classes (is_cC :: code_tail) text) as [m'|] eqn:Hm; [| discriminate].
    destruct (CodeFacts.match_classes_prefix _ _ _ Hm) as (post & -> & Hm').
    apply code_pattern_shape in Hm'.
    destruct Hm' as (a & d1 & d2 & d3 & d4 & d5 & -> & Hs).
    cbn [append substring].
    destruct post as [|b post]; cbn [substring].
    + intros [= <-]. exists "". split; [reflexivity |].
      split; [| auto]. exists a, d1, d2, d3, d4, d5. auto.
    + destruct (is_word b) eqn:Hb; [discriminate |]. intros [= <-].
      exists (String b post). split; [reflexivity |].
      split; [| auto]. exists a, d1, d2, d3, d4, d5. auto.
  - intros (post & -> & (a & d1 & d2 & d3 & d4 & d5 & -> & Ha & H1 & H2 & H3 & H4 & H5)
            & -> & Hpost).
    unfold code_tail. cbn [append match_classes substring].
    rewrite Ha, H1, H2, H3, H4, H5. cbn [option_map].
    destruct post as [|b post]; cbn [substring]; [reflexivity |].
    cbn [starts_with_word] in Hpost. now rewrite Hpost.
Qed.

(** The first match of [re.findall]: the leftmost place where a code
    stands between word boundaries. *)
Lemma find_code_Some :
  forall text prev c,
  find_code prev text = Some c <->
  exists pre k post,
    text = pre ++ k ++ post /\ c = upper k /\ code_at prev pre k post
    /\ forall p1 p2 k' post',
         pre = p1 ++ p2 -> p2 <> "" -> p2 ++ k ++ post = k' ++ post' ->
         ~ code_at prev p1 k' post'.
Proof.
  induction text as [|a rest IH]; intros prev c.
  - cbn [find_code]. split; [discriminate |].
    intros (pre & k & post & E & _ & (Hk & _) & _).
    now apply code_shape_not_empty in E.
  - rewrite find_code_cons. split.
    + destruct (here prev (String a rest)) as [m|] eqn:Hh.
      * intros [= <-]. apply here_Some in Hh as (post & E & Hat).
        exists "", m, post. split; [exact E |]. split; [reflexivity |]. split; [exact Hat |].
        intros [|] [|] k' post' E'; simpl in E'; congruence.
      * intros H. apply IH in H as (pre & k & post & -> & -> & (Hk & Hpre & Hpost) & Hleft).
        exists (String a pre), k, post. split; [reflexivity |]. split; [reflexivity |].
        split; [split; [exact Hk |]; split; [exact Hpre | exact Hpost] |].
        intros [|b p1] p2 k' post' E Hne E' Hat.
        -- simpl in E. subst p2.
           assert (Hs : here prev (String a (pre ++ k ++ post)) = Some k').
           { apply here_Some. exists post'. split; [| exact Hat].
             rewrite <- E'. reflexivity. }
           congruence.
        -- simpl in E. injection E as <- ->.
           destruct Hat as (Hk' & Hpre' & Hpost').
           apply (Hleft p1 p2 k' post' eq_refl Hne E'). split; [exact Hk' |]. now split.
    + intros ([|b pre] & k & post & E & -> & (Hk & Hpre & Hpost) & Hleft).
      * simpl in E.
        assert (Hs : here prev (String a rest) = Some k).
        { apply here_Some. exists post. split; [exact E |]. split; [exact Hk |]. now split. }
        now rewrite Hs.
      * simpl in E. injection E as <- ->.
        destruct (here prev (String a (pre ++ k ++ post))) as [m|] eqn:Hh.
        -- apply here_Some in Hh as (post' & E' & Hat).
           elim (Hleft "" (String a pre) m post' eq_refl); [discriminate | exact E' | exact Hat].
        -- apply IH. exists pre, k, post. split; [reflexivity |]. split; [reflexivity |].
           split; [split; [exact Hk |]; split; [exact Hpre | exact Hpost] |].
           intros p1 p2 k' post' -> Hne E' (Hk' & Hpre' & Hpost').
           apply (Hleft (String a p1) p2 k' post' eq_refl Hne E').
           split; [exact Hk' |]. now split.
Qed.

Lemma find_code_None :
  forall text prev,
  find_code prev text = None <->
  forall pre k post, text = pre ++ k ++ post -> ~ code_at prev pre k post.
Proof.
  induction text as [|a rest IH]; intros prev.
  - cbn [find_code]. split; [| reflexivity].
    intros _ pre k post E (Hk & _). now apply code_shape_not_empty in E.
  - rewrite find_code_cons. split.
    + destruct (here prev (String a rest)) as [m|] eqn:Hh; [discriminate |].
      intros H [|b pre] k post E Hat.
      * simpl in E.
        assert (Hs : here prev (String a rest) = Some k)
          by (apply here_Some; exists post; split; [exact E | exact Hat]).
        congruence.
      * simpl in E. injection E as <- ->.
        destruct Hat as (Hk & Hpre & Hpost).
        apply (proj1 (IH _) H pre k post eq_refl). split; [exact Hk |]. now split.
    + intros H.
      destruct (here prev (String a rest)) as [m|] eqn:Hh.
      * apply here_Some in Hh as (post & E & Hat). elim (H "" m post E Hat).
      * apply IH. intros pre k post -> (Hk & Hpre & Hpost).
        apply (H (String a pre) k post eq_refl). split; [exact Hk |]. now split.
Qed.

(** X26. The course code read from a chat message is the first place, from
    the left, where the letter C or c and five digits stand with no word
    character (letter, digit or underscore) directly before or after; the
    result is that code with a capital C, so a well-formed course code.
    Nothing is found exactly when the message has no such place: a code
    glued to a word, or followed by a sixth digit, is not read. *)
Theorem message_code_extraction (text : string) :
  (forall c, extract_course_code_from_text text = Some c <->
     exists pre k post,
       text = pre ++ k ++ post /\ c = upper k /\ code_at false pre k post
       /\ forall p1 p2 k' post',
            pre = p1 ++ p2 -> p2 <> "" -> p2 ++ k ++ post = k' ++ post' ->
            ~ code_at false p1 k' post')
  /\ (extract_course_code_from_text text = None <->
      forall pre k post, text = pre ++ k ++ post -> ~ code_at false pre k post)
  /\ (forall c, extract_course_code_from_text text = Some c ->
      is_course_code c = true /\ upper c = c /\ substring 0 1 c = "C").
Proof.
  unfold extract_course_code_from_text.
  split; [intros c; apply find_code_Some |]. split; [apply find_code_None |].
  intros c H. apply find_code_Some in H as (pre & k & post & _ & -> & (Hk & _) & _).
  destruct (CodeFacts.code_shape_upper k Hk) as (_ & Hu & _ & Hc & Hf).
  split; [exact Hc |]. split; [exact Hu |].
  now apply CodeFacts.filename_pattern_shape in Hf.
Qed.

Lemma message_code_extraction_witness :
  extract_course_code_from_text "Is c10302 open? Or C04379?" = Some "C10302"
  /\ extract_course_code_from_text "See abc10302, C103021 and C10302_b." = None.
Proof.
  split.
  - apply (proj1 (message_code_extraction "Is c10302 open? Or C04379?")).
    exists "Is ", "c10302", " open? Or C04379?".
    split; [reflexivity |]. split; [reflexivity |].
    split.
    + split; [| split; reflexivity].
      exists "c"%char, "1"%char, "0"%char, "3"%char, "0"%char, "2"%char. repeat split.
    + intros p1 p2 k' post' E Hne E' ((a & d1 & d2 & d3 & d4 & d5 & -> & Ha & H1 & _) & _).
      destruct p1 as [|x1 [|x2 [|x3 [|x4 p1]]]]; simpl in E.
      * subst p2. injection E' as <- <- _. discriminate.
      * injection E as _ <-. injection E' as <- <- _. discriminate.
      * injection E as _ _ <-. injection E' as <- _. discriminate.
      * injection E as _ _ _ <-. now elim Hne.
      * injection E as _ _ _ E. destruct p1; discriminate.
  - reflexivity.
Defined.

(** ** The reply of the chat endpoint *)

Definition blank_text (s : string) : Prop := strip s = "".

Lemma or_rephrase_not_blank (response_text : string) : ~ blank_text (or_rephrase response_text).
Proof.
  unfold blank_text, or_rephrase.
  destruct (is_empty response_text || is_empty (strip response_text)) eqn:E.
  - discriminate.
  - apply orb_false_iff in E as [_ E]. intros H. now rewrite H in E.
Qed.

Lemma checked_response_not_blank (v : Json.value) (text : string) :
  checked_response v = Ok text -> ~ blank_text text.
Proof.
  destruct v; cbn [checked_response];
    try (destruct (Json.truthy _); [discriminate |]; intros [= <-]; discriminate).
  intros [= <-]. apply or_rephrase_not_blank.
Qed.

(** The reply that the endpoint makes once the course code is known. *)
Lemma answer_query_shape (w : services) (query : string) (code name : option string)
    (concise : bool) (pre : option bool) :
  let run := answer_query w query code name concise pre in
  exists r,
    fst run = Responded r
    /\ ~ blank_text (response r)
    /\ (success r = true <-> error r = None)
    /\ (success r = false -> response r = APOLOGY)
    /\ (snd run = [CallQueryCourses] /\ pre <> Some true
        \/ snd run = [CallFullPipeline] /\ pre = Some true
        \/ snd run = [CallFullPipeline; CallQueryCourses] /\ pre = Some true).
Proof.
  assert (Hreply : forall (outcome : result Json.value) (calls : list call),
            let run := match (response_text <- outcome ;; checked_response response_text) with
                       | Ok response_text =>
                           (Responded (mkResponse response_text true None), calls)
                       | Raise e =>
                           (Responded (mkResponse APOLOGY false (Some (exn_str e))), calls)
                       end in
            snd run = calls
            /\ exists r, fst run = Responded r
                 /\ ~ blank_text (response r)
                 /\ (success r = true <-> error r = None)
                 /\ (success r = false -> response r = APOLOGY)).
  { intros outcome calls.
    destruct outcome as [v|e]; cbn [bind].
    - destruct (checked_response v) as [text|e] eqn:Hv; cbn [fst snd].
      + split; [reflexivity |]. eexists. split; [reflexivity |].
        cbn [response success error].
        split; [exact (checked_response_not_blank v text Hv) |].
        split; [tauto | discriminate].
      + split; [reflexivity |]. eexists. split; [reflexivity |].
        cbn [response success error].
        split; [discriminate |]. split; [split; discriminate | reflexivity].
    - cbn [fst snd]. split; [reflexivity |]. eexists. split; [reflexivity |].
      cbn [response success error].
      split; [discriminate |]. split; [split; discriminate | reflexivity]. }
  unfold answer_query.
  destruct pre as [[|]|].
  - destruct (query_with_full_pipeline w query code name concise) as [t|e];
      cbv beta iota zeta;
      match goal with
      | |- context [match (response_text <- ?o ;; _) with Ok _ => (_, ?c) | Raise _ => _ end] =>
          destruct (Hreply o c) as (Hc & r & Hr & H1 & H2 & H3)
      end;
      exists r; rewrite Hc; (split; [exact Hr |]); (split; [exact H1 |]);
      (split; [exact H2 |]); (split; [exact H3 |]); right; [left | right]; auto.
  - cbv beta iota zeta.
    match goal with
    | |- context [match (response_text <- ?o ;; _) with Ok _ => (_, ?c) | Raise _ => _ end] =>
        destruct (Hreply o c) as (Hc & r & Hr & H1 & H2 & H3)
    end.
    exists r. rewrite Hc. split; [exact Hr |]. split; [exact H1 |].
    split; [exact H2 |]. split; [exact H3 |]. left. split; [reflexivity | discriminate].
  - cbv beta iota zeta.
    match goal with
    | |- context [match (response_text <- ?o ;; _) with Ok _ => (_, ?c) | Raise _ => _ end] =>
        destruct (Hreply o c) as (Hc & r & Hr & H1 & H2 & H3)
    end.
    exists r. rewrite Hc. split; [exact Hr |]. split; [exact H1 |].
    split; [exact H2 |]. split; [exact H3 |]. left. split; [reflexivity | discriminate].
Qed.

(** ** The history *)

(** [msg.get("type") == "user"] *)
Definition from_user (msg : Json.dict) : bool :=
  Json.eq_str (Json.get msg "type" Json.VNone) "user".

(** [msg.get("text", "")] *)
Definition text_value (msg : Json.dict) : Json.value :=
  Json.get msg "text" (Json.VStr "").

(** A message that does not stop the loop: it is not of the user, or its
    text is a string without a course code. *)
Definition passed_over (msg : Json.dict) : Prop :=
  from_user msg = true ->
  exists text, text_value msg = Json.VStr text /\ extract_course_code_from_text text = None.

Lemma code_from_history_cons (msg : Json.dict) (h : list Json.dict) :
  ChatEndpoint.code_from_history (msg :: h)
  = if from_user msg then
      match text_value msg with
      | Json.VStr text =>
          match extract_course_code_from_text text with
          | Some c => Ok (Some c)
          | None => ChatEndpoint.code_from_history h
          end
      | v => Raise (TypeError ("expected string or bytes-like object, got '"
                               ++ Json.type_name v ++ "'"))
      end
    else ChatEndpoint.code_from_history h.
Proof. reflexivity. Qed.

(** The loop raises exactly when it reaches a user message whose text is no
    string, and then a [TypeError]. *)
Lemma code_from_history_raises (h : list Json.dict) (e : exn) :
  ChatEndpoint.code_from_history h = Raise e ->
  (exists msg, e = TypeError msg)
  /\ exists before m after,
       h = (before ++ m :: after)%list
       /\ Forall passed_over before
       /\ from_user m = true
       /\ forall text, text_value m <> Json.VStr text.
Proof.
  induction h as [|msg h IH]; [discriminate |].
  rewrite code_from_history_cons.
  destruct (from_user msg) eqn:Hu.
  - destruct (text_value msg) as [| b | z | text | l | d] eqn:Ht;
      try (intros [= <-]; split; [eauto |]; exists [], msg, h;
           split; [reflexivity |]; split; [constructor |]; split; [exact Hu |];
           rewrite Ht; discriminate).
    destruct (extract_course_code_from_text text) as [c|] eqn:Hc; [discriminate |].
    intros H. destruct (IH H) as (Hty & before & m & after & -> & Hb & Hm & Hn).
    split; [exact Hty |]. exists (msg :: before), m, after.
    split; [reflexivity |]. split; [| auto].
    constructor; [| exact Hb]. intros _. eauto.
  - intros H. destruct (IH H) as (Hty & before & m & after & -> & Hb & Hm & Hn).
    split; [exact Hty |]. exists (msg :: before), m, after.
    split; [reflexivity |]. split; [| auto].
    constructor; [| exact Hb]. intros Hu'. congruence.
Qed.

Lemma code_from_history_reaches (before : list Json.dict) (m : Json.dict)
    (after : list Json.dict) :
  Forall passed_over before ->
  from_user m = true ->
  (forall text, text_value m <> Json.VStr text) ->
  exists msg, ChatEndpoint.code_from_history (before ++ m :: after) = Raise (TypeError msg).
Proof.
  intros Hb Hm Hn. induction Hb as [|msg before Hmsg Hb IH]; cbn [app];
    rewrite code_from_history_cons.
  - rewrite Hm. destruct (text_value m) as [| b | z | text | l | d] eqn:Ht; eauto.
    elim (Hn text). reflexivity.
  - destruct (from_user msg) eqn:Hu; [| exact IH].
    destruct (Hmsg Hu) as (text & -> & ->). exact IH.
Qed.

(** ** The requests of [Rag.chat] among those of the endpoint *)

Definition message_dict (m : history_message) : Json.dict :=
  ((match msg_type m with Some t => [("type", Json.VStr t)] | None => [] end)
   ++ (match msg_text m with Some t => [("text", Json.VStr t)] | None => [] end))%list.

Definition as_sent (request : ChatRequest) : ChatEndpoint.ChatRequest :=
  {| ChatEndpoint.message := message request;
     ChatEndpoint.course_code := course_code request;
     ChatEndpoint.course_name := course_name request;
     ChatEndpoint.history := option_map (map message_dict) (history request);
     ChatEndpoint.concise := concise request;
     ChatEndpoint.use_preprocessing := use_preprocessing request |}.

Lemma match_user {A : Type} (t : string) (a b : A) :
  match t with
  | "user" => a
  | _ => b
  end = if (t =? "user")%string then a else b.
Proof.
  destruct t as [|c1 t]; [reflexivity |].
  destruct c1 as [[] [] [] [] [] [] [] []]; try reflexivity.
  destruct t as [|c2 t]; [reflexivity |].
  destruct c2 as [[] [] [] [] [] [] [] []]; try reflexivity.
  destruct t as [|c3 t]; [reflexivity |].
  destruct c3 as [[] [] [] [] [] [] [] []]; try reflexivity.
  destruct t as [|c4 t]; [reflexivity |].
  destruct c4 as [[] [] [] [] [] [] [] []]; try reflexivity.
  destruct t; reflexivity.
Qed.

Lemma code_from_typed_history (h : list history_message) :
  ChatEndpoint.code_from_history (map message_dict h) = Ok (code_from_history h).
Proof.
  induction h as [|m h IH]; [reflexivity |].
  cbn [map]. rewrite code_from_history_cons. cbn [code_from_history].
  assert (Hu : from_user (message_dict m)
               = match msg_type m with Some t => (t =? "user")%string | None => false end).
  { unfold from_user, message_dict.
    destruct (msg_type m) as [t|], (msg_text m) as [x|]; reflexivity. }
  assert (Ht : text_value (message_dict m)
               = Json.VStr (match msg_text m with Some t => t | None => "" end)).
  { unfold text_value, message_dict.
    destruct (msg_type m) as [t|], (msg_text m) as [x|]; reflexivity. }
  rewrite Hu, Ht.
  destruct (msg_type m) as [t|]; [| exact IH].
  rewrite match_user.
  destruct (t =? "user")%string; [| exact IH].
  destruct (extract_course_code_from_text _); [reflexivity | exact IH].
Qed.

(** On a history whose types and texts are strings the endpoint is
    [Rag.chat]. *)
Lemma chat_on_typed_history (w : services) (request : ChatRequest) :
  ChatEndpoint.chat w (as_sent request) = chat w request.
Proof.
  unfold ChatEndpoint.chat, chat, ChatEndpoint.final_course_code, final_course_code,
    ChatEndpoint.concise_flag, concise_flag.
  cbn [as_sent ChatEndpoint.message ChatEndpoint.course_code ChatEndpoint.course_name
       ChatEndpoint.history ChatEndpoint.concise ChatEndpoint.use_preprocessing].
  destruct (is_empty (strip (message request))); [reflexivity |].
  destruct (truthy_str (course_code request)); [reflexivity |].
  destruct (extract_course_code_from_text (strip (message request))); [reflexivity |].
  destruct (history request) as [h|]; cbn [option_map]; [| reflexivity].
  now rewrite code_from_typed_history.
Qed.

(** X27. The reply of the chat endpoint, for a history of arbitrary JSON
    objects and a generation service that may answer with any content.  A
    message that is empty or white space only is refused with status 400
    before any pipeline is called, and nothing else is refused.  Every
    other request gets a response whose text is not blank; it reports
    success exactly when it carries no error message, and a failure always
    carries the fixed apology.  No pipeline is called exactly when reading
    the history raises: the request names no course code, the message holds
    none, and the loop over the history reaches a user message whose text
    is no string before one with a course code; the exception is a
    [TypeError] and the reply is the apology.  Otherwise one or two calls
    are made: the primary pipeline only when preprocessing is switched on,
    and then first. *)
Theorem chat_reply_shape (w : services) (request : ChatEndpoint.ChatRequest) :
  let run := ChatEndpoint.chat w request in
  let query := strip (ChatEndpoint.message request) in
  let pre := ChatEndpoint.use_preprocessing request in
  (fst run = HTTPException 400 "Message cannot be empty" <-> query = "")
  /\ (query = "" -> snd run = [])
  /\ (query <> "" ->
      exists r, fst run = Responded r
        /\ ~ blank_text (response r)
        /\ (success r = true <-> error r = None)
        /\ (success r = false -> response r = APOLOGY)
        /\ ((exists e, ChatEndpoint.final_course_code request query = Raise e
                       /\ snd run = []
                       /\ success r = false /\ error r = Some (exn_str e))
            \/ (exists code, ChatEndpoint.final_course_code request query = Ok code)
               /\ (snd run = [CallQueryCourses] /\ pre <> Some true
                   \/ snd run = [CallFullPipeline] /\ pre = Some true
                   \/ snd run = [CallFullPipeline; CallQueryCourses] /\ pre = Some true)))
  /\ ((exists e, ChatEndpoint.final_course_code request query = Raise e) <->
      truthy_str (ChatEndpoint.course_code request) = false
      /\ extract_course_code_from_text query = None
      /\ exists before m after,
           ChatEndpoint.history request = Some (before ++ m :: after)%list
           /\ Forall passed_over before
           /\ from_user m = true
           /\ forall text, text_value m <> Json.VStr text)
  /\ (forall e, ChatEndpoint.final_course_code request query = Raise e ->
        exists msg, e = TypeError msg).
Proof.
  cbv zeta.
  assert (Hscan : (exists e, ChatEndpoint.final_course_code request
                               (strip (ChatEndpoint.message request)) = Raise e) <->
                  truthy_str (ChatEndpoint.course_code request) = false
                  /\ extract_course_code_from_text (strip (ChatEndpoint.message request)) = None
                  /\ exists before m after,
                       ChatEndpoint.history request = Some (before ++ m :: after)%list
                       /\ Forall passed_over before
                       /\ from_user m = true
                       /\ forall text, text_value m <> Json.VStr text).
  { unfold ChatEndpoint.final_course_code.
    destruct (truthy_str (ChatEndpoint.course_code request)).
    { split; [intros [e H]; discriminate | intros [H _]; discriminate]. }
    destruct (extract_course_code_from_text (strip (ChatEndpoint.message request))).
    { split; [intros [e H]; discriminate | intros (_ & H & _); discriminate]. }
    destruct (ChatEndpoint.history request) as [h|].
    - split.
      + intros [e H]. apply code_from_history_raises in H
          as (_ & before & m & after & -> & Hb & Hm & Hn).
        split; [reflexivity |]. split; [reflexivity |]. exists before, m, after. auto.
      + intros (_ & _ & before & m & after & [= ->] & Hb & Hm & Hn).
        destruct (code_from_history_reaches before m after Hb Hm Hn) as [msg H]. eauto.
    - split; [intros [e H]; discriminate |].
      intros (_ & _ & before & m & after & H & _). discriminate. }
  assert (Htype : forall e, ChatEndpoint.final_course_code request
                              (strip (ChatEndpoint.message request)) = Raise e ->
                            exists msg, e = TypeError msg).
  { unfold ChatEndpoint.final_course_code. intros e.
    destruct (truthy_str (ChatEndpoint.course_code request)); [discriminate |].
    destruct (extract_course_code_from_text _); [discriminate |].
    destruct (ChatEndpoint.history request) as [h|]; [| discriminate].
    intros H. now apply code_from_history_raises in H. }
  split; [| split; [| split; [| split; [exact Hscan | exact Htype]]]];
    unfold ChatEndpoint.chat;
    destruct (strip (ChatEndpoint.message request)) as [|c0 q0] eqn:Hq; cbn [is_empty fst snd];
    try tauto; try reflexivity; try congruence.
  - split; [| discriminate].
    destruct (ChatEndpoint.final_course_code request (String c0 q0)) as [code|e].
    + destruct (answer_query_shape w (String c0 q0) code (ChatEndpoint.course_name request)
                  (ChatEndpoint.concise_flag request)
                  (ChatEndpoint.use_preprocessing request)) as (r & Hr & _).
      rewrite Hr. discriminate.
    + discriminate.
  - intros _.
    destruct (ChatEndpoint.final_course_code request (String c0 q0)) as [code|e].
    + destruct (answer_query_shape w (String c0 q0) code (ChatEndpoint.course_name request)
                  (ChatEndpoint.concise_flag request)
                  (ChatEndpoint.use_preprocessing request)) as (r & Hr & H1 & H2 & H3 & H4).
      exists r. split; [exact Hr |]. split; [exact H1 |]. split; [exact H2 |].
      split; [exact H3 |]. right. split; [eauto | exact H4].
    + eexists. split; [reflexivity |]. cbn [response success error].
      split; [discriminate |]. split; [split; discriminate |].
      split; [reflexivity |]. left. exists e. auto.
Qed.

(** A user message of the history has a null text. *)
Definition null_text_request : ChatEndpoint.ChatRequest :=
  {| ChatEndpoint.message := "How long is the course?";
     ChatEndpoint.course_code := None;
     ChatEndpoint.course_name := None;
     ChatEndpoint.history :=
       Some [ [("type", Json.VStr "bot"); ("text", Json.VNone)];
              [("type", Json.VStr "user"); ("text", Json.VNone)];
              [("type", Json.VStr "user"); ("text", Json.VStr "About C10302.")] ];
     ChatEndpoint.concise := None;
     ChatEndpoint.use_preprocessing := Some true |}.

Lemma chat_reply_shape_witness :
  (exists e, ChatEndpoint.final_course_code null_text_request "How long is the course?"
             = Raise e)
  /\ ChatEndpoint.chat RagFacts.search_down null_text_request
     = (Responded (mkResponse APOLOGY false
                     (Some "expected string or bytes-like object, got 'NoneType'")),
        []).
Proof.
  split; [| reflexivity].
  apply (proj2 (proj1 (proj2 (proj2 (proj2
           (chat_reply_shape RagFacts.search_down null_text_request)))))).
  split; [reflexivity |]. split; [reflexivity |].
  exists [[("type", Json.VStr "bot"); ("text", Json.VNone)]],
    [("type", Json.VStr "user"); ("text", Json.VNone)],
    [[("type", Json.VStr "user"); ("text", Json.VStr "About C10302.")]].
  split; [reflexivity |]. split; [| split; [reflexivity | discriminate]].
  constructor; [| constructor]. intros H. discriminate.
Defined.

(** ** The course filter of the search *)

(** X28. The course filter of the vector search against the codes stored
    at ingestion.  A request code that equals, letter case apart, the code
    the ingestion resolved for a course file gives a filter whose first
    condition asks for exactly the stored code; a code read from the chat
    message is passed to the filter as it is.  The search is unfiltered
    exactly when neither a code nor a name is given, the empty string
    counting as none. *)
Theorem course_filter_matches_stored_codes (course_data : Json.dict)
    (filename stored : string) :
  get_course_code course_data filename = Ok stored ->
  forall name : option string,
    (forall request_code,
       request_code <> "" -> upper request_code = upper stored ->
       conditions (Some request_code) name
       = MatchValue "course_code" stored :: conditions None name
       /\ query_filter (Some request_code) name <> None)
    /\ (forall text c,
          extract_course_code_from_text text = Some c ->
          conditions (Some c) name = MatchValue "course_code" c :: conditions None name)
    /\ (forall code,
          query_filter code name = None <-> truthy_str code = false /\ truthy_str name = false).
Proof.
  intros Hstored name.
  assert (Hup : upper stored = stored).
  { destruct (CodeFacts.get_course_code_cases _ _ _ Hstored)
      as [(k & Hk & ->) | (raw & _ & -> & _)]; apply CodeFacts.upper_idem. }
  split; [| split].
  - intros r Hr Hcase. unfold query_filter, conditions.
    destruct r as [|a r]; [congruence |]. cbn [is_empty app].
    rewrite Hcase, Hup. split; [reflexivity | discriminate].
  - intros text c H. unfold extract_course_code_from_text in H.
    apply find_code_Some in H as (pre & k & post & _ & -> & (Hk & _) & _).
    destruct (CodeFacts.code_shape_upper k Hk) as ((a & d1 & d2 & d3 & d4 & d5 & E & _) & Hu & _).
    unfold conditions. rewrite Hu. rewrite E at 1. reflexivity.
  - intros code. unfold query_filter, conditions, truthy_str.
    destruct code as [[|a c]|], name as [[|b n]|]; cbn [is_empty app negb];
      split; try discriminate; try tauto; intros [H1 H2]; discriminate.
Qed.

Lemma course_filter_matches_stored_codes_witness :
  conditions (Some "c10302") (Some "Sport")
  = MatchValue "course_code" "C10302" :: conditions None (Some "Sport")
  /\ query_filter (Some "c10302") (Some "Sport") <> None.
Proof.
  apply (proj1 (course_filter_matches_stored_codes CodeFacts.url_record
                  "Bachelor_of_Sport.json" "C10302" eq_refl (Some "Sport"))).
  - discriminate.
  - reflexivity.
Defined.

End EndpointFacts.

(* ====================================================================== *)
(** * The list of courses *)
(* ====================================================================== *)

Module CoursesFacts.
Import PyStr Rag Courses.

(** The order of the codes in the list. *)
Definition code_lt (a b : course) : Prop := String.compare (fst a) (fst b) = Lt.

Lemma ascii_compare_trans (a b c : ascii) :
  Ascii.compare a b = Lt -> Ascii.compare b c = Lt -> Ascii.compare a c = Lt.
Proof.
  unfold Ascii.compare. rewrite !N.compare_lt_iff. apply N.lt_trans.
Qed.

Lemma string_compare_trans :
  forall x y z : string,
  String.compare x y = Lt -> String.compare y z = Lt -> String.compare x z = Lt.
Proof.
  induction x as [|a x IH]; intros [|b y] [|c z]; cbn [String.compare]; try discriminate; auto.
  destruct (Ascii.compare a b) eqn:Hab; try discriminate.
  - apply Ascii.compare_eq_iff in Hab. subst b.
    destruct (Ascii.compare a c); try discriminate; auto. apply IH.
  - intros _. destruct (Ascii.compare b c) eqn:Hbc; try discriminate.
    + apply Ascii.compare_eq_iff in Hbc. subst c. now rewrite Hab.
    + now rewrite (ascii_compare_trans a b c Hab Hbc).
Qed.

Lemma has_code_In (code : string) (courses_dict : list course) :
  has_code code courses_dict = true <-> In code (map fst courses_dict).
Proof.
  unfold has_code. rewrite existsb_exists, in_map_iff. split.
  - intros (kv & Hin & E). apply String.eqb_eq in E. eauto.
  - intros (kv & E & Hin). exists kv. split; [exact Hin |]. now apply String.eqb_eq.
Qed.

(** ** Collecting *)

Definition code_of (point : option payload) : option string :=
  match point with Some p => p_course_code p | None => None end.

(** [course_name or ""] *)
Definition name_of (point : option payload) : string :=
  match point with
  | Some p => match p_course_name p with Some n => n | None => "" end
  | None => ""
  end.

(** The first point with the code [code] has the name [name]. *)
Definition first_named (points : list (option payload)) (code name : string) : Prop :=
  exists before point after,
    points = (before ++ point :: after)%list
    /\ code_of point = Some code
    /\ name_of point = name
    /\ forall q, In q before -> code_of q <> Some code.

Lemma first_named_nil (code name : string) : ~ first_named [] code name.
Proof. intros ([|] & p & after & E & _); discriminate. Qed.

Lemma first_named_here (point : option payload) (rest : list (option payload))
    (code name : string) :
  code_of point = Some code ->
  (first_named (point :: rest) code name <-> name_of point = name).
Proof.
  intros Hc. split.
  - intros ([|q before] & p & after & E & Hp & Hn & Hb).
    + simpl in E. now injection E as <- _.
    + simpl in E. injection E as <- _. elim (Hb point); [now left | exact Hc].
  - intros Hn. exists [], point, rest. split; [reflexivity |]. split; [exact Hc |].
    split; [exact Hn |]. intros q [].
Qed.

Lemma first_named_later (point : option payload) (rest : list (option payload))
    (code name : string) :
  code_of point <> Some code ->
  (first_named (point :: rest) code name <-> first_named rest code name).
Proof.
  intros Hc. split.
  - intros ([|q before] & p & after & E & Hp & Hn & Hb).
    + simpl in E. injection E as <- _. contradiction.
    + simpl in E. injection E as <- ->. exists before, p, after.
      split; [reflexivity |]. split; [exact Hp |]. split; [exact Hn |].
      intros q Hq. apply Hb. now right.
  - intros (before & p & after & -> & Hp & Hn & Hb).
    exists (point :: before), p, after.
    split; [reflexivity |]. split; [exact Hp |]. split; [exact Hn |].
    intros q [<- | Hq]; [exact Hc | now apply Hb].
Qed.

Lemma collect_cons (point : option payload) (rest : list (option payload))
    (courses_dict : list course) :
  collect (point :: rest) courses_dict
  = match code_of point with
    | Some course_code =>
        if negb (is_empty course_code) && negb (has_code course_code courses_dict)
        then collect rest (courses_dict ++ [(course_code, name_of point)])
        else collect rest courses_dict
    | None => collect rest courses_dict
    end.
Proof. destruct point as [p|]; reflexivity. Qed.

Lemma collect_spec :
  forall points courses_dict,
  NoDup (map fst courses_dict) ->
  NoDup (map fst (collect points courses_dict))
  /\ forall code name,
       In (code, name) (collect points courses_dict) <->
       In (code, name) courses_dict
       \/ (~ In code (map fst courses_dict) /\ code <> "" /\ first_named points code name).
Proof.
  induction points as [|point rest IH]; intros acc Hnd.
  - cbn [collect]. split; [exact Hnd |]. intros code name. split; [tauto |].
    intros [H | (_ & _ & H)]; [exact H | now apply first_named_nil in H].
  - rewrite collect_cons.
    destruct (code_of point) as [c|] eqn:Hc.
    + destruct (negb (is_empty c) && negb (has_code c acc)) eqn:Hnew.
      * apply andb_true_iff in Hnew as [Hne Hfresh].
        assert (Hc0 : c <> "") by (intros ->; discriminate).
        assert (Hnot : ~ In c (map fst acc)).
        { rewrite <- has_code_In. now destruct (has_code c acc). }
        assert (Hnd' : NoDup (map fst (acc ++ [(c, name_of point)]))).
        { rewrite map_app. cbn [map fst].
          apply NoDup_app; [exact Hnd | repeat constructor; intros [] |].
          intros x Hx [<- | []]. contradiction. }
        destruct (IH _ Hnd') as [Hres Hin]. split; [exact Hres |].
        intros code name. rewrite Hin, in_app_iff, map_app, in_app_iff. cbn [map fst In].
        destruct (string_dec c code) as [<- | Hdiff].
        -- rewrite (first_named_here point rest c name Hc). split.
           ++ intros [[H | [[= <-] | []]] | (H & _)]; [tauto | tauto | tauto].
           ++ intros [H | (_ & _ & <-)]; [tauto |]. left. right. now left.
        -- assert (Hc' : code_of point <> Some code) by congruence.
           rewrite (first_named_later point rest code name Hc'). split.
           ++ intros [[H | [[= E _] | []]] | (H & H0 & H1)]; [tauto | contradiction |].
              right. tauto.
           ++ intros [H | (H & H0 & H1)]; [tauto |]. right.
              split; [| tauto]. intros [H2 | [H2 | []]]; [contradiction | contradiction].
      * destruct (IH _ Hnd) as [Hres Hin]. split; [exact Hres |].
        intros code name. rewrite Hin.
        assert (Hskip : ~ In code (map fst acc) -> code <> "" -> code_of point <> Some code).
        { intros H H0 E. rewrite Hc in E. injection E as ->.
          apply andb_false_iff in Hnew as [Hn | Hn].
          - destruct code; [congruence | discriminate].
          - apply negb_false_iff, has_code_In in Hn. contradiction. }
        split.
        -- intros [H | (H & H0 & H1)]; [tauto |]. right.
           split; [exact H |]. split; [exact H0 |].
           now apply first_named_later; [apply Hskip |].
        -- intros [H | (H & H0 & H1)]; [tauto |]. right.
           split; [exact H |]. split; [exact H0 |].
           now apply first_named_later in H1; [| apply Hskip].
    + destruct (IH _ Hnd) as [Hres Hin]. split; [exact Hres |].
      intros code name. rewrite Hin.
      assert (Hskip : code_of point <> Some code) by congruence.
      now rewrite (first_named_later point rest code name Hskip).
Qed.

(** ** Sorting *)

Lemma insert_course_perm (c : course) (l : list course) :
  Permutation (c :: l) (insert_course c l).
Proof.
  induction l as [|x l IH]; cbn [insert_course]; [apply Permutation_refl |].
  destruct (course_leb c x); [apply Permutation_refl |].
  eapply perm_trans; [apply perm_swap |]. now apply perm_skip.
Qed.

Lemma sorted_items_perm (l : list course) : Permutation l (sorted_items l).
Proof.
  induction l as [|c l IH]; cbn [sorted_items fold_right]; [constructor |].
  eapply perm_trans; [apply perm_skip, IH |]. apply insert_course_perm.
Qed.

Lemma insert_course_sorted (c : course) (l : list course) :
  ~ In (fst c) (map fst l) ->
  StronglySorted code_lt l -> StronglySorted code_lt (insert_course c l).
Proof.
  intros Hnot Hs. induction Hs as [|x l Hl IH Hx]; cbn [insert_course].
  - constructor; constructor.
  - cbn [map In] in Hnot.
    assert (Hne : fst x <> fst c) by tauto.
    assert (Hnot' : ~ In (fst c) (map fst l)) by tauto.
    unfold course_leb.
    destruct (String.compare (fst c) (fst x)) eqn:E.
    + apply String.compare_eq_iff in E. congruence.
    + constructor; [now constructor |]. constructor; [exact E |].
      eapply Forall_impl; [| exact Hx]. intros b Hb. unfold code_lt in *.
      now apply (string_compare_trans _ (fst x)).
    + constructor; [now apply IH |].
      eapply Permutation_Forall; [apply insert_course_perm |].
      constructor; [| exact Hx]. unfold code_lt.
      rewrite String.compare_antisym, E. reflexivity.
Qed.

Lemma sorted_items_sorted (l : list course) :
  NoDup (map fst l) -> StronglySorted code_lt (sorted_items l).
Proof.
  induction l as [|c l IH]; cbn [sorted_items fold_right map]; [constructor |].
  intros Hnd. inversion Hnd as [|? ? Hnot Hnd']; subst.
  apply insert_course_sorted; [| now apply IH].
  intros Hin. apply Hnot.
  eapply Permutation_in; [| exact Hin].
  apply Permutation_map, Permutation_sym, sorted_items_perm.
Qed.

(** X29. The list of courses of the endpoint [/api/chatbot/courses/].
    The reply reports success exactly when the collection exists and the
    scroll returns; otherwise the list is empty and the error tells why.
    On success the list holds one entry for each non-empty course code found
    in the payloads of the scrolled points, with the name of the first point
    that carries the code (the empty string if that point has no name); the
    entries come in strictly increasing order of code, so no code is listed
    twice. *)
Theorem course_list_is_sorted_and_unique (collection : string)
    (collection_exists : result bool) (scroll : nat -> result (list (option payload))) :
  let reply := get_courses collection collection_exists scroll in
  (success reply = true <->
   collection_exists = Ok true /\ exists points, scroll 1000 = Ok points)
  /\ (success reply = true <-> error reply = None)
  /\ (success reply = false -> courses reply = [])
  /\ (collection_exists = Ok false ->
      error reply = Some ("Collection '" ++ collection ++ "' not found"))
  /\ (forall points,
      collection_exists = Ok true -> scroll 1000 = Ok points ->
      (forall code name,
         In (code, name) (courses reply) <-> code <> "" /\ first_named points code name)
      /\ StronglySorted code_lt (courses reply)).
Proof.
  cbv zeta. unfold get_courses.
  destruct collection_exists as [[|]|e].
  - destruct (scroll 1000) as [points|e]; cbn [courses success error failure].
    + split; [split; eauto |]. split; [tauto |]. split; [discriminate |].
      split; [discriminate |].
      intros points' _ [= <-].
      destruct (collect_spec points [] (NoDup_nil _)) as [Hnd Hin]. split.
      * intros code name. split.
        -- intros H. eapply Permutation_in in H; [| apply Permutation_sym, sorted_items_perm].
           apply Hin in H as [[] | (_ & H)]. exact H.
        -- intros H. eapply Permutation_in; [apply sorted_items_perm |].
           apply Hin. right. split; [intros [] | exact H].
      * now apply sorted_items_sorted.
    + split; [split; [discriminate | intros [_ [p H]]; discriminate] |].
      split; [split; discriminate |]. split; [reflexivity |].
      split; [discriminate |]. discriminate.
  - cbn [courses success error failure].
    split; [split; [discriminate | intros [H _]; discriminate] |].
    split; [split; discriminate |]. split; [reflexivity |].
    split; [reflexivity |]. discriminate.
  - cbn [courses success error failure].
    split; [split; [discriminate | intros [H _]; discriminate] |].
    split; [split; discriminate |]. split; [reflexivity |].
    split; [discriminate |]. discriminate.
Qed.

Definition point_of (code name : option string) : option payload :=
  Some {| p_text := None; p_course_code := code; p_course_name := name;
          p_chunk_label := None; p_source_url := None |}.

Definition scrolled : list (option payload) :=
  [ point_of (Some "C10302") (Some "Bachelor of Sport");
    None;
    point_of (Some "C04379") None;
    point_of (Some "") (Some "No code");
    point_of (Some "C10302") (Some "Another name") ].

Lemma course_list_is_sorted_and_unique_witness :
  courses (get_courses "courses" (Ok true) (fun _ => Ok scrolled))
  = [("C04379", ""); ("C10302", "Bachelor of Sport")]
  /\ StronglySorted code_lt (courses (get_courses "courses" (Ok true) (fun _ => Ok scrolled))).
Proof.
  split; [reflexivity |].
  apply (proj2 (proj2 (proj2 (proj2
           (course_list_is_sorted_and_unique "courses" (Ok true) (fun _ => Ok scrolled)))))
           scrolled eq_refl eq_refl).
Defined.

End CoursesFacts.
